(** * A shallow embedding of the TFTP client and server

    The development follows the layout of the C sources:
    - [common/common.h], [common/common.c]: constants, packet senders,
      [check_ack], [get_response], [validate_and_retry] and the two loop
      bodies [process_transfer_send] and [process_transfer_receive];
    - [client/prog.c], [client/client.c], [client/tftp_client.c]: module
      [Client];
    - [server/prog.c], [server/tftp_server.c]: module [Server].

    C [int], [ssize_t] and [size_t] values are integers of [Z]; the counters
    of the engine stay far inside the range of [int], so no wrap-around of
    [int] is involved: a block number is only incremented after [check_ack]
    has accepted it, which bounds it by 65535 ([check_ack_range]), and the
    retry counter never exceeds 3.  An
    [unsigned char] is a [Z] in [0, 256); storing an [int] into the packet
    buffer truncates it with [to_uchar].  The 516-byte [request->buffer] is a
    [list Z] updated in place.  The text of the console output ([printf],
    [fprintf], [print_buffer]) is not modelled.  [print_error] is modelled, at
    each of its calls, for what it reads: its [%s] reads the packet buffer up
    to the next NUL, and a function that calls it has no result when that
    read leaves the buffer, which [get_response] and [write_to_file] can
    bring about.

    Everything the C code reads from its environment is a field of [State]:
    the datagrams [recvfrom] will deliver, the outcomes of [sendto], the free
    room on the disk and the directory of existing files.  Every effect on
    the environment is appended to [trace] in program order. *)

From Stdlib Require Import ZArith Lia String Ascii.
From stdpp Require Import base option list gmap.

Local Open Scope Z_scope.

(** ** common.h: configuration *)

Definition TFTP_MAX_RETRIES : Z := 3.
Definition MAX_FILE_NAME : Z := 256.
Definition TFTP_TIMEOUT : Z := 5.

Definition TFTP_OPCODE_SIZE : Z := 2.
Definition TFTP_ERROR_CODE_SIZE : Z := 2.
Definition TFTP_MIN_ERROR_PACKET : Z := TFTP_OPCODE_SIZE + TFTP_ERROR_CODE_SIZE + 1.
Definition TFTP_BLOCK_NUMBER_SIZE : Z := 2.
Definition TFTP_DATA_HEADER_SIZE : Z := TFTP_OPCODE_SIZE + TFTP_BLOCK_NUMBER_SIZE.
Definition TFTP_MAX_DATA_SIZE : Z := 512.
Definition TFTP_MAX_PACKET_SIZE : Z := TFTP_DATA_HEADER_SIZE + TFTP_MAX_DATA_SIZE.

(** [enum TFTPOpcode] *)
Definition TFTP_RRQ : Z := 1.
Definition TFTP_WRQ : Z := 2.
Definition TFTP_DATA : Z := 3.
Definition TFTP_ACK : Z := 4.
Definition TFTP_ERROR : Z := 5.
Definition TFTP_DRQ : Z := 6.

(** [enum TFTPError] *)
Definition ERROR_UNDEFINED : Z := 0.
Definition ERROR_FILE_NOT_FOUND : Z := 1.
Definition ERROR_ACCESS_VIOLATION : Z := 2.
Definition ERROR_DISK_FULL : Z := 3.
Definition ERROR_ILLEGAL_OPERATION : Z := 4.
Definition ERROR_UNKNOWN_TID : Z := 5.
Definition ERROR_FILE_EXISTS : Z := 6.
Definition ERROR_NO_SUCH_USER : Z := 7.

(** [# define MODE "octet"] of both [prog.h] files. *)
Definition MODE : string := "octet".

(** The operations of the command line, and the number of its arguments. *)
Definition TFTP_NUM_ARGUMENTS : Z := 4.
Definition DOWNLOAD : string := "download".
Definition UPLOAD : string := "upload".
Definition DELETE : string := "delete".

(** ** Bytes and C strings *)

(** Conversion of an [int] to [unsigned char]. *)
Definition to_uchar (z : Z) : Z := z mod 256.

(** A C string is the list of its bytes before the terminating NUL. *)
Definition cstring : Type := list Z.

Definition bytes_of_string (s : string) : cstring :=
  map (fun c => Z.of_N (N_of_ascii c)) (list_ascii_of_string s).

(** [buffer[i]] *)
Definition byte_at (buf : list Z) (i : nat) : Z := nth i buf 0.

(** [memcpy(buf + off, bytes, length bytes)], inside the buffer. *)
Definition blit (off : nat) (bytes : list Z) (buf : list Z) : list Z :=
  take off buf ++ bytes ++ drop (off + length bytes) buf.

(** [strlen]: the number of bytes before the first NUL. *)
Fixpoint cstrlen (l : list Z) : nat :=
  match l with
  | [] => O
  | b :: l' => if b =? 0 then O else S (cstrlen l')
  end.

(** ** The environment *)

(** What one call of [recvfrom] returns: a negative length (time-out or
    error) or a datagram. *)
Inductive recv_result : Type :=
| RecvFail
| RecvDgram (d : list Z).

(** [errno] after a short [fwrite], as far as [write_to_file] tells the
    values apart. *)
Inductive errno_t : Type := ENOSPC | EACCES | EPERM | EIO.

Record FILE : Type := mkFILE {
  f_path : cstring;      (* the name the stream was opened on *)
  f_data : list Z;       (* the bytes of the file *)
  f_pos : nat            (* the read position *)
}.

Record inode : Type := mkInode {
  i_data : list Z;
  i_readable : bool
}.

Inductive event : Type :=
| EvSendto (d : list Z) (ok : bool)      (* sendto of these bytes, and whether it succeeded *)
| EvFwrite (d : list Z) (written : nat)  (* fwrite of these bytes, and how many were stored *)
| EvRemove (p : cstring).                (* remove(p) *)

Record TFTPSocket : Type := mkSocket { sockfd : Z }.

(** The [TFTPRequest] fields the code uses, the three locals every handler
    passes by pointer to the engine ([block_number], [retry], [success]), and
    the environment. *)
Record State : Type := mkState {
  opcode : Z;
  filename : option cstring;
  filepath : option FILE;
  buffer : list Z;
  block_number : Z;
  retry : Z;
  success : bool;
  inbox : list recv_result;   (* results of the next calls of recvfrom *)
  sendto_ok : list bool;      (* results of the next calls of sendto; none left: success *)
  disk_room : nat;            (* bytes fwrite can still store *)
  errno : errno_t;
  cwd_writable : bool;        (* whether the directory can be written: fopen(_, "wb"), remove *)
  heap_ok : bool;             (* whether strdup succeeds *)
  fs : gmap cstring inode;    (* the files of the working directory *)
  trace : list event
}.

Definition set_opcode (v : Z) (s : State) : State :=
  mkState v (filename s) (filepath s) (buffer s) (block_number s) (retry s) (success s)
    (inbox s) (sendto_ok s) (disk_room s) (errno s) (cwd_writable s) (heap_ok s) (fs s) (trace s).
Definition set_filename (v : option cstring) (s : State) : State :=
  mkState (opcode s) v (filepath s) (buffer s) (block_number s) (retry s) (success s)
    (inbox s) (sendto_ok s) (disk_room s) (errno s) (cwd_writable s) (heap_ok s) (fs s) (trace s).
Definition set_filepath (v : option FILE) (s : State) : State :=
  mkState (opcode s) (filename s) v (buffer s) (block_number s) (retry s) (success s)
    (inbox s) (sendto_ok s) (disk_room s) (errno s) (cwd_writable s) (heap_ok s) (fs s) (trace s).
Definition set_buffer (v : list Z) (s : State) : State :=
  mkState (opcode s) (filename s) (filepath s) v (block_number s) (retry s) (success s)
    (inbox s) (sendto_ok s) (disk_room s) (errno s) (cwd_writable s) (heap_ok s) (fs s) (trace s).
Definition set_block_number (v : Z) (s : State) : State :=
  mkState (opcode s) (filename s) (filepath s) (buffer s) v (retry s) (success s)
    (inbox s) (sendto_ok s) (disk_room s) (errno s) (cwd_writable s) (heap_ok s) (fs s) (trace s).
Definition set_retry (v : Z) (s : State) : State :=
  mkState (opcode s) (filename s) (filepath s) (buffer s) (block_number s) v (success s)
    (inbox s) (sendto_ok s) (disk_room s) (errno s) (cwd_writable s) (heap_ok s) (fs s) (trace s).
Definition set_success (v : bool) (s : State) : State :=
  mkState (opcode s) (filename s) (filepath s) (buffer s) (block_number s) (retry s) v
    (inbox s) (sendto_ok s) (disk_room s) (errno s) (cwd_writable s) (heap_ok s) (fs s) (trace s).
Definition set_inbox (v : list recv_result) (s : State) : State :=
  mkState (opcode s) (filename s) (filepath s) (buffer s) (block_number s) (retry s) (success s)
    v (sendto_ok s) (disk_room s) (errno s) (cwd_writable s) (heap_ok s) (fs s) (trace s).
Definition set_sendto_ok (v : list bool) (s : State) : State :=
  mkState (opcode s) (filename s) (filepath s) (buffer s) (block_number s) (retry s) (success s)
    (inbox s) v (disk_room s) (errno s) (cwd_writable s) (heap_ok s) (fs s) (trace s).
Definition set_disk_room (v : nat) (s : State) : State :=
  mkState (opcode s) (filename s) (filepath s) (buffer s) (block_number s) (retry s) (success s)
    (inbox s) (sendto_ok s) v (errno s) (cwd_writable s) (heap_ok s) (fs s) (trace s).
Definition set_fs (v : gmap cstring inode) (s : State) : State :=
  mkState (opcode s) (filename s) (filepath s) (buffer s) (block_number s) (retry s) (success s)
    (inbox s) (sendto_ok s) (disk_room s) (errno s) (cwd_writable s) (heap_ok s) v (trace s).
Definition log (e : event) (s : State) : State :=
  mkState (opcode s) (filename s) (filepath s) (buffer s) (block_number s) (retry s) (success s)
    (inbox s) (sendto_ok s) (disk_room s) (errno s) (cwd_writable s) (heap_ok s) (fs s)
    (trace s ++ [e]).

(** ** A state monad with undefined behaviour

    [None] stands for what C leaves undefined: a read past the end of the
    packet buffer, or stream I/O on a null [FILE *]. *)

Definition M (A : Type) : Type := State -> option (A * State).

Definition ret {A : Type} (a : A) : M A := fun s => Some (a, s).

Definition bind {A B : Type} (m : M A) (k : A -> M B) : M B :=
  fun s => match m s with
           | Some (a, s') => k a s'
           | None => None
           end.

Definition gets {A : Type} (f : State -> A) : M A := fun s => Some (f s, s).
Definition modify (f : State -> State) : M unit := fun s => Some (tt, f s).
Definition undefined {A : Type} : M A := fun _ => None.

Notation "'let*' x ':=' m 'in' k" := (bind m (fun x => k))
  (at level 10, x name, m at level 100, k at level 200).
Notation "m '>>' k" := (bind m (fun _ => k))
  (at level 100, k at level 200, right associativity).

(** [buffer[i] = v] *)
Definition store (i : nat) (v : Z) : M unit :=
  modify (fun s => set_buffer (<[i := v]> (buffer s)) s).

(** ** The C library and the socket calls *)

(** [sendto(sockfd, buffer, len, ...)]: the first [len] bytes of the packet
    buffer leave as one datagram. *)
Definition sendto (len : Z) : M Z := fun s =>
  let d := take (Z.to_nat len) (buffer s) in
  let ok := hd true (sendto_ok s) in
  Some (if ok then len else -1, log (EvSendto d ok) (set_sendto_ok (tl (sendto_ok s)) s)).

(** [recvfrom(sockfd, buffer, TFTP_MAX_PACKET_SIZE, ...)]: a datagram
    overwrites the front of the packet buffer (at most 516 bytes of it) and
    leaves the bytes behind it as they were.  With nothing left to arrive the
    receive time-out expires. *)
Definition recvfrom : M Z := fun s =>
  match inbox s with
  | [] => Some (-1, s)
  | RecvFail :: rest => Some (-1, set_inbox rest s)
  | RecvDgram d :: rest =>
      let d' := take (Z.to_nat TFTP_MAX_PACKET_SIZE) d in
      Some (Z.of_nat (length d'), set_buffer (blit 0 d' (buffer s)) (set_inbox rest s))
  end.

(** [fread(buffer + off, 1, count, filepath)] *)
Definition fread (off : nat) (count : Z) : M Z := fun s =>
  match filepath s with
  | None => None
  | Some f =>
      let bytes := take (Z.to_nat count) (drop (f_pos f) (f_data f)) in
      Some (Z.of_nat (length bytes),
            set_filepath (Some (mkFILE (f_path f) (f_data f) (f_pos f + length bytes)%nat))
              (set_buffer (blit off bytes (buffer s)) s))
  end.

(** [fseek(filepath, delta, SEEK_CUR)] *)
Definition fseek_cur (delta : Z) : M Z := fun s =>
  match filepath s with
  | None => None
  | Some f =>
      let p := Z.of_nat (f_pos f) + delta in
      if p <? 0 then Some (-1, s)
      else Some (0, set_filepath (Some (mkFILE (f_path f) (f_data f) (Z.to_nat p))) s)
  end.

(** [fwrite(buffer + off, 1, len, filepath)]: stores as many bytes as the
    disk has room for and returns their number. *)
Definition fwrite (off : nat) (len : nat) : M Z := fun s =>
  match filepath s with
  | None => None
  | Some f =>
      if decide (off + len <= length (buffer s))%nat then
        let bytes := take len (drop off (buffer s)) in
        let k := Nat.min len (disk_room s) in
        Some (Z.of_nat k,
              log (EvFwrite bytes k)
                (set_disk_room (disk_room s - k)%nat
                   (set_filepath
                      (Some (mkFILE (f_path f) (f_data f ++ take k bytes) (f_pos f))) s)))
      else None
  end.

(** [snprintf((char * )buffer + off, size, "%s", str)], where [str] is the
    expansion of the format: at most [size - 1] bytes and a NUL. *)
Definition snprintf (off : nat) (size : Z) (str : cstring) : M unit := fun s =>
  let out := take (Z.to_nat (size - 1)) str ++ [0] in
  if decide (off + length out <= length (buffer s))%nat
  then Some (tt, set_buffer (blit off out (buffer s)) s)
  else None.

(** [strlen((char * )buffer + off)] *)
Definition strlen_at (off : nat) : M Z := fun s =>
  let rest := drop off (buffer s) in
  if existsb (Z.eqb 0) rest then Some (Z.of_nat (cstrlen rest), s) else None.

(** [fclose(filepath); filepath = NULL]: the bytes of the stream reach the
    file if it still has its name. *)
Definition fclose : M unit := fun s =>
  match filepath s with
  | None => None
  | Some f =>
      let fs' := match fs s !! f_path f with
                 | Some ino => <[f_path f := mkInode (f_data f) (i_readable ino)]> (fs s)
                 | None => fs s
                 end in
      Some (tt, set_filepath None (set_fs fs' s))
  end.

(** [fopen(filename, "wb")] *)
Definition fopen_wb (name : cstring) : M bool := fun s =>
  if cwd_writable s then
    Some (true, set_filepath (Some (mkFILE name [] 0))
                  (set_fs (<[name := mkInode [] true]> (fs s)) s))
  else Some (false, set_filepath None s).

(** [remove(filename)]: fails when no file has the name ([ENOENT]) and
    when the directory cannot be written ([EACCES]). *)
Definition remove (name : option cstring) : M Z := fun s =>
  match name with
  | None => None
  | Some p =>
      match fs s !! p with
      | Some _ =>
          if cwd_writable s
          then Some (0, log (EvRemove p) (set_fs (delete p (fs s)) s))
          else Some (-1, s)
      | None => Some (-1, s)
      end
  end.

(** [strerror(errno)] right after [remove(filename)] has failed. *)
Definition strerror_ENOENT : cstring := bytes_of_string "No such file or directory".
Definition strerror_EACCES : cstring := bytes_of_string "Permission denied".

Definition strerror_remove (name : option cstring) : M cstring := fun s =>
  match name with
  | None => None
  | Some p =>
      match fs s !! p with
      | Some _ => Some (strerror_EACCES, s)
      | None => Some (strerror_ENOENT, s)
      end
  end.

(** ** common.c *)

Definition tftp_error_message (error_code : Z) : string :=
  match error_code with
  | 1 => "File not found"
  | 2 => "Access violation"
  | 3 => "Disk full or allocation exceeded"
  | 4 => "Illegal TFTP operation"
  | 5 => "Unknown transfer ID"
  | 6 => "File already exists"
  | 7 => "No such user"
  | _ => "Undefined error"
  end.

(** [send_error_packet(socket, error_code, buffer, custom_message)].  The
    [buffer] argument is never null, and it is [request->buffer] at every
    call that passes a socket. *)
Definition send_error_packet (socket : option TFTPSocket) (error_code : Z)
    (custom_message : option cstring) : M unit :=
  match socket with
  | None => ret tt
  | Some _ =>
      store 0 0 >>
      store 1 TFTP_ERROR >>
      store 2 (Z.land (Z.shiftr error_code 8) 255) >>
      store 3 (Z.land error_code 255) >>
      let error_message := bytes_of_string (tftp_error_message error_code) in
      match custom_message with
      | Some c =>
          snprintf (Z.to_nat TFTP_DATA_HEADER_SIZE)
            (TFTP_MAX_PACKET_SIZE - TFTP_DATA_HEADER_SIZE)
            (error_message ++ bytes_of_string " - " ++ c)
      | None =>
          snprintf (Z.to_nat TFTP_DATA_HEADER_SIZE)
            (TFTP_MAX_PACKET_SIZE - TFTP_DATA_HEADER_SIZE)
            error_message
      end >>
      let* n := strlen_at (Z.to_nat TFTP_DATA_HEADER_SIZE) in
      let* sent_len := sendto (TFTP_DATA_HEADER_SIZE + n + 1) in
      ret tt
  end.

Definition send_data_packet (bytes_read : Z) (block_number : Z) : M bool :=
  store 0 0 >>
  store 1 TFTP_DATA >>
  store 2 (to_uchar (Z.shiftr block_number 8)) >>
  store 3 (to_uchar (Z.land block_number 255)) >>
  let* n := sendto (bytes_read + TFTP_DATA_HEADER_SIZE) in
  if n <? 0 then ret false else ret true.

(** What [print_error] writes: one of its two complaints, or the line
    "Error <code>: <message>". *)
Inductive console_line : Type :=
| InvalidErrorPacket
| ErrorPacketTooSmall
| ErrorLine (error_code : Z) (error_message : cstring).

(** [print_error(request->buffer + off, length)]; the [%s] of its [printf]
    reads the C string at [response + 4], which is undefined when no NUL
    follows inside the buffer. *)
Definition print_error (off : nat) (length : Z) : M console_line := fun s =>
  let response := drop off (buffer s) in
  if length <? TFTP_MIN_ERROR_PACKET then Some (InvalidErrorPacket, s)
  else
    let error_code := Z.lor (Z.shiftl (byte_at response 2) 8) (byte_at response 3) in
    if length <? TFTP_MIN_ERROR_PACKET + 1 then Some (ErrorPacketTooSmall, s)
    else
      let error_message :=
        drop (Z.to_nat (TFTP_OPCODE_SIZE + TFTP_ERROR_CODE_SIZE)) response in
      if existsb (Z.eqb 0) error_message
      then Some (ErrorLine error_code (take (cstrlen error_message) error_message), s)
      else None.

(** [write_to_file(buffer + off, len, filepath)].  All three error reports
    pass a null socket, so [send_error_packet] returns at once and
    [print_error] reads what the buffer holds at [buffer + off]. *)
Definition write_to_file (off : nat) (len : Z) : M bool :=
  if len <? 0 then ret false
  else
    let* n := fwrite off (Z.to_nat len) in
    if negb (n =? len) then
      let* e := gets errno in
      match e with
      | ENOSPC => send_error_packet None ERROR_DISK_FULL None
      | EACCES | EPERM => send_error_packet None ERROR_ACCESS_VIOLATION None
      | EIO => send_error_packet None ERROR_UNDEFINED None
      end >>
      print_error off TFTP_MAX_PACKET_SIZE >>
      ret false
    else ret true.

Definition check_ack (buffer : list Z) (block_number : Z) : bool :=
  let received_block := Z.lor (Z.shiftl (byte_at buffer 2) 8) (byte_at buffer 3) in
  if (byte_at buffer 2 =? Z.shiftr block_number 8)
     && (byte_at buffer 3 =? Z.land block_number 255)
  then true
  else if negb (received_block =? block_number) then false
  else false.

Definition send_ack (block_number : Z) : M bool :=
  store 0 0 >>
  store 1 TFTP_ACK >>
  store 2 (to_uchar (Z.shiftr block_number 8)) >>
  store 3 (to_uchar (Z.land block_number 255)) >>
  let* sent_len := sendto TFTP_DATA_HEADER_SIZE in
  if sent_len <? 0 then ret false else ret true.

Definition get_response : M Z :=
  let* len := recvfrom in
  if len <? 0 then ret (-1)
  else
    let* b1 := gets (fun s => byte_at (buffer s) 1) in
    if b1 =? TFTP_ACK then ret 1
    else if b1 =? TFTP_DATA then ret len
    else if b1 =? TFTP_ERROR then print_error 0 TFTP_MAX_PACKET_SIZE >> ret (-1)
    else ret (-1).

Definition validate_and_retry (bytes_read : Z) (is_upload : bool) : M bool :=
  let* buf := gets buffer in
  let* bn := gets block_number in
  if negb (check_ack buf bn) then
    modify (set_success false) >>
    modify (fun s => set_retry (retry s + 1) s) >>
    let* r := gets retry in
    if r >=? TFTP_MAX_RETRIES then ret false
    else if is_upload then
      let* rc := fseek_cur (- bytes_read) in
      if negb (rc =? 0) then ret false
      else send_data_packet bytes_read bn >> ret true
    else send_ack bn >> ret true
  else
    (if negb is_upload then send_ack bn >> ret tt else ret tt) >>
    modify (set_retry 0) >>
    modify (fun s => set_block_number (block_number s + 1) s) >>
    modify (set_success true) >>
    ret true.

Definition process_transfer_send : M bool :=
  let* bytes_read := fread (Z.to_nat TFTP_DATA_HEADER_SIZE) TFTP_MAX_DATA_SIZE in
  if bytes_read <=? 0 then ret false
  else
    let* bn := gets block_number in
    let* sent := send_data_packet bytes_read bn in
    if negb sent then ret false
    else
      let* r := get_response in
      if r <? 0 then ret false
      else
        let* ok := validate_and_retry bytes_read true in
        if negb ok then ret false
        else
          let* succ := gets success in
          if (bytes_read <? TFTP_MAX_DATA_SIZE) && succ then ret false
          else ret true.

Definition process_transfer_receive : M bool :=
  let* len := get_response in
  if len <? 0 then ret false
  else
    let* ok := validate_and_retry 0 false in
    if negb ok then ret false
    else
      let* written :=
        write_to_file (Z.to_nat TFTP_DATA_HEADER_SIZE) (len - TFTP_DATA_HEADER_SIZE) in
      if negb written then ret false
      else
        let* succ := gets success in
        if (len <? TFTP_MAX_PACKET_SIZE) && succ then ret false
        else ret true.

(** [while (body);] with a bound on the number of iterations.  Every
    iteration of the two transfer loops that goes on has taken one entry of
    [inbox], so the handlers give [S (length inbox)] (see [while_loop_fuel]). *)
Fixpoint while_loop (fuel : nat) (body : M bool) : M unit := fun s =>
  match fuel with
  | O => None
  | S n =>
      match body s with
      | Some (true, s') => while_loop n body s'
      | Some (false, s') => Some (tt, s')
      | None => None
      end
  end.

Definition transfer_loop (body : M bool) : M unit := fun s =>
  while_loop (S (length (inbox s))) body s.

(** [memcpy(buffer + off, bytes, length bytes)]; a copy that leaves the
    packet buffer is undefined. *)
Definition memcpy (off : nat) (bytes : list Z) : M unit := fun s =>
  if decide (off + length bytes <= length (buffer s))%nat
  then Some (tt, set_buffer (blit off bytes (buffer s)) s)
  else None.

(** [fopen(filename, "wb")] on [request->filename]. *)
Definition fopen_filename_wb : M bool :=
  let* fn := gets filename in
  match fn with
  | None => undefined
  | Some name => fopen_wb name
  end.

(** [setsockopt(SO_RCVTIMEO)]; the time-out itself is the [RecvFail] and the
    empty [inbox] of [recvfrom]. *)
Definition set_socket_timeout (timeout : Z) : M bool := ret true.

(** ** client/prog.c and client/tftp_client.c *)

Module Client.

Definition client : TFTPSocket := mkSocket 3.

(** [cleanup(client, request)] *)
Definition cleanup : M unit :=
  let* fp := gets filepath in
  (match fp with
   | Some _ => fclose
   | None => ret tt
   end) >>
  let* fn := gets filename in
  match fn with
  | Some _ => modify (set_filename None)
  | None => ret tt
  end.

Definition send_request : M bool :=
  let* fn := gets filename in
  match fn with
  | None => ret false
  | Some name =>
      let filename_len := length name in
      let mode_len := length (bytes_of_string MODE) in
      store 0 0 >>
      let* op := gets opcode in
      store 1 (to_uchar op) >>
      memcpy (Z.to_nat TFTP_OPCODE_SIZE) name >>
      memcpy (Z.to_nat TFTP_OPCODE_SIZE + filename_len) [0] >>
      memcpy (Z.to_nat TFTP_OPCODE_SIZE + filename_len + 1) (bytes_of_string MODE ++ [0]) >>
      let* sent_bytes :=
        sendto (TFTP_OPCODE_SIZE + Z.of_nat filename_len + 1 + Z.of_nat mode_len + 1) in
      if sent_bytes <? 0 then ret false else ret true
  end.

Definition download_request : M bool :=
  modify (set_success false) >>
  let* sent := send_request in
  if negb sent then cleanup >> ret false
  else
    let* opened := fopen_filename_wb in
    if negb opened then
      send_error_packet (Some client) ERROR_UNDEFINED
        (Some (bytes_of_string "Error opening file for writing")) >>
      print_error 0 TFTP_MAX_PACKET_SIZE >>
      cleanup >>
      ret false
    else
      modify (set_block_number 1) >>
      modify (set_retry (-1)) >>
      transfer_loop process_transfer_receive >>
      let* succ := gets success in
      let* b1 := gets (fun s => byte_at (buffer s) 1) in
      (if negb succ || (b1 =? TFTP_ERROR)
       then let* fn := gets filename in remove fn >> ret tt
       else ret tt) >>
      cleanup >>
      gets success.

Definition upload_request : M bool :=
  modify (set_success false) >>
  let* sent := send_request in
  if negb sent then cleanup >> ret false
  else
    let* r := get_response in
    if r <? 0 then cleanup >> ret false
    else
      modify (set_block_number 1) >>
      modify (set_retry 0) >>
      transfer_loop process_transfer_send >>
      cleanup >>
      gets success.

Definition delete_request : M bool :=
  let* sent := send_request in
  if negb sent then cleanup >> ret false
  else
    let* r := get_response in
    if r <? 0 then cleanup >> ret false
    else cleanup >> ret true.

(** [prog(client, request)] *)
Definition prog : M bool :=
  let* op := gets opcode in
  if op =? TFTP_RRQ then download_request
  else if op =? TFTP_WRQ then upload_request
  else if op =? TFTP_DRQ then delete_request
  else ret false.

(** *** prog.c: the command line *)

(** [enum INPUT]: the positions in [argv]. *)
Definition OPERATION : nat := 1.
Definition FILE_PATH : nat := 2.
Definition SERVER_IP : nat := 3.

Definition EXIT_SUCCESS : Z := 0.
Definition EXIT_FAILURE : Z := 1.

(** [argv[i]] *)
Definition arg (argv : list cstring) (i : nat) : cstring := nth i argv [].

(** [strcmp]: the difference at the first position where the two strings,
    NUL included, differ. *)
Fixpoint strcmp (a b : cstring) : Z :=
  match a, b with
  | [], [] => 0
  | [], y :: _ => 0 - y
  | x :: _, [] => x - 0
  | x :: a', y :: b' => if x =? y then strcmp a' b' else x - y
  end.

Definition SLASH : Z := 47.

(** The path without the slashes at its end. *)
Fixpoint strip_slashes (path : cstring) : cstring :=
  match path with
  | [] => []
  | c :: path' =>
      match strip_slashes path' with
      | [] => if c =? SLASH then [] else [c]
      | kept => c :: kept
      end
  end.

(** What follows the last slash. *)
Fixpoint last_component (path : cstring) : cstring :=
  match path with
  | [] => []
  | c :: path' =>
      if existsb (Z.eqb SLASH) path' then last_component path'
      else if c =? SLASH then path' else path
  end.

(** [basename] of [<libgen.h>]: "." for the empty path, "/" for a path of
    slashes only, and otherwise the last component, without the slashes that
    end the path. *)
Definition basename (path : cstring) : cstring :=
  match path with
  | [] => bytes_of_string "."
  | _ :: _ =>
      match strip_slashes path with
      | [] => bytes_of_string "/"
      | stripped => last_component stripped
      end
  end.

Definition validate_argument_count (argc : Z) : bool :=
  if negb (argc =? TFTP_NUM_ARGUMENTS) then false else true.

Definition validate_operation (operation : cstring) : M bool :=
  if strcmp operation (bytes_of_string UPLOAD) =? 0 then
    modify (set_opcode TFTP_WRQ) >> ret true
  else if strcmp operation (bytes_of_string DOWNLOAD) =? 0 then
    modify (set_opcode TFTP_RRQ) >> ret true
  else if strcmp operation (bytes_of_string DELETE) =? 0 then
    modify (set_opcode TFTP_DRQ) >> ret true
  else ret false.

(** Both [strdup] calls need room on the heap. *)
Definition get_filename_from_path (path : cstring) : M (option cstring) :=
  let* room := gets heap_ok in
  if negb room then ret None
  else
    let filename := basename path in
    ret (Some filename).

Definition validate_filename (filepath : cstring) : M bool :=
  if Z.of_nat (length filepath) >? MAX_FILE_NAME then ret false
  else
    let* name := get_filename_from_path filepath in
    modify (set_filename name) >>
    ret (match name with
         | Some _ => true
         | None => false
         end).

(** [access(filepath, F_OK) == 0] *)
Definition access_F_OK (path : cstring) : M bool :=
  gets (fun s => bool_decide (is_Some (fs s !! path))).

(** [access(filepath, R_OK) == 0] *)
Definition access_R_OK (path : cstring) : M bool :=
  gets (fun s => match fs s !! path with
                 | Some ino => i_readable ino
                 | None => false
                 end).

(** [*file = fopen(filepath, "rb")], where [file] is [&request->filepath]. *)
Definition fopen_rb (path : cstring) : M bool :=
  let* ino := gets (fun s => fs s !! path) in
  match ino with
  | Some i =>
      if i_readable i
      then modify (set_filepath (Some (mkFILE path (i_data i) 0))) >> ret true
      else modify (set_filepath None) >> ret false
  | None => modify (set_filepath None) >> ret false
  end.

Definition validate_file_access (filepath : cstring) : M bool :=
  let* present := access_F_OK filepath in
  if negb present then ret false
  else
    let* readable := access_R_OK filepath in
    if negb readable then ret false
    else fopen_rb filepath.

(** On failure the name is freed and the pointer kept; [main] returns
    without using it. *)
Definition validate_upload_file (filepath : cstring) : M bool :=
  let* accessible := validate_file_access filepath in
  if negb accessible then ret false else ret true.

Definition validate_download_file : M bool :=
  let* fn := gets filename in
  match fn with
  | None => undefined
  | Some name =>
      let* present := access_F_OK name in
      if present then modify (set_filename None) >> ret false
      else ret true
  end.

(** [validate_arguments(argc, argv, &request)], with [argc] the length of
    [argv]. *)
Definition validate_arguments (argv : list cstring) : M bool :=
  if negb (validate_argument_count (Z.of_nat (length argv))) then ret false
  else
    let* known := validate_operation (arg argv OPERATION) in
    if negb known then ret false
    else
      modify (set_filepath None) >>
      let* named := validate_filename (arg argv FILE_PATH) in
      if negb named then ret false
      else
        let* op := gets opcode in
        if op =? TFTP_WRQ then validate_upload_file (arg argv FILE_PATH)
        else if op =? TFTP_RRQ then validate_download_file
        else ret true.

(** What the socket calls of [initialize_socket] return. *)
Record socket_calls : Type := mkSocketCalls {
  socket_rc : Z;       (* socket(AF_INET, SOCK_DGRAM, 0) *)
  inet_pton_rc : Z     (* inet_pton(AF_INET, server_ip, ...) *)
}.

Definition initialize_socket (calls : socket_calls) : M bool :=
  if socket_rc calls <? 0 then cleanup >> ret false
  else if inet_pton_rc calls <=? 0 then cleanup >> ret false
  else
    let* armed := set_socket_timeout TFTP_TIMEOUT in
    if negb armed then cleanup >> ret false
    else ret true.

(** *** client.c *)

Definition main (argv : list cstring) (calls : socket_calls) : M Z :=
  let* valid := validate_arguments argv in
  if negb valid then ret EXIT_FAILURE
  else
    let* connected := initialize_socket calls in
    if negb connected then ret EXIT_FAILURE
    else
      let* done := prog in
      if negb done then ret EXIT_FAILURE
      else cleanup >> ret EXIT_SUCCESS.

End Client.

(** ** server/prog.c and server/tftp_server.c *)

Module Server.

Definition server : TFTPSocket := mkSocket 3.

(** *** tftp_server.c *)

Definition upload_request : M unit :=
  modify (set_success false) >>
  modify (set_block_number 0) >>
  let* opened := fopen_filename_wb in
  if negb opened then
    send_error_packet (Some server) ERROR_UNDEFINED
      (Some (bytes_of_string "Error opening file for writing")) >>
    print_error 0 TFTP_MAX_PACKET_SIZE >>
    ret tt
  else
    let* bn := gets block_number in
    modify (fun s => set_block_number (block_number s + 1) s) >>
    let* acked := send_ack bn in
    if negb acked then fclose
    else
      modify (set_retry (-2)) >>
      transfer_loop process_transfer_receive >>
      let* succ := gets success in
      let* b1 := gets (fun s => byte_at (buffer s) 1) in
      (if negb succ || (b1 =? TFTP_ERROR)
       then let* fn := gets filename in remove fn >> ret tt
       else ret tt) >>
      fclose.

Definition download_request : M unit :=
  modify (set_success false) >>
  modify (set_block_number 1) >>
  modify (set_retry 0) >>
  transfer_loop process_transfer_send >>
  fclose.

Definition delete_request : M unit :=
  let* fn := gets filename in
  let* rc := remove fn in
  if rc =? 0 then send_ack 0 >> ret tt
  else
    let* reason := strerror_remove fn in
    send_error_packet (Some server) ERROR_UNDEFINED (Some reason).

Definition handle_request : M unit :=
  let* armed := set_socket_timeout TFTP_TIMEOUT in
  if negb armed then ret tt
  else
    let* op := gets opcode in
    (if op =? TFTP_RRQ then download_request
     else if op =? TFTP_WRQ then upload_request
     else if op =? TFTP_DRQ then delete_request
     else send_error_packet (Some server) ERROR_ILLEGAL_OPERATION None >>
          print_error 0 TFTP_MAX_PACKET_SIZE >>
          ret tt) >>
    set_socket_timeout 0 >>
    ret tt.

(** *** prog.c *)

Definition cleanup_request : M unit :=
  let* fn := gets filename in
  (match fn with
   | Some _ => modify (set_filename None)
   | None => ret tt
   end) >>
  let* fp := gets filepath in
  match fp with
  | Some _ => fclose
  | None => ret tt
  end.

Definition init_request : M unit :=
  cleanup_request >>
  modify (set_buffer (replicate (Z.to_nat TFTP_MAX_PACKET_SIZE) 0)) >>
  modify (set_opcode 0).

(** The C string at [buffer + off]; undefined when no NUL follows inside
    the buffer. *)
Definition cstr_at (off : nat) : M cstring := fun s =>
  let rest := drop off (buffer s) in
  if existsb (Z.eqb 0) rest then Some (take (cstrlen rest) rest, s) else None.

(** [strnlen((char * )buffer + off, maxlen)] *)
Definition strnlen_at (off maxlen : nat) : M Z := fun s =>
  let window := take maxlen (drop off (buffer s)) in
  if existsb (Z.eqb 0) window || (length window =? maxlen)%nat
  then Some (Z.of_nat (cstrlen window), s)
  else None.

Definition tolower (c : Z) : Z :=
  if (65 <=? c) && (c <=? 90) then c + 32 else c.

(** [strcasecmp] in the C locale: the difference at the first position
    where the two strings, NUL included, differ in lower case. *)
Fixpoint strcasecmp (a b : cstring) : Z :=
  match a, b with
  | [], [] => 0
  | [], y :: _ => 0 - tolower y
  | x :: _, [] => tolower x - 0
  | x :: a', y :: b' =>
      if tolower x =? tolower y then strcasecmp a' b' else tolower x - tolower y
  end.

Definition validate_mode : M bool :=
  let* filename_len := strlen_at (Z.to_nat TFTP_OPCODE_SIZE) in
  let* mode := cstr_at (Z.to_nat (TFTP_OPCODE_SIZE + filename_len + 1)) in
  if negb (strcasecmp mode (bytes_of_string MODE) =? 0) then
    send_error_packet (Some server) ERROR_UNDEFINED
      (Some (bytes_of_string "Unsupported mode: Only 'octet' is allowed")) >>
    print_error 0 TFTP_MAX_PACKET_SIZE >>
    ret false
  else ret true.

Definition validate_request_count (len : Z) : M bool :=
  if len <? TFTP_DATA_HEADER_SIZE then
    send_error_packet (Some server) ERROR_UNDEFINED
      (Some (bytes_of_string "Invalid request received")) >>
    ret false
  else ret true.

Definition validate_operation : M bool :=
  let* buf := gets buffer in
  let opcode := (Z.lor (Z.shiftl (byte_at buf 0) 8) (byte_at buf 1)) mod 65536 in
  if negb (opcode =? TFTP_RRQ) && negb (opcode =? TFTP_WRQ) && negb (opcode =? TFTP_DRQ) then
    send_error_packet (Some server) ERROR_ILLEGAL_OPERATION None >>
    ret false
  else
    modify (set_opcode opcode) >>
    ret true.

Definition validate_filename : M bool :=
  let* n := strnlen_at (Z.to_nat TFTP_OPCODE_SIZE) (Z.to_nat MAX_FILE_NAME) in
  if n =? 0 then
    send_error_packet (Some server) ERROR_UNDEFINED
      (Some (bytes_of_string "Filename missing")) >>
    ret false
  else
    let* name := cstr_at (Z.to_nat TFTP_OPCODE_SIZE) in
    let* room := gets heap_ok in
    if negb room then
      send_error_packet (Some server) ERROR_UNDEFINED
        (Some (bytes_of_string "Memory allocation failed")) >>
      ret false
    else
      modify (set_filename (Some name)) >>
      ret true.

(** [access(request->filename, F_OK) == 0] *)
Definition access_F_OK : M bool :=
  let* fn := gets filename in
  match fn with
  | None => undefined
  | Some name => gets (fun s => bool_decide (is_Some (fs s !! name)))
  end.

(** [access(request->filename, R_OK) == 0] *)
Definition access_R_OK : M bool :=
  let* fn := gets filename in
  match fn with
  | None => undefined
  | Some name =>
      gets (fun s => match fs s !! name with
                     | Some ino => i_readable ino
                     | None => false
                     end)
  end.

(** [request->filepath = fopen(request->filename, "rb")] *)
Definition fopen_filename_rb : M bool :=
  let* fn := gets filename in
  match fn with
  | None => undefined
  | Some name =>
      let* ino := gets (fun s => fs s !! name) in
      match ino with
      | Some i =>
          if i_readable i
          then modify (set_filepath (Some (mkFILE name (i_data i) 0))) >> ret true
          else modify (set_filepath None) >> ret false
      | None => modify (set_filepath None) >> ret false
      end
  end.

Definition validate_upload_file : M bool :=
  let* present := access_F_OK in
  if present then
    send_error_packet (Some server) ERROR_FILE_EXISTS None >>
    ret false
  else ret true.

Definition validate_file_access : M bool :=
  let* present := access_F_OK in
  if negb present then
    send_error_packet (Some server) ERROR_FILE_NOT_FOUND None >>
    ret false
  else
    let* readable := access_R_OK in
    if negb readable then
      send_error_packet (Some server) ERROR_ACCESS_VIOLATION None >>
      ret false
    else fopen_filename_rb.

Definition validate_download_file : M bool := validate_file_access.

Definition validate_delete_file : M bool :=
  let* present := access_F_OK in
  if negb present then
    send_error_packet (Some server) ERROR_FILE_NOT_FOUND None >>
    print_error 0 TFTP_MAX_PACKET_SIZE >>
    ret false
  else ret true.

Definition validate_request (len : Z) : M bool :=
  let* counted := validate_request_count len in
  if negb counted then ret false
  else
    let* mode_ok := validate_mode in
    if negb mode_ok then ret false
    else
      let* op_ok := validate_operation in
      if negb op_ok then ret false
      else
        let* name_ok := validate_filename in
        if negb name_ok then ret false
        else
          let* op := gets opcode in
          if op =? TFTP_RRQ then validate_download_file
          else if op =? TFTP_WRQ then validate_upload_file
          else if op =? TFTP_DRQ then validate_delete_file
          else ret true.

(** One iteration of the [while (1)] of [prog]; the result tells whether
    [handle_request] was called. *)
Definition prog_iteration : M bool :=
  init_request >>
  let* len := recvfrom in
  if len <=? 0 then ret false
  else
    let* valid := validate_request len in
    if negb valid then ret false
    else handle_request >> ret true.

End Server.

(** ** Packets as the specification lays them out, and sample states *)

Definition ack_packet (b : Z) : list Z := [0; TFTP_ACK; b / 256; b mod 256].

Definition data_packet (b : Z) (payload : list Z) : list Z :=
  [0; TFTP_DATA; b / 256; b mod 256] ++ payload.

Definition request_packet (op : Z) (name : cstring) : list Z :=
  [0; op] ++ name ++ [0] ++ bytes_of_string MODE ++ [0].

Definition zero_buffer : list Z := replicate (Z.to_nat TFTP_MAX_PACKET_SIZE) 0.

(** A machine at rest: no request, nothing to receive, an empty directory
    with room for 4096 bytes. *)
Definition idle : State :=
  mkState 0 None None zero_buffer 0 0 false [] [] 4096 ENOSPC true true ∅ [].

Definition a_bin : cstring := bytes_of_string "a.bin".

Definition block512 : list Z := replicate 512 7.

(** The client after [validate_arguments] for [upload a.bin]: the file is
    open for reading; [answers] is what the server will send. *)
Definition client_upload (content : list Z) (answers : list recv_result) : State :=
  set_inbox answers
    (set_filepath (Some (mkFILE a_bin content 0))
       (set_filename (Some a_bin) (set_opcode TFTP_WRQ idle))).

(** The client after [validate_arguments] for [download a.bin]. *)
Definition client_download (answers : list recv_result) : State :=
  set_inbox answers (set_filename (Some a_bin) (set_opcode TFTP_RRQ idle)).

(** The server after [validate_request] accepted a WRQ for [a.bin]. *)
Definition server_upload (answers : list recv_result) : State :=
  set_inbox answers (set_filename (Some a_bin) (set_opcode TFTP_WRQ idle)).

(** [n] consecutive iterations of a loop body that all go on (the body
    returns [true]) and all end in a state that satisfies [P]. *)
Inductive rounds (body : M bool) (P : State -> Prop) : nat -> State -> State -> Prop :=
| rounds_O (s : State) : rounds body P O s s
| rounds_S (n : nat) (s s1 s2 : State) :
    body s = Some (true, s1) -> P s1 -> rounds body P n s1 s2 ->
    rounds body P (S n) s s2.

(** Any run of the loop. *)
Definition iterations (body : M bool) : nat -> State -> State -> Prop :=
  rounds body (fun _ => True).

(** A run of retransmissions: every iteration asks for another try, that is,
    it goes on with the success flag cleared. *)
Definition retry_rounds (body : M bool) : nat -> State -> State -> Prop :=
  rounds body (fun s => success s = false).

(** The server inside [upload_request] when it enters the receive loop:
    [a.bin] is open for writing, ACK(0) has been sent, [block_number] is 1 and
    [retry] is -2. *)
Definition server_upload_loop (answers : list recv_result) : State :=
  mkState TFTP_WRQ (Some a_bin) (Some (mkFILE a_bin [] 0))
    (ack_packet 0 ++ drop 4 zero_buffer) 1 (-2) false answers [] 4096 ENOSPC true true
    {[ a_bin := mkInode [] true ]} [EvSendto (ack_packet 0) true].

(** The message field of an ERROR packet as the specification words it: the
    canonical text of the code, or "<canonical> - <custom>" cut to the 511
    bytes that fit 512 together with the closing NUL. *)
Definition error_payload (code : Z) (custom : option cstring) : cstring :=
  let canonical := bytes_of_string (tftp_error_message code) in
  match custom with
  | Some c => take 511 (canonical ++ bytes_of_string " - " ++ c)
  | None => canonical
  end.

Definition error_packet (code : Z) (custom : option cstring) : list Z :=
  [0; TFTP_ERROR; (code / 256) mod 256; code mod 256] ++ error_payload code custom ++ [0].

(** The texts of [tftp_error_message]. *)
Definition canonical_messages : list string :=
  ["Undefined error"; "File not found"; "Access violation";
   "Disk full or allocation exceeded"; "Illegal TFTP operation";
   "Unknown transfer ID"; "File already exists"; "No such user"]%string.

Definition nonzero (b : Z) : Prop := b <> 0.

(** ** The request shape of the specification *)

Definition is_byte (b : Z) : Prop := 0 <= b < 256.

(** The bytes before the first NUL of [l], and what follows that NUL when
    there is one. *)
Fixpoint split_nul (l : list Z) : list Z * option (list Z) :=
  match l with
  | [] => ([], None)
  | b :: l' =>
      if b =? 0 then ([], Some l')
      else let '(h, t) := split_nul l' in (b :: h, t)
  end.

(** A request datagram the dispatcher is to accept: at least 4 bytes, a
    16-bit big-endian opcode among RRQ, WRQ and DRQ, a filename that is not
    empty and ends with a NUL inside the datagram, and after it a mode that
    reads "octet" whatever the case of its letters. *)
Definition well_formed_request (d : list Z) : bool :=
  match d with
  | d0 :: d1 :: body =>
      (4 <=? Z.of_nat (length d))
      && (let op := 256 * d0 + d1 in (op =? TFTP_RRQ) || (op =? TFTP_WRQ) || (op =? TFTP_DRQ))
      && match split_nul body with
         | (name, Some after) =>
             negb (bool_decide (name = []))
             && bool_decide (map Server.tolower (fst (split_nul after)) = bytes_of_string MODE)
         | (_, None) => false
         end
  | _ => false
  end.

(** The two C strings the checks read in the zero-filled buffer that holds
    the datagram, the filename at [buffer + 2] and the mode after its NUL,
    end inside the 516 bytes of the buffer. *)
Definition strings_inside (d : list Z) : bool :=
  let buf := d ++ replicate (516 - length d) 0 in
  let rest := drop 2 buf in
  existsb (Z.eqb 0) rest && existsb (Z.eqb 0) (drop (cstrlen rest + 3) buf).

(** One ERROR packet left between [s] and [s'], and nothing else. *)
Definition error_sent (s s' : State) : Prop :=
  exists pkt ok, trace s' = trace s ++ [EvSendto pkt ok] /\ take 2 pkt = [0; TFTP_ERROR].

(** The server waiting with one datagram to come, and [a.bin] on disk. *)
Definition server_waiting (d : list Z) : State :=
  set_inbox [RecvDgram d] (set_fs {[ a_bin := mkInode [97; 98; 99] true ]} idle).

Definition netascii_request : list Z :=
  [0; TFTP_RRQ] ++ a_bin ++ [0] ++ bytes_of_string "netascii" ++ [0].

(** A read request of 516 bytes whose filename never ends. *)
Definition endless_request : list Z := [0; TFTP_RRQ] ++ replicate 514 97.

(** A receiver inside its loop: [a.bin] is open for writing and holds
    [stored], block [b] is the next one expected. *)
Definition receiver_expecting (b : Z) (stored : list Z) (answers : list recv_result)
    : State :=
  mkState TFTP_RRQ (Some a_bin) (Some (mkFILE a_bin stored 0))
    (ack_packet (b - 1) ++ drop 4 zero_buffer) b 0 true answers [] 4096 ENOSPC true true
    {[ a_bin := mkInode [] true ]} [].

(** A sender inside its loop, about to send block [b] of [content]. *)
Definition sender_at (b : Z) (content : list Z) (answers : list recv_result) : State :=
  set_block_number b (client_upload content answers).

(** A datagram with a block number the receiver does not expect. *)
Definition stray : recv_result := RecvDgram (data_packet 7 []).

(** The number of [sendto] calls in a trace: the datagrams that were put on
    the wire, whatever became of them. *)
Fixpoint sends (t : list event) : nat :=
  match t with
  | [] => O
  | EvSendto _ _ :: t' => S (sends t')
  | _ :: t' => sends t'
  end.

(** ** Vocabulary of the proofs *)

(** What [get_response] returns for the byte at [buffer[1]] and the length
    of the datagram. *)
Definition response_code (b1 : Z) (len : Z) : Z :=
  if b1 =? TFTP_ACK then 1
  else if b1 =? TFTP_DATA then len
  else -1.

Definition locals_kept (s s' : State) : Prop :=
  block_number s' = block_number s /\ retry s' = retry s /\ success s' = success s.

(** The three ways [validate_and_retry] can end. *)
Inductive verdict (s : State) (r : bool) (s' : State) : Prop :=
| verdict_accept :
    check_ack (buffer s) (block_number s) = true -> r = true ->
    retry s' = 0 -> success s' = true -> block_number s' = block_number s + 1 ->
    verdict s r s'
| verdict_again :
    check_ack (buffer s) (block_number s) = false -> r = true ->
    retry s' = retry s + 1 -> retry s' < TFTP_MAX_RETRIES -> success s' = false ->
    block_number s' = block_number s ->
    verdict s r s'
| verdict_abort :
    check_ack (buffer s) (block_number s) = false -> r = false ->
    retry s' = retry s + 1 -> success s' = false -> block_number s' = block_number s ->
    verdict s r s'.

(** The ways one iteration of either transfer loop can end: it stops before
    [validate_and_retry] with the counters untouched, or [validate_and_retry]
    has given its verdict (and a later step may still turn the result to
    [false]). *)
Inductive outcome (s : State) (r : bool) (s' : State) : Prop :=
| outcome_stop : r = false -> locals_kept s s' -> outcome s r s'
| outcome_accept :
    retry s' = 0 -> success s' = true -> block_number s' = block_number s + 1 ->
    outcome s r s'
| outcome_again :
    retry s' = retry s + 1 -> retry s' < TFTP_MAX_RETRIES -> success s' = false ->
    block_number s' = block_number s ->
    outcome s r s'
| outcome_abort :
    r = false -> retry s' = retry s + 1 -> success s' = false ->
    block_number s' = block_number s ->
    outcome s r s'.


(** A state the transfer loops can run in: the packet buffer has its 516
    bytes and the stream is open. *)
Definition ready (s : State) : Prop :=
  length (buffer s) = 516%nat /\ is_Some (filepath s).

(** [m] has a result in [s], and the result satisfies [Q]. *)
Definition total {A : Type} (m : M A) (s : State) (Q : A -> State -> Prop) : Prop :=
  exists a s', m s = Some (a, s') /\ Q a s'.

(** The state is still [ready], nothing was taken from [inbox] and nothing
    was written. *)
Definition settled (s : State) : State -> Prop :=
  fun s' => ready s' /\ inbox s' = inbox s /\ disk_room s' = disk_room s.

(** What [get_response] can take whatever the buffer holds: a time-out, or
    a datagram that has its opcode and, when the opcode is ERROR, a message
    that ends with a NUL inside the 516 bytes that are received. *)
Definition reads_well (r : recv_result) : bool :=
  match r with
  | RecvFail => true
  | RecvDgram d =>
      (2 <=? length d)%nat
      && (negb (byte_at d 1 =? TFTP_ERROR) || existsb (Z.eqb 0) (drop 4 (take 516 d)))
  end.

(** The bytes [write_to_file] is given at most for what [recvfrom]
    returned. *)
Definition payload_bytes (r : recv_result) : nat :=
  match r with
  | RecvFail => O
  | RecvDgram d => (length (take 516 d) - 4)%nat
  end.

Definition inbox_bytes (l : list recv_result) : nat :=
  fold_right (fun r n => (payload_bytes r + n)%nat) O l.

(** Every answer to come can be read. *)
Definition polite (s : State) : Prop := ready s /\ forallb reads_well (inbox s) = true.

(** The disk has room for every payload to come. *)
Definition roomy (s : State) : Prop := (inbox_bytes (inbox s) <= disk_room s)%nat.

(** One iteration of a loop has a result; the invariant [Inv] holds again,
    and an iteration that goes on has taken a datagram from [inbox]. *)
Definition iteration_ends (Inv : State -> Prop) (s : State) : bool -> State -> Prop :=
  fun r s' => Inv s' /\ (r = true -> (length (inbox s') < length (inbox s))%nat).

(** ** Whole transfers *)

(** Blocks with consecutive block numbers, [b] first. *)
Fixpoint numbered (b : Z) (blocks : list (list Z)) : list (Z * list Z) :=
  match blocks with
  | [] => []
  | p :: ps => (b, p) :: numbered (b + 1) ps
  end.

(** The pieces successive [fread]s of 512 bytes cut [data] into; [fuel]
    bounds their number. *)
Fixpoint blocks_of (fuel : nat) (data : list Z) : list (list Z) :=
  match fuel with
  | O => []
  | S n =>
      match data with
      | [] => []
      | _ :: _ => take 512 data :: blocks_of n (drop 512 data)
      end
  end.

Definition file_blocks (data : list Z) : list (list Z) := blocks_of (length data) data.

(** Every block but the last has 512 bytes, and the last has at most 512. *)
Fixpoint well_cut (blocks : list (list Z)) : bool :=
  match blocks with
  | [] => true
  | p :: ps =>
      match ps with
      | [] => (length p <=? 512)%nat
      | _ :: _ => (length p =? 512)%nat && well_cut ps
      end
  end.

(** Whether the last block is a short one, which ends a transfer. *)
Definition ends_short (blocks : list (list Z)) : bool :=
  match last blocks with
  | Some p => (length p <? 512)%nat
  | None => false
  end.

Definition data_packets (b : Z) (blocks : list (list Z)) : list (list Z) :=
  map (fun ip => data_packet (fst ip) (snd ip)) (numbered b blocks).

Definition ack_packets (b : Z) (blocks : list (list Z)) : list (list Z) :=
  map (fun ip => ack_packet (fst ip)) (numbered b blocks).

(** Datagrams on their way to [recvfrom]. *)
Definition arriving (ds : list (list Z)) : list recv_result := map RecvDgram ds.

(** Datagrams that left through [sendto]. *)
Definition sent_events (ds : list (list Z)) : list event :=
  map (fun d => EvSendto d true) ds.

(** What a receiver leaves in the trace for blocks it accepts and stores:
    the ACK, then the write. *)
Definition receipts (b : Z) (blocks : list (list Z)) : list event :=
  flat_map (fun ip => [EvSendto (ack_packet (fst ip)) true;
                       EvFwrite (snd ip) (length (snd ip))])
           (numbered b blocks).

(** The datagrams of a trace that [sendto] delivered, in order. *)
Definition delivered (t : list event) : list (list Z) :=
  flat_map (fun e => match e with
                     | EvSendto d true => [d]
                     | _ => []
                     end) t.

(** No [sendto] to come fails. *)
Definition sends_succeed (s : State) : Prop := Forall (fun ok => ok = true) (sendto_ok s).

(** The request and the environment around a transfer stay as they are. *)
Definition surroundings_kept (s s' : State) : Prop :=
  opcode s' = opcode s /\ filename s' = filename s /\ fs s' = fs s
  /\ errno s' = errno s /\ cwd_writable s' = cwd_writable s /\ heap_ok s' = heap_ok s.

(** A filename as a request carries it: not empty, bytes other than NUL. *)
Definition proper_name (name : cstring) : Prop :=
  name <> [] /\ Forall is_byte name /\ Forall nonzero name.

(** ** Requests on the server *)

(** The server right after a datagram [d] passed the packet checks of
    [validate_request]: [d] sits in the zero-filled buffer, [opcode] and
    [filename] are the ones it carries, no file is open. *)
Definition request_parsed (op : Z) (name : cstring) (d : list Z)
    (rest : list recv_result) (s : State) : State :=
  mkState op (Some name) None (d ++ replicate (516 - length d) 0)
    (block_number s) (retry s) (success s) rest (sendto_ok s) (disk_room s) (errno s)
    (cwd_writable s) (heap_ok s) (fs s) (trace s).

(** The last step of [validate_request]: the file check of the opcode. *)
Definition file_check : M bool :=
  let* op := gets opcode in
  if op =? TFTP_RRQ then Server.validate_download_file
  else if op =? TFTP_WRQ then Server.validate_upload_file
  else if op =? TFTP_DRQ then Server.validate_delete_file
  else ret true.

(** The opcode and the filename a request datagram carries. *)
Definition request_opcode (d : list Z) : Z := 256 * byte_at d 0 + byte_at d 1.

Definition request_name (d : list Z) : cstring := fst (split_nul (drop 2 d)).

(** A server between two requests that can take the next one. *)
Definition server_idle (s : State) : Prop :=
  filepath s = None /\ heap_ok s = true /\ sends_succeed s.

(** What the file checks ask of the directory: a read request needs a
    readable file, a write request a name that is free, a delete request a
    name that exists. *)
Definition file_rule (op : Z) (name : cstring) (dir : gmap cstring inode) : bool :=
  match dir !! name with
  | Some ino => if op =? TFTP_RRQ then i_readable ino else negb (op =? TFTP_WRQ)
  | None => op =? TFTP_WRQ
  end.

(** ** Sample machines *)

(** The server at rest with [a.bin] (three bytes) in its directory and
    these datagrams to come. *)
Definition server_with_a_bin (incoming : list (list Z)) : State :=
  set_inbox (arriving incoming) (set_fs {[ a_bin := mkInode [97; 98; 99] true ]} idle).

(** The same server in a directory that cannot be written. *)
Definition server_read_only (incoming : list (list Z)) : State :=
  mkState 0 None None zero_buffer 0 0 false (arriving incoming) [] 4096 ENOSPC false true
    {[ a_bin := mkInode [97; 98; 99] true ]} [].

(** The server at rest with an empty directory. *)
Definition server_empty (incoming : list (list Z)) : State :=
  set_inbox (arriving incoming) idle.

(** The client after [validate_arguments] for [delete a.bin]. *)
Definition client_delete (answers : list recv_result) : State :=
  set_inbox answers (set_filename (Some a_bin) (set_opcode TFTP_DRQ idle)).

(** The first [n] turns of the [while (1)] of the server's [prog]. *)
Fixpoint prog_turns (n : nat) : M unit :=
  match n with
  | O => ret tt
  | S k => Server.prog_iteration >> prog_turns k
  end.

(** ** The client's command line *)

(** What [validate_arguments] touches: the opcode, the name and the
    stream of the request. *)
Definition request_only (s s' : State) : Prop :=
  buffer s' = buffer s /\ block_number s' = block_number s /\ retry s' = retry s
  /\ success s' = success s /\ inbox s' = inbox s /\ sendto_ok s' = sendto_ok s
  /\ disk_room s' = disk_room s /\ errno s' = errno s /\ cwd_writable s' = cwd_writable s
  /\ heap_ok s' = heap_ok s /\ fs s' = fs s /\ trace s' = trace s.

(** A command line, with the name of the program and the address of the
    server. *)
Definition command_line (operation : string) (path : cstring) : list cstring :=
  [bytes_of_string "tftp"; bytes_of_string operation; path; bytes_of_string "127.0.0.1"].

(** Socket calls that all succeed. *)
Definition socket_up : Client.socket_calls := Client.mkSocketCalls 3 1.

(** The client when [main] starts, with [dir] as its directory and
    [answers] as what the server will send. *)
Definition client_start (dir : gmap cstring inode) (answers : list recv_result) : State :=
  set_inbox answers (set_fs dir idle).

(** A file of the client outside its working directory. *)
Definition docs_a_bin : cstring := bytes_of_string "docs/a.bin".

(** * Properties *)

(** ** Bytes *)

Lemma shiftr8_div (b : Z) : Z.shiftr b 8 = b / 256.
Proof. now rewrite Z.shiftr_div_pow2 by lia. Qed.

Lemma land255_mod (b : Z) : Z.land b 255 = b mod 256.
Proof. change 255 with (Z.ones 8). now rewrite Z.land_ones by lia. Qed.

Lemma to_uchar_hi (b : Z) : 0 <= b < 65536 -> to_uchar (Z.shiftr b 8) = b / 256.
Proof.
  intros Hb. unfold to_uchar. rewrite shiftr8_div.
  apply Z.mod_small. split; [apply Z.div_pos; lia | apply Z.div_lt_upper_bound; lia].
Qed.

Lemma to_uchar_lo (b : Z) : to_uchar (Z.land b 255) = b mod 256.
Proof. unfold to_uchar. rewrite land255_mod. apply Z.mod_mod. lia. Qed.

Lemma header_stores (a b c d : Z) (buf : list Z) :
  (4 <= length buf)%nat ->
  <[3%nat := d]> (<[2%nat := c]> (<[1%nat := b]> (<[0%nat := a]> buf)))
  = [a; b; c; d] ++ drop 4 buf.
Proof.
  destruct buf as [|x0 [|x1 [|x2 [|x3 buf]]]]; simpl; intros; try lia. reflexivity.
Qed.

Lemma length_blit (off : nat) (bytes buf : list Z) :
  (off + length bytes <= length buf)%nat -> length (blit off bytes buf) = length buf.
Proof.
  intros H. unfold blit. rewrite !length_app, length_take, length_drop. lia.
Qed.

(** ** [check_ack] compares two bytes with an [int] *)

Lemma check_ack_spec (buf : list Z) (bn : Z) :
  check_ack buf bn = true <-> byte_at buf 2 = bn / 256 /\ byte_at buf 3 = bn mod 256.
Proof.
  unfold check_ack. rewrite shiftr8_div, land255_mod.
  destruct (byte_at buf 2 =? bn / 256) eqn:E2; destruct (byte_at buf 3 =? bn mod 256) eqn:E3;
    simpl; try (destruct (negb _)); split; intros H; try discriminate; try reflexivity;
    try (destruct H; lia); lia.
Qed.

Lemma check_ack_range (buf : list Z) (bn : Z) :
  0 <= byte_at buf 2 < 256 -> check_ack buf bn = true -> 0 <= bn < 65536.
Proof.
  intros H2 H. apply check_ack_spec in H as [E2 E3]. rewrite E2 in H2.
  assert (bn = 256 * (bn / 256) + bn mod 256) by (apply Z.div_mod; lia).
  assert (0 <= bn mod 256 < 256) by (apply Z.mod_pos_bound; lia).
  lia.
Qed.

Lemma check_ack_other_block (b b' : Z) (rest : list Z) :
  0 <= b' < 65536 -> b <> b' -> check_ack (ack_packet b' ++ rest) b = false.
Proof.
  intros Hb' Hne. apply not_true_is_false. intros H.
  apply check_ack_spec in H as [E2 E3].
  change (byte_at (ack_packet b' ++ rest) 2) with (b' / 256) in E2.
  change (byte_at (ack_packet b' ++ rest) 3) with (b' mod 256) in E3.
  assert (b = 256 * (b / 256) + b mod 256) by (apply Z.div_mod; lia).
  assert (b' = 256 * (b' / 256) + b' mod 256) by (apply Z.div_mod; lia).
  lia.
Qed.

(** ** The monad *)

Lemma bind_Some {A B : Type} (m : M A) (k : A -> M B) (s : State) (r : B * State) :
  bind m k s = Some r <-> exists a s1, m s = Some (a, s1) /\ k a s1 = Some r.
Proof.
  unfold bind. destruct (m s) as [[a s1]|]; split.
  - intros H. exists a, s1. auto.
  - intros (a' & s1' & E & H). now inversion E; subst.
  - discriminate.
  - intros (a' & s1' & E & _). discriminate.
Qed.

Lemma bind_eq {A B : Type} (m : M A) (k : A -> M B) (s s1 : State) (a : A) :
  m s = Some (a, s1) -> bind m k s = k a s1.
Proof. intros H. unfold bind. now rewrite H. Qed.

(** ** Equations for the packet senders and [get_response] *)

Lemma send_ack_eq (bn : Z) (s : State) :
  (4 <= length (buffer s))%nat ->
  send_ack bn s =
  let hdr := [0; TFTP_ACK; to_uchar (Z.shiftr bn 8); to_uchar (Z.land bn 255)] in
  let ok := hd true (sendto_ok s) in
  Some (ok, log (EvSendto hdr ok)
              (set_sendto_ok (tl (sendto_ok s)) (set_buffer (hdr ++ drop 4 (buffer s)) s))).
Proof.
  intros H. unfold send_ack, bind, store, modify, sendto. simpl.
  rewrite header_stores by assumption. simpl.
  destruct (hd true (sendto_ok s)); reflexivity.
Qed.

Lemma send_data_packet_eq (n bn : Z) (s : State) :
  (4 <= length (buffer s))%nat ->
  0 <= n ->
  send_data_packet n bn s =
  let hdr := [0; TFTP_DATA; to_uchar (Z.shiftr bn 8); to_uchar (Z.land bn 255)] in
  let ok := hd true (sendto_ok s) in
  Some (ok, log (EvSendto (take (Z.to_nat (n + TFTP_DATA_HEADER_SIZE)) (hdr ++ drop 4 (buffer s))) ok)
              (set_sendto_ok (tl (sendto_ok s)) (set_buffer (hdr ++ drop 4 (buffer s)) s))).
Proof.
  intros H Hn. unfold send_data_packet, bind, store, modify, sendto. simpl.
  rewrite header_stores by assumption.
  destruct (hd true (sendto_ok s)); simpl; [|reflexivity].
  destruct (n + TFTP_DATA_HEADER_SIZE <? 0) eqn:E; [|reflexivity].
  apply Z.ltb_lt in E. unfold TFTP_DATA_HEADER_SIZE, TFTP_OPCODE_SIZE, TFTP_BLOCK_NUMBER_SIZE in E. lia.
Qed.

Lemma print_error_quiet (off : nat) (s : State) :
  existsb (Z.eqb 0) (drop 4 (drop off (buffer s))) = true ->
  exists line, print_error off TFTP_MAX_PACKET_SIZE s = Some (line, s).
Proof.
  intros H. unfold print_error.
  change (TFTP_MAX_PACKET_SIZE <? TFTP_MIN_ERROR_PACKET) with false.
  change (TFTP_MAX_PACKET_SIZE <? TFTP_MIN_ERROR_PACKET + 1) with false.
  change (Z.to_nat (TFTP_OPCODE_SIZE + TFTP_ERROR_CODE_SIZE)) with 4%nat.
  cbv iota zeta. rewrite H. eexists. reflexivity.
Qed.

Lemma print_error_past_buffer (off : nat) (s : State) :
  existsb (Z.eqb 0) (drop 4 (drop off (buffer s))) = false ->
  print_error off TFTP_MAX_PACKET_SIZE s = None.
Proof.
  intros H. unfold print_error.
  change (TFTP_MAX_PACKET_SIZE <? TFTP_MIN_ERROR_PACKET) with false.
  change (TFTP_MAX_PACKET_SIZE <? TFTP_MIN_ERROR_PACKET + 1) with false.
  change (Z.to_nat (TFTP_OPCODE_SIZE + TFTP_ERROR_CODE_SIZE)) with 4%nat.
  cbv iota zeta. now rewrite H.
Qed.

(** [get_response] on a datagram: when the datagram makes an ERROR packet
    of the buffer, [print_error] reads its message, which has to end inside
    the buffer. *)
Lemma get_response_dgram (d : list Z) (rest : list recv_result) (s : State) :
  inbox s = RecvDgram d :: rest ->
  (byte_at (blit 0 (take (Z.to_nat TFTP_MAX_PACKET_SIZE) d) (buffer s)) 1 = TFTP_ERROR ->
   existsb (Z.eqb 0) (drop 4 (blit 0 (take (Z.to_nat TFTP_MAX_PACKET_SIZE) d) (buffer s)))
   = true) ->
  get_response s =
  let d' := take (Z.to_nat TFTP_MAX_PACKET_SIZE) d in
  let buf' := blit 0 d' (buffer s) in
  Some (response_code (byte_at buf' 1) (Z.of_nat (length d')),
        set_buffer buf' (set_inbox rest s)).
Proof.
  intros H Hmsg. unfold get_response. unfold bind at 1, recvfrom. rewrite H.
  cbv zeta.
  match goal with |- context [Z.of_nat ?n <? 0] =>
    replace (Z.of_nat n <? 0) with false by (symmetry; apply Z.ltb_ge; lia) end.
  unfold bind at 1, gets at 1. cbn [buffer set_buffer]. unfold response_code.
  destruct (byte_at _ 1 =? TFTP_ACK); [reflexivity|].
  destruct (byte_at _ 1 =? TFTP_DATA); [reflexivity|].
  destruct (Z.eqb_spec (byte_at (blit 0 (take (Z.to_nat TFTP_MAX_PACKET_SIZE) d) (buffer s)) 1)
              TFTP_ERROR) as [E|_]; [|reflexivity].
  set (s1 := set_buffer _ _).
  destruct (print_error_quiet 0 s1 (Hmsg E)) as [line El].
  unfold bind. rewrite El. reflexivity.
Qed.

Ltac other_opcode := let E := fresh "E" in intros E; vm_compute in E; discriminate E.

(** The same on a datagram that carries another opcode than ERROR. *)
Lemma get_response_other (d : list Z) (rest : list recv_result) (s : State) :
  inbox s = RecvDgram d :: rest ->
  (2 <= length d)%nat ->
  byte_at d 1 <> TFTP_ERROR ->
  get_response s =
  let d' := take (Z.to_nat TFTP_MAX_PACKET_SIZE) d in
  let buf' := blit 0 d' (buffer s) in
  Some (response_code (byte_at buf' 1) (Z.of_nat (length d')),
        set_buffer buf' (set_inbox rest s)).
Proof.
  intros H Hlen Hop. apply (get_response_dgram d rest s H).
  intros E. exfalso. apply Hop. rewrite <- E.
  destruct d as [|d0 [|d1 d]]; [simpl in Hlen; lia | simpl in Hlen; lia | reflexivity].
Qed.

(** An ERROR packet whose message does not end inside the buffer: the read
    of [print_error] leaves the buffer. *)
Lemma get_response_past_buffer (d : list Z) (rest : list recv_result) (s : State) :
  inbox s = RecvDgram d :: rest ->
  byte_at (blit 0 (take (Z.to_nat TFTP_MAX_PACKET_SIZE) d) (buffer s)) 1 = TFTP_ERROR ->
  existsb (Z.eqb 0) (drop 4 (blit 0 (take (Z.to_nat TFTP_MAX_PACKET_SIZE) d) (buffer s)))
  = false ->
  get_response s = None.
Proof.
  intros H E Hmsg. unfold get_response. unfold bind at 1, recvfrom. rewrite H.
  cbv zeta.
  match goal with |- context [Z.of_nat ?n <? 0] =>
    replace (Z.of_nat n <? 0) with false by (symmetry; apply Z.ltb_ge; lia) end.
  unfold bind at 1, gets at 1. cbn [buffer set_buffer]. rewrite E.
  change (TFTP_ERROR =? TFTP_ACK) with false. change (TFTP_ERROR =? TFTP_DATA) with false.
  change (TFTP_ERROR =? TFTP_ERROR) with true. cbv iota.
  set (s1 := set_buffer _ _).
  unfold bind. now rewrite (print_error_past_buffer 0 s1 Hmsg).
Qed.

Lemma get_response_fail (s : State) :
  inbox s = [] \/ (exists rest, inbox s = RecvFail :: rest) ->
  exists s', get_response s = Some (-1, s') /\ trace s' = trace s /\ buffer s' = buffer s
    /\ success s' = success s /\ fs s' = fs s /\ filepath s' = filepath s
    /\ filename s' = filename s.
Proof.
  intros [H|[rest H]]; unfold get_response, bind, recvfrom; rewrite H; simpl;
    eexists; (split; [reflexivity|]); repeat split.
Qed.

(** ** Equations for [validate_and_retry] *)

Lemma validate_and_retry_accept_send (n : Z) (s : State) :
  check_ack (buffer s) (block_number s) = true ->
  validate_and_retry n true s =
  Some (true, set_success true (set_block_number (block_number s + 1) (set_retry 0 s))).
Proof.
  intros H. unfold validate_and_retry, bind, gets, modify. simpl. rewrite H. reflexivity.
Qed.

Lemma validate_and_retry_accept_receive (n : Z) (s : State) :
  (4 <= length (buffer s))%nat ->
  check_ack (buffer s) (block_number s) = true ->
  validate_and_retry n false s =
  let bn := block_number s in
  let hdr := [0; TFTP_ACK; to_uchar (Z.shiftr bn 8); to_uchar (Z.land bn 255)] in
  let ok := hd true (sendto_ok s) in
  Some (true,
        set_success true (set_block_number (bn + 1) (set_retry 0
          (log (EvSendto hdr ok)
             (set_sendto_ok (tl (sendto_ok s)) (set_buffer (hdr ++ drop 4 (buffer s)) s)))))).
Proof.
  intros Hlen H. unfold validate_and_retry, bind, gets, modify. simpl. rewrite H. simpl.
  unfold bind. rewrite send_ack_eq by assumption. reflexivity.
Qed.

Lemma validate_and_retry_again_receive (n : Z) (s : State) :
  (4 <= length (buffer s))%nat ->
  check_ack (buffer s) (block_number s) = false ->
  retry s + 1 < TFTP_MAX_RETRIES ->
  validate_and_retry n false s =
  let bn := block_number s in
  let hdr := [0; TFTP_ACK; to_uchar (Z.shiftr bn 8); to_uchar (Z.land bn 255)] in
  let ok := hd true (sendto_ok s) in
  Some (true,
        log (EvSendto hdr ok)
          (set_sendto_ok (tl (sendto_ok s))
             (set_buffer (hdr ++ drop 4 (buffer s))
                (set_retry (retry s + 1) (set_success false s))))).
Proof.
  intros Hlen H Hr. unfold validate_and_retry, bind, gets, modify. simpl. rewrite H. simpl.
  replace (retry s + 1 >=? TFTP_MAX_RETRIES) with false
    by (symmetry; rewrite Z.geb_leb; apply Z.leb_gt; lia).
  unfold bind. rewrite send_ack_eq by assumption. reflexivity.
Qed.

Lemma validate_and_retry_exhausted (n : Z) (up : bool) (s : State) :
  check_ack (buffer s) (block_number s) = false ->
  TFTP_MAX_RETRIES <= retry s + 1 ->
  validate_and_retry n up s = Some (false, set_retry (retry s + 1) (set_success false s)).
Proof.
  intros H Hr. unfold validate_and_retry, bind, gets, modify. simpl. rewrite H. simpl.
  replace (retry s + 1 >=? TFTP_MAX_RETRIES) with true
    by (symmetry; rewrite Z.geb_leb; apply Z.leb_le; lia).
  reflexivity.
Qed.

Lemma fread_eq (off : nat) (count : Z) (f : FILE) (s : State) :
  filepath s = Some f ->
  fread off count s =
  let bytes := take (Z.to_nat count) (drop (f_pos f) (f_data f)) in
  Some (Z.of_nat (length bytes),
        set_filepath (Some (mkFILE (f_path f) (f_data f) (f_pos f + length bytes)%nat))
          (set_buffer (blit off bytes (buffer s)) s)).
Proof. intros H. unfold fread. now rewrite H. Qed.

Lemma blit_front (d buf : list Z) :
  (length d <= length buf)%nat -> blit 0 d buf = d ++ drop (length d) buf.
Proof. intros _. unfold blit. now rewrite take_0. Qed.

Lemma drop_blit (off : nat) (bytes buf : list Z) :
  (off <= length buf)%nat ->
  drop off (blit off bytes buf) = bytes ++ drop (off + length bytes) buf.
Proof.
  intros H. unfold blit. rewrite drop_app_length'; [reflexivity|].
  rewrite length_take. lia.
Qed.

(** C6.  In the send loop, an ACK that carries the block number just sent
    resets the retry counter to 0, adds 1 to the block number and sets the
    success flag; when the payload just sent was shorter than 512 bytes the
    loop body then returns [false], which ends the loop with the success flag
    set, and it returns [true] (more to send) after a full block. *)
Theorem send_correct_ack_advances (s : State) (f : FILE) (rest : list recv_result) :
  let payload := take 512 (drop (f_pos f) (f_data f)) in
  let b := block_number s in
  filepath s = Some f ->
  length (buffer s) = 516%nat ->
  (0 < length payload)%nat ->
  hd true (sendto_ok s) = true ->
  0 <= b < 65536 ->
  inbox s = RecvDgram (ack_packet b) :: rest ->
  exists s',
    process_transfer_send s = Some (negb (Z.of_nat (length payload) <? 512), s')
    /\ retry s' = 0
    /\ block_number s' = b + 1
    /\ success s' = true
    /\ trace s' = trace s ++ [EvSendto (data_packet b payload) true].
Proof.
  intros payload b.
  assert (Epl : take 512 (drop (f_pos f) (f_data f)) = payload) by reflexivity.
  assert (Eb : block_number s = b) by reflexivity.
  clearbody payload b. intros Hf Hlen Hne Hok Hb Hin.
  assert (Hpl : (length payload <= 512)%nat) by (subst payload; rewrite length_take; lia).
  assert (Hpos : 0 < Z.of_nat (length payload)) by lia.
  unfold process_transfer_send.
  rewrite (bind_eq _ _ _ _ _ (fread_eq _ _ _ _ Hf)).
  cbv zeta. change (Z.to_nat TFTP_MAX_DATA_SIZE) with 512%nat. rewrite Epl.
  change (Z.to_nat TFTP_DATA_HEADER_SIZE) with 4%nat.
  replace (Z.of_nat (length payload) <=? 0) with false by (symmetry; apply Z.leb_gt; lia).
  set (s1 := set_filepath _ _).
  assert (Hlen1 : length (buffer s1) = 516%nat).
  { subst s1. cbn [buffer set_filepath set_buffer]. rewrite length_blit; lia. }
  unfold bind at 1, gets at 1.
  replace (block_number s1) with b by (symmetry; exact Eb).
  rewrite (bind_eq _ _ _ _ _
             (send_data_packet_eq (Z.of_nat (length payload)) b s1 ltac:(lia) ltac:(lia))).
  cbv zeta. replace (hd true (sendto_ok s1)) with true by (symmetry; exact Hok).
  cbn [negb].
  set (s2 := log _ _).
  assert (Hin2 : inbox s2 = RecvDgram (ack_packet b) :: rest) by exact Hin.
  rewrite (bind_eq _ _ _ _ _ (get_response_other _ _ _ Hin2 ltac:(simpl; lia) ltac:(other_opcode))).
  cbv zeta.
  change (take (Z.to_nat TFTP_MAX_PACKET_SIZE) (ack_packet b)) with (ack_packet b).
  change (blit 0 (ack_packet b) (buffer s2)) with (ack_packet b ++ drop 4 (buffer s2)).
  change (byte_at (ack_packet b ++ drop 4 (buffer s2)) 1) with TFTP_ACK.
  change (response_code TFTP_ACK _) with 1. change (1 <? 0) with false. cbv iota.
  set (s3 := set_buffer _ _).
  assert (Hck : check_ack (buffer s3) (block_number s3) = true).
  { apply check_ack_spec. change (block_number s3) with (block_number s). rewrite Eb.
    split; reflexivity. }
  rewrite (bind_eq _ _ _ _ _ (validate_and_retry_accept_send _ _ Hck)).
  cbn [negb]. unfold bind, gets, ret.
  eexists. split.
  { cbn [success set_success]. rewrite andb_true_r.
    change TFTP_MAX_DATA_SIZE with 512.
    destruct (Z.of_nat (length payload) <? 512); reflexivity. }
  split; [reflexivity|]. split; [cbn; lia|]. split; [reflexivity|].
  cbn [trace set_success set_block_number set_retry s3 set_buffer set_inbox s2 log
       set_sendto_ok s1 set_filepath buffer].
  do 3 f_equal.
  rewrite to_uchar_hi by lia. rewrite to_uchar_lo.
  rewrite drop_blit by lia.
  replace (Z.to_nat (Z.of_nat (length payload) + TFTP_DATA_HEADER_SIZE))
    with (4 + length payload)%nat
    by (unfold TFTP_DATA_HEADER_SIZE, TFTP_OPCODE_SIZE, TFTP_BLOCK_NUMBER_SIZE; lia).
  unfold data_packet.
  change ([0; TFTP_DATA; b / 256; b mod 256] ++ payload ++ ?r)
    with (([0; TFTP_DATA; b / 256; b mod 256] ++ payload) ++ r).
  apply take_app_length'. rewrite length_app. reflexivity.
Qed.

Lemma write_to_file_eq (off : nat) (len : Z) (f : FILE) (s : State) :
  filepath s = Some f ->
  0 <= len ->
  (off + Z.to_nat len <= length (buffer s))%nat ->
  write_to_file off len s =
  let bytes := take (Z.to_nat len) (drop off (buffer s)) in
  let k := Nat.min (Z.to_nat len) (disk_room s) in
  let s' := log (EvFwrite bytes k)
              (set_disk_room (disk_room s - k)%nat
                 (set_filepath (Some (mkFILE (f_path f) (f_data f ++ take k bytes) (f_pos f)))
                    s)) in
  if Z.of_nat k =? len then Some (true, s')
  else if existsb (Z.eqb 0) (drop 4 (drop off (buffer s))) then Some (false, s')
       else None.
Proof.
  intros Hf Hlen Hb. unfold write_to_file.
  replace (len <? 0) with false by (symmetry; apply Z.ltb_ge; lia).
  unfold bind at 1, fwrite. rewrite Hf.
  destruct (decide (off + Z.to_nat len <= length (buffer s))%nat) as [_|n]; [|contradiction].
  cbv zeta.
  destruct (Z.of_nat (Nat.min (Z.to_nat len) (disk_room s)) =? len); cbn [negb].
  - reflexivity.
  - set (s' := log _ _).
    unfold bind at 1, gets at 1.
    assert (Ee : (match errno s' with
                  | ENOSPC => send_error_packet None ERROR_DISK_FULL None
                  | EACCES | EPERM => send_error_packet None ERROR_ACCESS_VIOLATION None
                  | EIO => send_error_packet None ERROR_UNDEFINED None
                  end) s' = Some (tt, s')).
    { destruct (errno s'); reflexivity. }
    rewrite (bind_eq _ _ _ _ _ Ee).
    change (buffer s) with (buffer s').
    destruct (existsb (Z.eqb 0) (drop 4 (drop off (buffer s')))) eqn:En.
    + destruct (print_error_quiet off s' En) as [line El].
      unfold bind. rewrite El. reflexivity.
    + unfold bind. now rewrite (print_error_past_buffer off s' En).
Qed.

(** A write the disk has room for. *)
Lemma write_to_file_stored (off : nat) (len : Z) (f : FILE) (s : State) :
  filepath s = Some f ->
  0 <= len ->
  (off + Z.to_nat len <= length (buffer s))%nat ->
  (Z.to_nat len <= disk_room s)%nat ->
  write_to_file off len s =
  let bytes := take (Z.to_nat len) (drop off (buffer s)) in
  Some (true,
        log (EvFwrite bytes (Z.to_nat len))
          (set_disk_room (disk_room s - Z.to_nat len)%nat
             (set_filepath (Some (mkFILE (f_path f) (f_data f ++ bytes) (f_pos f))) s))).
Proof.
  intros Hf Hlen Hb Hroom. rewrite (write_to_file_eq off len f s Hf Hlen Hb). cbv zeta.
  rewrite Nat.min_l by exact Hroom.
  replace (Z.of_nat (Z.to_nat len) =? len) with true by (symmetry; apply Z.eqb_eq; lia).
  rewrite (take_ge (take (Z.to_nat len) (drop off (buffer s)))) by (rewrite length_take; lia).
  reflexivity.
Qed.

(** C10.  On the receive path the loop body acknowledges an accepted DATA
    block and advances the expected block number before it writes the
    payload: its first two steps, [get_response] and [validate_and_retry],
    end with the ACK sent, the block number advanced and the file untouched,
    and the rest of the body is the call of [write_to_file] in that state.
    When the disk has room for the payload, or has not and the message
    [print_error] then reads at [buffer + 8] ends inside the buffer, the
    body returns with the [sendto] of the ACK first in the trace and the
    [fwrite] second; a write that falls short makes it return [false] with
    the block acknowledged, the expected block number advanced and the block
    not stored in full. *)
Theorem ack_precedes_write (s : State) (f : FILE) (payload : list Z)
    (rest : list recv_result) :
  let b := block_number s in
  let k := Nat.min (length payload) (disk_room s) in
  filepath s = Some f ->
  length (buffer s) = 516%nat ->
  (length payload <= 512)%nat ->
  0 <= b < 65536 ->
  inbox s = RecvDgram (data_packet b payload) :: rest ->
  exists s_ack,
    (let* len := get_response in validate_and_retry 0 false) s = Some (true, s_ack)
    /\ trace s_ack = trace s ++ [EvSendto (ack_packet b) (hd true (sendto_ok s))]
    /\ block_number s_ack = b + 1
    /\ filepath s_ack = Some f
    /\ buffer s_ack = ack_packet b ++ payload ++ drop (4 + length payload) (buffer s)
    /\ process_transfer_receive s
       = (let* written := write_to_file 4 (Z.of_nat (length payload)) in
          if negb written then ret false
          else
            let* succ := gets success in
            if (Z.of_nat (4 + length payload) <? TFTP_MAX_PACKET_SIZE) && succ
            then ret false else ret true) s_ack
    /\ ((length payload <= disk_room s)%nat
        \/ existsb (Z.eqb 0) (drop 8 (buffer s_ack)) = true ->
        exists r s',
          process_transfer_receive s = Some (r, s')
          /\ trace s' = trace s ++ [EvSendto (ack_packet b) (hd true (sendto_ok s));
                                    EvFwrite payload k]
          /\ block_number s' = b + 1
          /\ filepath s' = Some (mkFILE (f_path f) (f_data f ++ take k payload) (f_pos f))
          /\ ((k < length payload)%nat -> r = false)).
Proof.
  intros b k.
  assert (Eb : block_number s = b) by reflexivity.
  assert (Ek : Nat.min (length payload) (disk_room s) = k) by reflexivity.
  clearbody b k. intros Hf Hlen Hpl Hb Hin.
  assert (Eld : length (data_packet b payload) = (4 + length payload)%nat) by reflexivity.
  assert (Eg := get_response_other _ _ _ Hin ltac:(rewrite Eld; lia) ltac:(other_opcode)).
  cbv zeta in Eg.
  assert (Etake : take (Z.to_nat TFTP_MAX_PACKET_SIZE) (data_packet b payload)
                  = data_packet b payload).
  { apply take_ge. rewrite Eld. change (Z.to_nat TFTP_MAX_PACKET_SIZE) with 516%nat. lia. }
  rewrite Etake in Eg.
  rewrite blit_front in Eg by (rewrite Eld; lia).
  change (byte_at (data_packet b payload ++ _) 1) with TFTP_DATA in Eg.
  change (response_code TFTP_DATA ?l) with l in Eg.
  rewrite Eld in Eg.
  set (s1 := set_buffer _ _) in Eg.
  assert (Hlen1 : length (buffer s1) = 516%nat).
  { subst s1. cbn [buffer set_buffer]. rewrite length_app, length_drop, Eld. lia. }
  assert (Hck : check_ack (buffer s1) (block_number s1) = true).
  { apply check_ack_spec. change (block_number s1) with (block_number s). rewrite Eb.
    split; reflexivity. }
  assert (Ev := validate_and_retry_accept_receive 0 s1 ltac:(lia) Hck).
  cbv zeta in Ev.
  change (block_number s1) with (block_number s) in Ev. rewrite Eb in Ev.
  change (hd true (sendto_ok s1)) with (hd true (sendto_ok s)) in Ev.
  rewrite to_uchar_hi in Ev by lia. rewrite to_uchar_lo in Ev. fold (ack_packet b) in Ev.
  set (s2 := set_success _ _) in Ev.
  assert (Hf2 : filepath s2 = Some f) by exact Hf.
  assert (Hbuf2 : buffer s2 = ack_packet b ++ payload ++ drop (4 + length payload) (buffer s)).
  { subst s2 s1. cbn [buffer set_success set_block_number set_retry log set_sendto_ok
                      set_buffer set_inbox].
    reflexivity. }
  assert (Ebody : process_transfer_receive s
                  = (let* written := write_to_file 4 (Z.of_nat (length payload)) in
                     if negb written then ret false
                     else
                       let* succ := gets success in
                       if (Z.of_nat (4 + length payload) <? TFTP_MAX_PACKET_SIZE) && succ
                       then ret false else ret true) s2).
  { unfold process_transfer_receive.
    rewrite (bind_eq _ _ _ _ _ Eg).
    replace (Z.of_nat (4 + length payload) <? 0) with false
      by (symmetry; apply Z.ltb_ge; lia).
    rewrite (bind_eq _ _ _ _ _ Ev). cbn [negb].
    change (Z.to_nat TFTP_DATA_HEADER_SIZE) with 4%nat.
    replace (Z.of_nat (4 + length payload) - TFTP_DATA_HEADER_SIZE)
      with (Z.of_nat (length payload))
      by (unfold TFTP_DATA_HEADER_SIZE, TFTP_OPCODE_SIZE, TFTP_BLOCK_NUMBER_SIZE; lia).
    reflexivity. }
  exists s2.
  split. { rewrite (bind_eq _ _ _ _ _ Eg). exact Ev. }
  split; [reflexivity|].
  split; [subst s2 s1; cbn; lia|].
  split; [exact Hf2|].
  split; [exact Hbuf2|].
  split; [exact Ebody|].
  intros Hdef. rewrite Ebody.
  assert (Hw := write_to_file_eq 4 (Z.of_nat (length payload)) f s2 Hf2 ltac:(lia)
                  ltac:(rewrite Hbuf2, !length_app, length_drop; simpl; lia)).
  cbv zeta in Hw. rewrite Nat2Z.id in Hw.
  replace (disk_room s2) with (disk_room s) in Hw by reflexivity. rewrite Ek in Hw.
  assert (Ebytes : take (length payload) (drop 4 (buffer s2)) = payload).
  { rewrite Hbuf2. change (drop 4 (ack_packet b ++ ?r)) with r.
    apply take_app_length. }
  rewrite Ebytes in Hw.
  change (drop 4 (drop 4 (buffer s2))) with (drop 8 (buffer s2)) in Hw.
  set (s3 := log _ _) in Hw.
  assert (Htr3 : trace s3 = trace s ++ [EvSendto (ack_packet b) (hd true (sendto_ok s));
                                        EvFwrite payload k]).
  { subst s3 s2 s1. cbn. rewrite <- app_assoc. reflexivity. }
  assert (Hbn3 : block_number s3 = b + 1) by (subst s3 s2 s1; cbn; lia).
  destruct (Z.of_nat k =? Z.of_nat (length payload)) eqn:Ew.
  - rewrite (bind_eq _ _ _ _ _ Hw). cbn [negb]. unfold bind, gets.
    exists (negb ((Z.of_nat (4 + length payload) <? TFTP_MAX_PACKET_SIZE) && success s3)), s3.
    split; [destruct (_ && _); reflexivity|].
    split; [exact Htr3|]. split; [exact Hbn3|]. split; [reflexivity|].
    intros Hk. apply Z.eqb_eq in Ew. lia.
  - assert (Hnul : existsb (Z.eqb 0) (drop 8 (buffer s2)) = true).
    { destruct Hdef as [Hroom|Hnul]; [|exact Hnul].
      apply Z.eqb_neq in Ew. lia. }
    rewrite Hnul in Hw. rewrite (bind_eq _ _ _ _ _ Hw). cbn [negb].
    exists false, s3. split; [reflexivity|].
    split; [exact Htr3|]. split; [exact Hbn3|]. split; reflexivity.
Qed.

(** ** What the engine does to its three counters *)

Lemma sendto_kept (len : Z) (s : State) (r : Z) (s' : State) :
  sendto len s = Some (r, s') -> locals_kept s s'.
Proof. unfold sendto. intros H. inversion H; subst. now repeat split. Qed.

Lemma send_ack_kept (bn : Z) (s : State) (r : bool) (s' : State) :
  send_ack bn s = Some (r, s') -> locals_kept s s'.
Proof.
  unfold send_ack, bind, store, modify, sendto. cbn. intros H.
  destruct (hd true (sendto_ok s)); cbn in H; inversion H; subst; now repeat split.
Qed.

Lemma send_data_packet_kept (n bn : Z) (s : State) (r : bool) (s' : State) :
  send_data_packet n bn s = Some (r, s') -> locals_kept s s'.
Proof.
  unfold send_data_packet, bind, store, modify, sendto. cbn. intros H.
  destruct (hd true (sendto_ok s)); cbn in H;
    try destruct (n + TFTP_DATA_HEADER_SIZE <? 0); inversion H; subst; now repeat split.
Qed.

Lemma fseek_cur_kept (delta : Z) (s : State) (r : Z) (s' : State) :
  fseek_cur delta s = Some (r, s') -> locals_kept s s'.
Proof.
  unfold fseek_cur. destruct (filepath s); [|discriminate].
  destruct (_ <? 0); intros H; inversion H; subst; now repeat split.
Qed.

Lemma fread_kept (off : nat) (count : Z) (s : State) (r : Z) (s' : State) :
  fread off count s = Some (r, s') -> locals_kept s s'.
Proof.
  unfold fread. destruct (filepath s); [|discriminate].
  intros H; inversion H; subst; now repeat split.
Qed.

Lemma print_error_same (off : nat) (len : Z) (s : State) (line : console_line)
    (s' : State) :
  print_error off len s = Some (line, s') -> s' = s.
Proof.
  unfold print_error. intros H.
  repeat match type of H with
         | (if ?c then _ else _) = _ => destruct c
         end; now inversion H.
Qed.

(** [get_response] has a result exactly as [recvfrom] leaves the state: the
    buffer holds the datagram, if there was one, and nothing else changed. *)
Lemma get_response_state (s : State) (r : Z) (s' : State) :
  get_response s = Some (r, s') ->
  match inbox s with
  | [] => s' = s
  | RecvFail :: rest => s' = set_inbox rest s
  | RecvDgram d :: rest =>
      s' = set_buffer (blit 0 (take (Z.to_nat TFTP_MAX_PACKET_SIZE) d) (buffer s))
             (set_inbox rest s)
  end.
Proof.
  unfold get_response. unfold bind at 1, recvfrom.
  destruct (inbox s) as [|[|d] rest]; cbv zeta.
  - cbn. intros H. now inversion H.
  - cbn. intros H. now inversion H.
  - destruct (_ <? 0); [intros H; now inversion H|].
    unfold bind at 1, gets at 1.
    destruct (_ =? TFTP_ACK); [intros H; now inversion H|].
    destruct (_ =? TFTP_DATA); [intros H; now inversion H|].
    destruct (_ =? TFTP_ERROR); [|intros H; now inversion H].
    intros H. apply bind_Some in H as (line & s1 & H1 & H).
    apply print_error_same in H1. inversion H. congruence.
Qed.

Lemma get_response_kept (s : State) (r : Z) (s' : State) :
  get_response s = Some (r, s') -> locals_kept s s'.
Proof.
  intros H. apply get_response_state in H.
  destruct (inbox s) as [|[|d] rest]; subst s'; now repeat split.
Qed.

(** [write_to_file] has a result exactly as [fwrite] leaves the state. *)
Lemma write_to_file_state (off : nat) (len : Z) (s : State) (r : bool) (s' : State) :
  write_to_file off len s = Some (r, s') ->
  (len < 0 /\ s' = s)
  \/ (0 <= len /\ exists n, fwrite off (Z.to_nat len) s = Some (n, s')).
Proof.
  unfold write_to_file. destruct (Z.ltb_spec len 0) as [Hneg|Hpos].
  - intros H. left. split; [exact Hneg | now inversion H].
  - intros H. right. split; [exact Hpos|].
    apply bind_Some in H as (n & s1 & H1 & H). exists n. rewrite H1.
    destruct (negb (n =? len)); [|now inversion H].
    unfold bind at 1, gets at 1 in H.
    apply bind_Some in H as (u & s2 & H2 & H).
    assert (E2 : s2 = s1) by (destruct (errno s1); now inversion H2).
    apply bind_Some in H as (line & s3 & H3 & H).
    apply print_error_same in H3. inversion H. congruence.
Qed.

Lemma write_to_file_kept (off : nat) (len : Z) (s : State) (r : bool) (s' : State) :
  write_to_file off len s = Some (r, s') -> locals_kept s s'.
Proof.
  intros H. apply write_to_file_state in H as [[_ ->] | [_ [n H]]]; [now repeat split|].
  unfold fwrite in H. destruct (filepath s); [|discriminate].
  destruct (decide _); [|discriminate]. inversion H; subst. now repeat split.
Qed.

Lemma validate_and_retry_verdict (n : Z) (up : bool) (s : State) (r : bool) (s' : State) :
  validate_and_retry n up s = Some (r, s') -> verdict s r s'.
Proof.
  unfold validate_and_retry. unfold bind at 1 2, gets at 1 2.
  destruct (check_ack (buffer s) (block_number s)) eqn:Hck; cbn [negb].
  - intros H. apply bind_Some in H as (u & s1 & H1 & H).
    assert (K : locals_kept s s1).
    { destruct up; cbn [negb] in H1.
      - inversion H1; subst. now repeat split.
      - apply bind_Some in H1 as (b & s0 & Ha & H1). inversion H1; subst.
        eapply send_ack_kept; eauto. }
    destruct K as (Kb & Kr & Ks).
    unfold bind, modify, ret in H. cbn in H. inversion H; subst.
    apply verdict_accept; cbn; auto. now rewrite Kb.
  - unfold bind at 1 2 3, modify at 1 2, gets at 1. cbn [retry set_retry set_success].
    destruct (retry s + 1 >=? TFTP_MAX_RETRIES) eqn:Hr.
    + intros H. inversion H; subst. apply verdict_abort; auto.
    + assert (Hlt : retry s + 1 < TFTP_MAX_RETRIES).
      { rewrite Z.geb_leb in Hr. apply Z.leb_gt in Hr. exact Hr. }
      destruct up.
      * intros H. apply bind_Some in H as (rc & s1 & H1 & H).
        apply fseek_cur_kept in H1 as (Kb & Kr & Ks). cbn in Kb, Kr, Ks.
        destruct (negb (rc =? 0)).
        -- inversion H; subst. apply verdict_abort; auto.
        -- apply bind_Some in H as (b & s2 & H2 & H). inversion H; subst.
           apply send_data_packet_kept in H2 as (Kb2 & Kr2 & Ks2).
           apply verdict_again; auto; congruence.
      * intros H. apply bind_Some in H as (b & s2 & H2 & H). inversion H; subst.
        apply send_ack_kept in H2 as (Kb2 & Kr2 & Ks2). cbn in Kb2, Kr2, Ks2.
        apply verdict_again; auto; congruence.
Qed.

Lemma verdict_outcome (s0 s : State) (r : bool) (s' : State) :
  locals_kept s0 s -> verdict s r s' -> outcome s0 r s'.
Proof.
  intros (Kb & Kr & Ks) [].
  - apply outcome_accept; congruence.
  - apply outcome_again; congruence.
  - apply outcome_abort; congruence.
Qed.

Lemma outcome_kept_after (s0 : State) (r r' : bool) (s s' : State) :
  outcome s0 r s -> locals_kept s s' -> (r = false -> r' = false) -> outcome s0 r' s'.
Proof.
  intros O (Kb & Kr & Ks) Hr. destruct O as [E K|?|?|E].
  - apply outcome_stop; auto. destruct K as (? & ? & ?). repeat split; congruence.
  - apply outcome_accept; congruence.
  - apply outcome_again; congruence.
  - apply outcome_abort; auto; congruence.
Qed.

Lemma process_transfer_send_outcome (s : State) (r : bool) (s' : State) :
  process_transfer_send s = Some (r, s') -> outcome s r s'.
Proof.
  unfold process_transfer_send. intros H.
  apply bind_Some in H as (n & s1 & H1 & H). apply fread_kept in H1 as K1.
  destruct (n <=? 0).
  { inversion H; subst. now apply outcome_stop. }
  unfold bind at 1, gets at 1 in H.
  apply bind_Some in H as (sent & s2 & H2 & H). apply send_data_packet_kept in H2 as K2.
  assert (K12 : locals_kept s s2).
  { destruct K1 as (? & ? & ?), K2 as (? & ? & ?). repeat split; congruence. }
  destruct sent; cbn [negb] in H.
  2:{ inversion H; subst. now apply outcome_stop. }
  apply bind_Some in H as (resp & s3 & H3 & H). apply get_response_kept in H3 as K3.
  assert (K13 : locals_kept s s3).
  { destruct K12 as (? & ? & ?), K3 as (? & ? & ?). repeat split; congruence. }
  destruct (resp <? 0).
  { inversion H; subst. now apply outcome_stop. }
  apply bind_Some in H as (ok & s4 & H4 & H). apply validate_and_retry_verdict in H4.
  assert (O := verdict_outcome _ _ _ _ K13 H4).
  destruct ok; cbn [negb] in H.
  2:{ inversion H; subst. exact O. }
  unfold bind, gets in H.
  destruct (_ && _); inversion H; subst.
  - eapply outcome_kept_after; [exact O | now repeat split | auto].
  - exact O.
Qed.

Lemma process_transfer_receive_outcome (s : State) (r : bool) (s' : State) :
  process_transfer_receive s = Some (r, s') -> outcome s r s'.
Proof.
  unfold process_transfer_receive. intros H.
  apply bind_Some in H as (len & s1 & H1 & H). apply get_response_kept in H1 as K1.
  destruct (len <? 0).
  { inversion H; subst. now apply outcome_stop. }
  apply bind_Some in H as (ok & s2 & H2 & H). apply validate_and_retry_verdict in H2.
  assert (O := verdict_outcome _ _ _ _ K1 H2).
  destruct ok; cbn [negb] in H.
  2:{ inversion H; subst. exact O. }
  apply bind_Some in H as (w & s3 & H3 & H). apply write_to_file_kept in H3 as K3.
  destruct w; cbn [negb] in H.
  2:{ inversion H; subst. eapply outcome_kept_after; [exact O | exact K3 | auto]. }
  unfold bind, gets in H.
  destruct (_ && _); inversion H; subst;
    (eapply outcome_kept_after; [exact O | exact K3 | auto]).
Qed.

(** ** What one iteration puts on the wire *)

Lemma sends_app (t u : list event) : sends (t ++ u) = (sends t + sends u)%nat.
Proof.
  induction t as [|e t IH]; [reflexivity|]. destruct e; cbn [app sends]; rewrite IH; lia.
Qed.

Lemma sendto_sends (len : Z) (s : State) (r : Z) (s' : State) :
  sendto len s = Some (r, s') -> sends (trace s') = S (sends (trace s)).
Proof.
  unfold sendto. intros H. inversion H; subst. cbn [trace log]. rewrite sends_app. cbn. lia.
Qed.

Lemma send_ack_sends (bn : Z) (s : State) (r : bool) (s' : State) :
  send_ack bn s = Some (r, s') -> sends (trace s') = S (sends (trace s)).
Proof.
  unfold send_ack. unfold bind at 1 2 3 4, store, modify. intros H.
  apply bind_Some in H as (n & s1 & H1 & H). apply sendto_sends in H1.
  destruct (n <? 0); inversion H; subst; exact H1.
Qed.

Lemma send_data_packet_sends (n bn : Z) (s : State) (r : bool) (s' : State) :
  send_data_packet n bn s = Some (r, s') -> sends (trace s') = S (sends (trace s)).
Proof.
  unfold send_data_packet. unfold bind at 1 2 3 4, store, modify. intros H.
  apply bind_Some in H as (k & s1 & H1 & H). apply sendto_sends in H1.
  destruct (k <? 0); inversion H; subst; exact H1.
Qed.

Lemma fread_trace (off : nat) (count : Z) (s : State) (r : Z) (s' : State) :
  fread off count s = Some (r, s') -> trace s' = trace s.
Proof.
  unfold fread. destruct (filepath s); [|discriminate]. intros H. now inversion H.
Qed.

Lemma fseek_cur_trace (delta : Z) (s : State) (r : Z) (s' : State) :
  fseek_cur delta s = Some (r, s') -> trace s' = trace s.
Proof.
  unfold fseek_cur. destruct (filepath s); [|discriminate].
  destruct (_ <? 0); intros H; now inversion H.
Qed.

Lemma get_response_trace (s : State) (r : Z) (s' : State) :
  get_response s = Some (r, s') -> trace s' = trace s.
Proof.
  intros H. apply get_response_state in H.
  destruct (inbox s) as [|[|d] rest]; now subst s'.
Qed.

Lemma write_to_file_sends (off : nat) (len : Z) (s : State) (r : bool) (s' : State) :
  write_to_file off len s = Some (r, s') -> sends (trace s') = sends (trace s).
Proof.
  intros H. apply write_to_file_state in H as [[_ ->] | [_ [n H]]]; [reflexivity|].
  unfold fwrite in H. destruct (filepath s); [|discriminate].
  destruct (decide _); [|discriminate]. inversion H; subst.
  cbn [trace log set_disk_room set_filepath]. rewrite sends_app. cbn. lia.
Qed.

(** [validate_and_retry] sends one datagram when it asks for another try,
    the block again in a send loop and the ACK again in a receive loop, and
    none when it gives up. *)
Lemma validate_and_retry_sends (n : Z) (up : bool) (s : State) (r : bool) (s' : State) :
  validate_and_retry n up s = Some (r, s') ->
  sends (trace s') =
  (sends (trace s) +
   if check_ack (buffer s) (block_number s)
   then (if up then 0 else 1)
   else (if r then 1 else 0))%nat.
Proof.
  unfold validate_and_retry. unfold bind at 1 2, gets at 1 2.
  destruct (check_ack (buffer s) (block_number s)) eqn:Hck; cbn [negb].
  - intros H. apply bind_Some in H as (u & s1 & H1 & H).
    unfold bind, modify, ret in H. cbn in H. inversion H; subst. cbn [trace set_success
      set_block_number set_retry].
    destruct up; cbn [negb] in H1.
    + inversion H1; subst. lia.
    + apply bind_Some in H1 as (b & s0 & Ha & H1). inversion H1; subst.
      apply send_ack_sends in Ha. lia.
  - unfold bind at 1 2 3, modify at 1 2, gets at 1. cbn [retry set_retry set_success].
    destruct (retry s + 1 >=? TFTP_MAX_RETRIES).
    + intros H. inversion H; subst. cbn. lia.
    + destruct up.
      * intros H. apply bind_Some in H as (rc & s1 & H1 & H).
        apply fseek_cur_trace in H1. cbn in H1.
        destruct (negb (rc =? 0)).
        -- inversion H; subst. rewrite H1. lia.
        -- apply bind_Some in H as (b & s2 & H2 & H). inversion H; subst.
           apply send_data_packet_sends in H2. rewrite H2, H1. lia.
      * intros H. apply bind_Some in H as (b & s2 & H2 & H). inversion H; subst.
        apply send_ack_sends in H2. cbn in H2. rewrite H2. lia.
Qed.

(** A retry round of the send loop puts the block on the wire twice, once
    from the loop body and once more from [validate_and_retry]; the iteration
    that brings the retry counter to 3 puts it on the wire once. *)
Lemma process_transfer_send_sends (s : State) (r : bool) (s' : State) :
  process_transfer_send s = Some (r, s') ->
  (r = true -> success s' = false -> sends (trace s') = (sends (trace s) + 2)%nat)
  /\ (retry s <= 2 -> retry s' = TFTP_MAX_RETRIES ->
      sends (trace s') = (sends (trace s) + 1)%nat).
Proof.
  unfold process_transfer_send. intros H.
  apply bind_Some in H as (n & s1 & H1 & H).
  apply fread_kept in H1 as K1. apply fread_trace in H1 as T1.
  destruct K1 as (_ & Kr1 & _).
  destruct (n <=? 0).
  { inversion H; subst. unfold TFTP_MAX_RETRIES. split; [discriminate | lia]. }
  unfold bind at 1, gets at 1 in H.
  apply bind_Some in H as (sent & s2 & H2 & H).
  apply send_data_packet_kept in H2 as K2. apply send_data_packet_sends in H2 as T2.
  destruct K2 as (_ & Kr2 & _).
  destruct sent; cbn [negb] in H.
  2:{ inversion H; subst. unfold TFTP_MAX_RETRIES. split; [discriminate | lia]. }
  apply bind_Some in H as (resp & s3 & H3 & H).
  apply get_response_kept in H3 as K3. apply get_response_trace in H3 as T3.
  destruct K3 as (_ & Kr3 & _).
  destruct (resp <? 0).
  { inversion H; subst. unfold TFTP_MAX_RETRIES. split; [discriminate | lia]. }
  apply bind_Some in H as (ok & s4 & H4 & H).
  apply validate_and_retry_verdict in H4 as V. apply validate_and_retry_sends in H4 as T4.
  assert (E : s' = s4 /\ (ok = false -> r = false)).
  { destruct ok; cbn [negb] in H.
    - unfold bind, gets in H. destruct (_ && _); inversion H; subst; split; auto;
        discriminate.
    - inversion H; subst. auto. }
  destruct E as [-> Hr].
  rewrite T3, T2, T1 in T4.
  destruct V as [Hck Eok Er Es _ | Hck Eok Er Hlt Es _ | Hck Eok Er Es _];
    rewrite Hck in T4; subst ok; unfold TFTP_MAX_RETRIES in *.
  - split; [intros _ Hs; congruence | lia].
  - split; [intros _ _; lia | lia].
  - split; [intros ->; specialize (Hr eq_refl); discriminate | intros _ _; lia].
Qed.

(** A retry round of the receive loop puts the ACK on the wire once; the
    iteration that brings the retry counter to 3 sends nothing. *)
Lemma process_transfer_receive_sends (s : State) (r : bool) (s' : State) :
  process_transfer_receive s = Some (r, s') ->
  (r = true -> success s' = false -> sends (trace s') = (sends (trace s) + 1)%nat)
  /\ (retry s <= 2 -> retry s' = TFTP_MAX_RETRIES -> sends (trace s') = sends (trace s)).
Proof.
  unfold process_transfer_receive. intros H.
  apply bind_Some in H as (len & s1 & H1 & H).
  apply get_response_kept in H1 as K1. apply get_response_trace in H1 as T1.
  destruct K1 as (_ & Kr1 & _).
  destruct (len <? 0).
  { inversion H; subst. unfold TFTP_MAX_RETRIES. split; [discriminate | lia]. }
  apply bind_Some in H as (ok & s2 & H2 & H).
  apply validate_and_retry_verdict in H2 as V. apply validate_and_retry_sends in H2 as T2.
  destruct ok; cbn [negb] in H.
  2:{ inversion H; subst.
      destruct V as [_ Eok _ _ _ | _ Eok _ _ _ _ | Hck _ Er Es _]; try discriminate.
      rewrite Hck, T1 in T2. unfold TFTP_MAX_RETRIES. split; [discriminate | intros _ _; lia]. }
  apply bind_Some in H as (w & s3 & H3 & H).
  apply write_to_file_kept in H3 as K3. apply write_to_file_sends in H3 as T3.
  destruct K3 as (_ & Kr3 & Ks3).
  assert (E : s' = s3).
  { destruct w; cbn [negb] in H; [|now inversion H].
    unfold bind, gets in H. destruct (_ && _); now inversion H. }
  subst s'. rewrite T1 in T2.
  destruct V as [Hck _ Er Es _ | Hck _ Er Hlt Es _ | _ Eok _ _ _]; try discriminate;
    rewrite Hck in T2; unfold TFTP_MAX_RETRIES in *.
  - split; [intros _ Hs; congruence | lia].
  - split; [intros _ _; lia | lia].
Qed.

(** ** Runs of a loop whose body ends in one of the four [outcome]s *)

Section Loop.

Variable body : M bool.
Hypothesis body_outcome : forall s r s', body s = Some (r, s') -> outcome s r s'.

Lemma rounds_outcome (P : State -> Prop) (n : nat) (s s' : State) :
  rounds body P n s s' ->
  retry s <= 2 ->
  Z.min (retry s) 0 <= retry s' <= 2.
Proof.
  intros R. induction R as [s|n s s1 s2 Hstep _ _ IH]; intros Hs.
  - lia.
  - apply body_outcome in Hstep.
    destruct Hstep as [E _|E0 _ _|E Hlt _ _|E _ _ _]; try discriminate;
      unfold TFTP_MAX_RETRIES in *; specialize (IH ltac:(lia)); lia.
Qed.

Lemma retry_rounds_count (n : nat) (s s' : State) :
  retry_rounds body n s s' ->
  retry s' = retry s + Z.of_nat n /\ (n <> O -> retry s' < TFTP_MAX_RETRIES).
Proof.
  intros R. induction R as [s|n s s1 s2 Hstep Hfl R IH].
  - split; [lia | congruence].
  - apply body_outcome in Hstep. destruct IH as [IH1 IH2].
    destruct Hstep as [E _|_ E _|E Hlt _ _|E _ _ _]; try discriminate; try congruence.
    split; [lia|]. intros _. destruct n as [|n]; [|apply IH2; discriminate].
    inversion R; subst. exact Hlt.
Qed.

(** Retry rounds stay on the same block. *)
Lemma retry_rounds_block (n : nat) (s s' : State) :
  retry_rounds body n s s' -> block_number s' = block_number s.
Proof.
  intros R. induction R as [s|n s s1 s2 Hstep Hfl R IH]; [reflexivity|].
  apply body_outcome in Hstep.
  destruct Hstep as [E _|_ E _|_ _ _ E|E _ _ _]; try discriminate; congruence.
Qed.

(** When every retry round puts [per] datagrams on the wire, [n] rounds
    put [n * per]. *)
Variable per : nat.
Hypothesis body_round :
  forall s s', body s = Some (true, s') -> success s' = false ->
               sends (trace s') = (sends (trace s) + per)%nat.

Lemma retry_rounds_sends (n : nat) (s s' : State) :
  retry_rounds body n s s' -> sends (trace s') = (sends (trace s) + n * per)%nat.
Proof.
  intros R. induction R as [s|n s s1 s2 Hstep Hfl R IH]; [lia|].
  rewrite IH, (body_round _ _ Hstep Hfl). lia.
Qed.

End Loop.


(** C8 (amended).  ACK validation is an equality test between the expected
    block, a C [int], and the two block-number bytes of the received packet:
    it accepts exactly when the expected block is the number these two bytes
    encode, which puts it in 0..65535.  Accepting a block adds 1 to the
    counter without wrapping, so block 65535 is followed by 65536, and from
    65536 on ACK validation accepts no packet. *)
Theorem check_ack_equality_no_wrap (buf : list Z) (bn : Z) :
  0 <= byte_at buf 2 < 256 ->
  0 <= byte_at buf 3 < 256 ->
  (check_ack buf bn = true <-> bn = 256 * byte_at buf 2 + byte_at buf 3)
  /\ (65536 <= bn -> check_ack buf bn = false)
  /\ (forall (n : Z) (s : State),
        buffer s = buf -> block_number s = bn -> check_ack buf bn = true ->
        exists s', validate_and_retry n true s = Some (true, s')
                   /\ block_number s' = bn + 1).
Proof.
  intros H2 H3.
  assert (Hiff : check_ack buf bn = true <-> bn = 256 * byte_at buf 2 + byte_at buf 3).
  { rewrite check_ack_spec. split.
    - intros [E2 E3]. rewrite E2, E3. apply Z.div_mod. lia.
    - intros E. split.
      + apply (Z.div_unique bn 256 _ (byte_at buf 3)); lia.
      + apply (Z.mod_unique bn 256 (byte_at buf 2) _); lia. }
  split; [exact Hiff|]. split.
  - intros Hbig. apply not_true_is_false. intros E. apply Hiff in E. lia.
  - intros n s Eb En Hck. subst buf bn.
    rewrite (validate_and_retry_accept_send n s Hck). eexists. split; reflexivity.
Qed.

(** ** ERROR packets *)

Lemma cstrlen_app_nul (msg rest : list Z) :
  Forall nonzero msg -> cstrlen (msg ++ 0 :: rest) = length msg.
Proof.
  induction 1 as [|b msg Hb _ IH]; [reflexivity|].
  simpl. destruct (Z.eqb_spec b 0); [contradiction|]. now rewrite IH.
Qed.

Lemma existsb_nul_app (msg rest : list Z) : existsb (Z.eqb 0) (msg ++ 0 :: rest) = true.
Proof. rewrite existsb_app. simpl. apply orb_true_r. Qed.

Lemma tftp_error_message_cases (code : Z) : In (tftp_error_message code) canonical_messages.
Proof.
  destruct code as [|p|p]; [simpl; tauto| |simpl; tauto].
  destruct p as [[[p|p|]|[p|p|]|]|[[p|p|]|[p|p|]|]|]; simpl; tauto.
Qed.

Lemma canonical_messages_ok :
  Forall (fun m => Forall nonzero (bytes_of_string m)
                   /\ (length (bytes_of_string m) <= 32)%nat) canonical_messages.
Proof.
  repeat constructor; try (intros H; discriminate H); vm_compute; intros H; discriminate H.
Qed.

Lemma tftp_error_message_ok (code : Z) :
  Forall nonzero (bytes_of_string (tftp_error_message code))
  /\ (length (bytes_of_string (tftp_error_message code)) <= 32)%nat.
Proof.
  pose proof canonical_messages_ok as H. rewrite Forall_forall in H.
  apply H. apply list_elem_of_In. apply tftp_error_message_cases.
Qed.

Lemma snprintf_strlen_sendto (str hdr rest : list Z) (s : State) :
  buffer s = hdr ++ rest ->
  length hdr = 4%nat ->
  length (buffer s) = 516%nat ->
  Forall nonzero str ->
  (snprintf 4 512 str >>
   let* n := strlen_at 4 in
   let* sent_len := sendto (TFTP_DATA_HEADER_SIZE + n + 1) in
   ret tt) s =
  let pkt := hdr ++ take 511 str ++ [0] in
  Some (tt, log (EvSendto pkt (hd true (sendto_ok s)))
              (set_sendto_ok (tl (sendto_ok s))
                 (set_buffer (pkt ++ drop (length pkt) (buffer s)) s))).
Proof.
  intros Hbuf Hhdr Hlen Hstr. cbv zeta.
  remember (take 511 str ++ [0]) as out eqn:Eout.
  assert (Hout : (length out <= 512)%nat).
  { subst out. rewrite length_app, length_take. cbn [length]. lia. }
  unfold bind at 1, snprintf. change (Z.to_nat (512 - 1)) with 511%nat. rewrite <- Eout.
  destruct (decide (4 + length out <= length (buffer s))%nat) as [_|n]; [|lia].
  assert (Hblit : blit 4 out (buffer s) = (hdr ++ out) ++ drop (length (hdr ++ out)) (buffer s)).
  { unfold blit. rewrite Hbuf at 1. rewrite take_app_length' by (symmetry; assumption).
    rewrite length_app, Hhdr. now rewrite <- app_assoc. }
  rewrite Hblit. clear Hblit.
  remember (drop (length (hdr ++ out)) (buffer s)) as tl516 eqn:Etl.
  unfold bind at 1, strlen_at. cbn [buffer set_buffer].
  assert (Hdrop : drop 4 ((hdr ++ out) ++ tl516) = take 511 str ++ 0 :: tl516).
  { rewrite <- app_assoc. rewrite drop_app_length' by (symmetry; assumption).
    subst out. now rewrite <- app_assoc. }
  rewrite Hdrop, existsb_nul_app.
  rewrite cstrlen_app_nul by (apply Forall_take; assumption).
  unfold bind, sendto, ret. cbn [buffer set_buffer sendto_ok].
  replace (Z.to_nat (TFTP_DATA_HEADER_SIZE + Z.of_nat (length (take 511 str)) + 1))
    with (length (hdr ++ out)).
  2:{ rewrite length_app, Hhdr. subst out. rewrite length_app. simpl.
      unfold TFTP_DATA_HEADER_SIZE, TFTP_OPCODE_SIZE, TFTP_BLOCK_NUMBER_SIZE. lia. }
  rewrite take_app_length. subst out tl516. reflexivity.
Qed.

Lemma send_error_packet_eq (sock : TFTPSocket) (code : Z) (custom : option cstring)
    (s : State) :
  length (buffer s) = 516%nat ->
  (forall c, custom = Some c -> Forall nonzero c) ->
  send_error_packet (Some sock) code custom s =
  let pkt := error_packet code custom in
  Some (tt, log (EvSendto pkt (hd true (sendto_ok s)))
              (set_sendto_ok (tl (sendto_ok s))
                 (set_buffer (pkt ++ drop (length pkt) (buffer s)) s))).
Proof.
  intros Hlen Hc.
  destruct (tftp_error_message_ok code) as [Hnz Hshort].
  unfold send_error_packet.
  unfold bind at 1 2 3 4, store, modify. cbn [buffer set_buffer].
  rewrite header_stores by lia.
  rewrite shiftr8_div, !land255_mod.
  change (Z.to_nat TFTP_DATA_HEADER_SIZE) with 4%nat.
  change (TFTP_MAX_PACKET_SIZE - TFTP_DATA_HEADER_SIZE) with 512.
  set (hdr := [0; TFTP_ERROR; (code / 256) mod 256; code mod 256]).
  set (s1 := set_buffer _ _).
  assert (Hbuf1 : buffer s1 = hdr ++ drop 4 (buffer s)) by reflexivity.
  assert (Hlen1 : length (buffer s1) = 516%nat).
  { rewrite Hbuf1, length_app, length_drop. simpl. lia. }
  assert (Htail : forall k, (4 <= k)%nat ->
            drop k (buffer s1) = drop k (buffer s)).
  { intros k Hk. rewrite Hbuf1. rewrite drop_app_ge by (simpl; lia).
    rewrite drop_drop. f_equal. simpl. lia. }
  destruct custom as [c|].
  - rewrite (snprintf_strlen_sendto _ hdr (drop 4 (buffer s)) s1 Hbuf1 eq_refl Hlen1).
    2:{ apply Forall_app. split; [exact Hnz|]. apply Forall_app. split; [|now apply Hc].
        vm_compute. repeat constructor; intros H; discriminate H. }
    cbv zeta. unfold error_packet, error_payload. fold hdr.
    rewrite Htail by (rewrite length_app; simpl; lia).
    reflexivity.
  - rewrite (snprintf_strlen_sendto _ hdr (drop 4 (buffer s)) s1 Hbuf1 eq_refl Hlen1 Hnz).
    cbv zeta. unfold error_packet, error_payload. fold hdr.
    rewrite (take_ge (bytes_of_string (tftp_error_message code))) by lia.
    rewrite Htail by (rewrite length_app; simpl; lia).
    reflexivity.
Qed.

(** C9.  For every error code and every optional custom message,
    [send_error_packet] sends the bytes 0, 5, the high and the low byte of
    the code, the message and one NUL.  Without a custom message the message
    is the canonical text of the code; with one it is
    "<canonical> - <custom>" cut to 511 bytes, so that message and NUL fit
    512 bytes. *)
Theorem send_error_packet_layout (sock : TFTPSocket) (code : Z)
    (custom : option cstring) (s : State) :
  length (buffer s) = 516%nat ->
  Forall nonzero (default [] custom) ->
  let canonical := bytes_of_string (tftp_error_message code) in
  let msg := match custom with
             | Some c => take 511 (canonical ++ bytes_of_string " - " ++ c)
             | None => canonical
             end in
  exists s',
    send_error_packet (Some sock) code custom s = Some (tt, s')
    /\ trace s' = trace s ++
         [EvSendto ([0; 5; (code / 256) mod 256; code mod 256] ++ msg ++ [0])
            (hd true (sendto_ok s))]
    /\ (length (msg ++ [0%Z]) <= 512)%nat.
Proof.
  intros Hlen Hc canonical msg.
  assert (Hc' : forall c, custom = Some c -> Forall nonzero c) by (now intros c ->).
  rewrite (send_error_packet_eq sock code custom s Hlen Hc').
  eexists. split; [reflexivity|]. split; [reflexivity|].
  subst msg. rewrite length_app. cbn [length].
  destruct custom.
  - rewrite length_take. lia.
  - pose proof (proj2 (tftp_error_message_ok code)). subst canonical. lia.
Qed.

(** After [send_error_packet] has stored its packet, the message at
    [buffer + 4] ends inside the buffer: the [print_error] that the handlers
    call next, on that buffer, stays inside it and changes nothing. *)
Lemma print_error_after_send_error_packet (sock : TFTPSocket) (code : Z)
    (custom : option cstring) (s s' : State) :
  length (buffer s) = 516%nat ->
  Forall nonzero (default [] custom) ->
  send_error_packet (Some sock) code custom s = Some (tt, s') ->
  exists line, print_error 0 TFTP_MAX_PACKET_SIZE s' = Some (line, s').
Proof.
  intros Hlen Hc H.
  assert (Hc' : forall c, custom = Some c -> Forall nonzero c) by (now intros c ->).
  rewrite (send_error_packet_eq sock code custom s Hlen Hc') in H. cbv zeta in H.
  inversion H; subst s'; clear H.
  set (rest := drop (length (error_packet code custom)) (buffer s)).
  refine (print_error_quiet 0 _ _).
  change (existsb (Z.eqb 0) ((error_payload code custom ++ [0]) ++ rest) = true).
  rewrite !existsb_app. cbn [existsb]. change (0 =? 0) with true.
  now rewrite orb_true_r.
Qed.

(** So the [print_error] that follows a [send_error_packet] can be passed
    over. *)
Lemma send_error_packet_print_error {A : Type} (sock : TFTPSocket) (code : Z)
    (custom : option cstring) (k : M A) (s : State) :
  length (buffer s) = 516%nat ->
  (forall c, custom = Some c -> Forall nonzero c) ->
  (send_error_packet (Some sock) code custom >> print_error 0 TFTP_MAX_PACKET_SIZE >> k) s
  = (send_error_packet (Some sock) code custom >> k) s.
Proof.
  intros Hlen Hc.
  assert (Hc' : Forall nonzero (default [] custom)).
  { destruct custom as [c|]; [now apply Hc | constructor]. }
  destruct (send_error_packet (Some sock) code custom s) as [[[] s']|] eqn:E.
  - destruct (print_error_after_send_error_packet sock code custom s s' Hlen Hc' E)
      as [line El].
    unfold bind. rewrite E, El. reflexivity.
  - unfold bind. rewrite E. reflexivity.
Qed.

(** ** Request validation *)

Lemma split_nul_fst (l : list Z) : fst (split_nul l) = take (cstrlen l) l.
Proof.
  induction l as [|b l IH]; [reflexivity|]. simpl.
  destruct (b =? 0); [reflexivity|].
  destruct (split_nul l) as [h t]. simpl in *. now rewrite IH.
Qed.

Lemma split_nul_nonzero (l : list Z) : Forall nonzero (fst (split_nul l)).
Proof.
  induction l as [|b l IH]; [constructor|]. simpl.
  destruct (Z.eqb_spec b 0); [constructor|].
  destruct (split_nul l) as [h t]. simpl in *. now constructor.
Qed.

Lemma split_nul_Some (l h t : list Z) : split_nul l = (h, Some t) -> l = h ++ 0 :: t.
Proof.
  revert h. induction l as [|b l IH]; intros h; simpl; [discriminate|].
  destruct (Z.eqb_spec b 0) as [->|].
  - intros H. inversion H; subst. reflexivity.
  - destruct (split_nul l) as [h' t']. intros H. inversion H; subst.
    simpl. f_equal. now apply IH.
Qed.

Lemma split_nul_None (l h : list Z) : split_nul l = (h, None) -> h = l /\ Forall nonzero l.
Proof.
  revert h. induction l as [|b l IH]; intros h; simpl.
  - intros H. inversion H. split; [reflexivity | constructor].
  - destruct (Z.eqb_spec b 0); [discriminate|].
    destruct (split_nul l) as [h' t']. intros H. inversion H; subst.
    destruct (IH h' eq_refl) as [-> Hnz]. split; [reflexivity | now constructor].
Qed.

Lemma existsb_nul_nonzero (l : list Z) : Forall nonzero l -> existsb (Z.eqb 0) l = false.
Proof.
  induction 1 as [|b l Hb _ IH]; [reflexivity|]. cbn [existsb]. rewrite IH.
  destruct (Z.eqb_spec 0 b) as [E|E]; [symmetry in E; contradiction | reflexivity].
Qed.

Lemma tolower_nonzero (x : Z) : nonzero x -> Server.tolower x <> 0.
Proof.
  unfold nonzero, Server.tolower. intros Hx.
  destruct (65 <=? x) eqn:E1; destruct (x <=? 90) eqn:E2; simpl; lia.
Qed.

Lemma strcasecmp_0 (a b : cstring) :
  Forall nonzero a -> Forall nonzero b -> Server.strcasecmp a b = 0 ->
  map Server.tolower a = map Server.tolower b.
Proof.
  intros Ha. revert b. induction Ha as [|x a Hx Ha IH]; intros b Hb; destruct Hb as [|y b Hy Hb]; simpl.
  - reflexivity.
  - intros H. apply tolower_nonzero in Hy. lia.
  - intros H. apply tolower_nonzero in Hx. lia.
  - destruct (Z.eqb_spec (Server.tolower x) (Server.tolower y)) as [E|E].
    + intros H. rewrite E. f_equal. now apply IH.
    + intros H. lia.
Qed.

Lemma land_shl8 (d0 d1 : Z) : is_byte d1 -> Z.land (Z.shiftl d0 8) d1 = 0.
Proof.
  intros [H0 H1]. apply Z.bits_inj'. intros n Hn.
  rewrite Z.land_spec, Z.bits_0.
  destruct (Z.lt_ge_cases n 8) as [Hlt|Hge].
  - rewrite Z.shiftl_spec_low by assumption. reflexivity.
  - destruct (Z.eq_dec d1 0) as [->|Hd]; [rewrite Z.bits_0; apply andb_false_r|].
    rewrite (Z.bits_above_log2 d1 n); [apply andb_false_r | assumption|].
    apply Z.lt_le_trans with 8; [|assumption].
    apply Z.log2_lt_pow2; [lia | change (2 ^ 8) with 256; lia].
Qed.

Lemma opcode_bytes (d0 d1 : Z) :
  is_byte d0 -> is_byte d1 -> (Z.lor (Z.shiftl d0 8) d1) mod 65536 = 256 * d0 + d1.
Proof.
  intros H0 H1.
  assert (E : Z.lor (Z.shiftl d0 8) d1 = 256 * d0 + d1).
  { pose proof (Z.add_lor_land (Z.shiftl d0 8) d1) as A.
    rewrite land_shl8 in A by assumption.
    assert (S : Z.shiftl d0 8 = d0 * 256) by (now rewrite Z.shiftl_mul_pow2 by lia).
    lia. }
  rewrite E. unfold is_byte in *. apply Z.mod_small. lia.
Qed.

Lemma split_nul_app_zeros (l : list Z) (k : nat) :
  fst (split_nul (l ++ replicate k 0)) = fst (split_nul l).
Proof.
  induction l as [|b l IH]; simpl.
  - destruct k; reflexivity.
  - destruct (b =? 0); [reflexivity|].
    destruct (split_nul (l ++ replicate k 0)) as [h t], (split_nul l) as [h' t'].
    simpl in *. now rewrite IH.
Qed.

(** What the string reads of [validate_mode] and [validate_filename] say
    about a datagram body that sits in a zero-filled buffer. *)
Lemma request_fields (body : list Z) (k : nat) :
  let rest := body ++ replicate k 0 in
  let rest' := drop (cstrlen rest + 1) rest in
  existsb (Z.eqb 0) rest = true ->
  existsb (Z.eqb 0) rest' = true ->
  Server.strcasecmp (take (cstrlen rest') rest') (bytes_of_string MODE) = 0 ->
  cstrlen (take 256 rest) <> O ->
  exists name after,
    split_nul body = (name, Some after) /\ name <> []
    /\ map Server.tolower (fst (split_nul after)) = bytes_of_string MODE.
Proof.
  intros rest rest' F1 F2 F3 F4.
  destruct (split_nul body) as [name [after|]] eqn:E.
  - pose proof (split_nul_nonzero body) as Hnz. rewrite E in Hnz. simpl in Hnz.
    apply split_nul_Some in E. subst body.
    assert (Erest : rest = name ++ 0 :: (after ++ replicate k 0)).
    { unfold rest. now rewrite <- app_assoc. }
    assert (Erest' : rest' = after ++ replicate k 0).
    { unfold rest'. rewrite Erest, cstrlen_app_nul by assumption.
      rewrite drop_app_ge by lia.
      replace (length name + 1 - length name)%nat with 1%nat by lia. reflexivity. }
    exists name, after. split; [reflexivity|]. split.
    + intros ->. apply F4. rewrite Erest. reflexivity.
    + rewrite Erest' in F3. rewrite <- split_nul_fst, split_nul_app_zeros in F3.
      apply strcasecmp_0 in F3.
      * rewrite F3. reflexivity.
      * apply split_nul_nonzero.
      * vm_compute. repeat constructor; intros H; discriminate H.
  - exfalso. apply split_nul_None in E as [_ Hnz].
    destruct k as [|k].
    + unfold rest in F1. rewrite app_nil_r, existsb_nul_nonzero in F1 by assumption.
      discriminate.
    + assert (Erest' : rest' = replicate k 0).
      { unfold rest', rest. simpl replicate. rewrite cstrlen_app_nul by assumption.
        rewrite drop_app_ge by lia.
        replace (length body + 1 - length body)%nat with 1%nat by lia. reflexivity. }
      rewrite Erest' in F2, F3. destruct k as [|k]; [discriminate|].
      vm_compute in F3. discriminate.
Qed.

Lemma zero_padding_has_nul (l : list Z) (k n : nat) :
  (1 <= k)%nat -> (n < length l + k)%nat ->
  existsb (Z.eqb 0) (drop n (l ++ replicate k 0)) = true.
Proof.
  intros Hk H. rewrite drop_app, existsb_app.
  assert (E : exists j, drop (n - length l) (replicate k 0) = 0 :: replicate j 0).
  { rewrite drop_replicate. destruct (k - (n - length l))%nat as [|j] eqn:Ej; [lia|].
    exists j. reflexivity. }
  destruct E as [j ->]. simpl. apply orb_true_r.
Qed.

Lemma cstrlen_padded (l : list Z) (k : nat) :
  (1 <= k)%nat -> (cstrlen (l ++ replicate k 0%Z) <= length l)%nat.
Proof.
  intros Hk. induction l as [|b l IH]; simpl.
  - destruct k; [lia|]. simpl. lia.
  - destruct (b =? 0); lia.
Qed.

(** *** The four checks on the datagram *)

Lemma error_sent_by_send_error_packet (code : Z) (custom : option cstring) (s : State) :
  length (buffer s) = 516%nat ->
  (forall c, custom = Some c -> Forall nonzero c) ->
  exists s', send_error_packet (Some Server.server) code custom s = Some (tt, s')
             /\ error_sent s s'.
Proof.
  intros Hlen Hc. rewrite (send_error_packet_eq _ _ _ _ Hlen Hc).
  eexists. split; [reflexivity|]. eexists _, _. split; reflexivity.
Qed.

Ltac literal_nonzero :=
  let c := fresh in let E := fresh in
  intros c E; inversion E; subst; vm_compute;
  repeat constructor; let H := fresh in intros H; discriminate H.

Lemma reject_with (code : Z) (custom : option cstring) (s : State) :
  length (buffer s) = 516%nat ->
  (forall c, custom = Some c -> Forall nonzero c) ->
  exists s', (send_error_packet (Some Server.server) code custom >> ret false) s
             = Some (false, s')
             /\ error_sent s s'.
Proof.
  intros Hlen Hc.
  destruct (error_sent_by_send_error_packet code custom s Hlen Hc) as (s' & E & Hs').
  exists s'. split; [|exact Hs']. unfold bind. rewrite E. reflexivity.
Qed.

Lemma validate_request_count_cases (len : Z) (s : State) :
  length (buffer s) = 516%nat ->
  (4 <= len /\ Server.validate_request_count len s = Some (true, s))
  \/ (len < 4
      /\ exists s', Server.validate_request_count len s = Some (false, s') /\ error_sent s s').
Proof.
  intros Hlen. unfold Server.validate_request_count.
  change TFTP_DATA_HEADER_SIZE with 4.
  destruct (Z.ltb_spec len 4); [right | left; split; [assumption | reflexivity]].
  split; [assumption|].
  apply reject_with; [exact Hlen | literal_nonzero].
Qed.

Lemma validate_mode_cases (s : State) :
  length (buffer s) = 516%nat ->
  let rest := drop 2 (buffer s) in
  let rest' := drop (cstrlen rest + 3) (buffer s) in
  if existsb (Z.eqb 0) rest && existsb (Z.eqb 0) rest' then
    if Server.strcasecmp (take (cstrlen rest') rest') (bytes_of_string MODE) =? 0
    then Server.validate_mode s = Some (true, s)
    else exists s', Server.validate_mode s = Some (false, s') /\ error_sent s s'
  else Server.validate_mode s = None.
Proof.
  intros Hlen rest rest'.
  assert (E : Server.validate_mode s =
    if existsb (Z.eqb 0) rest && existsb (Z.eqb 0) rest' then
      if Server.strcasecmp (take (cstrlen rest') rest') (bytes_of_string MODE) =? 0
      then Some (true, s)
      else (send_error_packet (Some Server.server) ERROR_UNDEFINED
              (Some (bytes_of_string "Unsupported mode: Only 'octet' is allowed")) >>
            ret false) s
    else None).
  { unfold Server.validate_mode.
    unfold bind at 1, strlen_at. change (Z.to_nat TFTP_OPCODE_SIZE) with 2%nat. fold rest.
    destruct (existsb (Z.eqb 0) rest); [|reflexivity]. cbn [andb].
    unfold bind at 1, Server.cstr_at.
    replace (Z.to_nat (TFTP_OPCODE_SIZE + Z.of_nat (cstrlen rest) + 1))
      with (cstrlen rest + 3)%nat by (unfold TFTP_OPCODE_SIZE; lia).
    fold rest'.
    destruct (existsb (Z.eqb 0) rest'); [|reflexivity].
    destruct (Server.strcasecmp _ _ =? 0); [reflexivity|]. cbn [negb].
    apply send_error_packet_print_error; [exact Hlen | literal_nonzero]. }
  rewrite E. clear E.
  destruct (_ && _); [|reflexivity].
  destruct (_ =? 0); [reflexivity|].
  apply reject_with; [exact Hlen | literal_nonzero].
Qed.

Lemma validate_operation_cases (s : State) :
  length (buffer s) = 516%nat ->
  let op := (Z.lor (Z.shiftl (byte_at (buffer s) 0) 8) (byte_at (buffer s) 1)) mod 65536 in
  if (op =? TFTP_RRQ) || (op =? TFTP_WRQ) || (op =? TFTP_DRQ)
  then Server.validate_operation s = Some (true, set_opcode op s)
  else exists s', Server.validate_operation s = Some (false, s') /\ error_sent s s'.
Proof.
  intros Hlen op.
  assert (E : Server.validate_operation s =
    if (op =? TFTP_RRQ) || (op =? TFTP_WRQ) || (op =? TFTP_DRQ)
    then Some (true, set_opcode op s)
    else (send_error_packet (Some Server.server) ERROR_ILLEGAL_OPERATION None >> ret false) s).
  { unfold Server.validate_operation. unfold bind at 1, gets. fold op.
    destruct (op =? TFTP_RRQ); [reflexivity|].
    destruct (op =? TFTP_WRQ); [reflexivity|].
    destruct (op =? TFTP_DRQ); reflexivity. }
  rewrite E. clear E.
  destruct (_ || _); [reflexivity|].
  apply reject_with; [exact Hlen | intros c E; discriminate E].
Qed.

Lemma validate_filename_cases (s : State) :
  length (buffer s) = 516%nat ->
  let rest := drop 2 (buffer s) in
  existsb (Z.eqb 0) rest = true ->
  if (cstrlen (take 256 rest) =? 0)%nat
  then exists s', Server.validate_filename s = Some (false, s') /\ error_sent s s'
  else if heap_ok s
       then Server.validate_filename s
            = Some (true, set_filename (Some (take (cstrlen rest) rest)) s)
       else exists s', Server.validate_filename s = Some (false, s') /\ error_sent s s'.
Proof.
  intros Hlen rest Hnul.
  assert (Hw : length (take 256 rest) = 256%nat).
  { unfold rest. rewrite length_take, length_drop. lia. }
  assert (E : Server.validate_filename s =
    if (cstrlen (take 256 rest) =? 0)%nat
    then (send_error_packet (Some Server.server) ERROR_UNDEFINED
            (Some (bytes_of_string "Filename missing")) >> ret false) s
    else if heap_ok s
         then Some (true, set_filename (Some (take (cstrlen rest) rest)) s)
         else (send_error_packet (Some Server.server) ERROR_UNDEFINED
                 (Some (bytes_of_string "Memory allocation failed")) >> ret false) s).
  { unfold Server.validate_filename.
    unfold bind at 1, Server.strnlen_at.
    change (Z.to_nat TFTP_OPCODE_SIZE) with 2%nat.
    change (Z.to_nat MAX_FILE_NAME) with 256%nat.
    fold rest. rewrite Hw. rewrite Nat.eqb_refl, orb_true_r.
    destruct (cstrlen (take 256 rest)) as [|n] eqn:En.
    - reflexivity.
    - cbn [Nat.eqb].
      replace (Z.of_nat (S n) =? 0) with false by (symmetry; apply Z.eqb_neq; lia).
      unfold bind at 1, Server.cstr_at. fold rest. rewrite Hnul.
      unfold bind at 1, gets.
      destruct (heap_ok s); reflexivity. }
  rewrite E. clear E.
  destruct (_ =? _)%nat.
  - apply reject_with; [exact Hlen | literal_nonzero].
  - destruct (heap_ok s); [reflexivity|].
    apply reject_with; [exact Hlen | literal_nonzero].
Qed.

Lemma strings_inside_eq (d0 d1 : Z) (body : list Z) :
  strings_inside (d0 :: d1 :: body) =
  let rest := body ++ replicate (516 - length (d0 :: d1 :: body)) 0 in
  existsb (Z.eqb 0) rest && existsb (Z.eqb 0) (drop (cstrlen rest + 1) rest).
Proof.
  unfold strings_inside. cbv zeta.
  change (drop 2 ((d0 :: d1 :: body) ++ ?z)) with (body ++ z).
  set (rest := body ++ _).
  replace (cstrlen rest + 3)%nat with (S (S (cstrlen rest + 1))) by lia. reflexivity.
Qed.

(** On a datagram of at most 514 bytes the zeros behind it end both
    strings. *)
Lemma strings_inside_short (d : list Z) : (length d <= 514)%nat -> strings_inside d = true.
Proof.
  intros Hd. unfold strings_inside. cbv zeta.
  set (k := (516 - length d)%nat).
  assert (Hk : (2 <= k)%nat) by (unfold k; lia).
  assert (Hrest : drop 2 (d ++ replicate k 0)
                  = drop 2 d ++ replicate (k - (2 - length d)) 0).
  { rewrite drop_app. f_equal. now rewrite drop_replicate. }
  rewrite Hrest. apply andb_true_iff. split.
  - rewrite <- Hrest. apply zero_padding_has_nul; lia.
  - pose proof (cstrlen_padded (drop 2 d) (k - (2 - length d)) ltac:(lia)) as Hc.
    rewrite length_drop in Hc.
    apply zero_padding_has_nul; lia.
Qed.

(** The gate of [validate_request]: on a datagram that sits in the
    zero-filled buffer, either the datagram has the shape of a request, or the
    checks end with [false] and one ERROR packet; they leave the buffer
    only when one of the two strings does not end inside it. *)
Lemma validate_request_gate (d : list Z) (s : State) :
  Forall is_byte d ->
  (length d <= 516)%nat ->
  buffer s = d ++ replicate (516 - length d) 0 ->
  well_formed_request d = true
  \/ match Server.validate_request (Z.of_nat (length d)) s with
     | Some (true, _) => False
     | Some (false, s') => error_sent s s'
     | None => strings_inside d = false
     end.
Proof.
  intros Hbytes Hd Hbuf.
  assert (Hlen : length (buffer s) = 516%nat).
  { rewrite Hbuf, length_app, length_replicate. lia. }
  unfold Server.validate_request.
  destruct (validate_request_count_cases (Z.of_nat (length d)) s Hlen)
    as [[H4 E1] | [Hlt (s' & E1 & Hs')]].
  2:{ right. rewrite (bind_eq _ _ _ _ _ E1). exact Hs'. }
  rewrite (bind_eq _ _ _ _ _ E1). cbn [negb]. clear E1.
  destruct d as [|d0 [|d1 body]]; try (simpl in H4; lia).
  remember (516 - length (d0 :: d1 :: body))%nat as k eqn:Ek.
  assert (Hrest : drop 2 (buffer s) = body ++ replicate k 0) by (now rewrite Hbuf).
  assert (Hrest' : forall n, drop (n + 3) (buffer s) = drop (n + 1) (body ++ replicate k 0)).
  { intros n. rewrite Hbuf. replace (n + 3)%nat with (S (S (n + 1))) by lia. reflexivity. }
  pose proof (validate_mode_cases s Hlen) as Hm. cbv zeta in Hm.
  rewrite Hrest' in Hm. rewrite Hrest in Hm.
  set (rest := body ++ replicate k 0) in *.
  set (rest' := drop (cstrlen rest + 1) rest) in *.
  destruct (existsb (Z.eqb 0) rest) eqn:F1; cbn [andb] in Hm.
  2:{ right. unfold bind at 1. rewrite Hm.
      rewrite strings_inside_eq. cbv zeta. rewrite <- Ek. fold rest. now rewrite F1. }
  destruct (existsb (Z.eqb 0) rest') eqn:F2.
  2:{ right. unfold bind at 1. rewrite Hm.
      rewrite strings_inside_eq. cbv zeta. rewrite <- Ek. fold rest. fold rest'.
      rewrite F2. apply andb_false_r. }
  destruct (Server.strcasecmp (take (cstrlen rest') rest') (bytes_of_string MODE) =? 0) eqn:F3.
  2:{ destruct Hm as (s' & E & Hs'). right. rewrite (bind_eq _ _ _ _ _ E). exact Hs'. }
  rewrite (bind_eq _ _ _ _ _ Hm). cbn [negb]. clear Hm.
  pose proof (validate_operation_cases s Hlen) as Ho. cbv zeta in Ho.
  assert (Hop : (Z.lor (Z.shiftl (byte_at (buffer s) 0) 8) (byte_at (buffer s) 1)) mod 65536
                = 256 * d0 + d1).
  { rewrite Hbuf. unfold byte_at. cbn [nth app].
    inversion Hbytes as [|? ? Hb0 Hb']; subst. inversion Hb' as [|? ? Hb1 _]; subst.
    now apply opcode_bytes. }
  rewrite Hop in Ho.
  destruct ((256 * d0 + d1 =? TFTP_RRQ) || (256 * d0 + d1 =? TFTP_WRQ)
            || (256 * d0 + d1 =? TFTP_DRQ)) eqn:F0.
  2:{ destruct Ho as (s' & E & Hs'). right. rewrite (bind_eq _ _ _ _ _ E). exact Hs'. }
  rewrite (bind_eq _ _ _ _ _ Ho). cbn [negb]. clear Ho.
  set (s3 := set_opcode (256 * d0 + d1) s).
  assert (Hlen3 : length (buffer s3) = 516%nat) by exact Hlen.
  pose proof (validate_filename_cases s3 Hlen3) as Hf. cbv zeta in Hf.
  change (buffer s3) with (buffer s) in Hf. rewrite Hrest in Hf. fold rest in Hf.
  specialize (Hf F1).
  destruct (cstrlen (take 256 rest) =? 0)%nat eqn:F4.
  { destruct Hf as (s' & E & Hs'). right. rewrite (bind_eq _ _ _ _ _ E). exact Hs'. }
  destruct (heap_ok s3).
  2:{ destruct Hf as (s' & E & Hs'). right. rewrite (bind_eq _ _ _ _ _ E). exact Hs'. }
  left. clear Hf.
  apply Z.eqb_eq in F3. apply Nat.eqb_neq in F4.
  destruct (request_fields body k F1 F2 F3 F4) as (name & after & Es & Hne & Hmode).
  unfold well_formed_request. rewrite Es.
  replace (4 <=? Z.of_nat (length (d0 :: d1 :: body))) with true
    by (symmetry; apply Z.leb_le; lia).
  cbv zeta. rewrite F0. cbn [andb].
  rewrite (bool_decide_eq_false_2 _ Hne), (bool_decide_eq_true_2 _ Hmode). reflexivity.
Qed.

Lemma init_request_eq (s : State) :
  exists s0, Server.init_request s = Some (tt, s0)
             /\ buffer s0 = zero_buffer /\ inbox s0 = inbox s /\ trace s0 = trace s.
Proof.
  unfold Server.init_request, Server.cleanup_request, bind, gets, modify, ret, fclose.
  destruct s as [op fn fp buf bn r su inb so room en cw ho fs0 tr].
  destruct fn, fp; cbn; eexists; (split; [reflexivity|]); repeat split.
Qed.

(** A datagram of at least 4 bytes with a string that does not end inside
    the buffer: the string reads of [validate_mode] leave the buffer. *)
Lemma validate_request_past_buffer (d : list Z) (s : State) :
  (4 <= length d <= 516)%nat ->
  buffer s = d ++ replicate (516 - length d) 0 ->
  strings_inside d = false ->
  Server.validate_request (Z.of_nat (length d)) s = None.
Proof.
  intros Hd Hbuf Hin.
  assert (Hlen : length (buffer s) = 516%nat).
  { rewrite Hbuf, length_app, length_replicate. lia. }
  unfold Server.validate_request.
  destruct (validate_request_count_cases (Z.of_nat (length d)) s Hlen)
    as [[_ E1] | [Hlt _]]; [|lia].
  rewrite (bind_eq _ _ _ _ _ E1). cbn [negb].
  pose proof (validate_mode_cases s Hlen) as Hm. cbv zeta in Hm.
  unfold strings_inside in Hin. cbv zeta in Hin. rewrite <- Hbuf in Hin.
  rewrite Hin in Hm. unfold bind. now rewrite Hm.
Qed.


(** ** The transfer loops end, and the bound on their iterations is not felt *)

Lemma total_ret {A : Type} (a : A) (s : State) (Q : A -> State -> Prop) :
  Q a s -> total (ret a) s Q.
Proof. intros H. exists a, s. split; [reflexivity | exact H]. Qed.

Lemma total_gets {A : Type} (f : State -> A) (s : State) (Q : A -> State -> Prop) :
  Q (f s) s -> total (gets f) s Q.
Proof. intros H. exists (f s), s. split; [reflexivity | exact H]. Qed.

Lemma total_modify (f : State -> State) (s : State) (Q : unit -> State -> Prop) :
  Q tt (f s) -> total (modify f) s Q.
Proof. intros H. exists tt, (f s). split; [reflexivity | exact H]. Qed.

Lemma total_bind {A B : Type} (m : M A) (k : A -> M B) (s : State)
    (Q : B -> State -> Prop) :
  total m s (fun a s1 => total (k a) s1 Q) -> total (bind m k) s Q.
Proof.
  intros (a & s1 & E & b & s2 & E2 & H). exists b, s2.
  split; [|exact H]. unfold bind. now rewrite E.
Qed.

Lemma total_mono {A : Type} (m : M A) (s : State) (P Q : A -> State -> Prop) :
  total m s P -> (forall a s', P a s' -> Q a s') -> total m s Q.
Proof. intros (a & s' & E & H) HPQ. exists a, s'. split; [exact E | now apply HPQ]. Qed.

Lemma settled_refl (s : State) : ready s -> settled s s.
Proof. intros H. split; [exact H | split; reflexivity]. Qed.

Lemma settled_trans (s s1 s2 : State) : settled s s1 -> settled s1 s2 -> settled s s2.
Proof. intros (_ & E1 & D1) (R2 & E2 & D2). split; [exact R2 | split; congruence]. Qed.

Lemma settled_polite (s s' : State) : polite s -> settled s s' -> polite s'.
Proof. intros [_ H] (R & E & _). split; [exact R | now rewrite E]. Qed.

Lemma settled_roomy (s s' : State) : roomy s -> settled s s' -> roomy s'.
Proof. unfold roomy. intros H (_ & E & D). now rewrite E, D. Qed.

Lemma length_header (a b c d : Z) (buf : list Z) :
  length buf = 516%nat ->
  length (<[3%nat := d]> (<[2%nat := c]> (<[1%nat := b]> (<[0%nat := a]> buf)))) = 516%nat.
Proof. intros H. now rewrite !length_insert. Qed.

Lemma send_ack_total (bn : Z) (s : State) :
  ready s -> total (send_ack bn) s (fun _ => settled s).
Proof.
  intros [Hlen Hfp]. unfold send_ack, bind, store, modify, sendto, total. cbn.
  destruct (hd true (sendto_ok s)); cbn; eexists _, _; (split; [reflexivity|]);
    (split; [split | split; reflexivity]); cbn; auto using length_header.
Qed.

Lemma send_data_packet_total (n bn : Z) (s : State) :
  ready s -> total (send_data_packet n bn) s (fun _ => settled s).
Proof.
  intros [Hlen Hfp]. unfold send_data_packet, bind, store, modify, sendto, total. cbn.
  destruct (hd true (sendto_ok s)); cbn; try destruct (n + TFTP_DATA_HEADER_SIZE <? 0);
    eexists _, _; (split; [reflexivity|]);
    (split; [split | split; reflexivity]); cbn; auto using length_header.
Qed.

Lemma fread_total (s : State) :
  ready s ->
  total (fread 4 512) s (fun n s' => settled s s' /\ 0 <= n <= 512).
Proof.
  intros [Hlen [f Hf]]. unfold fread, total. rewrite Hf.
  eexists _, _. split; [reflexivity|].
  assert (Hb : (length (take (Z.to_nat 512) (drop (f_pos f) (f_data f))) <= 512)%nat).
  { rewrite length_take. lia. }
  split; [split; [split | split; reflexivity] | lia]; cbn.
  - rewrite length_blit; lia.
  - eauto.
Qed.

Lemma fseek_cur_total (delta : Z) (s : State) :
  ready s -> total (fseek_cur delta) s (fun _ => settled s).
Proof.
  intros [Hlen [f Hf]]. unfold fseek_cur, total. rewrite Hf.
  destruct (_ <? 0); eexists _, _; (split; [reflexivity|]);
    (split; [split | split; reflexivity]); cbn; eauto.
Qed.

Lemma inbox_bytes_app (l k : list recv_result) :
  inbox_bytes (l ++ k) = (inbox_bytes l + inbox_bytes k)%nat.
Proof.
  induction l as [|x l IH]; [reflexivity|].
  change (inbox_bytes ((x :: l) ++ k)) with (payload_bytes x + inbox_bytes (l ++ k))%nat.
  change (inbox_bytes (x :: l)) with (payload_bytes x + inbox_bytes l)%nat.
  rewrite IH. lia.
Qed.

(** A datagram that [reads_well] is read inside the buffer, whatever the
    buffer held. *)
Lemma reads_well_message (d buf : list Z) :
  reads_well (RecvDgram d) = true ->
  byte_at (blit 0 (take (Z.to_nat TFTP_MAX_PACKET_SIZE) d) buf) 1 = TFTP_ERROR ->
  existsb (Z.eqb 0) (drop 4 (blit 0 (take (Z.to_nat TFTP_MAX_PACKET_SIZE) d) buf)) = true.
Proof.
  unfold reads_well. change (Z.to_nat TFTP_MAX_PACKET_SIZE) with 516%nat.
  intros H E. apply andb_true_iff in H as [Hlen H]. apply Nat.leb_le in Hlen.
  assert (E1 : byte_at (blit 0 (take 516 d) buf) 1 = byte_at d 1).
  { destruct d as [|d0 [|d1 d]]; [simpl in Hlen; lia | simpl in Hlen; lia | reflexivity]. }
  rewrite E1 in E. rewrite E in H. change (TFTP_ERROR =? TFTP_ERROR) with true in H.
  cbn [negb orb] in H.
  unfold blit. rewrite take_0. cbn [app]. rewrite drop_app, existsb_app, H. reflexivity.
Qed.

Lemma get_response_total (s : State) :
  polite s ->
  total get_response s (fun r s' =>
    polite s' /\ disk_room s' = disk_room s /\ r <= 516
    /\ exists consumed,
         inbox s = consumed ++ inbox s'
         /\ (0 <= r -> consumed <> [])
         /\ r - 4 <= Z.of_nat (inbox_bytes consumed)).
Proof.
  intros [[Hlen Hfp] Hin]. unfold total.
  destruct (inbox s) as [|[|d] rest] eqn:Ein.
  - exists (-1), s. split; [unfold get_response, bind, recvfrom; now rewrite Ein|].
    split; [split; [exact (conj Hlen Hfp) | now rewrite Ein]|].
    split; [reflexivity|]. split; [lia|].
    exists []. rewrite Ein. split; [reflexivity|]. split; [lia | cbn; lia].
  - exists (-1), (set_inbox rest s).
    split; [unfold get_response, bind, recvfrom; now rewrite Ein|].
    cbn [forallb reads_well andb] in Hin.
    split; [split; [exact (conj Hlen Hfp) | exact Hin]|].
    split; [reflexivity|]. split; [lia|].
    exists [RecvFail]. split; [reflexivity|]. split; [lia | cbn; lia].
  - cbn [forallb] in Hin. apply andb_true_iff in Hin as [Hd Hrest].
    rewrite (get_response_dgram d rest s Ein (reads_well_message d (buffer s) Hd)).
    cbv zeta.
    assert (Hd516 : (length (take (Z.to_nat TFTP_MAX_PACKET_SIZE) d) <= 516)%nat).
    { rewrite length_take. change (Z.to_nat TFTP_MAX_PACKET_SIZE) with 516%nat. lia. }
    assert (Hl : length (blit 0 (take (Z.to_nat TFTP_MAX_PACKET_SIZE) d) (buffer s)) = 516%nat).
    { rewrite length_blit; lia. }
    eexists _, _. split; [reflexivity|].
    split; [split; [split; [exact Hl | exact Hfp] | exact Hrest]|].
    split; [reflexivity|].
    split.
    { unfold response_code. destruct (_ =? TFTP_ACK); [lia|].
      destruct (_ =? TFTP_DATA); lia. }
    exists [RecvDgram d]. split; [reflexivity|]. split; [discriminate|].
    cbn [inbox_bytes fold_right payload_bytes].
    change (Z.to_nat TFTP_MAX_PACKET_SIZE) with 516%nat in *.
    unfold response_code. destruct (_ =? TFTP_ACK); [lia|].
    destruct (_ =? TFTP_DATA); lia.
Qed.

Lemma write_to_file_total (len : Z) (s : State) :
  ready s -> len <= 512 -> len <= Z.of_nat (disk_room s) ->
  total (write_to_file 4 len) s (fun _ s' =>
    ready s' /\ inbox s' = inbox s /\ (disk_room s' + Z.to_nat len = disk_room s)%nat).
Proof.
  intros [Hlen [f Hf]] Hl Hroom. unfold total.
  destruct (Z.ltb_spec len 0) as [Hneg|Hpos].
  { unfold write_to_file. replace (len <? 0) with true by (symmetry; apply Z.ltb_lt; lia).
    eexists _, _. split; [reflexivity|]. split; [split; eauto|]. split; [reflexivity | lia]. }
  rewrite (write_to_file_stored 4 len f s Hf Hpos ltac:(lia) ltac:(lia)). cbv zeta.
  eexists _, _. split; [reflexivity|].
  split; [split; cbn; eauto|]. split; [reflexivity | cbn; lia].
Qed.

Lemma validate_and_retry_total (n : Z) (up : bool) (s : State) :
  ready s -> total (validate_and_retry n up) s (fun _ => settled s).
Proof.
  intros Hr. unfold validate_and_retry.
  apply total_bind, total_gets. apply total_bind, total_gets.
  destruct (negb (check_ack (buffer s) (block_number s))).
  - apply total_bind, total_modify. apply total_bind, total_modify.
    apply total_bind, total_gets.
    set (s1 := set_retry _ _).
    assert (R1 : ready s1) by exact Hr.
    assert (S1 : settled s s1) by (split; [exact R1 | split; reflexivity]).
    change (retry s1) with (retry s + 1).
    destruct (retry s + 1 >=? TFTP_MAX_RETRIES); [apply total_ret; exact S1|].
    destruct up.
    + apply total_bind. apply (total_mono _ _ _ _ (fseek_cur_total _ s1 R1)).
      intros rc s2 S2. destruct (negb (rc =? 0)).
      * apply total_ret. exact (settled_trans _ _ _ S1 S2).
      * apply total_bind. apply (total_mono _ _ _ _ (send_data_packet_total _ _ s2 (proj1 S2))).
        intros _ s3 S3. apply total_ret.
        exact (settled_trans _ _ _ S1 (settled_trans _ _ _ S2 S3)).
    + apply total_bind. apply (total_mono _ _ _ _ (send_ack_total _ s1 R1)).
      intros _ s3 S3. apply total_ret. exact (settled_trans _ _ _ S1 S3).
  - apply total_bind.
    assert (T : total (if negb up then send_ack (block_number s) >> ret tt else ret tt) s
                  (fun _ => settled s)).
    { destruct up; cbn [negb].
      - apply total_ret. now apply settled_refl.
      - apply total_bind. apply (total_mono _ _ _ _ (send_ack_total _ s Hr)).
        intros _ s3 S3. apply total_ret. exact S3. }
    apply (total_mono _ _ _ _ T). intros _ s1 S1.
    apply total_bind, total_modify. apply total_bind, total_modify.
    apply total_bind, total_modify. apply total_ret.
    destruct S1 as (R1 & E1 & D1). split; [exact R1 | split; [exact E1 | exact D1]].
Qed.

(** When every answer to come can be read, an iteration of the send loop
    has a result. *)
Lemma process_transfer_send_total (s : State) :
  polite s -> total process_transfer_send s (iteration_ends polite s).
Proof.
  intros Hp. pose proof (proj1 Hp) as Hr. unfold process_transfer_send.
  change (Z.to_nat TFTP_DATA_HEADER_SIZE) with 4%nat. change TFTP_MAX_DATA_SIZE with 512.
  apply total_bind. apply (total_mono _ _ _ _ (fread_total s Hr)).
  intros n s1 [S1 Hn]. pose proof (settled_polite _ _ Hp S1) as P1.
  destruct (n <=? 0); [apply total_ret; split; [exact P1 | discriminate]|].
  apply total_bind, total_gets.
  apply total_bind. apply (total_mono _ _ _ _ (send_data_packet_total n _ s1 (proj1 S1))).
  intros sent s2 S2. pose proof (settled_polite _ _ P1 S2) as P2.
  destruct sent; cbn [negb]; [|apply total_ret; split; [exact P2 | discriminate]].
  apply total_bind. apply (total_mono _ _ _ _ (get_response_total s2 P2)).
  intros resp s3 (P3 & _ & _ & consumed & Econs & Hne & _).
  destruct (resp <? 0) eqn:Eresp; [apply total_ret; split; [exact P3 | discriminate]|].
  apply Z.ltb_ge in Eresp. specialize (Hne Eresp).
  assert (Hlt : (length (inbox s3) < length (inbox s))%nat).
  { destruct S1 as (_ & E1 & _), S2 as (_ & E2 & _). rewrite <- E1, <- E2, Econs.
    rewrite length_app. destruct consumed; [contradiction | simpl; lia]. }
  apply total_bind. apply (total_mono _ _ _ _ (validate_and_retry_total n true s3 (proj1 P3))).
  intros ok s4 S4. pose proof (settled_polite _ _ P3 S4) as P4.
  assert (Hdec : (length (inbox s4) < length (inbox s))%nat).
  { destruct S4 as (_ & E4 & _). now rewrite E4. }
  destruct ok; cbn [negb]; [|apply total_ret; split; [exact P4 | discriminate]].
  apply total_bind, total_gets.
  destruct (_ && _); apply total_ret; (split; [exact P4 | intros _; exact Hdec]).
Qed.

(** When in addition the disk has room for every payload to come, an
    iteration of the receive loop has a result. *)
Lemma process_transfer_receive_total (s : State) :
  polite s /\ roomy s ->
  total process_transfer_receive s (iteration_ends (fun s' => polite s' /\ roomy s') s).
Proof.
  intros [Hp Hroom]. unfold process_transfer_receive.
  change (Z.to_nat TFTP_DATA_HEADER_SIZE) with 4%nat.
  apply total_bind. apply (total_mono _ _ _ _ (get_response_total s Hp)).
  intros len s1 (P1 & D1 & Hlen & consumed & Econs & Hne & Hbytes).
  assert (R1 : (inbox_bytes consumed + inbox_bytes (inbox s1) <= disk_room s1)%nat).
  { unfold roomy in Hroom. rewrite Econs, inbox_bytes_app in Hroom. now rewrite D1. }
  destruct (len <? 0) eqn:Elen.
  { apply total_ret. split; [split; [exact P1 | unfold roomy; lia] | discriminate]. }
  apply Z.ltb_ge in Elen. specialize (Hne Elen).
  assert (Hlt : (length (inbox s1) < length (inbox s))%nat).
  { rewrite Econs, length_app. destruct consumed; [contradiction | simpl; lia]. }
  apply total_bind. apply (total_mono _ _ _ _ (validate_and_retry_total 0 false s1 (proj1 P1))).
  intros ok s2 S2. pose proof (settled_polite _ _ P1 S2) as P2.
  destruct S2 as (R2 & E2 & D2).
  assert (Rm2 : (inbox_bytes consumed + inbox_bytes (inbox s2) <= disk_room s2)%nat)
    by (rewrite E2, D2; exact R1).
  destruct ok; cbn [negb].
  2:{ apply total_ret. split; [split; [exact P2 | unfold roomy; lia] | discriminate]. }
  apply total_bind.
  assert (Hw : len - TFTP_DATA_HEADER_SIZE <= 512)
    by (unfold TFTP_DATA_HEADER_SIZE, TFTP_OPCODE_SIZE, TFTP_BLOCK_NUMBER_SIZE; lia).
  assert (Hfit : len - TFTP_DATA_HEADER_SIZE <= Z.of_nat (disk_room s2))
    by (unfold TFTP_DATA_HEADER_SIZE, TFTP_OPCODE_SIZE, TFTP_BLOCK_NUMBER_SIZE; lia).
  apply (total_mono _ _ _ _ (write_to_file_total _ s2 R2 Hw Hfit)).
  intros w s3 (R3 & E3 & D3).
  assert (P3 : polite s3) by (split; [exact R3 | rewrite E3; exact (proj2 P2)]).
  assert (Rm3 : roomy s3).
  { unfold roomy. rewrite E3.
    assert (Z.of_nat (Z.to_nat (len - TFTP_DATA_HEADER_SIZE)) <= Z.of_nat (inbox_bytes consumed))
      by (unfold TFTP_DATA_HEADER_SIZE, TFTP_OPCODE_SIZE, TFTP_BLOCK_NUMBER_SIZE in *; lia).
    lia. }
  assert (Hdec : (length (inbox s3) < length (inbox s))%nat) by (rewrite E3, E2; exact Hlt).
  destruct w; cbn [negb]; [|apply total_ret; split; [exact (conj P3 Rm3) | discriminate]].
  apply total_bind, total_gets.
  destruct (_ && _); apply total_ret; (split; [exact (conj P3 Rm3) | intros _; exact Hdec]).
Qed.

(** With [S (length inbox)] iterations allowed, [while_loop] is the C loop:
    under an invariant that gives every iteration a result it ends by
    itself, and more fuel changes nothing. *)
Lemma while_loop_fuel (Inv : State -> Prop) (body : M bool) :
  (forall s, Inv s -> total body s (iteration_ends Inv s)) ->
  forall (fuel : nat) (s : State),
    Inv s -> (length (inbox s) < fuel)%nat ->
    exists s', while_loop fuel body s = Some (tt, s') /\ Inv s'
               /\ transfer_loop body s = Some (tt, s').
Proof.
  intros Hbody.
  assert (H : forall fuel s, Inv s -> (length (inbox s) < fuel)%nat ->
            exists s', while_loop fuel body s = Some (tt, s') /\ Inv s'
                       /\ forall fuel', (length (inbox s) < fuel')%nat ->
                                        while_loop fuel' body s = Some (tt, s')).
  { induction fuel as [|fuel IH]; intros s Hr Hf; [lia|].
    destruct (Hbody s Hr) as (r & s1 & E & R1 & Hdec).
    destruct r.
    - specialize (Hdec eq_refl).
      destruct (IH s1 R1 ltac:(lia)) as (s' & E' & R' & Hany).
      exists s'. split; [cbn; rewrite E; exact E'|]. split; [exact R'|].
      intros [|fuel'] Hf'; [lia|]. cbn. rewrite E. apply Hany. lia.
    - exists s1. split; [cbn; now rewrite E|]. split; [exact R1|].
      intros [|fuel'] Hf'; [lia|]. cbn. now rewrite E. }
  intros fuel s Hr Hf. destruct (H fuel s Hr Hf) as (s' & E & R & Hany).
  exists s'. split; [exact E|]. split; [exact R|].
  unfold transfer_loop. apply Hany. lia.
Qed.

Lemma transfer_loop_send_ends (s : State) :
  polite s -> exists s', transfer_loop process_transfer_send s = Some (tt, s') /\ polite s'.
Proof.
  intros Hp.
  destruct (while_loop_fuel polite _ process_transfer_send_total (S (length (inbox s))) s Hp
              ltac:(lia)) as (s' & _ & R & E).
  eauto.
Qed.

Lemma transfer_loop_receive_ends (s : State) :
  polite s -> roomy s ->
  exists s', transfer_loop process_transfer_receive s = Some (tt, s')
             /\ polite s' /\ roomy s'.
Proof.
  intros Hp Hroom.
  destruct (while_loop_fuel _ _ process_transfer_receive_total (S (length (inbox s))) s
              (conj Hp Hroom) ltac:(lia)) as (s' & _ & R & E).
  eauto.
Qed.

(** ** Runs of the handlers *)

(** At the end of the file the send loop body stops without sending
    anything: no DATA block follows the last bytes of the file. *)
Lemma process_transfer_send_at_eof (s : State) (f : FILE) :
  filepath s = Some f ->
  (length (f_data f) <= f_pos f)%nat ->
  exists s', process_transfer_send s = Some (false, s') /\ trace s' = trace s.
Proof.
  intros Hf Heof. unfold process_transfer_send.
  rewrite (bind_eq _ _ _ _ _ (fread_eq _ _ _ _ Hf)). cbv zeta.
  rewrite drop_ge by exact Heof. rewrite take_nil.
  eexists. split; reflexivity.
Qed.

(** [server_upload_loop] is the state in which the server's upload handler
    enters its receive loop. *)
Lemma server_upload_enters_loop (answers : list recv_result) :
  Server.upload_request (server_upload answers) =
  (transfer_loop process_transfer_receive >>
   let* succ := gets success in
   let* b1 := gets (fun s => byte_at (buffer s) 1) in
   (if negb succ || (b1 =? TFTP_ERROR)
    then let* fn := gets filename in remove fn >> ret tt
    else ret tt) >>
   fclose) (server_upload_loop answers).
Proof. reflexivity. Qed.

(** A retry round of the send loop puts the block on the wire twice, once in
    [validate_and_retry] and once more when the loop body reads the block
    again: after two bad answers the third ends the upload, and DATA block 1
    has left five times. *)
Example client_upload_block_sent_five_times :
  exists s',
    Client.upload_request
      (client_upload [97; 98; 99] [RecvDgram (ack_packet 0); stray; stray; stray])
    = Some (false, s')
    /\ trace s' =
       [EvSendto (request_packet TFTP_WRQ a_bin) true;
        EvSendto (data_packet 1 [97; 98; 99]) true;
        EvSendto (data_packet 1 [97; 98; 99]) true;
        EvSendto (data_packet 1 [97; 98; 99]) true;
        EvSendto (data_packet 1 [97; 98; 99]) true;
        EvSendto (data_packet 1 [97; 98; 99]) true].
Proof. eexists. split; vm_compute; reflexivity. Qed.

(** C1.  What the send loop does with a file whose size is a multiple of
    512: at the end of the file [process_transfer_send] returns before it
    sends anything, so the upload of an empty file puts no DATA block on the
    wire (and reports failure), and the upload of a 512-byte file puts the
    one full block on the wire and no empty block after it. *)
Theorem upload_multiple_of_512_has_no_empty_block :
  (exists s',
      Client.upload_request
        (client_upload [] [RecvDgram (ack_packet 0); RecvDgram (ack_packet 1)])
      = Some (false, s')
      /\ trace s' = [EvSendto (request_packet TFTP_WRQ a_bin) true])
  /\ (exists s',
        Client.upload_request
          (client_upload block512
             [RecvDgram (ack_packet 0); RecvDgram (ack_packet 1); RecvDgram (ack_packet 2)])
        = Some (true, s')
        /\ trace s' = [EvSendto (request_packet TFTP_WRQ a_bin) true;
                       EvSendto (data_packet 1 block512) true]).
Proof.
  split; eexists; (split; [vm_compute; reflexivity|]); vm_compute; reflexivity.
Qed.

(** C3.  Two receive-side failures after which the client's download keeps
    the partial file and reports success: the time-out that follows an
    accepted full block, and a failed write of an accepted block. *)
Theorem download_failure_keeps_partial_file :
  (exists s',
      Client.download_request (client_download [RecvDgram (data_packet 1 block512)])
      = Some (true, s')
      /\ fs s' !! a_bin = Some (mkInode block512 true)
      /\ ~ In (EvRemove a_bin) (trace s'))
  /\ (exists s',
        Client.download_request
          (set_disk_room 0 (client_download [RecvDgram (data_packet 1 [97; 98; 99])]))
        = Some (true, s')
        /\ fs s' !! a_bin = Some (mkInode [] true)
        /\ ~ In (EvRemove a_bin) (trace s')).
Proof.
  split; eexists; (split; [vm_compute; reflexivity|]);
    (split; [vm_compute; reflexivity|]);
    vm_compute; intros H; repeat (destruct H as [H|H]; [discriminate H|]); exact H.
Qed.

(** The failures after which the client's download does remove the file: an
    ERROR packet, a time-out before any block, and the third bad datagram in
    a row. *)
Example download_failure_removes_file :
  (exists s',
      Client.download_request
        (client_download [RecvDgram (error_packet ERROR_FILE_NOT_FOUND None)])
      = Some (false, s')
      /\ fs s' !! a_bin = None)
  /\ (exists s', Client.download_request (client_download []) = Some (false, s')
                 /\ fs s' !! a_bin = None)
  /\ (exists s',
        Client.download_request (client_download [stray; stray; stray; stray])
        = Some (false, s')
        /\ fs s' !! a_bin = None).
Proof.
  repeat split; eexists; (split; [vm_compute; reflexivity|]); vm_compute; reflexivity.
Qed.

(** C4.  Two datagrams that are not an ACK for block 1 and on which the
    send loop, with DATA block 1 in flight, advances all the same: a DATA
    packet that carries block number 1, and a 2-byte ACK without a block
    number (the two bytes compared are then those of the DATA header just
    sent).  In both runs the client's upload ends with block_number 2,
    retry 0 and success reported. *)
Theorem send_loop_advances_without_matching_ack :
  (exists s',
      Client.upload_request
        (client_upload [97; 98; 99] [RecvDgram (ack_packet 0); RecvDgram (data_packet 1 [])])
      = Some (true, s')
      /\ trace s' = [EvSendto (request_packet TFTP_WRQ a_bin) true;
                     EvSendto (data_packet 1 [97; 98; 99]) true]
      /\ block_number s' = 2 /\ retry s' = 0)
  /\ (exists s',
        Client.upload_request
          (client_upload [97; 98; 99] [RecvDgram (ack_packet 0); RecvDgram [0; TFTP_ACK]])
        = Some (true, s')
        /\ trace s' = [EvSendto (request_packet TFTP_WRQ a_bin) true;
                       EvSendto (data_packet 1 [97; 98; 99]) true]
        /\ block_number s' = 2 /\ retry s' = 0).
Proof.
  split; eexists; (split; [vm_compute; reflexivity|]); repeat split.
Qed.

(** C5.  A receiver that has stored block 1, expects block 2 and gets DATA
    block 1 again answers with an ACK for block 2, the block it has not
    received; it stays on block 2, adds 1 to the retry counter, and appends
    the payload of the duplicate to the file.  The same is seen in a run of
    the client's download. *)
Theorem duplicate_data_acknowledged_as_expected_block :
  (exists s',
      process_transfer_receive
        (receiver_expecting 2 block512 [RecvDgram (data_packet 1 block512)])
      = Some (true, s')
      /\ trace s' = [EvSendto (ack_packet 2) true; EvFwrite block512 512]
      /\ block_number s' = 2 /\ retry s' = 1 /\ success s' = false
      /\ filepath s' = Some (mkFILE a_bin (block512 ++ block512) 0))
  /\ (exists s',
        Client.download_request
          (client_download [RecvDgram (data_packet 1 block512);
                            RecvDgram (data_packet 1 block512)])
        = Some (false, s')
        /\ trace s' = [EvSendto (request_packet TFTP_RRQ a_bin) true;
                       EvSendto (ack_packet 1) true; EvFwrite block512 512;
                       EvSendto (ack_packet 2) true; EvFwrite block512 512;
                       EvRemove a_bin]).
Proof.
  split; eexists; (split; [vm_compute; reflexivity|]); repeat split.
Qed.


(** A datagram of length 0 does not meet the conditions, and the
    dispatcher neither calls a handler nor sends an ERROR packet for it:
    [prog] goes back to [recvfrom] on [len <= 0]. *)
Example empty_datagram_is_ignored :
  well_formed_request [] = false
  /\ exists s', Server.prog_iteration (server_waiting []) = Some (false, s')
                /\ trace s' = [].
Proof.
  split; [reflexivity|]. eexists. split; vm_compute; reflexivity.
Qed.


(** C8 (counterexample).  At block 65535 a matching ACK makes the counter
    65536, not 0; the next DATA packet carries the block bytes 0, 0, and the
    ACK for block 0 that answers it is turned down as a bad ACK. *)
Lemma block_number_does_not_wrap :
  (exists s',
      process_transfer_send (sender_at 65535 [97; 98; 99] [RecvDgram (ack_packet 65535)])
      = Some (false, s')
      /\ block_number s' = 65536 /\ block_number s' <> 0)
  /\ check_ack (ack_packet 0) 65536 = false
  /\ (exists s',
        process_transfer_send (sender_at 65536 [97; 98; 99] [RecvDgram (ack_packet 0)])
        = Some (true, s')
        /\ trace s' = [EvSendto (data_packet 0 [97; 98; 99]) true;
                       EvSendto (data_packet 0 [97; 98; 99]) true]
        /\ block_number s' = 65536 /\ retry s' = 1 /\ success s' = false).
Proof.
  split; [|split].
  - eexists. split; [vm_compute; reflexivity|]. split; [reflexivity | discriminate].
  - reflexivity.
  - eexists. split; [vm_compute; reflexivity|]. repeat split.
Qed.

(** ** Instances *)

Lemma send_correct_ack_advances_witness :
  exists s',
    process_transfer_send (sender_at 1 [97; 98; 99] [RecvDgram (ack_packet 1)])
    = Some (false, s')
    /\ retry s' = 0
    /\ block_number s' = 2
    /\ success s' = true
    /\ trace s' = [EvSendto (data_packet 1 [97; 98; 99]) true].
Proof.
  apply (send_correct_ack_advances
           (sender_at 1 [97; 98; 99] [RecvDgram (ack_packet 1)])
           (mkFILE a_bin [97; 98; 99] 0) []).
  - reflexivity.
  - reflexivity.
  - simpl. lia.
  - reflexivity.
  - simpl. lia.
  - reflexivity.
Defined.

Lemma ack_precedes_write_witness :
  exists r s',
    process_transfer_receive
      (set_disk_room 0 (receiver_expecting 1 [] [RecvDgram (data_packet 1 [97; 98; 99])]))
    = Some (r, s')
    /\ trace s' = [EvSendto (ack_packet 1) true; EvFwrite [97; 98; 99] 0]
    /\ block_number s' = 2
    /\ filepath s' = Some (mkFILE a_bin [] 0)
    /\ r = false.
Proof.
  destruct (ack_precedes_write
              (set_disk_room 0
                 (receiver_expecting 1 [] [RecvDgram (data_packet 1 [97; 98; 99])]))
              (mkFILE a_bin [] 0) [97; 98; 99] [])
    as (s_ack & _ & _ & _ & _ & Hbuf & _ & H).
  - reflexivity.
  - reflexivity.
  - simpl. lia.
  - simpl. lia.
  - reflexivity.
  - destruct H as (r & s' & E & Ht & Hb & Hf & Hr).
    + right. rewrite Hbuf. reflexivity.
    + exists r, s'. split; [exact E|]. split; [exact Ht|]. split; [exact Hb|].
      split; [exact Hf|]. apply Hr. simpl. lia.
Defined.

Lemma send_error_packet_layout_witness :
  exists s',
    send_error_packet (Some Server.server) ERROR_FILE_NOT_FOUND
      (Some (bytes_of_string "a.bin")) idle
    = Some (tt, s')
    /\ trace s' = [EvSendto ([0; 5; 0; 1] ++ bytes_of_string "File not found - a.bin" ++ [0]) true]
    /\ (length (bytes_of_string "File not found - a.bin" ++ [0%Z]) <= 512)%nat.
Proof.
  apply (send_error_packet_layout Server.server ERROR_FILE_NOT_FOUND
           (Some (bytes_of_string "a.bin")) idle).
  - reflexivity.
  - vm_compute. repeat constructor; intros H; discriminate H.
Defined.



Lemma check_ack_equality_no_wrap_witness :
  (check_ack (ack_packet 65535) 65535 = true
   <-> 65535 = 256 * byte_at (ack_packet 65535) 2 + byte_at (ack_packet 65535) 3)
  /\ (65536 <= 65535 -> check_ack (ack_packet 65535) 65535 = false)
  /\ (forall (n : Z) (s : State),
        buffer s = ack_packet 65535 -> block_number s = 65535 ->
        check_ack (ack_packet 65535) 65535 = true ->
        exists s', validate_and_retry n true s = Some (true, s')
                   /\ block_number s' = 65535 + 1).
Proof.
  apply (check_ack_equality_no_wrap (ack_packet 65535) 65535).
  - vm_compute. split; [discriminate | reflexivity].
  - vm_compute. split; [discriminate | reflexivity].
Defined.

Example read_request_accepted :
  exists s', Server.prog_iteration (server_waiting (request_packet TFTP_RRQ a_bin))
             = Some (true, s')
             /\ trace s' = [EvSendto (data_packet 1 [97; 98; 99]) true].
Proof. eexists. split; vm_compute; reflexivity. Qed.

(** * Whole transfers *)

(** ** What stays around a transfer *)

Lemma surroundings_kept_refl (s : State) : surroundings_kept s s.
Proof. repeat split. Qed.

Lemma surroundings_kept_trans (s s1 s2 : State) :
  surroundings_kept s s1 -> surroundings_kept s1 s2 -> surroundings_kept s s2.
Proof.
  unfold surroundings_kept. intros (?&?&?&?&?&?) (?&?&?&?&?&?).
  repeat split; congruence.
Qed.

Lemma sends_succeed_hd (s : State) : sends_succeed s -> hd true (sendto_ok s) = true.
Proof. unfold sends_succeed. destruct (sendto_ok s); [reflexivity|]. now inversion 1. Qed.

Lemma sends_succeed_tl (s s' : State) :
  sends_succeed s -> sendto_ok s' = tl (sendto_ok s) -> sends_succeed s'.
Proof.
  unfold sends_succeed. intros H E. rewrite E.
  destruct (sendto_ok s); [constructor|]. now inversion H.
Qed.

(** ** One block, sent and acknowledged *)

Lemma process_transfer_send_acked (s : State) (name data : list Z) (pos : nat)
    (rest : list recv_result) :
  let payload := take 512 (drop pos data) in
  let b := block_number s in
  filepath s = Some (mkFILE name data pos) ->
  length (buffer s) = 516%nat ->
  payload <> [] ->
  sends_succeed s ->
  0 <= b < 65536 ->
  inbox s = RecvDgram (ack_packet b) :: rest ->
  exists s',
    process_transfer_send s = Some (negb (length payload <? 512)%nat, s')
    /\ filepath s' = Some (mkFILE name data (pos + length payload))
    /\ length (buffer s') = 516%nat
    /\ block_number s' = b + 1
    /\ success s' = true
    /\ inbox s' = rest
    /\ trace s' = trace s ++ [EvSendto (data_packet b payload) true]
    /\ sends_succeed s'
    /\ disk_room s' = disk_room s
    /\ surroundings_kept s s'.
Proof.
  intros payload b.
  assert (Epl : take 512 (drop pos data) = payload) by reflexivity.
  assert (Eb : block_number s = b) by reflexivity.
  clearbody payload b. intros Hf Hlen Hne Hsend Hb Hin.
  assert (Hok := sends_succeed_hd s Hsend).
  assert (Hpl : (length payload <= 512)%nat) by (subst payload; rewrite length_take; lia).
  assert (Hpos : (0 < length payload)%nat) by (destruct payload; [congruence | simpl; lia]).
  unfold process_transfer_send.
  rewrite (bind_eq _ _ _ _ _ (fread_eq _ _ _ _ Hf)).
  cbv zeta. cbn [f_pos f_data f_path].
  change (Z.to_nat TFTP_MAX_DATA_SIZE) with 512%nat. rewrite Epl.
  change (Z.to_nat TFTP_DATA_HEADER_SIZE) with 4%nat.
  replace (Z.of_nat (length payload) <=? 0) with false by (symmetry; apply Z.leb_gt; lia).
  set (s1 := set_filepath _ _).
  assert (Hlen1 : length (buffer s1) = 516%nat).
  { subst s1. cbn [buffer set_filepath set_buffer]. rewrite length_blit; lia. }
  unfold bind at 1, gets at 1.
  replace (block_number s1) with b by (symmetry; exact Eb).
  rewrite (bind_eq _ _ _ _ _
             (send_data_packet_eq (Z.of_nat (length payload)) b s1 ltac:(lia) ltac:(lia))).
  cbv zeta. replace (hd true (sendto_ok s1)) with true by (symmetry; exact Hok).
  cbn [negb].
  set (s2 := log _ _).
  assert (Hin2 : inbox s2 = RecvDgram (ack_packet b) :: rest) by exact Hin.
  rewrite (bind_eq _ _ _ _ _ (get_response_other _ _ _ Hin2 ltac:(simpl; lia) ltac:(other_opcode))).
  cbv zeta.
  change (take (Z.to_nat TFTP_MAX_PACKET_SIZE) (ack_packet b)) with (ack_packet b).
  change (blit 0 (ack_packet b) (buffer s2)) with (ack_packet b ++ drop 4 (buffer s2)).
  change (byte_at (ack_packet b ++ drop 4 (buffer s2)) 1) with TFTP_ACK.
  change (response_code TFTP_ACK _) with 1. change (1 <? 0) with false. cbv iota.
  set (s3 := set_buffer _ _).
  assert (Hck : check_ack (buffer s3) (block_number s3) = true).
  { apply check_ack_spec. change (block_number s3) with (block_number s). rewrite Eb.
    split; reflexivity. }
  rewrite (bind_eq _ _ _ _ _ (validate_and_retry_accept_send _ _ Hck)).
  cbn [negb]. unfold bind, gets, ret.
  eexists. split.
  { cbn [success set_success]. rewrite andb_true_r.
    change TFTP_MAX_DATA_SIZE with 512.
    destruct (Z.of_nat (length payload) <? 512) eqn:E;
      destruct (length payload <? 512)%nat eqn:E'; try reflexivity; exfalso.
    - apply Z.ltb_lt in E. apply Nat.ltb_ge in E'. lia.
    - apply Z.ltb_ge in E. apply Nat.ltb_lt in E'. lia. }
  split; [reflexivity|].
  split.
  { cbn [buffer set_success set_block_number set_retry s3 set_buffer].
    rewrite length_app, length_drop.
    replace (length (buffer s2)) with 516%nat; [reflexivity|].
    subst s2. cbn [buffer log set_sendto_ok set_buffer].
    rewrite length_app, length_drop. cbn [length]. lia. }
  split; [cbn; lia|]. split; [reflexivity|]. split; [reflexivity|].
  split.
  { cbn [trace set_success set_block_number set_retry s3 set_buffer set_inbox s2 log
         set_sendto_ok s1 set_filepath buffer].
    do 3 f_equal.
    rewrite to_uchar_hi by lia. rewrite to_uchar_lo.
    rewrite drop_blit by lia.
    replace (Z.to_nat (Z.of_nat (length payload) + TFTP_DATA_HEADER_SIZE))
      with (4 + length payload)%nat
      by (unfold TFTP_DATA_HEADER_SIZE, TFTP_OPCODE_SIZE, TFTP_BLOCK_NUMBER_SIZE; lia).
    unfold data_packet.
    change ([0; TFTP_DATA; b / 256; b mod 256] ++ payload ++ ?r)
      with (([0; TFTP_DATA; b / 256; b mod 256] ++ payload) ++ r).
    apply take_app_length'. rewrite length_app. reflexivity. }
  split; [apply (sends_succeed_tl s); [exact Hsend | reflexivity]|].
  split; [reflexivity|].
  repeat split.
Qed.

Lemma blit_nil (off : nat) (buf : list Z) : blit off [] buf = buf.
Proof. unfold blit. cbn [app length]. rewrite Nat.add_0_r. apply take_drop. Qed.

(** At the end of the file the send loop stops before it sends anything. *)
Lemma process_transfer_send_eof (s : State) (name data : list Z) (pos : nat) :
  filepath s = Some (mkFILE name data pos) ->
  drop pos data = [] ->
  process_transfer_send s = Some (false, s).
Proof.
  intros Hf Hd. unfold process_transfer_send.
  rewrite (bind_eq _ _ _ _ _ (fread_eq _ _ _ _ Hf)).
  cbv zeta. cbn [f_pos f_data f_path]. rewrite Hd, take_nil. cbn [length].
  rewrite blit_nil, Nat.add_0_r. change (Z.of_nat 0 <=? 0) with true. cbv iota.
  unfold ret. do 2 f_equal.
  destruct s; cbn in *. now rewrite Hf.
Qed.

(** ** The blocks of a file *)

Lemma blocks_of_nil (fuel : nat) : blocks_of fuel [] = [].
Proof. now destruct fuel. Qed.

Lemma blocks_of_concat (fuel : nat) (data : list Z) :
  (length data <= fuel)%nat -> concat (blocks_of fuel data) = data.
Proof.
  revert data. induction fuel as [|fuel IH]; intros data H.
  - destruct data; [reflexivity | simpl in H; lia].
  - destruct data as [|x data]; [reflexivity|].
    cbn [blocks_of concat]. rewrite IH.
    + apply take_drop.
    + rewrite length_drop. simpl in *. lia.
Qed.

Lemma blocks_of_fuel (fuel fuel' : nat) (data : list Z) :
  (length data <= fuel)%nat -> (length data <= fuel')%nat ->
  blocks_of fuel data = blocks_of fuel' data.
Proof.
  revert fuel' data. induction fuel as [|fuel IH]; intros fuel' data H H'.
  - destruct data; [now rewrite !blocks_of_nil | simpl in H; lia].
  - destruct data as [|x data]; [now rewrite !blocks_of_nil|].
    destruct fuel' as [|fuel']; [simpl in H'; lia|].
    cbn [blocks_of]. f_equal. apply IH; rewrite length_drop; simpl in *; lia.
Qed.

Lemma blocks_of_well_cut (fuel : nat) (data : list Z) :
  (length data <= fuel)%nat -> well_cut (blocks_of fuel data) = true.
Proof.
  revert data. induction fuel as [|fuel IH]; intros data H; [reflexivity|].
  destruct data as [|x data]; [reflexivity|].
  cbn [blocks_of well_cut].
  assert (Hd : (length (drop 512 (x :: data)) <= fuel)%nat)
    by (rewrite length_drop; simpl in *; lia).
  specialize (IH _ Hd).
  destruct (blocks_of fuel (drop 512 (x :: data))) as [|q qs] eqn:E.
  - apply Nat.leb_le. rewrite length_take. lia.
  - rewrite IH, andb_true_r. apply Nat.eqb_eq. rewrite length_take.
    destruct (drop 512 (x :: data)) as [|y r] eqn:Ed; [now rewrite blocks_of_nil in E|].
    assert (length (drop 512 (x :: data)) <> 0)%nat by (rewrite Ed; simpl; lia).
    rewrite length_drop in *. lia.
Qed.

Lemma blocks_of_nonempty (fuel : nat) (data : list Z) :
  Forall (fun p => p <> []) (blocks_of fuel data).
Proof.
  revert data. induction fuel as [|fuel IH]; intros data; [constructor|].
  destruct data as [|x data]; [constructor|].
  cbn [blocks_of]. constructor; [|apply IH]. discriminate.
Qed.

Lemma file_blocks_concat (data : list Z) : concat (file_blocks data) = data.
Proof. apply blocks_of_concat. lia. Qed.

Lemma file_blocks_well_cut (data : list Z) : well_cut (file_blocks data) = true.
Proof. apply blocks_of_well_cut. lia. Qed.

Lemma file_blocks_nil (data : list Z) : file_blocks data = [] <-> data = [].
Proof.
  split; intros H.
  - rewrite <- (file_blocks_concat data), H. reflexivity.
  - subst. reflexivity.
Qed.

Lemma length_numbered (b : Z) (blocks : list (list Z)) :
  length (numbered b blocks) = length blocks.
Proof. revert b. induction blocks as [|p ps IH]; intros b; simpl; [|rewrite IH]; reflexivity. Qed.

Lemma length_ack_packets (b : Z) (blocks : list (list Z)) :
  length (ack_packets b blocks) = length blocks.
Proof. unfold ack_packets. now rewrite length_map, length_numbered. Qed.

Lemma length_data_packets (b : Z) (blocks : list (list Z)) :
  length (data_packets b blocks) = length blocks.
Proof. unfold data_packets. now rewrite length_map, length_numbered. Qed.

(** ** The loop, run to its end *)

Lemma while_loop_stops (body : M bool) (s s' : State) (fuel : nat) :
  body s = Some (false, s') -> (0 < fuel)%nat -> while_loop fuel body s = Some (tt, s').
Proof. intros E H. destruct fuel; [lia|]. cbn. now rewrite E. Qed.

Lemma while_loop_goes_on (body : M bool) (s s1 : State) (fuel : nat) :
  body s = Some (true, s1) -> while_loop (S fuel) body s = while_loop fuel body s1.
Proof. intros E. cbn. now rewrite E. Qed.

(** The send loop over a file whose blocks are all acknowledged: it sends
    the blocks in order, numbered from [block_number] on, takes the
    acknowledgements and nothing else, and ends. *)
Lemma send_loop_run (name data : list Z) (n : nat) :
  forall (pos : nat) (s : State) (tail : list recv_result),
    let blocks := blocks_of n (drop pos data) in
    let b := block_number s in
    (length (drop pos data) <= n)%nat ->
    filepath s = Some (mkFILE name data pos) ->
    length (buffer s) = 516%nat ->
    sends_succeed s ->
    0 <= b -> b + Z.of_nat (length blocks) <= 65536 ->
    inbox s = arriving (ack_packets b blocks) ++ tail ->
    exists s',
      (forall fuel, (length blocks < fuel)%nat ->
                    while_loop fuel process_transfer_send s = Some (tt, s'))
      /\ (exists pos', filepath s' = Some (mkFILE name data pos'))
      /\ length (buffer s') = 516%nat
      /\ (blocks <> [] -> success s' = true)
      /\ (blocks = [] -> success s' = success s)
      /\ inbox s' = tail
      /\ trace s' = trace s ++ sent_events (data_packets b blocks)
      /\ sends_succeed s'
      /\ surroundings_kept s s'.
Proof.
  induction n as [|n IH]; intros pos s tail blocks b Hn Hf Hlen Hsend Hb0 Hb Hin.
  - assert (Hd : drop pos data = []) by (destruct (drop pos data); [reflexivity | simpl in Hn; lia]).
    exists s. subst blocks. cbn [blocks_of] in *.
    split. { intros fuel Hfuel. apply while_loop_stops; [|lia].
             eapply process_transfer_send_eof; eauto. }
    split; [eauto|]. split; [exact Hlen|]. split; [congruence|]. split; [reflexivity|].
    split; [exact Hin|]. split; [cbn; now rewrite app_nil_r|].
    split; [exact Hsend|]. apply surroundings_kept_refl.
  - destruct (drop pos data) as [|x r] eqn:Hd.
    + exists s. subst blocks. cbn [blocks_of] in *.
      split. { intros fuel Hfuel. apply while_loop_stops; [|lia].
               eapply process_transfer_send_eof; eauto. }
      split; [eauto|]. split; [exact Hlen|]. split; [congruence|]. split; [reflexivity|].
      split; [exact Hin|]. split; [cbn; now rewrite app_nil_r|].
      split; [exact Hsend|]. apply surroundings_kept_refl.
    + subst blocks. cbn [blocks_of] in *. rewrite <- Hd in *.
      set (payload := take 512 (drop pos data)) in *.
      set (more := blocks_of n (drop 512 (drop pos data))) in *.
      cbn [length] in Hb.
      assert (Hpne : payload <> []) by (subst payload; rewrite Hd; discriminate).
      change (ack_packets b (payload :: more))
        with (ack_packet b :: ack_packets (b + 1) more) in Hin.
      cbn [arriving map app] in Hin. fold (arriving (ack_packets (b + 1) more)) in Hin.
      destruct (process_transfer_send_acked s name data pos _ Hf Hlen Hpne Hsend
                  ltac:(fold b; lia) Hin)
        as (s1 & E1 & Hf1 & Hlen1 & Hb1 & Hsucc1 & Hin1 & Htr1 & Hsend1 & _ & Hk1).
      fold payload in E1, Hf1, Htr1. fold b in Hb1, Htr1.
      assert (Hdd : drop (pos + length payload) data = drop 512 (drop pos data)).
      { rewrite drop_drop. subst payload. rewrite length_take.
        destruct (decide (512 <= length (drop pos data))%nat) as [Hge|Hlt].
        - f_equal. lia.
        - rewrite !drop_ge; [reflexivity| |]; rewrite length_drop in *; lia. }
      destruct (length payload <? 512)%nat eqn:Eshort; cbn [negb] in E1.
      * assert (Hmore : more = []).
        { subst more. apply Nat.ltb_lt in Eshort. subst payload.
          rewrite length_take in Eshort.
          rewrite (drop_ge (drop pos data)) by lia. apply blocks_of_nil. }
        rewrite Hmore in *. exists s1.
        split. { intros fuel Hfuel. apply while_loop_stops; [exact E1 | lia]. }
        split; [eauto|]. split; [exact Hlen1|]. split; [intros _; exact Hsucc1|].
        split; [discriminate|]. split; [exact Hin1|].
        split; [exact Htr1|]. split; [exact Hsend1 | exact Hk1].
      * destruct (IH (pos + length payload)%nat s1 tail) as
            (s' & Hrun & Hf' & Hlen' & Hsucc' & Hsame' & Hin' & Htr' & Hsend' & Hk').
        -- rewrite Hdd, length_drop. lia.
        -- exact Hf1.
        -- exact Hlen1.
        -- exact Hsend1.
        -- lia.
        -- rewrite Hdd. fold more. lia.
        -- rewrite Hdd, Hb1. fold more. exact Hin1.
        -- rewrite Hdd in *. fold more in Hrun, Hsucc', Hsame', Htr'. rewrite Hb1 in Htr'.
           exists s'.
           split. { intros [|fuel] Hfuel; [lia|].
                    rewrite (while_loop_goes_on _ _ _ _ E1). apply Hrun.
                    cbn [length] in Hfuel. lia. }
           split; [exact Hf'|]. split; [exact Hlen'|].
           split. { intros _. destruct more; [rewrite Hsame' by reflexivity; exact Hsucc1|].
                    apply Hsucc'. discriminate. }
           split; [discriminate|]. split; [exact Hin'|].
           split. { rewrite Htr', Htr1, <- app_assoc. reflexivity. }
           split; [exact Hsend'|]. eapply surroundings_kept_trans; eauto.
Qed.

(** ** One block, received and stored *)

Lemma process_transfer_receive_stored (s : State) (path stored : list Z) (pos : nat)
    (payload : list Z) (rest : list recv_result) :
  let b := block_number s in
  filepath s = Some (mkFILE path stored pos) ->
  length (buffer s) = 516%nat ->
  (length payload <= 512)%nat ->
  sends_succeed s ->
  (length payload <= disk_room s)%nat ->
  0 <= b < 65536 ->
  inbox s = RecvDgram (data_packet b payload) :: rest ->
  exists s',
    process_transfer_receive s = Some (negb (length payload <? 512)%nat, s')
    /\ filepath s' = Some (mkFILE path (stored ++ payload) pos)
    /\ length (buffer s') = 516%nat
    /\ byte_at (buffer s') 1 = TFTP_ACK
    /\ block_number s' = b + 1
    /\ success s' = true
    /\ inbox s' = rest
    /\ trace s' = trace s ++ [EvSendto (ack_packet b) true; EvFwrite payload (length payload)]
    /\ sends_succeed s'
    /\ disk_room s' = (disk_room s - length payload)%nat
    /\ surroundings_kept s s'.
Proof.
  intros b.
  assert (Eb : block_number s = b) by reflexivity.
  clearbody b. intros Hf Hlen Hpl Hsend Hroom Hb Hin.
  assert (Hok := sends_succeed_hd s Hsend).
  unfold process_transfer_receive.
  rewrite (bind_eq _ _ _ _ _ (get_response_other _ _ _ Hin ltac:(simpl; lia) ltac:(other_opcode))). cbv zeta.
  assert (Etake : take (Z.to_nat TFTP_MAX_PACKET_SIZE) (data_packet b payload)
                  = data_packet b payload).
  { apply take_ge. unfold data_packet. rewrite length_app.
    change (Z.to_nat TFTP_MAX_PACKET_SIZE) with 516%nat. simpl. lia. }
  rewrite Etake.
  assert (Eld : length (data_packet b payload) = (4 + length payload)%nat) by reflexivity.
  rewrite blit_front by (rewrite Eld; lia).
  change (byte_at (data_packet b payload ++ _) 1) with TFTP_DATA.
  change (response_code TFTP_DATA ?l) with l.
  rewrite Eld.
  replace (Z.of_nat (4 + length payload) <? 0) with false by (symmetry; apply Z.ltb_ge; lia).
  set (s1 := set_buffer _ _).
  assert (Hlen1 : length (buffer s1) = 516%nat).
  { subst s1. cbn [buffer set_buffer]. rewrite length_app, length_drop, Eld. lia. }
  assert (Hck : check_ack (buffer s1) (block_number s1) = true).
  { apply check_ack_spec. change (block_number s1) with (block_number s). rewrite Eb.
    split; reflexivity. }
  rewrite (bind_eq _ _ _ _ _ (validate_and_retry_accept_receive 0 s1 ltac:(lia) Hck)).
  cbv zeta. cbn [negb].
  change (block_number s1) with (block_number s). rewrite Eb.
  change (hd true (sendto_ok s1)) with (hd true (sendto_ok s)). rewrite Hok.
  rewrite to_uchar_hi by lia. rewrite to_uchar_lo. fold (ack_packet b).
  set (s2 := set_success _ _).
  assert (Hf2 : filepath s2 = Some (mkFILE path stored pos)) by exact Hf.
  assert (Hbuf2 : buffer s2 = ack_packet b ++ payload ++ drop (4 + length payload) (buffer s)).
  { subst s2 s1. cbn [buffer set_success set_block_number set_retry log set_sendto_ok
                      set_buffer set_inbox].
    reflexivity. }
  assert (Hw := write_to_file_stored 4 (Z.of_nat (4 + length payload) - TFTP_DATA_HEADER_SIZE)
                  _ s2 Hf2).
  replace (Z.of_nat (4 + length payload) - TFTP_DATA_HEADER_SIZE)
    with (Z.of_nat (length payload)) in *
    by (unfold TFTP_DATA_HEADER_SIZE, TFTP_OPCODE_SIZE, TFTP_BLOCK_NUMBER_SIZE; lia).
  rewrite Nat2Z.id in Hw.
  change (Z.to_nat TFTP_DATA_HEADER_SIZE) with 4%nat.
  rewrite (bind_eq _ _ _ _ _
             (Hw ltac:(lia) ltac:(rewrite Hbuf2, !length_app, length_drop; simpl; lia)
                 ltac:(exact Hroom))).
  clear Hw. cbv zeta. cbn [f_path f_data f_pos].
  replace (disk_room s2) with (disk_room s) by reflexivity.
  assert (Ebytes : take (length payload) (drop 4 (buffer s2)) = payload).
  { rewrite Hbuf2. change (drop 4 (ack_packet b ++ ?r)) with r.
    apply take_app_length. }
  rewrite Ebytes. cbn [negb].
  set (s3 := log _ _).
  unfold bind, gets.
  exists s3. split.
  { change (success s3) with true. rewrite andb_true_r.
    change TFTP_MAX_PACKET_SIZE with 516.
    destruct (Z.of_nat (4 + length payload) <? 516) eqn:E;
      destruct (length payload <? 512)%nat eqn:E'; try reflexivity; exfalso.
    - apply Z.ltb_lt in E. apply Nat.ltb_ge in E'. lia.
    - apply Z.ltb_ge in E. apply Nat.ltb_lt in E'. lia. }
  split; [reflexivity|].
  split. { change (buffer s3) with (buffer s2). rewrite Hbuf2, !length_app, length_drop.
           cbn [length ack_packet]. lia. }
  split. { change (buffer s3) with (buffer s2). rewrite Hbuf2. reflexivity. }
  split; [subst s3 s2 s1; cbn; lia|].
  split; [reflexivity|]. split; [reflexivity|].
  split; [subst s3 s2 s1; cbn; rewrite <- app_assoc; reflexivity|].
  split; [apply (sends_succeed_tl s); [exact Hsend | reflexivity]|].
  split; [reflexivity|].
  repeat split.
Qed.

(** With nothing to receive the loop body stops and leaves everything as it is. *)
Lemma process_transfer_receive_timeout (s : State) :
  inbox s = [] -> process_transfer_receive s = Some (false, s).
Proof.
  intros H. unfold process_transfer_receive, bind, get_response, bind, recvfrom.
  rewrite H. reflexivity.
Qed.

Lemma well_cut_cons (p : list Z) (ps : list (list Z)) :
  well_cut (p :: ps) = true ->
  (length p <= 512)%nat /\ well_cut ps = true /\ (ps <> [] -> length p = 512%nat).
Proof.
  cbn [well_cut]. destruct ps as [|q qs].
  - intros H. apply Nat.leb_le in H.
    split; [exact H|]. split; [reflexivity|]. intros N. now contradiction N.
  - intros H. apply andb_true_iff in H as [H1 H2]. apply Nat.eqb_eq in H1.
    split; [lia|]. split; [exact H2|]. intros _. exact H1.
Qed.

Lemma ends_short_cons (p : list Z) (ps : list (list Z)) :
  ps <> [] -> ends_short (p :: ps) = ends_short ps.
Proof. intros H. unfold ends_short. destruct ps; [congruence|]. reflexivity. Qed.

(** The receive loop over blocks that arrive in order: it acknowledges and
    stores each of them and ends after a short block, or when nothing more
    arrives. *)
Lemma receive_loop_run (path : list Z) (pos : nat) (tail : list recv_result)
    (blocks : list (list Z)) :
  forall (s : State) (stored : list Z),
    let b := block_number s in
    well_cut blocks = true ->
    ends_short blocks = true \/ tail = [] ->
    filepath s = Some (mkFILE path stored pos) ->
    length (buffer s) = 516%nat ->
    sends_succeed s ->
    (length (concat blocks) <= disk_room s)%nat ->
    0 <= b -> b + Z.of_nat (length blocks) <= 65536 ->
    inbox s = arriving (data_packets b blocks) ++ tail ->
    exists s',
      (forall fuel, (length blocks < fuel)%nat ->
                    while_loop fuel process_transfer_receive s = Some (tt, s'))
      /\ filepath s' = Some (mkFILE path (stored ++ concat blocks) pos)
      /\ length (buffer s') = 516%nat
      /\ (blocks <> [] -> success s' = true /\ byte_at (buffer s') 1 = TFTP_ACK)
      /\ (blocks = [] -> s' = s)
      /\ inbox s' = tail
      /\ trace s' = trace s ++ receipts b blocks
      /\ sends_succeed s'
      /\ surroundings_kept s s'.
Proof.
  induction blocks as [|p ps IH]; intros s stored b Hcut Hend Hf Hlen Hsend Hroom Hb0 Hb Hin.
  - destruct Hend as [Hend|Hend]; [discriminate|]. subst tail.
    cbn in Hin. exists s.
    split. { intros fuel Hfuel. apply while_loop_stops; [|lia].
             now apply process_transfer_receive_timeout. }
    split; [cbn [concat]; now rewrite app_nil_r|]. split; [exact Hlen|].
    split; [congruence|]. split; [reflexivity|]. split; [exact Hin|].
    split; [cbn; now rewrite app_nil_r|]. split; [exact Hsend|].
    apply surroundings_kept_refl.
  - apply well_cut_cons in Hcut as (Hp & Hcut & Hfull).
    cbn [concat] in Hroom. rewrite length_app in Hroom. cbn [length] in Hb.
    change (data_packets b (p :: ps)) with (data_packet b p :: data_packets (b + 1) ps) in Hin.
    cbn [arriving map app] in Hin. fold (arriving (data_packets (b + 1) ps)) in Hin.
    destruct (process_transfer_receive_stored s path stored pos p _ Hf Hlen Hp Hsend
                ltac:(lia) ltac:(fold b; lia) Hin)
      as (s1 & E1 & Hf1 & Hlen1 & Hack1 & Hb1 & Hsucc1 & Hin1 & Htr1 & Hsend1 & Hroom1 & Hk1).
    fold b in Hb1, Htr1.
    destruct (length p <? 512)%nat eqn:Eshort; cbn [negb] in E1.
    + assert (Hps : ps = []).
      { destruct ps as [|q qs]; [reflexivity|]. apply Nat.ltb_lt in Eshort.
        specialize (Hfull ltac:(discriminate)). lia. }
      subst ps. exists s1.
      split. { intros fuel Hfuel. apply while_loop_stops; [exact E1 | lia]. }
      split; [cbn [concat]; rewrite app_nil_r; exact Hf1|]. split; [exact Hlen1|].
      split; [intros _; split; assumption|]. split; [discriminate|].
      split; [exact Hin1|]. split; [exact Htr1|]. split; [exact Hsend1 | exact Hk1].
    + assert (Hend' : ends_short ps = true \/ tail = []).
      { destruct Hend as [Hend|Hend]; [|now right].
        destruct ps as [|q qs].
        - unfold ends_short in Hend. cbn [last] in Hend. rewrite Eshort in Hend.
          discriminate.
        - left. rewrite <- Hend. symmetry. apply ends_short_cons. discriminate. }
      destruct (IH s1 (stored ++ p) Hcut Hend' Hf1 Hlen1 Hsend1) as
          (s' & Hrun & Hf' & Hlen' & Hsucc' & Hsame' & Hin' & Htr' & Hsend' & Hk').
      * rewrite Hroom1. lia.
      * lia.
      * lia.
      * rewrite Hb1. exact Hin1.
      * rewrite Hb1 in Htr'. exists s'.
        split. { intros [|fuel] Hfuel; [lia|].
                 rewrite (while_loop_goes_on _ _ _ _ E1). apply Hrun.
                 cbn [length] in Hfuel. lia. }
        split; [cbn [concat]; rewrite app_assoc; exact Hf'|]. split; [exact Hlen'|].
        split. { intros _. destruct ps as [|q qs].
                 - rewrite (Hsame' eq_refl). split; assumption.
                 - apply Hsucc'. discriminate. }
        split; [discriminate|]. split; [exact Hin'|].
        split. { rewrite Htr', Htr1, <- app_assoc. reflexivity. }
        split; [exact Hsend'|]. eapply surroundings_kept_trans; eauto.
Qed.

(** ** The request a client sends *)

Lemma blit_app (pre bytes r : list Z) :
  blit (length pre) bytes (pre ++ r) = pre ++ bytes ++ drop (length bytes) r.
Proof.
  unfold blit. rewrite take_app_length. do 2 f_equal.
  rewrite <- drop_drop, drop_app_length. reflexivity.
Qed.

Lemma length_request_packet (op : Z) (name : cstring) :
  length (request_packet op name) = (length name + 9)%nat.
Proof. unfold request_packet. rewrite !length_app. cbn [length]. simpl. lia. Qed.

Lemma send_request_eq (name : cstring) (s : State) :
  filename s = Some name ->
  (length name <= 507)%nat ->
  length (buffer s) = 516%nat ->
  Client.send_request s =
  let pkt := request_packet (to_uchar (opcode s)) name in
  let ok := hd true (sendto_ok s) in
  Some (ok, log (EvSendto pkt ok)
              (set_sendto_ok (tl (sendto_ok s))
                 (set_buffer (pkt ++ drop (length pkt) (buffer s)) s))).
Proof.
  intros Hfn Hname Hlen.
  unfold Client.send_request. unfold bind at 1, gets at 1. rewrite Hfn.
  unfold store, modify, gets, memcpy, sendto, bind, ret.
  cbn [buffer set_buffer opcode].
  destruct (buffer s) as [|b0 [|b1 rest]] eqn:Eb; [simpl in Hlen; lia | simpl in Hlen; lia |].
  cbn [length] in Hlen.
  change (<[1%nat:=to_uchar (opcode s)]> (<[0%nat:=0]> (b0 :: b1 :: rest)))
    with ([0; to_uchar (opcode s)] ++ rest).
  change (Z.to_nat TFTP_OPCODE_SIZE) with (length [0; to_uchar (opcode s)]).
  set (hdr := [0; to_uchar (opcode s)]).
  assert (Hh : length hdr = 2%nat) by reflexivity.
  destruct (decide _) as [_|N]; [|exfalso; apply N; rewrite length_app; lia].
  rewrite blit_app.
  set (r1 := drop (length name) rest).
  assert (Hr1 : length r1 = (514 - length name)%nat) by (subst r1; rewrite length_drop; lia).
  cbn [buffer set_buffer].
  replace (length hdr + length name)%nat with (length (hdr ++ name))
    by (now rewrite length_app).
  rewrite (app_assoc hdr name r1).
  destruct (decide _) as [_|N];
    [|exfalso; apply N; rewrite !length_app; cbn [length]; lia].
  rewrite blit_app. cbn [buffer set_buffer].
  set (r2 := drop (length [0]) r1).
  assert (Hr2 : length r2 = (513 - length name)%nat)
    by (subst r2; rewrite length_drop; cbn [length]; lia).
  replace (length (hdr ++ name) + 1)%nat with (length ((hdr ++ name) ++ [0]))
    by (rewrite !length_app; reflexivity).
  rewrite (app_assoc (hdr ++ name) [0] r2).
  destruct (decide _) as [_|N];
    [|exfalso; apply N; rewrite !length_app; cbn [length]; simpl; lia].
  rewrite blit_app. cbn [buffer set_buffer sendto_ok set_sendto_ok].
  set (r3 := drop _ r2).
  assert (Epkt : ((hdr ++ name) ++ [0]) ++ (bytes_of_string MODE ++ [0])
                 = request_packet (to_uchar (opcode s)) name).
  { unfold request_packet. subst hdr. rewrite <- !app_assoc. reflexivity. }
  rewrite (app_assoc _ (bytes_of_string MODE ++ [0]) r3), Epkt.
  assert (Er3 : r3 = drop (length (request_packet (to_uchar (opcode s)) name))
                       (b0 :: b1 :: rest)).
  { subst r3 r2 r1. rewrite !drop_drop, length_request_packet.
    replace (length name + 9)%nat with (S (S (length name + 7))) by lia.
    cbn [drop]. f_equal. }
  rewrite Er3.
  replace (Z.to_nat (TFTP_OPCODE_SIZE + Z.of_nat (length name) + 1
                     + Z.of_nat (length (bytes_of_string MODE)) + 1))
    with (length (request_packet (to_uchar (opcode s)) name))
    by (rewrite length_request_packet; unfold TFTP_OPCODE_SIZE; simpl; lia).
  rewrite take_app_length.
  cbv zeta.
  destruct (hd true (sendto_ok s)) eqn:Eok.
  - replace (_ <? 0) with false; [reflexivity|].
    symmetry. apply Z.ltb_ge. unfold TFTP_OPCODE_SIZE. lia.
  - reflexivity.
Qed.

(** ** The four transfer handlers *)

Lemma transfer_loop_run (body : M bool) (s s' : State) (n : nat) :
  (forall fuel, (n < fuel)%nat -> while_loop fuel body s = Some (tt, s')) ->
  (n <= length (inbox s))%nat ->
  transfer_loop body s = Some (tt, s').
Proof. intros H Hn. unfold transfer_loop. apply H. lia. Qed.

Lemma fclose_eq (f : FILE) (s : State) :
  filepath s = Some f ->
  fclose s =
  Some (tt, set_filepath None
              (set_fs (match fs s !! f_path f with
                       | Some ino => <[f_path f := mkInode (f_data f) (i_readable ino)]> (fs s)
                       | None => fs s
                       end) s)).
Proof. intros H. unfold fclose. now rewrite H. Qed.

(** The server's [download_request] over a file whose blocks are all
    acknowledged. *)
Lemma server_download_run (name : cstring) (data : list Z) (tail : list recv_result)
    (s : State) :
  let blocks := file_blocks data in
  filepath s = Some (mkFILE name data 0) ->
  length (buffer s) = 516%nat ->
  sends_succeed s ->
  Z.of_nat (length blocks) <= 65535 ->
  inbox s = arriving (ack_packets 1 blocks) ++ tail ->
  exists s',
    Server.download_request s = Some (tt, s')
    /\ trace s' = trace s ++ sent_events (data_packets 1 blocks)
    /\ inbox s' = tail
    /\ filepath s' = None
    /\ fs s' = match fs s !! name with
               | Some ino => <[name := mkInode data (i_readable ino)]> (fs s)
               | None => fs s
               end
    /\ length (buffer s') = 516%nat
    /\ filename s' = filename s
    /\ heap_ok s' = heap_ok s
    /\ sends_succeed s'.
Proof.
  intros blocks Hf Hlen Hsend Hn Hin.
  unfold Server.download_request.
  unfold bind at 1, modify at 1. unfold bind at 1, modify at 1. unfold bind at 1, modify at 1.
  set (s0 := set_retry 0 _).
  destruct (send_loop_run name data (length data) 0 s0 tail) as
      (s1 & Hrun & (pos' & Hf1) & Hlen1 & _ & _ & Hin1 & Htr1 & Hsend1 & Hk1).
  - change (drop 0 data) with data. lia.
  - exact Hf.
  - exact Hlen.
  - exact Hsend.
  - change (0 <= 1). lia.
  - change (drop 0 data) with data. fold (file_blocks data). fold blocks. change (block_number s0) with 1. lia.
  - change (drop 0 data) with data. fold (file_blocks data). fold blocks. exact Hin.
  - change (drop 0 data) with data in Hrun, Htr1. fold (file_blocks data) in Hrun, Htr1. fold blocks in Hrun, Htr1.
    rewrite (bind_eq _ _ _ _ _ (transfer_loop_run _ s0 s1 (length blocks) Hrun
               ltac:(change (inbox s0) with (inbox s); rewrite Hin, length_app;
                     unfold arriving; rewrite length_map, length_ack_packets; lia))).
    rewrite (fclose_eq _ _ Hf1). cbn [f_path f_data].
    destruct Hk1 as (_ & Hfn & Hfs & _ & _ & Hheap).
    eexists. split; [reflexivity|].
    cbn [trace inbox filepath fs buffer filename heap_ok set_filepath set_fs].
    split; [exact Htr1|]. split; [exact Hin1|]. split; [reflexivity|].
    split; [rewrite Hfs; reflexivity|]. split; [exact Hlen1|]. split; [exact Hfn|].
    split; [exact Hheap | exact Hsend1].
Qed.

Lemma cleanup_eq (f : FILE) (s : State) :
  filepath s = Some f ->
  Client.cleanup s =
  Some (tt, set_filename None
              (set_filepath None
                 (set_fs (match fs s !! f_path f with
                          | Some ino => <[f_path f := mkInode (f_data f) (i_readable ino)]> (fs s)
                          | None => fs s
                          end) s))).
Proof.
  intros Hf. unfold Client.cleanup. unfold bind at 1, gets at 1. rewrite Hf.
  rewrite (bind_eq _ _ _ _ _ (fclose_eq _ _ Hf)).
  unfold bind, gets, modify, ret. cbn [filename set_filepath set_fs].
  destruct s as [op fn fp buf bn rt sc ib so dr er cw hp fsys tr]. cbn in *.
  destruct fn; reflexivity.
Qed.

(** The client's [upload_request] when the server acknowledges the request
    and every block. *)
Lemma client_upload_run (name path data : list Z) (tail : list recv_result) (s : State) :
  let blocks := file_blocks data in
  filename s = Some name ->
  (length name <= 507)%nat ->
  filepath s = Some (mkFILE path data 0) ->
  length (buffer s) = 516%nat ->
  sends_succeed s ->
  Z.of_nat (length blocks) <= 65535 ->
  inbox s = arriving (ack_packet 0 :: ack_packets 1 blocks) ++ tail ->
  exists s',
    Client.upload_request s = Some (negb (bool_decide (data = [])), s')
    /\ trace s' = trace s ++ sent_events (request_packet (to_uchar (opcode s)) name
                                          :: data_packets 1 blocks)
    /\ inbox s' = tail
    /\ filepath s' = None
    /\ filename s' = None.
Proof.
  intros blocks Hfn Hname Hf Hlen Hsend Hn Hin.
  unfold Client.upload_request.
  unfold bind at 1, modify at 1.
  set (s0 := set_success false s).
  rewrite (bind_eq _ _ _ _ _ (send_request_eq name s0 Hfn Hname Hlen)).
  cbv zeta. change (sendto_ok s0) with (sendto_ok s). rewrite (sends_succeed_hd s Hsend).
  cbn [negb]. change (opcode s0) with (opcode s).
  set (pkt := request_packet (to_uchar (opcode s)) name).
  set (s1 := log _ _).
  assert (Hin1 : inbox s1 = RecvDgram (ack_packet 0) :: arriving (ack_packets 1 blocks) ++ tail)
    by exact Hin.
  rewrite (bind_eq _ _ _ _ _ (get_response_other _ _ _ Hin1 ltac:(simpl; lia) ltac:(other_opcode))).
  cbv zeta.
  change (take (Z.to_nat TFTP_MAX_PACKET_SIZE) (ack_packet 0)) with (ack_packet 0).
  change (blit 0 (ack_packet 0) (buffer s1)) with (ack_packet 0 ++ drop 4 (buffer s1)).
  change (byte_at (ack_packet 0 ++ drop 4 (buffer s1)) 1) with TFTP_ACK.
  change (response_code TFTP_ACK _) with 1. change (1 <? 0) with false. cbv iota.
  unfold bind at 1, modify at 1. unfold bind at 1, modify at 1.
  set (s2 := set_retry 0 _).
  assert (Hlen2 : length (buffer s2) = 516%nat).
  { subst s2 s1. cbn [buffer set_retry set_block_number set_buffer set_inbox log
                      set_sendto_ok].
    rewrite length_app, length_drop, length_app, length_drop.
    change (length (buffer s0)) with (length (buffer s)). rewrite Hlen.
    subst pkt. rewrite length_request_packet. cbn [length ack_packet]. lia. }
  destruct (send_loop_run path data (length data) 0 s2 tail) as
      (s3 & Hrun & (pos' & Hf3) & Hlen3 & Hsucc3 & Hsame3 & Hin3 & Htr3 & _ & Hk3).
  - change (drop 0 data) with data. lia.
  - exact Hf.
  - exact Hlen2.
  - apply (sends_succeed_tl s); [exact Hsend | reflexivity].
  - change (0 <= 1). lia.
  - change (drop 0 data) with data. fold (file_blocks data). fold blocks.
    change (block_number s2) with 1. lia.
  - change (drop 0 data) with data. fold (file_blocks data). fold blocks. reflexivity.
  - change (drop 0 data) with data in Hrun, Htr3, Hsucc3, Hsame3.
    fold (file_blocks data) in Hrun, Htr3, Hsucc3, Hsame3.
    fold blocks in Hrun, Htr3, Hsucc3, Hsame3.
    rewrite (bind_eq _ _ _ _ _ (transfer_loop_run _ s2 s3 (length blocks) Hrun
               ltac:(change (inbox s2) with (arriving (ack_packets 1 blocks) ++ tail);
                     rewrite length_app; unfold arriving;
                     rewrite length_map, length_ack_packets; lia))).
    rewrite (bind_eq _ _ _ _ _ (cleanup_eq _ _ Hf3)).
    unfold gets. eexists. split.
    { cbn [success set_filename set_filepath set_fs]. do 2 f_equal.
      destruct data as [|x data'].
      - rewrite Hsame3 by reflexivity. reflexivity.
      - rewrite Hsucc3; [reflexivity|]. subst blocks. intros E.
        apply file_blocks_nil in E. discriminate. }
    cbn [trace inbox filepath filename set_filename set_filepath set_fs].
    split. { rewrite Htr3. change (trace s2) with (trace s ++ [EvSendto pkt true]).
             rewrite <- app_assoc. reflexivity. }
    split; [exact Hin3|]. split; reflexivity.
Qed.

Lemma fopen_filename_wb_eq (name : cstring) (s : State) :
  filename s = Some name ->
  cwd_writable s = true ->
  fopen_filename_wb s =
  Some (true, set_filepath (Some (mkFILE name [] 0))
                (set_fs (<[name := mkInode [] true]> (fs s)) s)).
Proof.
  intros Hfn Hw. unfold fopen_filename_wb, bind, gets, fopen_wb. now rewrite Hfn, Hw.
Qed.

(** The client's [download_request] when the blocks of the file arrive in
    order. *)
Lemma client_download_run (name : cstring) (blocks : list (list Z))
    (tail : list recv_result) (s : State) :
  filename s = Some name ->
  (length name <= 507)%nat ->
  length (buffer s) = 516%nat ->
  cwd_writable s = true ->
  sends_succeed s ->
  well_cut blocks = true ->
  blocks <> [] ->
  ends_short blocks = true \/ tail = [] ->
  Z.of_nat (length blocks) <= 65535 ->
  (length (concat blocks) <= disk_room s)%nat ->
  inbox s = arriving (data_packets 1 blocks) ++ tail ->
  exists s',
    Client.download_request s = Some (true, s')
    /\ fs s' = <[name := mkInode (concat blocks) true]> (fs s)
    /\ trace s' = trace s ++ EvSendto (request_packet (to_uchar (opcode s)) name) true
                             :: receipts 1 blocks
    /\ inbox s' = tail
    /\ filepath s' = None
    /\ filename s' = None.
Proof.
  intros Hfn Hname Hlen Hcw Hsend Hcut Hne Hend Hn Hroom Hin.
  unfold Client.download_request.
  unfold bind at 1, modify at 1.
  set (s0 := set_success false s).
  rewrite (bind_eq _ _ _ _ _ (send_request_eq name s0 Hfn Hname Hlen)).
  cbv zeta. change (sendto_ok s0) with (sendto_ok s). rewrite (sends_succeed_hd s Hsend).
  cbn [negb]. change (opcode s0) with (opcode s).
  set (pkt := request_packet (to_uchar (opcode s)) name).
  set (s1 := log _ _).
  rewrite (bind_eq _ _ _ _ _ (fopen_filename_wb_eq name s1 Hfn Hcw)).
  cbn [negb].
  unfold bind at 1, modify at 1. unfold bind at 1, modify at 1.
  set (s2 := set_retry (-1) _).
  assert (Hlen2 : length (buffer s2) = 516%nat).
  { subst s2 s1. cbn [buffer set_retry set_block_number set_filepath set_fs log
                      set_sendto_ok set_buffer].
    rewrite length_app, length_drop.
    change (length (buffer s0)) with (length (buffer s)). rewrite Hlen.
    subst pkt. rewrite length_request_packet. lia. }
  destruct (receive_loop_run name 0 tail blocks s2 [] Hcut Hend) as
      (s3 & Hrun & Hf3 & Hlen3 & Hsucc3 & _ & Hin3 & Htr3 & _ & Hk3).
  - reflexivity.
  - exact Hlen2.
  - apply (sends_succeed_tl s); [exact Hsend | reflexivity].
  - exact Hroom.
  - change (0 <= 1). lia.
  - change (block_number s2) with 1. lia.
  - exact Hin.
  - change (block_number s2) with 1 in Htr3. cbn [app] in Hf3.
    rewrite (bind_eq _ _ _ _ _ (transfer_loop_run _ s2 s3 (length blocks) Hrun
               ltac:(change (inbox s2) with (inbox s); rewrite Hin, length_app;
                     unfold arriving; rewrite length_map, length_data_packets; lia))).
    destruct (Hsucc3 Hne) as [Hs3 Hb3].
    unfold bind at 1, gets at 1. unfold bind at 1, gets at 1.
    rewrite Hs3, Hb3. cbn [negb orb]. change (TFTP_ACK =? TFTP_ERROR) with false. cbv iota.
    unfold bind at 1, ret at 1.
    rewrite (bind_eq _ _ _ _ _ (cleanup_eq _ _ Hf3)).
    unfold gets. cbn [f_path f_data success set_filename set_filepath set_fs].
    destruct Hk3 as (_ & _ & Hfs & _). rewrite Hfs.
    change (fs s2) with (<[name := mkInode [] true]> (fs s)).
    rewrite lookup_insert_eq. eexists. split; [rewrite Hs3; reflexivity|].
    cbn [trace inbox filepath filename fs set_filename set_filepath set_fs i_readable].
    split; [apply insert_insert_eq|].
    split. { rewrite Htr3. change (trace s2) with (trace s ++ [EvSendto pkt true]).
             rewrite <- app_assoc. reflexivity. }
    split; [exact Hin3|]. split; reflexivity.
Qed.

(** The server's [upload_request] when the blocks of the file arrive in
    order. *)
Lemma server_upload_run (name : cstring) (blocks : list (list Z))
    (tail : list recv_result) (s : State) :
  filename s = Some name ->
  length (buffer s) = 516%nat ->
  cwd_writable s = true ->
  sends_succeed s ->
  well_cut blocks = true ->
  blocks <> [] ->
  ends_short blocks = true \/ tail = [] ->
  Z.of_nat (length blocks) <= 65535 ->
  (length (concat blocks) <= disk_room s)%nat ->
  inbox s = arriving (data_packets 1 blocks) ++ tail ->
  exists s',
    Server.upload_request s = Some (tt, s')
    /\ fs s' = <[name := mkInode (concat blocks) true]> (fs s)
    /\ trace s' = trace s ++ EvSendto (ack_packet 0) true :: receipts 1 blocks
    /\ inbox s' = tail
    /\ filepath s' = None
    /\ length (buffer s') = 516%nat
    /\ filename s' = Some name
    /\ heap_ok s' = heap_ok s
    /\ sends_succeed s'.
Proof.
  intros Hfn Hlen Hcw Hsend Hcut Hne Hend Hn Hroom Hin.
  unfold Server.upload_request.
  unfold bind at 1, modify at 1. unfold bind at 1, modify at 1.
  set (s0 := set_block_number 0 _).
  rewrite (bind_eq _ _ _ _ _ (fopen_filename_wb_eq name s0 Hfn Hcw)).
  cbn [negb].
  unfold bind at 1, gets at 1. unfold bind at 1, modify at 1.
  set (s1 := set_block_number _ _).
  change (block_number (set_filepath _ _)) with 0.
  rewrite (bind_eq _ _ _ _ _ (send_ack_eq 0 s1 ltac:(change (buffer s1) with (buffer s); lia))).
  cbv zeta. change (sendto_ok s1) with (sendto_ok s). rewrite (sends_succeed_hd s Hsend).
  cbn [negb].
  unfold bind at 1, modify at 1.
  set (s2 := set_retry (-2) _).
  assert (Hlen2 : length (buffer s2) = 516%nat).
  { subst s2. cbn [buffer set_retry log set_sendto_ok set_buffer].
    rewrite length_app, length_drop. change (buffer s1) with (buffer s). rewrite Hlen.
    reflexivity. }
  destruct (receive_loop_run name 0 tail blocks s2 [] Hcut Hend) as
      (s3 & Hrun & Hf3 & Hlen3 & Hsucc3 & _ & Hin3 & Htr3 & Hsend3 & Hk3).
  - reflexivity.
  - exact Hlen2.
  - apply (sends_succeed_tl s); [exact Hsend | reflexivity].
  - exact Hroom.
  - change (0 <= 0 + 1). lia.
  - change (block_number s2) with (0 + 1). lia.
  - exact Hin.
  - change (block_number s2) with 1 in Htr3. cbn [app] in Hf3.
    rewrite (bind_eq _ _ _ _ _ (transfer_loop_run _ s2 s3 (length blocks) Hrun
               ltac:(change (inbox s2) with (inbox s); rewrite Hin, length_app;
                     unfold arriving; rewrite length_map, length_data_packets; lia))).
    destruct (Hsucc3 Hne) as [Hs3 Hb3].
    unfold bind at 1, gets at 1. unfold bind at 1, gets at 1.
    rewrite Hs3, Hb3. cbn [negb orb]. change (TFTP_ACK =? TFTP_ERROR) with false. cbv iota.
    unfold bind at 1, ret at 1.
    rewrite (fclose_eq _ _ Hf3).
    cbn [f_path f_data].
    destruct Hk3 as (_ & Hfn3 & Hfs & _ & _ & Hheap3). rewrite Hfs.
    change (fs s2) with (<[name := mkInode [] true]> (fs s)).
    rewrite lookup_insert_eq. eexists. split; [reflexivity|].
    cbn [trace inbox filepath filename fs buffer heap_ok set_filepath set_fs i_readable].
    split; [apply insert_insert_eq|].
    split. { rewrite Htr3.
             change (trace s2) with (trace s ++ [EvSendto (ack_packet 0) true]).
             rewrite <- app_assoc. reflexivity. }
    split; [exact Hin3|]. split; [reflexivity|]. split; [exact Hlen3|].
    split; [rewrite Hfn3; exact Hfn|]. split; [exact Hheap3 | exact Hsend3].
Qed.

(** ** Requests that pass the packet checks *)

Lemma strcasecmp_same (a b : cstring) :
  map Server.tolower a = map Server.tolower b -> Server.strcasecmp a b = 0.
Proof.
  revert b. induction a as [|x a IH]; intros [|y b] H; try discriminate; [reflexivity|].
  cbn [map] in H. injection H as Hx Hab.
  cbn [Server.strcasecmp]. rewrite Hx, Z.eqb_refl. now apply IH.
Qed.

Lemma init_request_idle (s : State) :
  filepath s = None ->
  Server.init_request s =
  Some (tt, mkState 0 None None zero_buffer (block_number s) (retry s) (success s)
              (inbox s) (sendto_ok s) (disk_room s) (errno s) (cwd_writable s) (heap_ok s)
              (fs s) (trace s)).
Proof.
  intros Hf.
  unfold Server.init_request, Server.cleanup_request, bind, gets, modify, ret.
  destruct s as [op fn fp buf bn r su inb so room en cw ho fs0 tr].
  cbn in Hf. subst fp. destruct fn; reflexivity.
Qed.

Lemma well_formed_request_fields (d : list Z) :
  well_formed_request d = true ->
  exists d0 d1 name after,
    d = d0 :: d1 :: name ++ 0 :: after
    /\ request_opcode d = 256 * d0 + d1
    /\ request_name d = name
    /\ name <> [] /\ Forall nonzero name
    /\ map Server.tolower (fst (split_nul after)) = bytes_of_string MODE
    /\ (request_opcode d = TFTP_RRQ \/ request_opcode d = TFTP_WRQ
        \/ request_opcode d = TFTP_DRQ).
Proof.
  unfold well_formed_request. destruct d as [|d0 [|d1 body]]; try discriminate.
  intros H. apply andb_true_iff in H as [H H3]. apply andb_true_iff in H as [_ H2].
  destruct (split_nul body) as [name [after|]] eqn:E; [|discriminate].
  apply andb_true_iff in H3 as [Hne Hmode].
  apply negb_true_iff, bool_decide_eq_false in Hne. apply bool_decide_eq_true in Hmode.
  pose proof (split_nul_nonzero body) as Hnz. rewrite E in Hnz. cbn [fst] in Hnz.
  pose proof (split_nul_Some _ _ _ E) as Hbody.
  exists d0, d1, name, after. subst body.
  split; [reflexivity|]. split; [reflexivity|].
  split.
  { unfold request_name.
    change (drop 2 (d0 :: d1 :: name ++ 0 :: after)) with (name ++ 0 :: after).
    now rewrite E. }
  split; [exact Hne|]. split; [exact Hnz|]. split; [exact Hmode|].
  change (request_opcode (d0 :: d1 :: name ++ 0 :: after)) with (256 * d0 + d1).
  cbv zeta in H2.
  apply orb_true_iff in H2 as [H2|H2]; [apply orb_true_iff in H2 as [H2|H2]|];
    apply Z.eqb_eq in H2; tauto.
Qed.

(** A well-formed request of at most 515 bytes passes the four packet
    checks; what is left of [validate_request] is the file check, on a state
    that holds the opcode and the filename of the datagram. *)
Lemma validate_request_parses (d : list Z) (s : State) :
  Forall is_byte d ->
  (length d <= 515)%nat ->
  well_formed_request d = true ->
  buffer s = d ++ replicate (516 - length d) 0 ->
  heap_ok s = true ->
  Server.validate_request (Z.of_nat (length d)) s
  = file_check (set_filename (Some (request_name d)) (set_opcode (request_opcode d) s)).
Proof.
  intros Hbytes Hd Hwf Hbuf Hheap.
  destruct (well_formed_request_fields d Hwf)
    as (d0 & d1 & name & after & Ed & Eop & Ename & Hne & Hnz & Hmode & Hop).
  rewrite Eop in *. rewrite Ename. clear Eop Ename.
  assert (Hlen : length (buffer s) = 516%nat).
  { rewrite Hbuf, length_app, length_replicate. lia. }
  remember (516 - length d)%nat as k eqn:Ek.
  assert (Hk : (1 <= k)%nat) by lia.
  assert (Hd4 : (4 <= length d)%nat).
  { subst d. cbn [length]. rewrite length_app. cbn [length].
    destruct name; [congruence | cbn [length]; lia]. }
  unfold Server.validate_request.
  destruct (validate_request_count_cases (Z.of_nat (length d)) s Hlen)
    as [[H4 E1] | [Hlt _]]; [|lia].
  rewrite (bind_eq _ _ _ _ _ E1). cbn [negb]. clear E1.
  assert (Hrest : drop 2 (buffer s) = name ++ 0 :: (after ++ replicate k 0)).
  { rewrite Hbuf, Ed.
    change (drop 2 ((d0 :: d1 :: name ++ 0 :: after) ++ replicate k 0))
      with ((name ++ 0 :: after) ++ replicate k 0).
    rewrite <- app_assoc. reflexivity. }
  assert (Hc : cstrlen (drop 2 (buffer s)) = length name)
    by (rewrite Hrest; now apply cstrlen_app_nul).
  assert (Hrest' : drop (length name + 3) (buffer s) = after ++ replicate k 0).
  { replace (length name + 3)%nat with (2 + (length name + 1))%nat by lia.
    rewrite <- drop_drop, Hrest.
    rewrite drop_app_ge by lia.
    replace (length name + 1 - length name)%nat with 1%nat by lia. reflexivity. }
  pose proof (validate_mode_cases s Hlen) as Hm. cbv zeta in Hm.
  rewrite Hc, Hrest' in Hm. rewrite Hrest in Hm.
  rewrite existsb_nul_app in Hm.
  pose proof (zero_padding_has_nul after k 0 Hk ltac:(lia)) as Hz. rewrite drop_0 in Hz.
  rewrite Hz in Hm. cbn [andb] in Hm.
  rewrite <- split_nul_fst, split_nul_app_zeros in Hm.
  rewrite (strcasecmp_same _ (bytes_of_string MODE)) in Hm by (rewrite Hmode; reflexivity).
  change (0 =? 0) with true in Hm. cbv iota in Hm.
  rewrite (bind_eq _ _ _ _ _ Hm). cbn [negb]. clear Hm.
  pose proof (validate_operation_cases s Hlen) as Ho. cbv zeta in Ho.
  assert (Hopb : (Z.lor (Z.shiftl (byte_at (buffer s) 0) 8) (byte_at (buffer s) 1)) mod 65536
                 = 256 * d0 + d1).
  { rewrite Hbuf, Ed. unfold byte_at. cbn [nth app].
    rewrite Ed in Hbytes.
    inversion Hbytes as [|? ? Hb0 Hb']; subst. inversion Hb' as [|? ? Hb1 _]; subst.
    now apply opcode_bytes. }
  rewrite Hopb in Ho.
  replace ((256 * d0 + d1 =? TFTP_RRQ) || (256 * d0 + d1 =? TFTP_WRQ)
           || (256 * d0 + d1 =? TFTP_DRQ)) with true in Ho.
  2:{ symmetry. destruct Hop as [->| [->| ->]]; reflexivity. }
  rewrite (bind_eq _ _ _ _ _ Ho). cbn [negb]. clear Ho.
  set (s3 := set_opcode (256 * d0 + d1) s).
  assert (Hlen3 : length (buffer s3) = 516%nat) by exact Hlen.
  pose proof (validate_filename_cases s3 Hlen3) as Hf. cbv zeta in Hf.
  change (buffer s3) with (buffer s) in Hf. rewrite Hc, Hrest in Hf.
  specialize (Hf (existsb_nul_app _ _)).
  replace (cstrlen (take 256 (name ++ 0%Z :: after ++ replicate k 0%Z)) =? 0)%nat
    with false in Hf.
  2:{ symmetry. apply Nat.eqb_neq. destruct name as [|n0 name']; [congruence|].
      cbn [app take cstrlen]. inversion Hnz as [|? ? Hn0 _]; subst.
      destruct (Z.eqb_spec n0 0) as [e|_]; [exfalso; exact (Hn0 e) | discriminate]. }
  change (heap_ok s3) with (heap_ok s) in Hf. rewrite Hheap in Hf.
  rewrite take_app_length in Hf.
  rewrite (bind_eq _ _ _ _ _ Hf). cbn [negb]. reflexivity.
Qed.

(** One turn of the server's loop on such a request. *)
Lemma prog_iteration_parses (d : list Z) (rest : list recv_result) (s : State) :
  Forall is_byte d ->
  (length d <= 515)%nat ->
  well_formed_request d = true ->
  filepath s = None ->
  heap_ok s = true ->
  inbox s = RecvDgram d :: rest ->
  Server.prog_iteration s
  = (let* valid := file_check in
     if negb valid then ret false else Server.handle_request >> ret true)
      (request_parsed (request_opcode d) (request_name d) d rest s).
Proof.
  intros Hbytes Hd Hwf Hfp Hheap Hin.
  unfold Server.prog_iteration.
  rewrite (bind_eq _ _ _ _ _ (init_request_idle s Hfp)).
  set (s0 := mkState 0 _ _ _ _ _ _ _ _ _ _ _ _ _ _).
  assert (E1 : recvfrom s0 =
               Some (Z.of_nat (length d),
                     set_buffer (d ++ replicate (516 - length d) 0) (set_inbox rest s0))).
  { unfold recvfrom. change (inbox s0) with (inbox s). rewrite Hin.
    change (Z.to_nat TFTP_MAX_PACKET_SIZE) with 516%nat.
    rewrite take_ge by lia. cbv zeta. do 3 f_equal.
    change (buffer s0) with zero_buffer. unfold blit, zero_buffer.
    rewrite take_0. cbn [app]. f_equal. rewrite drop_replicate. reflexivity. }
  rewrite (bind_eq _ _ _ _ _ E1).
  assert (Hd0 : (0 < length d)%nat).
  { destruct d; [discriminate Hwf | cbn [length]; lia]. }
  replace (Z.of_nat (length d) <=? 0) with false by (symmetry; apply Z.leb_gt; lia).
  set (s1 := set_buffer _ _).
  unfold bind at 1.
  rewrite (validate_request_parses d s1 Hbytes Hd Hwf eq_refl Hheap).
  reflexivity.
Qed.

(** ** The file checks and the handlers behind them *)

Lemma length_request_parsed (op : Z) (name : cstring) (d : list Z)
    (rest : list recv_result) (s : State) :
  (length d <= 516)%nat -> length (buffer (request_parsed op name d rest s)) = 516%nat.
Proof. intros H. cbn [buffer request_parsed]. rewrite length_app, length_replicate. lia. Qed.

(** A request turned down with the canonical message of [code]. *)
Lemma refuse (code : Z) (p : State) :
  length (buffer p) = 516%nat ->
  sends_succeed p ->
  exists p',
    (send_error_packet (Some Server.server) code None >> ret false) p = Some (false, p')
    /\ trace p' = trace p ++ [EvSendto (error_packet code None) true]
    /\ fs p' = fs p /\ filepath p' = filepath p /\ inbox p' = inbox p
    /\ heap_ok p' = heap_ok p /\ sends_succeed p'.
Proof.
  intros Hlen Hsend.
  rewrite (bind_eq _ _ _ _ _
             (send_error_packet_eq Server.server code None p Hlen ltac:(discriminate))).
  cbv zeta. rewrite (sends_succeed_hd p Hsend).
  eexists. split; [reflexivity|]. split; [reflexivity|].
  split; [reflexivity|]. split; [reflexivity|]. split; [reflexivity|].
  split; [reflexivity|]. apply (sends_succeed_tl p); [exact Hsend | reflexivity].
Qed.

Lemma access_F_OK_eq (name : cstring) (p : State) :
  filename p = Some name ->
  Server.access_F_OK p = Some (bool_decide (is_Some (fs p !! name)), p).
Proof. intros H. unfold Server.access_F_OK, bind, gets. now rewrite H. Qed.

Lemma access_R_OK_eq (name : cstring) (p : State) :
  filename p = Some name ->
  Server.access_R_OK p = Some (match fs p !! name with
                               | Some ino => i_readable ino
                               | None => false
                               end, p).
Proof. intros H. unfold Server.access_R_OK, bind, gets. now rewrite H. Qed.

Lemma handle_request_eq (s : State) :
  Server.handle_request s =
  ((if opcode s =? TFTP_RRQ then Server.download_request
    else if opcode s =? TFTP_WRQ then Server.upload_request
    else if opcode s =? TFTP_DRQ then Server.delete_request
    else send_error_packet (Some Server.server) ERROR_ILLEGAL_OPERATION None >>
         print_error 0 TFTP_MAX_PACKET_SIZE >>
         ret tt) >> ret tt) s.
Proof.
  unfold Server.handle_request, set_socket_timeout.
  unfold bind at 1, ret at 1. cbn [negb]. unfold bind at 1, gets at 1.
  unfold bind at 1. unfold bind at 4.
  destruct (if opcode s =? TFTP_RRQ then _ else _) as [[[] s']|]; reflexivity.
Qed.

Lemma file_check_eq (p : State) :
  file_check p =
  (if opcode p =? TFTP_RRQ then Server.validate_download_file
   else if opcode p =? TFTP_WRQ then Server.validate_upload_file
   else if opcode p =? TFTP_DRQ then Server.validate_delete_file
   else ret true) p.
Proof. reflexivity. Qed.

Section Dispatch.

Variable d : list Z.
Variable rest : list recv_result.
Variable s : State.
Hypothesis Hbytes : Forall is_byte d.
Hypothesis Hd : (length d <= 515)%nat.
Hypothesis Hwf : well_formed_request d = true.
Hypothesis Hidle : server_idle s.
Hypothesis Hin : inbox s = RecvDgram d :: rest.

Let name : cstring := request_name d.
Let p : State := request_parsed (request_opcode d) name d rest s.

Lemma dispatch_eq :
  Server.prog_iteration s
  = (let* valid := file_check in
     if negb valid then ret false else Server.handle_request >> ret true) p.
Proof.
  destruct Hidle as (Hfp & Hheap & _).
  now apply prog_iteration_parses.
Qed.

Lemma parsed_ready : length (buffer p) = 516%nat /\ sends_succeed p.
Proof.
  split; [apply length_request_parsed; lia|]. destruct Hidle as (_ & _ & H). exact H.
Qed.

(** A write request for a name that exists. *)
Lemma write_request_refused :
  request_opcode d = TFTP_WRQ ->
  is_Some (fs s !! name) ->
  exists s',
    Server.prog_iteration s = Some (false, s')
    /\ trace s' = trace s ++ [EvSendto (error_packet ERROR_FILE_EXISTS None) true]
    /\ fs s' = fs s /\ inbox s' = rest /\ server_idle s'.
Proof.
  intros Hop Hex. destruct parsed_ready as [Hlen Hsend].
  destruct Hidle as (_ & Hheap & _).
  rewrite dispatch_eq. unfold bind at 1. rewrite file_check_eq.
  change (opcode p) with (request_opcode d). rewrite Hop.
  change (TFTP_WRQ =? TFTP_RRQ) with false. change (TFTP_WRQ =? TFTP_WRQ) with true.
  cbv iota. unfold Server.validate_upload_file.
  rewrite (bind_eq _ _ _ _ _ (access_F_OK_eq name p eq_refl)).
  change (fs p) with (fs s). rewrite (bool_decide_eq_true_2 _ Hex).
  destruct (refuse ERROR_FILE_EXISTS p Hlen Hsend)
    as (p' & E & Htr & Hfs & Hfp & Hib & Hhp & Hss).
  rewrite E. cbn [negb]. exists p'. split; [reflexivity|].
  split; [exact Htr|]. split; [exact Hfs|]. split; [exact Hib|].
  split; [rewrite Hfp; reflexivity|]. split; [rewrite Hhp; exact Hheap | exact Hss].
Qed.

(** A read request for a name that does not exist, or that may not be read. *)
Lemma read_request_refused :
  request_opcode d = TFTP_RRQ ->
  match fs s !! name with
  | Some ino => i_readable ino = false
  | None => True
  end ->
  exists s',
    Server.prog_iteration s = Some (false, s')
    /\ trace s' = trace s ++
         [EvSendto (error_packet (match fs s !! name with
                                  | Some _ => ERROR_ACCESS_VIOLATION
                                  | None => ERROR_FILE_NOT_FOUND
                                  end) None) true]
    /\ fs s' = fs s /\ inbox s' = rest /\ server_idle s'.
Proof.
  intros Hop Hno. destruct parsed_ready as [Hlen Hsend].
  destruct Hidle as (_ & Hheap & _).
  rewrite dispatch_eq. unfold bind at 1. rewrite file_check_eq.
  change (opcode p) with (request_opcode d). rewrite Hop.
  change (TFTP_RRQ =? TFTP_RRQ) with true. cbv iota.
  unfold Server.validate_download_file, Server.validate_file_access.
  rewrite (bind_eq _ _ _ _ _ (access_F_OK_eq name p eq_refl)).
  change (fs p) with (fs s).
  destruct (fs s !! name) as [ino|] eqn:El.
  - rewrite bool_decide_eq_true_2 by eauto. cbn [negb].
    rewrite (bind_eq _ _ _ _ _ (access_R_OK_eq name p eq_refl)).
    change (fs p) with (fs s). rewrite El, Hno. cbn [negb].
    destruct (refuse ERROR_ACCESS_VIOLATION p Hlen Hsend)
      as (p' & E & Htr & Hfs & Hfp & Hib & Hhp & Hss).
    rewrite E. cbn [negb]. exists p'. split; [reflexivity|].
    split; [exact Htr|]. split; [exact Hfs|]. split; [exact Hib|].
    split; [rewrite Hfp; reflexivity|]. split; [rewrite Hhp; exact Hheap | exact Hss].
  - rewrite bool_decide_eq_false_2 by (intros [? ?]; discriminate). cbn [negb].
    destruct (refuse ERROR_FILE_NOT_FOUND p Hlen Hsend)
      as (p' & E & Htr & Hfs & Hfp & Hib & Hhp & Hss).
    rewrite E. cbn [negb]. exists p'. split; [reflexivity|].
    split; [exact Htr|]. split; [exact Hfs|]. split; [exact Hib|].
    split; [rewrite Hfp; reflexivity|]. split; [rewrite Hhp; exact Hheap | exact Hss].
Qed.

(** A delete request: the file goes and ACK(0) answers; or [remove] fails
    in a directory that cannot be written, and ERROR 0 answers with the text
    of [strerror]; or the name does not exist, and ERROR 1 answers before
    any handler runs. *)
Lemma delete_request_outcome :
  request_opcode d = TFTP_DRQ ->
  exists s',
    Server.prog_iteration s = Some (bool_decide (is_Some (fs s !! name)), s')
    /\ trace s' = trace s ++
         match fs s !! name with
         | Some _ =>
             if cwd_writable s
             then [EvRemove name; EvSendto (ack_packet 0) true]
             else [EvSendto (error_packet ERROR_UNDEFINED (Some strerror_EACCES)) true]
         | None => [EvSendto (error_packet ERROR_FILE_NOT_FOUND None) true]
         end
    /\ fs s' = (if cwd_writable s then delete name (fs s) else fs s)
    /\ inbox s' = rest /\ server_idle s'.
Proof.
  intros Hop. destruct parsed_ready as [Hlen Hsend].
  destruct Hidle as (_ & Hheap & _).
  rewrite dispatch_eq. unfold bind at 1. rewrite file_check_eq.
  change (opcode p) with (request_opcode d). rewrite Hop.
  change (TFTP_DRQ =? TFTP_RRQ) with false. change (TFTP_DRQ =? TFTP_WRQ) with false.
  change (TFTP_DRQ =? TFTP_DRQ) with true. cbv iota.
  unfold Server.validate_delete_file.
  rewrite (bind_eq _ _ _ _ _ (access_F_OK_eq name p eq_refl)).
  change (fs p) with (fs s).
  destruct (fs s !! name) as [ino|] eqn:El.
  - rewrite bool_decide_eq_true_2 by eauto. cbn [negb].
    unfold ret at 1. cbn [negb].
    destruct (cwd_writable s) eqn:Hcw.
    + assert (Eh : Server.handle_request p =
                   Some (tt, log (EvSendto (ack_packet 0) true)
                               (set_sendto_ok (tl (sendto_ok p))
                                  (set_buffer (ack_packet 0 ++ drop 4 (buffer p))
                                     (log (EvRemove name)
                                        (set_fs (delete name (fs s)) p)))))).
      { rewrite handle_request_eq.
        change (opcode p) with (request_opcode d). rewrite Hop.
        change (TFTP_DRQ =? TFTP_RRQ) with false. change (TFTP_DRQ =? TFTP_WRQ) with false.
        change (TFTP_DRQ =? TFTP_DRQ) with true. cbv iota.
        unfold Server.delete_request.
        unfold bind at 1. unfold bind at 1, gets at 1.
        change (filename p) with (Some name). unfold bind at 1, remove.
        change (fs p) with (fs s). rewrite El.
        change (cwd_writable p) with (cwd_writable s). rewrite Hcw.
        change (0 =? 0) with true. cbv iota.
        set (p1 := log _ _).
        assert (Hlen1 : (4 <= length (buffer p1))%nat)
          by (change (buffer p1) with (buffer p); lia).
        unfold bind at 1.
        rewrite (send_ack_eq 0 p1 Hlen1). cbv zeta.
        change (sendto_ok p1) with (sendto_ok p). rewrite (sends_succeed_hd p Hsend).
        reflexivity. }
      rewrite (bind_eq _ _ _ _ _ Eh). unfold ret.
      eexists. split; [reflexivity|].
      cbn [trace fs inbox log set_sendto_ok set_buffer set_fs].
      split; [change (trace p) with (trace s); rewrite <- app_assoc; reflexivity|].
      split; [reflexivity|]. split; [reflexivity|].
      split; [reflexivity|]. split; [exact Hheap|].
      apply (sends_succeed_tl p); [exact Hsend | reflexivity].
    + assert (Hmsg : forall c, Some strerror_EACCES = Some c -> Forall nonzero c).
      { intros c Hc. inversion Hc; subst c. vm_compute.
        repeat constructor; intros H; discriminate H. }
      assert (Eh : Server.handle_request p =
                   Some (tt, log (EvSendto (error_packet ERROR_UNDEFINED
                                              (Some strerror_EACCES)) true)
                               (set_sendto_ok (tl (sendto_ok p))
                                  (set_buffer
                                     (error_packet ERROR_UNDEFINED (Some strerror_EACCES)
                                      ++ drop (length (error_packet ERROR_UNDEFINED
                                                         (Some strerror_EACCES)))
                                              (buffer p)) p)))).
      { rewrite handle_request_eq.
        change (opcode p) with (request_opcode d). rewrite Hop.
        change (TFTP_DRQ =? TFTP_RRQ) with false. change (TFTP_DRQ =? TFTP_WRQ) with false.
        change (TFTP_DRQ =? TFTP_DRQ) with true. cbv iota.
        unfold Server.delete_request.
        unfold bind at 1. unfold bind at 1, gets at 1.
        change (filename p) with (Some name). unfold bind at 1, remove.
        change (fs p) with (fs s). rewrite El.
        change (cwd_writable p) with (cwd_writable s). rewrite Hcw.
        change (-1 =? 0) with false. cbv iota.
        assert (Er : strerror_remove (Some name) p = Some (strerror_EACCES, p)).
        { unfold strerror_remove. change (fs p) with (fs s). now rewrite El. }
        rewrite (bind_eq _ _ _ _ _ Er).
        rewrite (send_error_packet_eq Server.server ERROR_UNDEFINED _ p Hlen Hmsg).
        cbv zeta. rewrite (sends_succeed_hd p Hsend). reflexivity. }
      rewrite (bind_eq _ _ _ _ _ Eh). unfold ret.
      eexists. split; [reflexivity|].
      cbn [trace fs inbox log set_sendto_ok set_buffer set_fs].
      split; [reflexivity|].
      split; [reflexivity|]. split; [reflexivity|].
      split; [reflexivity|]. split; [exact Hheap|].
      apply (sends_succeed_tl p); [exact Hsend | reflexivity].
  - rewrite bool_decide_eq_false_2 by (intros [? ?]; discriminate). cbn [negb].
    destruct (refuse ERROR_FILE_NOT_FOUND p Hlen Hsend)
      as (p' & E & Htr & Hfs & Hfp & Hib & Hhp & Hss).
    rewrite (send_error_packet_print_error Server.server ERROR_FILE_NOT_FOUND None
               (ret false) p Hlen ltac:(discriminate)).
    rewrite E. cbn [negb]. exists p'. split; [reflexivity|].
    split; [exact Htr|].
    split. { rewrite Hfs. change (fs p) with (fs s).
             destruct (cwd_writable s); [symmetry; now apply delete_id | reflexivity]. }
    split; [exact Hib|].
    split; [rewrite Hfp; reflexivity|]. split; [rewrite Hhp; exact Hheap | exact Hss].
Qed.

(** A read request for a readable file whose blocks are all acknowledged. *)
Lemma read_request_served (data : list Z) (tail : list recv_result) :
  request_opcode d = TFTP_RRQ ->
  fs s !! name = Some (mkInode data true) ->
  Z.of_nat (length (file_blocks data)) <= 65535 ->
  rest = arriving (ack_packets 1 (file_blocks data)) ++ tail ->
  exists s',
    Server.prog_iteration s = Some (true, s')
    /\ trace s' = trace s ++ sent_events (data_packets 1 (file_blocks data))
    /\ fs s' = fs s /\ inbox s' = tail /\ server_idle s'.
Proof.
  intros Hop Hfile Hn Hrest. destruct parsed_ready as [Hlen Hsend].
  destruct Hidle as (_ & Hheap & _).
  rewrite dispatch_eq. unfold bind at 1. rewrite file_check_eq.
  change (opcode p) with (request_opcode d). rewrite Hop.
  change (TFTP_RRQ =? TFTP_RRQ) with true. cbv iota.
  unfold Server.validate_download_file, Server.validate_file_access.
  rewrite (bind_eq _ _ _ _ _ (access_F_OK_eq name p eq_refl)).
  change (fs p) with (fs s). rewrite Hfile.
  rewrite bool_decide_eq_true_2 by eauto. cbn [negb].
  rewrite (bind_eq _ _ _ _ _ (access_R_OK_eq name p eq_refl)).
  change (fs p) with (fs s). rewrite Hfile. cbn [i_readable negb].
  set (p1 := set_filepath (Some (mkFILE name data 0)) p).
  assert (Eo : Server.fopen_filename_rb p = Some (true, p1)).
  { unfold Server.fopen_filename_rb.
    unfold bind at 1, gets at 1. change (filename p) with (Some name). cbv iota.
    unfold bind at 1, gets at 1. change (fs p) with (fs s). rewrite Hfile.
    reflexivity. }
  rewrite Eo. cbn [negb].
  destruct (server_download_run name data tail p1 eq_refl Hlen Hsend Hn
              ltac:(change (inbox p1) with rest; exact Hrest))
    as (s' & E & Htr & Hib & Hfp & Hfs & _ & _ & Hhp & Hss).
  assert (Eh : Server.handle_request p1 = Some (tt, s')).
  { rewrite handle_request_eq.
    change (opcode p1) with (request_opcode d). rewrite Hop.
    change (TFTP_RRQ =? TFTP_RRQ) with true. cbv iota.
    unfold bind. rewrite E. reflexivity. }
  rewrite (bind_eq _ _ _ _ _ Eh). unfold ret.
  exists s'. split; [reflexivity|]. split; [exact Htr|].
  split. { change (fs p1) with (fs s) in Hfs. rewrite Hfile in Hfs.
           cbn [i_readable] in Hfs. rewrite Hfs. now apply insert_id. }
  split; [exact Hib|]. split; [exact Hfp|]. split; [rewrite Hhp; exact Hheap | exact Hss].
Qed.

(** A write request for a new name, followed by the blocks of the file. *)
Lemma write_request_served (blocks : list (list Z)) (tail : list recv_result) :
  request_opcode d = TFTP_WRQ ->
  fs s !! name = None ->
  cwd_writable s = true ->
  well_cut blocks = true ->
  blocks <> [] ->
  ends_short blocks = true \/ tail = [] ->
  Z.of_nat (length blocks) <= 65535 ->
  (length (concat blocks) <= disk_room s)%nat ->
  rest = arriving (data_packets 1 blocks) ++ tail ->
  exists s',
    Server.prog_iteration s = Some (true, s')
    /\ trace s' = trace s ++ EvSendto (ack_packet 0) true :: receipts 1 blocks
    /\ fs s' = <[name := mkInode (concat blocks) true]> (fs s)
    /\ inbox s' = tail /\ server_idle s'.
Proof.
  intros Hop Hnew Hcw Hcut Hne Hend Hn Hroom Hrest. destruct parsed_ready as [Hlen Hsend].
  destruct Hidle as (_ & Hheap & _).
  rewrite dispatch_eq. unfold bind at 1. rewrite file_check_eq.
  change (opcode p) with (request_opcode d). rewrite Hop.
  change (TFTP_WRQ =? TFTP_RRQ) with false. change (TFTP_WRQ =? TFTP_WRQ) with true.
  cbv iota. unfold Server.validate_upload_file.
  rewrite (bind_eq _ _ _ _ _ (access_F_OK_eq name p eq_refl)).
  change (fs p) with (fs s). rewrite Hnew.
  rewrite bool_decide_eq_false_2 by (intros [? ?]; discriminate).
  unfold ret at 1. cbn [negb].
  destruct (server_upload_run name blocks tail p eq_refl Hlen Hcw Hsend Hcut Hne Hend Hn
              Hroom ltac:(change (inbox p) with rest; exact Hrest))
    as (s' & E & Hfs & Htr & Hib & Hfp & _ & _ & Hhp & Hss).
  assert (Eh : Server.handle_request p = Some (tt, s')).
  { rewrite handle_request_eq.
    change (opcode p) with (request_opcode d). rewrite Hop.
    change (TFTP_WRQ =? TFTP_RRQ) with false. change (TFTP_WRQ =? TFTP_WRQ) with true.
    cbv iota. unfold bind. rewrite E. reflexivity. }
  rewrite (bind_eq _ _ _ _ _ Eh). unfold ret.
  exists s'. split; [reflexivity|]. split; [exact Htr|]. split; [exact Hfs|].
  split; [exact Hib|]. split; [exact Hfp|]. split; [rewrite Hhp; exact Hheap | exact Hss].
Qed.

End Dispatch.

(** ** The engine leaves the request and the directory alone *)

Ltac kept_by_inversion :=
  let H := fresh "H" in
  intros H; inversion H; subst; repeat split.

Lemma sendto_surroundings (len : Z) (s : State) (r : Z) (s' : State) :
  sendto len s = Some (r, s') -> surroundings_kept s s'.
Proof. unfold sendto. kept_by_inversion. Qed.

Lemma send_ack_surroundings (bn : Z) (s : State) (r : bool) (s' : State) :
  send_ack bn s = Some (r, s') -> surroundings_kept s s'.
Proof.
  unfold send_ack, bind, store, modify, sendto. cbn.
  destruct (hd true (sendto_ok s)); cbn; kept_by_inversion.
Qed.

Lemma send_data_packet_surroundings (n bn : Z) (s : State) (r : bool) (s' : State) :
  send_data_packet n bn s = Some (r, s') -> surroundings_kept s s'.
Proof.
  unfold send_data_packet, bind, store, modify, sendto. cbn.
  destruct (hd true (sendto_ok s)); cbn;
    try destruct (n + TFTP_DATA_HEADER_SIZE <? 0); kept_by_inversion.
Qed.

Lemma fseek_cur_surroundings (delta : Z) (s : State) (r : Z) (s' : State) :
  fseek_cur delta s = Some (r, s') -> surroundings_kept s s'.
Proof.
  unfold fseek_cur. destruct (filepath s); [|discriminate].
  destruct (_ <? 0); kept_by_inversion.
Qed.

Lemma fread_surroundings (off : nat) (count : Z) (s : State) (r : Z) (s' : State) :
  fread off count s = Some (r, s') -> surroundings_kept s s'.
Proof. unfold fread. destruct (filepath s); [|discriminate]. kept_by_inversion. Qed.

Lemma get_response_surroundings (s : State) (r : Z) (s' : State) :
  get_response s = Some (r, s') -> surroundings_kept s s'.
Proof.
  intros H. apply get_response_state in H.
  destruct (inbox s) as [|[|d] rest]; subst s'; repeat split.
Qed.

Lemma write_to_file_surroundings (off : nat) (len : Z) (s : State) (r : bool) (s' : State) :
  write_to_file off len s = Some (r, s') -> surroundings_kept s s'.
Proof.
  intros H. apply write_to_file_state in H as [[_ ->] | [_ [n H]]]; [repeat split|].
  revert H. unfold fwrite. destruct (filepath s); [|discriminate].
  destruct (decide _); [|discriminate]. kept_by_inversion.
Qed.

Lemma validate_and_retry_surroundings (n : Z) (up : bool) (s : State) (r : bool)
    (s' : State) :
  validate_and_retry n up s = Some (r, s') -> surroundings_kept s s'.
Proof.
  unfold validate_and_retry. unfold bind at 1 2, gets at 1 2.
  destruct (check_ack (buffer s) (block_number s)); cbn [negb].
  - intros H. apply bind_Some in H as (u & s1 & H1 & H).
    assert (K : surroundings_kept s s1).
    { destruct up; cbn [negb] in H1.
      - inversion H1; subst. apply surroundings_kept_refl.
      - apply bind_Some in H1 as (b & s0 & Ha & H1). inversion H1; subst.
        eapply send_ack_surroundings; eauto. }
    unfold bind, modify, ret in H. inversion H; subst.
    eapply surroundings_kept_trans; [exact K|]. repeat split.
  - unfold bind at 1 2 3, modify at 1 2, gets at 1. cbn [retry set_retry set_success].
    destruct (retry s + 1 >=? TFTP_MAX_RETRIES); [kept_by_inversion|].
    destruct up.
    + intros H. apply bind_Some in H as (rc & s1 & H1 & H).
      apply fseek_cur_surroundings in H1.
      assert (K1 : surroundings_kept s s1).
      { eapply surroundings_kept_trans; [|exact H1]. repeat split. }
      destruct (negb (rc =? 0)); [inversion H; subst; exact K1|].
      apply bind_Some in H as (b & s2 & H2 & H). inversion H; subst.
      apply send_data_packet_surroundings in H2.
      eapply surroundings_kept_trans; eauto.
    + intros H. apply bind_Some in H as (b & s2 & H2 & H). inversion H; subst.
      apply send_ack_surroundings in H2.
      eapply surroundings_kept_trans; [|exact H2]. repeat split.
Qed.

Lemma process_transfer_send_surroundings (s : State) (r : bool) (s' : State) :
  process_transfer_send s = Some (r, s') -> surroundings_kept s s'.
Proof.
  unfold process_transfer_send. intros H.
  apply bind_Some in H as (n & s1 & H1 & H). apply fread_surroundings in H1 as K1.
  destruct (n <=? 0); [inversion H; subst; exact K1|].
  unfold bind at 1, gets at 1 in H.
  apply bind_Some in H as (sent & s2 & H2 & H).
  apply send_data_packet_surroundings in H2 as K2.
  assert (K12 := surroundings_kept_trans _ _ _ K1 K2).
  destruct sent; cbn [negb] in H; [|inversion H; subst; exact K12].
  apply bind_Some in H as (resp & s3 & H3 & H). apply get_response_surroundings in H3 as K3.
  assert (K13 := surroundings_kept_trans _ _ _ K12 K3).
  destruct (resp <? 0); [inversion H; subst; exact K13|].
  apply bind_Some in H as (ok & s4 & H4 & H).
  apply validate_and_retry_surroundings in H4 as K4.
  assert (K14 := surroundings_kept_trans _ _ _ K13 K4).
  destruct ok; cbn [negb] in H; [|inversion H; subst; exact K14].
  unfold bind, gets in H.
  destruct (_ && _); inversion H; subst; exact K14.
Qed.

Lemma process_transfer_receive_surroundings (s : State) (r : bool) (s' : State) :
  process_transfer_receive s = Some (r, s') -> surroundings_kept s s'.
Proof.
  unfold process_transfer_receive. intros H.
  apply bind_Some in H as (len & s1 & H1 & H). apply get_response_surroundings in H1 as K1.
  destruct (len <? 0); [inversion H; subst; exact K1|].
  apply bind_Some in H as (ok & s2 & H2 & H).
  apply validate_and_retry_surroundings in H2 as K2.
  assert (K12 := surroundings_kept_trans _ _ _ K1 K2).
  destruct ok; cbn [negb] in H; [|inversion H; subst; exact K12].
  apply bind_Some in H as (w & s3 & H3 & H). apply write_to_file_surroundings in H3 as K3.
  assert (K13 := surroundings_kept_trans _ _ _ K12 K3).
  destruct w; cbn [negb] in H; [|inversion H; subst; exact K13].
  unfold bind, gets in H.
  destruct (_ && _); inversion H; subst; exact K13.
Qed.

Lemma while_loop_surroundings (body : M bool) :
  (forall s r s', body s = Some (r, s') -> surroundings_kept s s') ->
  forall (fuel : nat) (s s' : State),
    while_loop fuel body s = Some (tt, s') -> surroundings_kept s s'.
Proof.
  intros Hbody. induction fuel as [|fuel IH]; intros s s' H; [discriminate|].
  cbn in H. destruct (body s) as [[[|] s1]|] eqn:E; [| |discriminate].
  - eapply surroundings_kept_trans; [eapply Hbody; eauto | eapply IH; eauto].
  - inversion H; subst. eapply Hbody; eauto.
Qed.

(** ** Every handler returns *)

Lemma transfer_loop_surroundings (body : M bool) (s s' : State) :
  (forall s r s', body s = Some (r, s') -> surroundings_kept s s') ->
  transfer_loop body s = Some (tt, s') -> surroundings_kept s s'.
Proof. intros Hbody. unfold transfer_loop. now apply while_loop_surroundings. Qed.

Lemma fclose_ready (s : State) :
  ready s ->
  exists s', fclose s = Some (tt, s') /\ filepath s' = None /\ heap_ok s' = heap_ok s
             /\ filename s' = filename s /\ buffer s' = buffer s.
Proof.
  intros [_ [f Hf]]. rewrite (fclose_eq f s Hf). eexists. split; [reflexivity|].
  repeat split.
Qed.

Lemma download_request_ends (s : State) :
  polite s ->
  exists s', Server.download_request s = Some (tt, s') /\ filepath s' = None
             /\ heap_ok s' = heap_ok s.
Proof.
  intros Hr. unfold Server.download_request.
  unfold bind at 1, modify at 1. unfold bind at 1, modify at 1. unfold bind at 1, modify at 1.
  set (s0 := set_retry 0 _).
  assert (Hr0 : polite s0) by exact Hr.
  destruct (transfer_loop_send_ends s0 Hr0) as (s1 & E1 & [Hr1 _]).
  rewrite (bind_eq _ _ _ _ _ E1).
  pose proof (transfer_loop_surroundings _ _ _ process_transfer_send_surroundings E1)
    as (_ & _ & _ & _ & _ & Hh).
  destruct (fclose_ready s1 Hr1) as (s2 & E2 & Hf2 & Hh2 & _).
  exists s2. split; [exact E2|]. split; [exact Hf2|]. rewrite Hh2, Hh. reflexivity.
Qed.

Lemma remove_filename_ends (name : cstring) (s : State) :
  filename s = Some name ->
  exists s', (let* fn := gets filename in remove fn >> ret tt) s = Some (tt, s')
             /\ filepath s' = filepath s /\ heap_ok s' = heap_ok s
             /\ buffer s' = buffer s.
Proof.
  intros Hfn. unfold bind, gets, remove, ret. rewrite Hfn.
  destruct (fs s !! name); [destruct (cwd_writable s)|];
    eexists; (split; [reflexivity|]); repeat split.
Qed.

Lemma upload_request_ends (name : cstring) (s : State) :
  filename s = Some name ->
  length (buffer s) = 516%nat ->
  forallb reads_well (inbox s) = true ->
  roomy s ->
  exists s', Server.upload_request s = Some (tt, s') /\ filepath s' = None
             /\ heap_ok s' = heap_ok s.
Proof.
  intros Hfn Hlen Hwell Hroom. unfold Server.upload_request.
  unfold bind at 1, modify at 1. unfold bind at 1, modify at 1.
  set (s0 := set_block_number 0 _).
  destruct (cwd_writable s) eqn:Hcw.
  - rewrite (bind_eq _ _ _ _ _ (fopen_filename_wb_eq name s0 Hfn Hcw)). cbn [negb].
    unfold bind at 1, gets at 1. unfold bind at 1, modify at 1.
    set (s1 := set_block_number _ _).
    change (block_number (set_filepath _ _)) with 0.
    rewrite (bind_eq _ _ _ _ _
               (send_ack_eq 0 s1 ltac:(change (buffer s1) with (buffer s); lia))).
    cbv zeta. set (s2 := log _ _).
    assert (Hr2 : ready s2).
    { split; [|eexists; reflexivity].
      cbn [buffer s2 log set_sendto_ok set_buffer]. rewrite length_app, length_drop.
      change (buffer s1) with (buffer s). rewrite Hlen. reflexivity. }
    destruct (hd true (sendto_ok s1)); cbn [negb].
    + unfold bind at 1, modify at 1.
      set (s3 := set_retry (-2) s2).
      assert (Hr3 : polite s3) by (split; [exact Hr2 | exact Hwell]).
      destruct (transfer_loop_receive_ends s3 Hr3 Hroom) as (s4 & E4 & [Hr4 _] & _).
      rewrite (bind_eq _ _ _ _ _ E4).
      pose proof (transfer_loop_surroundings _ _ _ process_transfer_receive_surroundings E4)
        as (_ & Hfn4 & _ & _ & _ & Hh4).
      unfold bind at 1, gets at 1. unfold bind at 1, gets at 1.
      destruct (negb (success s4) || (byte_at (buffer s4) 1 =? TFTP_ERROR)).
      * destruct (remove_filename_ends name s4 ltac:(rewrite Hfn4; exact Hfn))
          as (s5 & E5 & Hf5 & Hh5 & Hb5).
        rewrite (bind_eq _ _ _ _ _ E5).
        assert (Hr5 : ready s5).
        { destruct Hr4 as [? ?]. split; [now rewrite Hb5 | now rewrite Hf5]. }
        destruct (fclose_ready s5 Hr5) as (s6 & E6 & Hf6 & Hh6 & _).
        exists s6. split; [exact E6|]. split; [exact Hf6|].
        rewrite Hh6, Hh5, Hh4. reflexivity.
      * unfold bind at 1, ret at 1.
        destruct (fclose_ready s4 Hr4) as (s6 & E6 & Hf6 & Hh6 & _).
        exists s6. split; [exact E6|]. split; [exact Hf6|].
        rewrite Hh6, Hh4. reflexivity.
    + destruct (fclose_ready s2 Hr2) as (s6 & E6 & Hf6 & Hh6 & _).
      exists s6. split; [exact E6|]. split; [exact Hf6|]. rewrite Hh6. reflexivity.
  - assert (Eo : fopen_filename_wb s0 = Some (false, set_filepath None s0)).
    { unfold fopen_filename_wb, bind, gets, fopen_wb.
      change (filename s0) with (filename s). rewrite Hfn.
      change (cwd_writable s0) with (cwd_writable s). now rewrite Hcw. }
    rewrite (bind_eq _ _ _ _ _ Eo). cbn [negb].
    assert (Hmsg : forall c, Some (bytes_of_string "Error opening file for writing") = Some c ->
                             Forall nonzero c).
    { intros c Hc. inversion Hc; subst. vm_compute.
      repeat constructor; intros H; discriminate H. }
    rewrite (send_error_packet_print_error Server.server ERROR_UNDEFINED _ (ret tt)
               (set_filepath None s0) Hlen Hmsg).
    rewrite (bind_eq _ _ _ _ _
               (send_error_packet_eq Server.server ERROR_UNDEFINED _ (set_filepath None s0)
                  Hlen Hmsg)).
    eexists. split; [reflexivity|]. split; reflexivity.
Qed.

Lemma delete_request_ends (name : cstring) (s : State) :
  filename s = Some name ->
  length (buffer s) = 516%nat ->
  exists s', Server.delete_request s = Some (tt, s') /\ filepath s' = filepath s
             /\ heap_ok s' = heap_ok s.
Proof.
  intros Hfn Hlen. unfold Server.delete_request.
  unfold bind at 1, gets at 1. rewrite Hfn. unfold bind at 1, remove.
  assert (Hfail : exists s',
             (let* reason := strerror_remove (Some name) in
              send_error_packet (Some Server.server) ERROR_UNDEFINED (Some reason)) s
             = Some (tt, s') /\ filepath s' = filepath s /\ heap_ok s' = heap_ok s).
  { unfold bind at 1, strerror_remove.
    destruct (fs s !! name);
      (rewrite (send_error_packet_eq Server.server ERROR_UNDEFINED _ _ Hlen);
       [eexists; split; [reflexivity|]; split; reflexivity
       |intros c Hc; inversion Hc; subst; vm_compute;
        repeat constructor; intros H; discriminate H]). }
  destruct (fs s !! name); [destruct (cwd_writable s)|].
  - change (0 =? 0) with true. cbv iota.
    set (s1 := log _ _).
    unfold bind.
    rewrite (send_ack_eq 0 s1 ltac:(change (buffer s1) with (buffer s); lia)).
    eexists. split; [reflexivity|]. split; reflexivity.
  - change (-1 =? 0) with false. cbv iota. exact Hfail.
  - change (-1 =? 0) with false. cbv iota. exact Hfail.
Qed.

Lemma refuse_ends (code : Z) (p : State) :
  length (buffer p) = 516%nat ->
  exists p',
    (send_error_packet (Some Server.server) code None >> ret false) p = Some (false, p')
    /\ filepath p' = filepath p.
Proof.
  intros Hlen.
  rewrite (bind_eq _ _ _ _ _
             (send_error_packet_eq Server.server code None p Hlen ltac:(discriminate))).
  eexists. split; reflexivity.
Qed.
(** * Properties of the server's dispatcher *)

(** X1.  Every well-formed request of at most 515 bytes is answered, when
    what follows it keeps the handlers inside the packet buffer: every
    datagram that follows has its two opcode bytes and, if it is an ERROR
    packet, a message that ends with a NUL within its first 516 bytes, and
    the disk has room for the payloads that follow (an ERROR message without
    a NUL, and a write that falls short, make [print_error] read to the next
    NUL, wherever it is).  Then the turn of the server's loop ends, it calls
    the handler exactly when the directory meets the file rule of the opcode
    (a readable file for a read request, a free name for a write request, an
    existing name for a delete request), and no file is left open behind
    it. *)
Theorem well_formed_request_is_answered (d : list Z) (rest : list recv_result) (s : State) :
  Forall is_byte d ->
  (length d <= 515)%nat ->
  well_formed_request d = true ->
  filepath s = None ->
  heap_ok s = true ->
  forallb reads_well rest = true ->
  (inbox_bytes rest <= disk_room s)%nat ->
  inbox s = RecvDgram d :: rest ->
  exists s',
    Server.prog_iteration s
    = Some (file_rule (request_opcode d) (request_name d) (fs s), s')
    /\ filepath s' = None.
Proof.
  intros Hbytes Hd Hwf Hfp Hheap Hwell Hroom Hin.
  rewrite (prog_iteration_parses d rest s Hbytes Hd Hwf Hfp Hheap Hin).
  set (name := request_name d).
  set (p := request_parsed (request_opcode d) name d rest s).
  assert (Hlen : length (buffer p) = 516%nat) by (apply length_request_parsed; lia).
  assert (Hr : forall f, polite (set_filepath (Some f) p)).
  { intros f. split; [split; [exact Hlen | eexists; reflexivity] | exact Hwell]. }
  assert (Hroomp : roomy p) by exact Hroom.
  destruct (well_formed_request_fields d Hwf) as (_ & _ & _ & _ & _ & _ & _ & _ & _ & _ & Hop).
  unfold bind at 1. rewrite file_check_eq. change (opcode p) with (request_opcode d).
  unfold file_rule. change (fs p) with (fs s) in *.
  destruct Hop as [Hop | [Hop | Hop]]; rewrite Hop.
  - change (TFTP_RRQ =? TFTP_RRQ) with true. change (TFTP_RRQ =? TFTP_WRQ) with false.
    cbv iota.
    unfold Server.validate_download_file, Server.validate_file_access.
    rewrite (bind_eq _ _ _ _ _ (access_F_OK_eq name p eq_refl)).
    change (fs p) with (fs s).
    destruct (fs s !! name) as [ino|] eqn:El.
    + rewrite bool_decide_eq_true_2 by eauto. cbn [negb].
      rewrite (bind_eq _ _ _ _ _ (access_R_OK_eq name p eq_refl)).
      change (fs p) with (fs s). rewrite El.
      destruct (i_readable ino) eqn:Er; cbn [negb].
      * set (p1 := set_filepath (Some (mkFILE name (i_data ino) 0)) p).
        assert (Eo : Server.fopen_filename_rb p = Some (true, p1)).
        { unfold Server.fopen_filename_rb.
          unfold bind at 1, gets at 1. change (filename p) with (Some name). cbv iota.
          unfold bind at 1, gets at 1. change (fs p) with (fs s). rewrite El, Er.
          reflexivity. }
        rewrite Eo. cbn [negb].
        destruct (download_request_ends p1 (Hr _)) as (s' & E & Hf' & _).
        assert (Eh : Server.handle_request p1 = Some (tt, s')).
        { rewrite handle_request_eq.
          change (opcode p1) with (request_opcode d). rewrite Hop.
          change (TFTP_RRQ =? TFTP_RRQ) with true. cbv iota.
          unfold bind. rewrite E. reflexivity. }
        rewrite (bind_eq _ _ _ _ _ Eh). exists s'. split; [reflexivity | exact Hf'].
      * destruct (refuse_ends ERROR_ACCESS_VIOLATION p Hlen) as (p' & E & Hf').
        rewrite E. cbn [negb]. exists p'. split; [reflexivity | exact Hf'].
    + rewrite bool_decide_eq_false_2 by (intros [? ?]; discriminate). cbn [negb].
      destruct (refuse_ends ERROR_FILE_NOT_FOUND p Hlen) as (p' & E & Hf').
      rewrite E. cbn [negb]. exists p'. split; [reflexivity | exact Hf'].
  - change (TFTP_WRQ =? TFTP_RRQ) with false. change (TFTP_WRQ =? TFTP_WRQ) with true.
    cbv iota. unfold Server.validate_upload_file.
    rewrite (bind_eq _ _ _ _ _ (access_F_OK_eq name p eq_refl)).
    change (fs p) with (fs s).
    destruct (fs s !! name) as [ino|] eqn:El.
    + rewrite bool_decide_eq_true_2 by eauto.
      destruct (refuse_ends ERROR_FILE_EXISTS p Hlen) as (p' & E & Hf').
      rewrite E. cbn [negb]. exists p'. split; [reflexivity | exact Hf'].
    + rewrite bool_decide_eq_false_2 by (intros [? ?]; discriminate).
      unfold ret at 1. cbn [negb].
      destruct (upload_request_ends name p eq_refl Hlen Hwell Hroomp) as (s' & E & Hf' & _).
      assert (Eh : Server.handle_request p = Some (tt, s')).
      { rewrite handle_request_eq.
        change (opcode p) with (request_opcode d). rewrite Hop.
        change (TFTP_WRQ =? TFTP_RRQ) with false. change (TFTP_WRQ =? TFTP_WRQ) with true.
        cbv iota. unfold bind. rewrite E. reflexivity. }
      rewrite (bind_eq _ _ _ _ _ Eh). exists s'. split; [reflexivity | exact Hf'].
  - change (TFTP_DRQ =? TFTP_RRQ) with false. change (TFTP_DRQ =? TFTP_WRQ) with false.
    change (TFTP_DRQ =? TFTP_DRQ) with true. cbv iota.
    unfold Server.validate_delete_file.
    rewrite (bind_eq _ _ _ _ _ (access_F_OK_eq name p eq_refl)).
    change (fs p) with (fs s).
    destruct (fs s !! name) as [ino|] eqn:El.
    + rewrite bool_decide_eq_true_2 by eauto. cbn [negb].
      unfold ret at 1. cbn [negb].
      destruct (delete_request_ends name p eq_refl Hlen) as (s' & E & Hf' & _).
      assert (Eh : Server.handle_request p = Some (tt, s')).
      { rewrite handle_request_eq.
        change (opcode p) with (request_opcode d). rewrite Hop.
        change (TFTP_DRQ =? TFTP_RRQ) with false. change (TFTP_DRQ =? TFTP_WRQ) with false.
        change (TFTP_DRQ =? TFTP_DRQ) with true. cbv iota.
        unfold bind. rewrite E. reflexivity. }
      rewrite (bind_eq _ _ _ _ _ Eh). exists s'. split; [reflexivity | exact Hf'].
    + rewrite bool_decide_eq_false_2 by (intros [? ?]; discriminate). cbn [negb].
      destruct (refuse_ends ERROR_FILE_NOT_FOUND p Hlen) as (p' & E & Hf').
      rewrite (send_error_packet_print_error Server.server ERROR_FILE_NOT_FOUND None
                 (ret false) p Hlen ltac:(discriminate)).
      rewrite E. cbn [negb]. exists p'. split; [reflexivity | exact Hf'].
Qed.

Ltac closed_bytes :=
  vm_compute; repeat constructor;
  let H := fresh "H" in intros H; cbv in H; discriminate H.

Ltac idle_server := split; [reflexivity | split; [reflexivity | constructor]].

Lemma well_formed_request_is_answered_witness :
  exists s',
    Server.prog_iteration (server_with_a_bin [request_packet TFTP_DRQ a_bin])
    = Some (true, s')
    /\ filepath s' = None.
Proof.
  apply (well_formed_request_is_answered (request_packet TFTP_DRQ a_bin) []
           (server_with_a_bin [request_packet TFTP_DRQ a_bin])).
  - closed_bytes.
  - vm_compute. lia.
  - reflexivity.
  - reflexivity.
  - reflexivity.
  - reflexivity.
  - vm_compute. lia.
  - reflexivity.
Defined.





(** X4.  A delete request for a name that exists makes the server call
    [remove]: when the directory can be written the file goes and ACK(0)
    answers, after the removal; when [remove] fails because the directory
    cannot be written, the file stays and ERROR 0 answers with the text of
    [strerror], "Undefined error - Permission denied".  For a name that does
    not exist ERROR 1, "File not found", answers and no handler runs.  Every
    other file is as it was. *)
Theorem delete_request_removes_file (d : list Z) (rest : list recv_result) (s : State) :
  Forall is_byte d ->
  (length d <= 515)%nat ->
  well_formed_request d = true ->
  request_opcode d = TFTP_DRQ ->
  server_idle s ->
  inbox s = RecvDgram d :: rest ->
  exists s',
    Server.prog_iteration s = Some (bool_decide (is_Some (fs s !! request_name d)), s')
    /\ trace s' = trace s ++
         match fs s !! request_name d with
         | Some _ =>
             if cwd_writable s
             then [EvRemove (request_name d); EvSendto [0; 4; 0; 0] true]
             else [EvSendto ([0; 5; 0; 0]
                             ++ bytes_of_string "Undefined error - Permission denied"
                             ++ [0]) true]
         | None => [EvSendto ([0; 5; 0; 1] ++ bytes_of_string "File not found" ++ [0]) true]
         end
    /\ (cwd_writable s = true -> fs s' !! request_name d = None)
    /\ (cwd_writable s = false -> fs s' = fs s)
    /\ (forall other, other <> request_name d -> fs s' !! other = fs s !! other)
    /\ inbox s' = rest
    /\ server_idle s'.
Proof.
  intros Hbytes Hd Hwf Hop Hidle Hin.
  destruct (delete_request_outcome d rest s Hbytes Hd Hwf Hidle Hin Hop)
    as (s' & E & Htr & Hfs & Hrest).
  exists s'. split; [exact E|]. split; [exact Htr|].
  split; [intros Hcw; rewrite Hfs, Hcw; apply lookup_delete_eq|].
  split; [intros Hcw; rewrite Hfs, Hcw; reflexivity|].
  split; [|exact Hrest].
  intros other Hne. rewrite Hfs.
  destruct (cwd_writable s); [apply lookup_delete_ne; congruence | reflexivity].
Qed.

Lemma delete_request_removes_file_witness :
  exists s',
    Server.prog_iteration (server_read_only [request_packet TFTP_DRQ a_bin])
    = Some (true, s')
    /\ trace s' = [EvSendto ([0; 5; 0; 0]
                             ++ bytes_of_string "Undefined error - Permission denied"
                             ++ [0]) true]
    /\ fs s' = {[ a_bin := mkInode [97; 98; 99] true ]}.
Proof.
  destruct (delete_request_removes_file (request_packet TFTP_DRQ a_bin) []
              (server_read_only [request_packet TFTP_DRQ a_bin]))
    as (s' & E & Htr & _ & Hfs & _).
  - closed_bytes.
  - vm_compute. lia.
  - reflexivity.
  - reflexivity.
  - idle_server.
  - reflexivity.
  - exists s'. split; [exact E|]. split; [exact Htr | exact (Hfs eq_refl)].
Defined.

(** The same request in a directory that can be written. *)
Example delete_request_in_writable_directory :
  exists s',
    Server.prog_iteration (server_with_a_bin [request_packet TFTP_DRQ a_bin])
    = Some (true, s')
    /\ trace s' = [EvRemove a_bin; EvSendto [0; 4; 0; 0] true]
    /\ fs s' = ∅.
Proof. eexists. split; [vm_compute; reflexivity|]. split; vm_compute; reflexivity. Qed.

(** X5.  A read request for a readable file of at most 65535 blocks (the block
    field of a packet has 16 bits) whose blocks are all acknowledged, at a
    server whose [sendto] succeeds: the server sends the content cut into
    consecutive blocks of 512 bytes, the last one shorter when the length is
    no multiple of 512, numbered from 1, as DATA packets in this order and
    nothing else; it takes exactly the acknowledgements from its socket,
    leaves the file as it is and closes it. *)
Theorem read_request_sends_file_in_blocks (d data : list Z) (tail : list recv_result)
    (s : State) :
  Forall is_byte d ->
  (length d <= 515)%nat ->
  well_formed_request d = true ->
  request_opcode d = TFTP_RRQ ->
  server_idle s ->
  fs s !! request_name d = Some (mkInode data true) ->
  Z.of_nat (length (file_blocks data)) <= 65535 ->
  inbox s = RecvDgram d :: arriving (ack_packets 1 (file_blocks data)) ++ tail ->
  exists s',
    Server.prog_iteration s = Some (true, s')
    /\ trace s' = trace s ++ sent_events (data_packets 1 (file_blocks data))
    /\ concat (file_blocks data) = data
    /\ well_cut (file_blocks data) = true
    /\ Forall (fun p => p <> []) (file_blocks data)
    /\ fs s' = fs s
    /\ inbox s' = tail
    /\ server_idle s'.
Proof.
  intros Hbytes Hd Hwf Hop Hidle Hfile Hn Hin.
  destruct (read_request_served d _ s Hbytes Hd Hwf Hidle Hin data tail Hop Hfile Hn eq_refl)
    as (s' & E & Htr & Hfs & Hrest).
  exists s'. split; [exact E|]. split; [exact Htr|].
  split; [apply file_blocks_concat|]. split; [apply file_blocks_well_cut|].
  split; [apply blocks_of_nonempty|]. split; [exact Hfs | exact Hrest].
Qed.

Lemma read_request_sends_file_in_blocks_witness :
  exists s',
    Server.prog_iteration
      (server_with_a_bin [request_packet TFTP_RRQ a_bin; ack_packet 1]) = Some (true, s')
    /\ trace s' = [EvSendto (data_packet 1 [97; 98; 99]) true]
    /\ fs s' = fs (server_with_a_bin [])
    /\ inbox s' = [].
Proof.
  destruct (read_request_sends_file_in_blocks (request_packet TFTP_RRQ a_bin) [97; 98; 99] []
              (server_with_a_bin [request_packet TFTP_RRQ a_bin; ack_packet 1]))
    as (s' & E & Htr & _ & _ & _ & Hfs & Hin & _).
  - closed_bytes.
  - vm_compute. lia.
  - reflexivity.
  - reflexivity.
  - idle_server.
  - reflexivity.
  - vm_compute. discriminate.
  - reflexivity.
  - exists s'. split; [exact E|]. split; [exact Htr|]. split; [exact Hfs | exact Hin].
Defined.



(** * Client and server together *)

Lemma delivered_app (t u : list event) : delivered (t ++ u) = delivered t ++ delivered u.
Proof. unfold delivered. apply flat_map_app. Qed.

Lemma delivered_sent_events (ds : list (list Z)) : delivered (sent_events ds) = ds.
Proof.
  unfold delivered, sent_events. induction ds as [|x ds IH]; [reflexivity|].
  cbn [map flat_map app]. now rewrite IH.
Qed.

Lemma delivered_receipts (b : Z) (blocks : list (list Z)) :
  delivered (receipts b blocks) = ack_packets b blocks.
Proof.
  unfold receipts, ack_packets, delivered.
  revert b. induction blocks as [|p ps IH]; intros b; [reflexivity|].
  change (numbered b (p :: ps)) with ((b, p) :: numbered (b + 1) ps).
  cbn [map flat_map app fst snd]. now rewrite IH.
Qed.

Lemma split_nul_app_nul (name rest : list Z) :
  Forall nonzero name -> split_nul (name ++ 0 :: rest) = (name, Some rest).
Proof.
  induction 1 as [|b name Hb _ IH]; [reflexivity|].
  cbn. destruct (Z.eqb_spec b 0) as [e|_]; [exfalso; exact (Hb e)|]. now rewrite IH.
Qed.

(** The request of [send_request] is one the server's checks accept. *)
Lemma request_packet_well_formed (op : Z) (name : cstring) :
  proper_name name ->
  op = TFTP_RRQ \/ op = TFTP_WRQ \/ op = TFTP_DRQ ->
  Forall is_byte (request_packet op name)
  /\ well_formed_request (request_packet op name) = true
  /\ request_opcode (request_packet op name) = op
  /\ request_name (request_packet op name) = name.
Proof.
  intros (Hne & Hb & Hnz) Hop.
  assert (Hs : split_nul (name ++ [0] ++ bytes_of_string MODE ++ [0])
               = (name, Some (bytes_of_string MODE ++ [0]))) by now apply split_nul_app_nul.
  split; [|split; [|split]].
  - unfold request_packet. repeat apply Forall_app_2; try exact Hb.
    + destruct Hop as [->| [->| ->]]; closed_bytes.
    + closed_bytes.
    + closed_bytes.
    + closed_bytes.
  - unfold request_packet, well_formed_request. cbn [app]. cbn [app] in Hs. rewrite Hs.
    replace (4 <=? Z.of_nat (length (0 :: op :: name ++ 0 :: bytes_of_string MODE ++ [0])))
      with true
      by (symmetry; apply Z.leb_le; cbn [length]; rewrite length_app; cbn [length];
          change (length (bytes_of_string MODE ++ [0])) with 6%nat; lia).
    cbv zeta.
    replace ((256 * 0 + op =? TFTP_RRQ) || (256 * 0 + op =? TFTP_WRQ)
             || (256 * 0 + op =? TFTP_DRQ)) with true
      by (destruct Hop as [->| [->| ->]]; reflexivity).
    rewrite (bool_decide_eq_false_2 _ Hne). reflexivity.
  - unfold request_opcode, request_packet. cbn [app byte_at nth]. lia.
  - unfold request_name, request_packet.
    change (drop 2 ([0; op] ++ ?r)) with r. now rewrite Hs.
Qed.

Lemma length_file_blocks_concat (data : list Z) :
  length (concat (file_blocks data)) = length data.
Proof. now rewrite file_blocks_concat. Qed.

(** X7.  An upload, end to end.  A client that uploads a file that is not
    empty and has at most 65535 blocks of 512 bytes (the block field of a
    packet has 16 bits), under a name of at most 506 bytes, to a server on
    which the name is free, whose directory can be written and whose disk has
    room for the file, over a network that hands each side what the other
    sent, every [sendto] succeeding: the client sends the request and then the
    blocks of the file, the server answers ACK(0) and one ACK per block, each
    side receives exactly what the other sends, the client reports success,
    and the server's directory ends with a file of the requested name whose
    content is the client's file, byte for byte. *)
Theorem upload_arrives_intact (name : cstring) (path data : list Z) (c v : State) :
  proper_name name ->
  (length name <= 506)%nat ->
  data <> [] ->
  Z.of_nat (length (file_blocks data)) <= 65535 ->
  opcode c = TFTP_WRQ ->
  filename c = Some name ->
  filepath c = Some (mkFILE path data 0) ->
  length (buffer c) = 516%nat ->
  sends_succeed c ->
  server_idle v ->
  cwd_writable v = true ->
  fs v !! name = None ->
  (length data <= disk_room v)%nat ->
  inbox c = arriving (ack_packet 0 :: ack_packets 1 (file_blocks data)) ->
  inbox v = arriving (request_packet TFTP_WRQ name :: data_packets 1 (file_blocks data)) ->
  exists c' v',
    Client.upload_request c = Some (true, c')
    /\ Server.prog_iteration v = Some (true, v')
    /\ arriving (delivered (trace c')) = arriving (delivered (trace c)) ++ inbox v
    /\ arriving (delivered (trace v')) = arriving (delivered (trace v)) ++ inbox c
    /\ fs v' = <[name := mkInode data true]> (fs v)
    /\ inbox c' = [] /\ inbox v' = [].
Proof.
  intros Hname Hlname Hdata Hn Hop Hfn Hfp Hlen Hsend Hidle Hcw Hnew Hroom Hinc Hinv.
  set (blocks := file_blocks data) in *.
  destruct (request_packet_well_formed TFTP_WRQ name Hname ltac:(tauto))
    as (Hbytes & Hwf & Hrop & Hrname).
  destruct (client_upload_run name path data [] c Hfn ltac:(lia) Hfp Hlen Hsend Hn
              ltac:(rewrite app_nil_r; exact Hinc))
    as (c' & Ec & Htrc & Hic & _).
  rewrite Hop in Htrc. change (to_uchar TFTP_WRQ) with TFTP_WRQ in Htrc.
  assert (Hblocks : blocks <> []) by (intros E; apply file_blocks_nil in E; contradiction).
  destruct (write_request_served (request_packet TFTP_WRQ name)
              (arriving (data_packets 1 blocks)) v Hbytes
              ltac:(rewrite length_request_packet; lia) Hwf Hidle Hinv blocks []
              Hrop ltac:(rewrite Hrname; exact Hnew) Hcw (file_blocks_well_cut data) Hblocks
              ltac:(now right) Hn
              ltac:(subst blocks; rewrite length_file_blocks_concat; exact Hroom)
              ltac:(now rewrite app_nil_r))
    as (v' & Ev & Htrv & Hfsv & Hiv & _).
  exists c', v'.
  split. { rewrite Ec. rewrite (bool_decide_eq_false_2 _ Hdata). reflexivity. }
  split; [exact Ev|].
  split. { rewrite Htrc, delivered_app, delivered_sent_events, Hinv.
           unfold arriving. now rewrite map_app. }
  split. { rewrite Htrv, delivered_app. cbn [delivered flat_map app].
           fold (delivered (receipts 1 blocks)). rewrite delivered_receipts, Hinc.
           unfold arriving. now rewrite map_app. }
  split. { rewrite Hfsv, Hrname. subst blocks. now rewrite file_blocks_concat. }
  split; [exact Hic | exact Hiv].
Qed.

Lemma upload_arrives_intact_witness :
  exists c' v',
    Client.upload_request
      (client_upload [97; 98; 99] (arriving [ack_packet 0; ack_packet 1])) = Some (true, c')
    /\ Server.prog_iteration
         (server_empty [request_packet TFTP_WRQ a_bin; data_packet 1 [97; 98; 99]])
       = Some (true, v')
    /\ arriving (delivered (trace c'))
       = arriving [request_packet TFTP_WRQ a_bin; data_packet 1 [97; 98; 99]]
    /\ arriving (delivered (trace v')) = arriving [ack_packet 0; ack_packet 1]
    /\ fs v' = {[ a_bin := mkInode [97; 98; 99] true ]}.
Proof.
  destruct (upload_arrives_intact a_bin a_bin [97; 98; 99]
              (client_upload [97; 98; 99] (arriving [ack_packet 0; ack_packet 1]))
              (server_empty [request_packet TFTP_WRQ a_bin; data_packet 1 [97; 98; 99]]))
    as (c' & v' & Ec & Ev & Hc & Hv & Hfs & _).
  - split; [discriminate | split; closed_bytes].
  - vm_compute. lia.
  - discriminate.
  - vm_compute. discriminate.
  - reflexivity.
  - reflexivity.
  - reflexivity.
  - reflexivity.
  - constructor.
  - idle_server.
  - reflexivity.
  - reflexivity.
  - vm_compute. lia.
  - reflexivity.
  - reflexivity.
  - exists c', v'. split; [exact Ec|]. split; [exact Ev|].
    split; [exact Hc|]. split; [exact Hv|].
    rewrite Hfs. reflexivity.
Defined.

(** X8.  A download, end to end.  A client that downloads a file that is not
    empty and has at most 65535 blocks of 512 bytes (the block field of a
    packet has 16 bits), under a name of at most 506 bytes, from a server that
    has it readable, into a directory that can be written on a disk with room
    for the file, over a network that hands each side what the other sent,
    every [sendto] succeeding: the client sends the request and one ACK per
    block, the server sends the blocks of the file, each side receives exactly
    what the other sends, the client reports success, its directory ends with
    a file of that name whose content is the server's file, byte for byte, and
    the server's directory is as it was. *)
Theorem download_arrives_intact (name : cstring) (data : list Z) (c v : State) :
  proper_name name ->
  (length name <= 506)%nat ->
  data <> [] ->
  Z.of_nat (length (file_blocks data)) <= 65535 ->
  opcode c = TFTP_RRQ ->
  filename c = Some name ->
  length (buffer c) = 516%nat ->
  sends_succeed c ->
  cwd_writable c = true ->
  (length data <= disk_room c)%nat ->
  server_idle v ->
  fs v !! name = Some (mkInode data true) ->
  inbox c = arriving (data_packets 1 (file_blocks data)) ->
  inbox v = arriving (request_packet TFTP_RRQ name :: ack_packets 1 (file_blocks data)) ->
  exists c' v',
    Client.download_request c = Some (true, c')
    /\ Server.prog_iteration v = Some (true, v')
    /\ arriving (delivered (trace c')) = arriving (delivered (trace c)) ++ inbox v
    /\ arriving (delivered (trace v')) = arriving (delivered (trace v)) ++ inbox c
    /\ fs c' = <[name := mkInode data true]> (fs c)
    /\ fs v' = fs v
    /\ inbox c' = [] /\ inbox v' = [].
Proof.
  intros Hname Hlname Hdata Hn Hop Hfn Hlen Hsend Hcw Hroom Hidle Hfile Hinc Hinv.
  set (blocks := file_blocks data) in *.
  destruct (request_packet_well_formed TFTP_RRQ name Hname ltac:(tauto))
    as (Hbytes & Hwf & Hrop & Hrname).
  assert (Hblocks : blocks <> []) by (intros E; apply file_blocks_nil in E; contradiction).
  destruct (client_download_run name blocks [] c Hfn ltac:(lia) Hlen Hcw Hsend
              (file_blocks_well_cut data) Hblocks ltac:(now right) Hn
              ltac:(subst blocks; rewrite length_file_blocks_concat; exact Hroom)
              ltac:(rewrite app_nil_r; exact Hinc))
    as (c' & Ec & Hfsc & Htrc & Hic & _).
  rewrite Hop in Htrc. change (to_uchar TFTP_RRQ) with TFTP_RRQ in Htrc.
  destruct (read_request_served (request_packet TFTP_RRQ name)
              (arriving (ack_packets 1 blocks)) v Hbytes
              ltac:(rewrite length_request_packet; lia) Hwf Hidle Hinv data []
              Hrop ltac:(rewrite Hrname; exact Hfile) Hn ltac:(now rewrite app_nil_r))
    as (v' & Ev & Htrv & Hfsv & Hiv & _).
  exists c', v'.
  split; [exact Ec|]. split; [exact Ev|].
  split. { rewrite Htrc, delivered_app. cbn [delivered flat_map app].
           fold (delivered (receipts 1 blocks)). rewrite delivered_receipts, Hinv.
           unfold arriving. now rewrite map_app. }
  split. { rewrite Htrv, delivered_app, delivered_sent_events, Hinc.
           unfold arriving. now rewrite map_app. }
  split. { rewrite Hfsc. subst blocks. now rewrite file_blocks_concat. }
  split; [exact Hfsv|]. split; [exact Hic | exact Hiv].
Qed.

Lemma download_arrives_intact_witness :
  exists c' v',
    Client.download_request (client_download (arriving [data_packet 1 [97; 98; 99]]))
    = Some (true, c')
    /\ Server.prog_iteration (server_with_a_bin [request_packet TFTP_RRQ a_bin; ack_packet 1])
       = Some (true, v')
    /\ arriving (delivered (trace c')) = arriving [request_packet TFTP_RRQ a_bin; ack_packet 1]
    /\ arriving (delivered (trace v')) = arriving [data_packet 1 [97; 98; 99]]
    /\ fs c' = {[ a_bin := mkInode [97; 98; 99] true ]}
    /\ fs v' = {[ a_bin := mkInode [97; 98; 99] true ]}.
Proof.
  destruct (download_arrives_intact a_bin [97; 98; 99]
              (client_download (arriving [data_packet 1 [97; 98; 99]]))
              (server_with_a_bin [request_packet TFTP_RRQ a_bin; ack_packet 1]))
    as (c' & v' & Ec & Ev & Hc & Hv & Hfsc & Hfsv & _).
  - split; [discriminate | split; closed_bytes].
  - vm_compute. lia.
  - discriminate.
  - vm_compute. discriminate.
  - reflexivity.
  - reflexivity.
  - reflexivity.
  - constructor.
  - reflexivity.
  - vm_compute. lia.
  - idle_server.
  - reflexivity.
  - reflexivity.
  - reflexivity.
  - exists c', v'. split; [exact Ec|]. split; [exact Ev|].
    split; [exact Hc|]. split; [exact Hv|].
    split; [rewrite Hfsc; reflexivity | exact Hfsv].
Defined.

Lemma cleanup_no_file (s : State) :
  filepath s = None ->
  exists s', Client.cleanup s = Some (tt, s') /\ trace s' = trace s /\ inbox s' = inbox s
             /\ fs s' = fs s /\ filepath s' = None /\ filename s' = None.
Proof.
  intros Hf. unfold Client.cleanup, bind, gets, modify, ret. rewrite Hf.
  destruct (filename s) eqn:E; eexists; (split; [reflexivity|]); repeat split; assumption.
Qed.

(** The client's [delete_request] on the first answer it gets; the message
    of an ERROR packet ends inside the packet. *)
Lemma client_delete_run (name : cstring) (answer : list Z) (rest : list recv_result)
    (c : State) :
  filename c = Some name ->
  (length name <= 507)%nat ->
  filepath c = None ->
  length (buffer c) = 516%nat ->
  sends_succeed c ->
  (2 <= length answer <= 516)%nat ->
  (byte_at answer 1 = TFTP_ERROR -> existsb (Z.eqb 0) (drop 4 answer) = true) ->
  inbox c = RecvDgram answer :: rest ->
  exists c',
    Client.delete_request c
    = Some ((byte_at answer 1 =? TFTP_ACK) || (byte_at answer 1 =? TFTP_DATA), c')
    /\ trace c' = trace c ++ [EvSendto (request_packet (to_uchar (opcode c)) name) true]
    /\ inbox c' = rest
    /\ filepath c' = None /\ filename c' = None.
Proof.
  intros Hfn Hname Hfp Hlen Hsend Hans Hmsg Hin.
  unfold Client.delete_request.
  rewrite (bind_eq _ _ _ _ _ (send_request_eq name c Hfn Hname Hlen)).
  cbv zeta. rewrite (sends_succeed_hd c Hsend). cbn [negb].
  set (pkt := request_packet (to_uchar (opcode c)) name).
  set (c1 := log _ _).
  assert (Hin1 : inbox c1 = RecvDgram answer :: rest) by exact Hin.
  assert (Hb1 : byte_at (blit 0 answer (buffer c1)) 1 = byte_at answer 1).
  { unfold blit. rewrite take_0. cbn [app]. unfold byte_at.
    destruct answer as [|a0 [|a1 ans]]; [simpl in Hans; lia | simpl in Hans; lia |].
    reflexivity. }
  assert (Eg := get_response_dgram _ _ _ Hin1). cbv zeta in Eg.
  change (Z.to_nat TFTP_MAX_PACKET_SIZE) with 516%nat in Eg.
  rewrite take_ge in Eg by lia.
  rewrite (bind_eq _ _ _ _ _ (Eg ltac:(
    intros E; rewrite Hb1 in E; unfold blit; rewrite take_0; cbn [app];
    rewrite drop_app, existsb_app, (Hmsg E); reflexivity))).
  clear Eg.
  rewrite Hb1. unfold response_code.
  set (c2 := set_buffer _ _).
  assert (Hfp2 : filepath c2 = None) by exact Hfp.
  destruct (cleanup_no_file c2 Hfp2) as (c' & Ecl & Htr & Hib & _ & Hf' & Hn').
  destruct (byte_at answer 1 =? TFTP_ACK); cbn [orb].
  - change (1 <? 0) with false. cbv iota.
    rewrite (bind_eq _ _ _ _ _ Ecl). exists c'. split; [reflexivity|].
    split; [rewrite Htr; reflexivity|]. split; [rewrite Hib; reflexivity|]. split; assumption.
  - destruct (byte_at answer 1 =? TFTP_DATA).
    + replace (Z.of_nat (length answer) <? 0) with false by (symmetry; apply Z.ltb_ge; lia).
      rewrite (bind_eq _ _ _ _ _ Ecl). exists c'. split; [reflexivity|].
      split; [rewrite Htr; reflexivity|]. split; [rewrite Hib; reflexivity|].
      split; assumption.
    + change (-1 <? 0) with true. cbv iota.
      rewrite (bind_eq _ _ _ _ _ Ecl). exists c'. split; [reflexivity|].
      split; [rewrite Htr; reflexivity|]. split; [rewrite Hib; reflexivity|].
      split; assumption.
Qed.

(** X9.  A deletion, end to end.  The client sends the delete request.
    When the name exists on the server the handler calls [remove]: in a
    directory that can be written the file goes and ACK(0) answers; when
    [remove] fails because the directory cannot be written the file stays
    and ERROR 0, "Undefined error - Permission denied", answers.  When the
    name does not exist ERROR 1 answers.  The client receives that answer
    and reports success exactly when the server has removed the file. *)
Theorem delete_end_to_end (name : cstring) (c v : State) :
  let present := bool_decide (is_Some (fs v !! name)) in
  let removed := present && cwd_writable v in
  let answer :=
    if removed then [0; 4; 0; 0]
    else if present
         then [0; 5; 0; 0] ++ bytes_of_string "Undefined error - Permission denied" ++ [0]
         else [0; 5; 0; 1] ++ bytes_of_string "File not found" ++ [0] in
  proper_name name ->
  (length name <= 506)%nat ->
  opcode c = TFTP_DRQ ->
  filename c = Some name ->
  filepath c = None ->
  length (buffer c) = 516%nat ->
  sends_succeed c ->
  server_idle v ->
  inbox c = arriving [answer] ->
  inbox v = arriving [request_packet TFTP_DRQ name] ->
  exists c' v',
    Client.delete_request c = Some (removed, c')
    /\ Server.prog_iteration v = Some (present, v')
    /\ arriving (delivered (trace c')) = arriving (delivered (trace c)) ++ inbox v
    /\ arriving (delivered (trace v')) = arriving (delivered (trace v)) ++ inbox c
    /\ fs v' = (if removed then delete name (fs v) else fs v).
Proof.
  intros present removed answer Hname Hlname Hop Hfn Hfp Hlen Hsend Hidle Hinc Hinv.
  destruct (request_packet_well_formed TFTP_DRQ name Hname ltac:(tauto))
    as (Hbytes & Hwf & Hrop & Hrname).
  destruct (delete_request_outcome (request_packet TFTP_DRQ name) [] v Hbytes
              ltac:(rewrite length_request_packet; lia) Hwf Hidle Hinv Hrop)
    as (v' & Ev & Htrv & Hfsv & _).
  rewrite Hrname in Ev, Htrv, Hfsv. fold present in Ev.
  destruct (client_delete_run name answer [] c Hfn ltac:(lia) Hfp Hlen Hsend
              ltac:(subst answer removed; destruct present, (cwd_writable v); simpl; lia)
              ltac:(subst answer removed; destruct present, (cwd_writable v);
                    intros E; first [vm_compute in E; discriminate E | reflexivity])
              Hinc)
    as (c' & Ec & Htrc & _).
  rewrite Hop in Htrc. change (to_uchar TFTP_DRQ) with TFTP_DRQ in Htrc.
  exists c', v'.
  split. { rewrite Ec. subst answer removed.
           destruct present, (cwd_writable v); reflexivity. }
  split; [exact Ev|].
  split. { rewrite Htrc, delivered_app, Hinv. unfold arriving. now rewrite map_app. }
  split. { rewrite Htrv, delivered_app, Hinc. unfold arriving. rewrite map_app.
           subst answer removed present.
           destruct (fs v !! name) as [ino|] eqn:El.
           - rewrite bool_decide_eq_true_2 by eauto.
             destruct (cwd_writable v); reflexivity.
           - rewrite bool_decide_eq_false_2 by (intros [? ?]; discriminate).
             reflexivity. }
  rewrite Hfsv. subst removed present.
  destruct (fs v !! name) as [ino|] eqn:El.
  - rewrite bool_decide_eq_true_2 by eauto. reflexivity.
  - rewrite bool_decide_eq_false_2 by (intros [? ?]; discriminate). cbn [andb].
    destruct (cwd_writable v); [now apply delete_id | reflexivity].
Qed.

Lemma delete_end_to_end_witness :
  exists c' v',
    Client.delete_request (client_delete (arriving [[0; 4; 0; 0]])) = Some (true, c')
    /\ Server.prog_iteration (server_with_a_bin [request_packet TFTP_DRQ a_bin])
       = Some (true, v')
    /\ arriving (delivered (trace c')) = arriving [request_packet TFTP_DRQ a_bin]
    /\ arriving (delivered (trace v')) = arriving [[0; 4; 0; 0]]
    /\ fs v' = delete a_bin (fs (server_with_a_bin [request_packet TFTP_DRQ a_bin])).
Proof.
  apply (delete_end_to_end a_bin (client_delete (arriving [[0; 4; 0; 0]]))
           (server_with_a_bin [request_packet TFTP_DRQ a_bin])).
  - split; [discriminate | split; closed_bytes].
  - vm_compute. lia.
  - reflexivity.
  - reflexivity.
  - reflexivity.
  - reflexivity.
  - constructor.
  - idle_server.
  - reflexivity.
  - reflexivity.
Defined.

(** X10.  Store and fetch.  When a write request with the blocks of a file
    (not empty, its length no multiple of 512, at most 65535 blocks: the block
    field of a packet has 16 bits) for a free name of at most 506 bytes is
    followed by a read request for the same name and the acknowledgements of
    the blocks, at a server whose directory can be written, whose disk has
    room for the file and whose [sendto] succeeds, two turns of the server's
    loop store the file and then send back DATA packets that are, packet for
    packet, the ones it received. *)
Theorem stored_file_is_served_back (name : cstring) (data : list Z) (s : State) :
  let blocks := file_blocks data in
  proper_name name ->
  (length name <= 506)%nat ->
  data <> [] ->
  ends_short blocks = true ->
  Z.of_nat (length blocks) <= 65535 ->
  server_idle s ->
  cwd_writable s = true ->
  fs s !! name = None ->
  (length data <= disk_room s)%nat ->
  inbox s = arriving (request_packet TFTP_WRQ name :: data_packets 1 blocks
                      ++ request_packet TFTP_RRQ name :: ack_packets 1 blocks) ->
  exists s',
    prog_turns 2 s = Some (tt, s')
    /\ delivered (trace s') = delivered (trace s)
                              ++ [0; 4; 0; 0] :: ack_packets 1 blocks ++ data_packets 1 blocks
    /\ fs s' = <[name := mkInode data true]> (fs s)
    /\ inbox s' = [].
Proof.
  intros blocks Hname Hlname Hdata Hshort Hn Hidle Hcw Hnew Hroom Hin.
  destruct (request_packet_well_formed TFTP_WRQ name Hname ltac:(tauto))
    as (Hbw & Hwfw & Hopw & Hnw).
  destruct (request_packet_well_formed TFTP_RRQ name Hname ltac:(tauto))
    as (Hbr & Hwfr & Hopr & Hnr).
  assert (Hblocks : blocks <> []) by (intros E; apply file_blocks_nil in E; contradiction).
  set (tail := arriving (request_packet TFTP_RRQ name :: ack_packets 1 blocks)).
  assert (Hin1 : inbox s = RecvDgram (request_packet TFTP_WRQ name)
                           :: arriving (data_packets 1 blocks) ++ tail).
  { rewrite Hin. unfold arriving, tail. cbn [map]. now rewrite map_app. }
  destruct (write_request_served (request_packet TFTP_WRQ name) _ s Hbw
              ltac:(rewrite length_request_packet; lia) Hwfw Hidle Hin1 blocks tail
              Hopw ltac:(rewrite Hnw; exact Hnew) Hcw (file_blocks_well_cut data) Hblocks
              ltac:(now left) Hn
              ltac:(subst blocks; rewrite length_file_blocks_concat; exact Hroom) eq_refl)
    as (s1 & E1 & Htr1 & Hfs1 & Hib1 & Hidle1).
  rewrite Hnw in Hfs1.
  assert (Hcat : concat blocks = data) by apply file_blocks_concat.
  rewrite Hcat in Hfs1.
  destruct (read_request_served (request_packet TFTP_RRQ name) _ s1 Hbr
              ltac:(rewrite length_request_packet; lia) Hwfr Hidle1 Hib1 data []
              Hopr ltac:(rewrite Hnr, Hfs1; apply lookup_insert_eq) Hn
              ltac:(now rewrite app_nil_r))
    as (s2 & E2 & Htr2 & Hfs2 & Hib2 & _).
  exists s2. split.
  { cbn [prog_turns]. rewrite (bind_eq _ _ _ _ _ E1), (bind_eq _ _ _ _ _ E2). reflexivity. }
  split.
  { rewrite Htr2, Htr1, !delivered_app, delivered_sent_events.
    cbn [delivered flat_map app]. fold (delivered (receipts 1 blocks)).
    rewrite delivered_receipts, <- app_assoc. reflexivity. }
  split; [rewrite Hfs2; exact Hfs1 | exact Hib2].
Qed.

Lemma stored_file_is_served_back_witness :
  exists s',
    prog_turns 2
      (server_empty [request_packet TFTP_WRQ a_bin; data_packet 1 [97; 98; 99];
                     request_packet TFTP_RRQ a_bin; ack_packet 1])
    = Some (tt, s')
    /\ delivered (trace s') = [[0; 4; 0; 0]; ack_packet 1; data_packet 1 [97; 98; 99]]
    /\ fs s' = {[ a_bin := mkInode [97; 98; 99] true ]}
    /\ inbox s' = [].
Proof.
  destruct (stored_file_is_served_back a_bin [97; 98; 99]
              (server_empty [request_packet TFTP_WRQ a_bin; data_packet 1 [97; 98; 99];
                             request_packet TFTP_RRQ a_bin; ack_packet 1]))
    as (s' & E & Htr & Hfs & Hin).
  - split; [discriminate | split; closed_bytes].
  - vm_compute. lia.
  - discriminate.
  - reflexivity.
  - vm_compute. discriminate.
  - idle_server.
  - reflexivity.
  - reflexivity.
  - vm_compute. lia.
  - reflexivity.
  - exists s'. split; [exact E|]. split; [exact Htr|].
    split; [rewrite Hfs; reflexivity | exact Hin].
Defined.

(** * Properties of the transfer engine *)

(** X11.  Acknowledgements, round trip.  [send_ack] for a block number of
    16 bits sends the four bytes 0, 4 and the block number in big-endian
    order; a peer that receives them gets 1 from [get_response], and
    [check_ack] on its buffer then accepts that block number and no other
    integer. *)
Theorem ack_round_trip (b : Z) (s : State) :
  0 <= b < 65536 ->
  (4 <= length (buffer s))%nat ->
  exists s',
    send_ack b s = Some (hd true (sendto_ok s), s')
    /\ trace s' = trace s ++ [EvSendto [0; 4; b / 256; b mod 256] (hd true (sendto_ok s))]
    /\ 0 <= b / 256 < 256 /\ 0 <= b mod 256 < 256
    /\ forall (p : State) (rest : list recv_result),
         inbox p = RecvDgram [0; 4; b / 256; b mod 256] :: rest ->
         exists p',
           get_response p = Some (1, p')
           /\ inbox p' = rest
           /\ forall b' : Z, check_ack (buffer p') b' = true <-> b' = b.
Proof.
  intros Hb Hlen. rewrite (send_ack_eq b s Hlen). cbv zeta.
  rewrite to_uchar_hi by lia. rewrite to_uchar_lo.
  eexists. split; [reflexivity|]. split; [reflexivity|].
  split; [split; [apply Z.div_pos; lia | apply Z.div_lt_upper_bound; lia]|].
  split; [apply Z.mod_pos_bound; lia|].
  intros p rest Hin. rewrite (get_response_other _ _ _ Hin ltac:(simpl; lia) ltac:(other_opcode)). cbv zeta.
  eexists. split; [reflexivity|]. split; [reflexivity|].
  intros b'. rewrite check_ack_spec.
  change (byte_at (buffer (set_buffer _ _)) 2) with (b / 256).
  change (byte_at (buffer (set_buffer _ _)) 3) with (b mod 256).
  split.
  - intros [E2 E3].
    rewrite (Z.div_mod b 256), (Z.div_mod b' 256) by lia. congruence.
  - intros ->. split; reflexivity.
Qed.

Lemma ack_round_trip_witness :
  exists s',
    send_ack 258 idle = Some (true, s')
    /\ trace s' = [EvSendto [0; 4; 1; 2] true].
Proof.
  destruct (ack_round_trip 258 idle) as (s' & E & Htr & _).
  - lia.
  - vm_compute. lia.
  - exists s'. split; [exact E | exact Htr].
Defined.

(** The retry path of [validate_and_retry] on the sending side. *)
Lemma validate_and_retry_again_send (n : Z) (name data : list Z) (pos : nat) (s : State) :
  (4 <= length (buffer s))%nat ->
  check_ack (buffer s) (block_number s) = false ->
  retry s + 1 < TFTP_MAX_RETRIES ->
  filepath s = Some (mkFILE name data pos) ->
  0 <= n <= Z.of_nat pos ->
  validate_and_retry n true s =
  let bn := block_number s in
  let hdr := [0; TFTP_DATA; to_uchar (Z.shiftr bn 8); to_uchar (Z.land bn 255)] in
  let ok := hd true (sendto_ok s) in
  Some (true,
        log (EvSendto (take (Z.to_nat (n + TFTP_DATA_HEADER_SIZE)) (hdr ++ drop 4 (buffer s))) ok)
          (set_sendto_ok (tl (sendto_ok s))
             (set_buffer (hdr ++ drop 4 (buffer s))
                (set_filepath (Some (mkFILE name data (Z.to_nat (Z.of_nat pos - n))))
                   (set_retry (retry s + 1) (set_success false s)))))).
Proof.
  intros Hlen H Hr Hf Hn. unfold validate_and_retry, bind, gets, modify. simpl. rewrite H. simpl.
  replace (retry s + 1 >=? TFTP_MAX_RETRIES) with false
    by (symmetry; rewrite Z.geb_leb; apply Z.leb_gt; lia).
  unfold fseek_cur. cbn [filepath set_retry set_success]. rewrite Hf. cbn [f_pos f_path f_data].
  replace (Z.of_nat pos + - n <? 0) with false by (symmetry; apply Z.ltb_ge; lia).
  change (0 =? 0) with true. cbn [negb].
  unfold bind. rewrite send_data_packet_eq by (try assumption; lia).
  replace (Z.of_nat pos + - n) with (Z.of_nat pos - n) by lia.
  reflexivity.
Qed.

(** X12.  Retransmission.  When the answer to a DATA block is an
    acknowledgement of another block and tries are left, the send loop goes
    on without advancing: it has sent the same DATA packet a second time,
    moved the file position back to the start of the block, counted one
    retry and cleared the success flag, so that the next turn of the loop
    reads and sends the same block again. *)
Theorem rejected_ack_resends_block (s : State) (name data : list Z) (pos : nat)
    (other : Z) (rest : list recv_result) :
  let payload := take 512 (drop pos data) in
  let b := block_number s in
  filepath s = Some (mkFILE name data pos) ->
  length (buffer s) = 516%nat ->
  payload <> [] ->
  sends_succeed s ->
  0 <= b < 65536 ->
  0 <= other < 65536 ->
  other <> b ->
  retry s + 1 < TFTP_MAX_RETRIES ->
  inbox s = RecvDgram (ack_packet other) :: rest ->
  exists s',
    process_transfer_send s = Some (true, s')
    /\ trace s' = trace s ++ [EvSendto (data_packet b payload) true;
                              EvSendto (data_packet b payload) true]
    /\ filepath s' = Some (mkFILE name data pos)
    /\ block_number s' = b
    /\ retry s' = retry s + 1
    /\ success s' = false
    /\ inbox s' = rest.
Proof.
  intros payload b.
  assert (Epl : take 512 (drop pos data) = payload) by reflexivity.
  assert (Eb : block_number s = b) by reflexivity.
  clearbody payload b. intros Hf Hlen Hne Hsend Hb Hother Hdiff Hretry Hin.
  assert (Hok := sends_succeed_hd s Hsend).
  assert (Hpl : (length payload <= 512)%nat) by (subst payload; rewrite length_take; lia).
  assert (Hpos : (0 < length payload)%nat) by (destruct payload; [congruence | simpl; lia]).
  assert (Hfits : (pos + length payload <= length data)%nat).
  { subst payload. rewrite length_take, length_drop in *. lia. }
  unfold process_transfer_send.
  rewrite (bind_eq _ _ _ _ _ (fread_eq _ _ _ _ Hf)).
  cbv zeta. cbn [f_pos f_data f_path].
  change (Z.to_nat TFTP_MAX_DATA_SIZE) with 512%nat. rewrite Epl.
  change (Z.to_nat TFTP_DATA_HEADER_SIZE) with 4%nat.
  replace (Z.of_nat (length payload) <=? 0) with false by (symmetry; apply Z.leb_gt; lia).
  set (s1 := set_filepath _ _).
  assert (Hlen1 : length (buffer s1) = 516%nat).
  { subst s1. cbn [buffer set_filepath set_buffer]. rewrite length_blit; lia. }
  unfold bind at 1, gets at 1.
  replace (block_number s1) with b by (symmetry; exact Eb).
  rewrite (bind_eq _ _ _ _ _
             (send_data_packet_eq (Z.of_nat (length payload)) b s1 ltac:(lia) ltac:(lia))).
  cbv zeta. replace (hd true (sendto_ok s1)) with true by (symmetry; exact Hok).
  cbn [negb].
  rewrite to_uchar_hi by lia. rewrite to_uchar_lo.
  assert (Epkt : take (Z.to_nat (Z.of_nat (length payload) + TFTP_DATA_HEADER_SIZE))
                   ([0; TFTP_DATA; b / 256; b mod 256] ++ drop 4 (buffer s1))
                 = data_packet b payload).
  { subst s1. cbn [buffer set_filepath set_buffer]. rewrite drop_blit by lia.
    replace (Z.to_nat (Z.of_nat (length payload) + TFTP_DATA_HEADER_SIZE))
      with (4 + length payload)%nat
      by (unfold TFTP_DATA_HEADER_SIZE, TFTP_OPCODE_SIZE, TFTP_BLOCK_NUMBER_SIZE; lia).
    unfold data_packet.
    change ([0; TFTP_DATA; b / 256; b mod 256] ++ payload ++ ?r)
      with (([0; TFTP_DATA; b / 256; b mod 256] ++ payload) ++ r).
    apply take_app_length'. rewrite length_app. reflexivity. }
  rewrite Epkt.
  set (buf1 := [0; TFTP_DATA; b / 256; b mod 256] ++ drop 4 (buffer s1)) in *.
  set (s2 := log _ _).
  assert (Hin2 : inbox s2 = RecvDgram (ack_packet other) :: rest) by exact Hin.
  rewrite (bind_eq _ _ _ _ _ (get_response_other _ _ _ Hin2 ltac:(simpl; lia) ltac:(other_opcode))).
  cbv zeta.
  change (take (Z.to_nat TFTP_MAX_PACKET_SIZE) (ack_packet other)) with (ack_packet other).
  change (blit 0 (ack_packet other) (buffer s2))
    with (ack_packet other ++ drop 4 (buffer s2)).
  change (byte_at (ack_packet other ++ drop 4 (buffer s2)) 1) with TFTP_ACK.
  change (response_code TFTP_ACK _) with 1. change (1 <? 0) with false. cbv iota.
  set (s3 := set_buffer _ _).
  assert (Hck : check_ack (buffer s3) (block_number s3) = false).
  { change (block_number s3) with (block_number s). rewrite Eb.
    apply check_ack_other_block; [exact Hother | congruence]. }
  assert (Hlen3 : length (buffer s3) = 516%nat).
  { subst s3. cbn [buffer set_buffer]. rewrite length_app, length_drop.
    subst s2. cbn [buffer log set_sendto_ok set_buffer]. subst buf1.
    rewrite length_app, length_drop, Hlen1. reflexivity. }
  rewrite (bind_eq _ _ _ _ _
             (validate_and_retry_again_send (Z.of_nat (length payload)) name data
                (pos + length payload) s3 ltac:(lia) Hck Hretry eq_refl ltac:(lia))).
  cbv zeta. cbn [negb].
  change (block_number s3) with (block_number s). rewrite Eb.
  rewrite to_uchar_hi by lia. rewrite to_uchar_lo.
  assert (Hok3 : hd true (sendto_ok s3) = true).
  { apply sends_succeed_hd. apply (sends_succeed_tl s); [exact Hsend | reflexivity]. }
  rewrite Hok3.
  assert (Epkt3 : take (Z.to_nat (Z.of_nat (length payload) + TFTP_DATA_HEADER_SIZE))
                    ([0; TFTP_DATA; b / 256; b mod 256] ++ drop 4 (buffer s3))
                  = data_packet b payload).
  { subst s3. cbn [buffer set_buffer].
    change (drop 4 (ack_packet other ++ ?r)) with r.
    subst s2. cbn [buffer log set_sendto_ok set_buffer]. fold buf1. exact Epkt. }
  rewrite Epkt3.
  replace (Z.to_nat (Z.of_nat (pos + length payload) - Z.of_nat (length payload)))
    with pos by lia.
  unfold bind, ret, gets. cbn [success set_success log set_sendto_ok set_buffer set_filepath
                               set_retry negb].
  rewrite andb_false_r.
  eexists. split; [reflexivity|].
  split. { cbn [trace log set_sendto_ok set_buffer set_filepath set_retry set_success].
           subst s3 s2. cbn [trace set_buffer set_inbox log set_sendto_ok].
           rewrite <- app_assoc. reflexivity. }
  split; [reflexivity|]. split; [exact Eb|]. split; [reflexivity|].
  split; reflexivity.
Qed.

Lemma rejected_ack_resends_block_witness :
  exists s',
    process_transfer_send (sender_at 1 [97; 98; 99] [RecvDgram (ack_packet 0)])
    = Some (true, s')
    /\ trace s' = [EvSendto (data_packet 1 [97; 98; 99]) true;
                   EvSendto (data_packet 1 [97; 98; 99]) true]
    /\ filepath s' = Some (mkFILE a_bin [97; 98; 99] 0)
    /\ block_number s' = 1
    /\ retry s' = 1
    /\ success s' = false
    /\ inbox s' = [].
Proof.
  apply (rejected_ack_resends_block
           (sender_at 1 [97; 98; 99] [RecvDgram (ack_packet 0)]) a_bin [97; 98; 99] 0 0 []).
  - reflexivity.
  - reflexivity.
  - discriminate.
  - constructor.
  - change (0 <= 1 < 65536). lia.
  - lia.
  - change (0 <> 1). lia.
  - change (0 + 1 < 3). lia.
  - reflexivity.
Defined.
Lemma loop_ends (Inv : State -> Prop) (body : M bool) :
  (forall s, Inv s -> total body s (iteration_ends Inv s)) ->
  forall s, Inv s ->
    exists (n : nat) (s1 s' : State),
      iterations body n s s1
      /\ body s1 = Some (false, s')
      /\ (n <= length (inbox s))%nat
      /\ transfer_loop body s = Some (tt, s').
Proof.
  intros Htot.
  assert (H : forall k s, Inv s -> (length (inbox s) <= k)%nat ->
            exists n s1 s',
              iterations body n s s1 /\ body s1 = Some (false, s')
              /\ (n <= length (inbox s))%nat
              /\ forall fuel, (n < fuel)%nat -> while_loop fuel body s = Some (tt, s')).
  { induction k as [|k IH]; intros s0 Hr Hk.
    - destruct (Htot s0 Hr) as ([|] & s1 & E & _ & Hdec).
      + specialize (Hdec eq_refl). lia.
      + exists O, s0, s1. split; [constructor|]. split; [exact E|]. split; [lia|].
        intros fuel Hfuel. now apply while_loop_stops.
    - destruct (Htot s0 Hr) as ([|] & s1 & E & Hr1 & Hdec).
      + specialize (Hdec eq_refl).
        destruct (IH s1 Hr1 ltac:(lia)) as (n & s2 & s' & Hit & Estop & Hn & Hrun).
        exists (S n), s2, s'.
        split; [eapply rounds_S; [exact E | exact I | exact Hit]|].
        split; [exact Estop|]. split; [lia|].
        intros [|fuel] Hfuel; [lia|].
        rewrite (while_loop_goes_on _ _ _ _ E). apply Hrun. lia.
      + exists O, s0, s1. split; [constructor|]. split; [exact E|]. split; [lia|].
        intros fuel Hfuel. now apply while_loop_stops. }
  intros s Hs.
  destruct (H (length (inbox s)) s Hs ltac:(lia))
    as (n & s1 & s' & Hit & Estop & Hn & Hrun).
  exists n, s1, s'. split; [exact Hit|]. split; [exact Estop|]. split; [exact Hn|].
  unfold transfer_loop. apply Hrun. lia.
Qed.

(** X13.  Termination.  Either transfer loop, started with the packet
    buffer and an open file, ends, when what arrives keeps it inside the
    packet buffer: every datagram to come has its two opcode bytes and, if it
    is an ERROR packet, a message that ends with a NUL within its first 516
    bytes, and, for the receive loop, the disk has room for the payloads to
    come (otherwise [print_error] reads to the next NUL, wherever it is).
    The loop makes some turns that go on and one that stops, and the turns
    that go on are no more than the datagrams that wait at the socket, since
    each of them has received one. *)
Theorem transfer_loops_terminate (body : M bool) (s : State) :
  body = process_transfer_send \/ body = process_transfer_receive ->
  length (buffer s) = 516%nat ->
  is_Some (filepath s) ->
  forallb reads_well (inbox s) = true ->
  (body = process_transfer_receive -> (inbox_bytes (inbox s) <= disk_room s)%nat) ->
  exists (n : nat) (s1 s' : State),
    iterations body n s s1
    /\ body s1 = Some (false, s')
    /\ (n <= length (inbox s))%nat
    /\ transfer_loop body s = Some (tt, s').
Proof.
  intros Hbody Hlen Hfp Hwell Hroom.
  assert (Hp : polite s) by (split; [split; assumption | exact Hwell]).
  destruct Hbody as [-> | ->].
  - exact (loop_ends polite _ process_transfer_send_total s Hp).
  - exact (loop_ends _ _ process_transfer_receive_total s (conj Hp (Hroom eq_refl))).
Qed.

Lemma transfer_loops_terminate_witness :
  exists (n : nat) (s1 s' : State),
    iterations process_transfer_receive n (server_upload_loop [stray; stray]) s1
    /\ process_transfer_receive s1 = Some (false, s')
    /\ (n <= 2)%nat
    /\ transfer_loop process_transfer_receive (server_upload_loop [stray; stray])
       = Some (tt, s').
Proof.
  apply (transfer_loops_terminate process_transfer_receive (server_upload_loop [stray; stray])).
  - right. reflexivity.
  - reflexivity.
  - eexists. reflexivity.
  - reflexivity.
  - intros _. vm_compute. lia.
Defined.

(** ** Full blocks, received one after the other *)

Lemma receive_full_blocks (path : list Z) (pos : nat) (tail : list recv_result)
    (blocks : list (list Z)) :
  forall (s : State) (stored : list Z),
    let b := block_number s in
    Forall (fun p => length p = 512%nat) blocks ->
    filepath s = Some (mkFILE path stored pos) ->
    length (buffer s) = 516%nat ->
    sends_succeed s ->
    (length (concat blocks) <= disk_room s)%nat ->
    0 <= b -> b + Z.of_nat (length blocks) <= 65536 ->
    inbox s = arriving (data_packets b blocks) ++ tail ->
    exists s',
      (forall fuel, while_loop (length blocks + fuel) process_transfer_receive s
                    = while_loop fuel process_transfer_receive s')
      /\ filepath s' = Some (mkFILE path (stored ++ concat blocks) pos)
      /\ length (buffer s') = 516%nat
      /\ success s' = match blocks with
                       | [] => success s
                       | _ :: _ => true
                       end
      /\ inbox s' = tail
      /\ trace s' = trace s ++ receipts b blocks
      /\ sends_succeed s'
      /\ surroundings_kept s s'.
Proof.
  induction blocks as [|p ps IH]; intros s stored b Hfull Hf Hlen Hsend Hroom Hb0 Hb Hin.
  - exists s. split; [reflexivity|].
    split; [cbn [concat]; now rewrite app_nil_r|]. split; [exact Hlen|].
    split; [reflexivity|]. split; [exact Hin|].
    split; [cbn; now rewrite app_nil_r|]. split; [exact Hsend|].
    apply surroundings_kept_refl.
  - inversion Hfull as [|? ? Hp Hps]; subst.
    cbn [concat] in Hroom. rewrite length_app in Hroom. cbn [length] in Hb.
    change (data_packets b (p :: ps)) with (data_packet b p :: data_packets (b + 1) ps) in Hin.
    cbn [arriving map app] in Hin. fold (arriving (data_packets (b + 1) ps)) in Hin.
    destruct (process_transfer_receive_stored s path stored pos p _ Hf Hlen ltac:(lia) Hsend
                ltac:(lia) ltac:(fold b; lia) Hin)
      as (s1 & E1 & Hf1 & Hlen1 & _ & Hb1 & Hsucc1 & Hin1 & Htr1 & Hsend1 & Hroom1 & Hk1).
    fold b in Hb1, Htr1.
    replace (length p <? 512)%nat with false in E1
      by (symmetry; apply Nat.ltb_ge; lia). cbn [negb] in E1.
    destruct (IH s1 (stored ++ p) Hps Hf1 Hlen1 Hsend1) as
        (s' & Hrun & Hf' & Hlen' & Hsucc' & Hin' & Htr' & Hsend' & Hk').
    + rewrite Hroom1. lia.
    + lia.
    + lia.
    + rewrite Hb1. exact Hin1.
    + rewrite Hb1 in Htr'. exists s'.
      split. { intros fuel. cbn [length Nat.add].
               rewrite (while_loop_goes_on _ _ _ _ E1). apply Hrun. }
      split; [cbn [concat]; rewrite app_assoc; exact Hf'|]. split; [exact Hlen'|].
      split. { rewrite Hsucc'. destruct ps; [exact Hsucc1 | reflexivity]. }
      split; [exact Hin'|].
      split. { rewrite Htr', Htr1, <- app_assoc. reflexivity. }
      split; [exact Hsend'|]. eapply surroundings_kept_trans; eauto.
Qed.

(** ** What [print_error] reads *)

Lemma lor_bytes (d0 d1 : Z) : is_byte d1 -> Z.lor (Z.shiftl d0 8) d1 = 256 * d0 + d1.
Proof.
  intros H1. pose proof (Z.add_lor_land (Z.shiftl d0 8) d1) as A.
  rewrite land_shl8 in A by assumption.
  assert (S : Z.shiftl d0 8 = d0 * 256) by (now rewrite Z.shiftl_mul_pow2 by lia).
  lia.
Qed.

Lemma cstrlen_app (l r : list Z) :
  existsb (Z.eqb 0) l = true -> cstrlen (l ++ r) = cstrlen l.
Proof.
  induction l as [|b l IH]; [discriminate|].
  cbn [existsb app cstrlen]. rewrite (Z.eqb_sym 0 b).
  destruct (b =? 0); [reflexivity|]. cbn [orb]. intros H. now rewrite IH.
Qed.

Lemma cstrlen_le (l : list Z) : (cstrlen l <= length l)%nat.
Proof.
  induction l as [|b l IH]; [reflexivity|]. cbn [cstrlen length].
  destruct (b =? 0); lia.
Qed.

Lemma Forall_byte_at (P : Z -> Prop) (l : list Z) (i : nat) :
  Forall P l -> (i < length l)%nat -> P (byte_at l i).
Proof.
  intros H. revert i. induction H as [|x l Hx _ IH]; intros i Hi; [simpl in Hi; lia|].
  destruct i as [|i]; [exact Hx|]. apply IH. simpl in Hi. lia.
Qed.

(** [print_error] on a buffer that starts with an ERROR packet [e]. *)
Lemma print_error_eq (e : list Z) (s : State) :
  buffer s = e ++ drop (length e) (buffer s) ->
  (5 <= length e <= 516)%nat ->
  Forall is_byte e ->
  existsb (Z.eqb 0) (drop 4 e) = true ->
  print_error 0 TFTP_MAX_PACKET_SIZE s
  = Some (ErrorLine (256 * byte_at e 2 + byte_at e 3) (fst (split_nul (drop 4 e))), s).
Proof.
  intros Hbuf Hlen Hbytes Hnul. unfold print_error. rewrite drop_0.
  change (TFTP_MAX_PACKET_SIZE <? TFTP_MIN_ERROR_PACKET) with false.
  change (TFTP_MAX_PACKET_SIZE <? TFTP_MIN_ERROR_PACKET + 1) with false.
  cbv iota zeta. change (Z.to_nat (TFTP_OPCODE_SIZE + TFTP_ERROR_CODE_SIZE)) with 4%nat.
  set (rest := drop (length e) (buffer s)) in *.
  assert (Hd : drop 4 (buffer s) = drop 4 e ++ rest).
  { rewrite Hbuf. rewrite drop_app_le by lia. reflexivity. }
  assert (H2 : byte_at (buffer s) 2 = byte_at e 2).
  { rewrite Hbuf. unfold byte_at. apply app_nth1. lia. }
  assert (H3 : byte_at (buffer s) 3 = byte_at e 3).
  { rewrite Hbuf. unfold byte_at. apply app_nth1. lia. }
  rewrite Hd, H2, H3. rewrite existsb_app, Hnul. cbn [orb].
  rewrite cstrlen_app by exact Hnul.
  rewrite take_app_le by apply cstrlen_le.
  rewrite <- split_nul_fst.
  rewrite lor_bytes; [reflexivity|].
  apply Forall_byte_at; [exact Hbytes | lia].
Qed.

(** X14.  An ERROR packet ends a download and takes the file with it.
    When the server's answer to a read request, after any number of full
    blocks that the client has stored, is a datagram with opcode 5 whose
    message ends with a NUL, the client leaves the receive loop, removes the
    file it was writing and cleans up; afterwards its directory does not hold
    the name, and the packet still sits in the buffer, where [print_error]
    reads its code and its message.  The value the client returns is its
    success flag: false when the ERROR packet was the first answer, true when
    blocks had been accepted before it. *)
Theorem error_packet_removes_download (name : cstring) (full : list (list Z))
    (e : list Z) (rest : list recv_result) (c : State) :
  filename c = Some name ->
  (length name <= 507)%nat ->
  length (buffer c) = 516%nat ->
  cwd_writable c = true ->
  sends_succeed c ->
  Forall (fun p => length p = 512%nat) full ->
  Z.of_nat (length full) < 65536 ->
  (length (concat full) <= disk_room c)%nat ->
  (5 <= length e <= 516)%nat ->
  Forall is_byte e ->
  byte_at e 1 = TFTP_ERROR ->
  existsb (Z.eqb 0) (drop 4 e) = true ->
  inbox c = arriving (data_packets 1 full) ++ RecvDgram e :: rest ->
  exists c',
    Client.download_request c = Some (negb (bool_decide (full = [])), c')
    /\ fs c' = delete name (fs c)
    /\ trace c' = trace c ++ EvSendto (request_packet (to_uchar (opcode c)) name) true
                             :: receipts 1 full ++ [EvRemove name]
    /\ inbox c' = rest
    /\ filepath c' = None
    /\ print_error 0 TFTP_MAX_PACKET_SIZE c'
       = Some (ErrorLine (256 * byte_at e 2 + byte_at e 3) (fst (split_nul (drop 4 e))), c').
Proof.
  intros Hfn Hname Hlen Hcw Hsend Hfull Hn Hroom Hlene Hbytes He Hnul Hin.
  unfold Client.download_request.
  unfold bind at 1, modify at 1.
  set (s0 := set_success false c).
  rewrite (bind_eq _ _ _ _ _ (send_request_eq name s0 Hfn Hname Hlen)).
  cbv zeta. change (sendto_ok s0) with (sendto_ok c). rewrite (sends_succeed_hd c Hsend).
  cbn [negb]. change (opcode s0) with (opcode c).
  set (pkt := request_packet (to_uchar (opcode c)) name).
  set (s1 := log _ _).
  rewrite (bind_eq _ _ _ _ _ (fopen_filename_wb_eq name s1 Hfn Hcw)).
  cbn [negb].
  unfold bind at 1, modify at 1. unfold bind at 1, modify at 1.
  set (s2 := set_retry (-1) _).
  assert (Hlen2 : length (buffer s2) = 516%nat).
  { subst s2 s1. cbn [buffer set_retry set_block_number set_filepath set_fs log
                      set_sendto_ok set_buffer].
    rewrite length_app, length_drop.
    change (length (buffer s0)) with (length (buffer c)). rewrite Hlen.
    subst pkt. rewrite length_request_packet. lia. }
  destruct (receive_full_blocks name 0 (RecvDgram e :: rest) full s2 [] Hfull) as
      (s3 & Hrun & Hf3 & Hlen3 & Hsucc3 & Hin3 & Htr3 & _ & Hk3).
  - reflexivity.
  - exact Hlen2.
  - apply (sends_succeed_tl c); [exact Hsend | reflexivity].
  - exact Hroom.
  - change (0 <= 1). lia.
  - change (block_number s2) with 1. lia.
  - exact Hin.
  - change (block_number s2) with 1 in Htr3. cbn [app] in Hf3.
    change (success s2) with false in Hsucc3.
    set (s4 := set_buffer (blit 0 e (buffer s3)) (set_inbox rest s3)).
    assert (Hb4 : byte_at (buffer s4) 1 = TFTP_ERROR).
    { subst s4. cbn [buffer set_buffer]. unfold blit. rewrite take_0. cbn [app].
      rewrite <- He. unfold byte_at.
      destruct e as [|e0 [|e1 e']]; [simpl in Hlene; lia | simpl in Hlene; lia |].
      reflexivity. }
    assert (Estop : process_transfer_receive s3 = Some (false, s4)).
    { unfold process_transfer_receive.
      assert (Eg := get_response_dgram _ _ _ Hin3). cbv zeta in Eg.
      change (Z.to_nat TFTP_MAX_PACKET_SIZE) with 516%nat in Eg.
      rewrite take_ge in Eg by lia.
      rewrite (bind_eq _ _ _ _ _ (Eg ltac:(
        intros _; unfold blit; rewrite take_0; cbn [app];
        rewrite drop_app, existsb_app, Hnul; reflexivity))).
      clear Eg. fold s4.
      change (blit 0 e (buffer s3)) with (buffer s4). rewrite Hb4.
      reflexivity. }
    assert (Eloop : transfer_loop process_transfer_receive s2 = Some (tt, s4)).
    { unfold transfer_loop.
      replace (S (length (inbox s2))) with (length full + S (length (inbox s2) - length full))%nat.
      - rewrite Hrun. cbn [while_loop]. rewrite Estop. reflexivity.
      - change (inbox s2) with (inbox c). rewrite Hin, length_app.
        unfold arriving. rewrite length_map, length_data_packets. lia. }
    rewrite (bind_eq _ _ _ _ _ Eloop).
    unfold bind at 1, gets at 1. unfold bind at 1, gets at 1.
    rewrite Hb4. change (TFTP_ERROR =? TFTP_ERROR) with true. rewrite orb_true_r.
    destruct Hk3 as (_ & Hfn3 & Hfs3 & _ & Hcw3 & _).
    assert (Erm : (let* fn := gets filename in remove fn >> ret tt) s4
                  = Some (tt, log (EvRemove name) (set_fs (delete name (fs s4)) s4))).
    { unfold bind, gets, remove, ret.
      change (filename s4) with (filename s3). rewrite Hfn3.
      change (filename s2) with (filename c). rewrite Hfn.
      change (fs s4) with (fs s3). rewrite Hfs3.
      change (fs s2) with (<[name := mkInode [] true]> (fs c)).
      rewrite lookup_insert_eq.
      change (cwd_writable s4) with (cwd_writable s3). rewrite Hcw3.
      change (cwd_writable s2) with (cwd_writable c). rewrite Hcw. reflexivity. }
    rewrite (bind_eq _ _ _ _ _ Erm).
    set (s5 := log _ _).
    assert (Hf5 : filepath s5 = Some (mkFILE name (concat full) 0)) by exact Hf3.
    rewrite (bind_eq _ _ _ _ _ (cleanup_eq _ _ Hf5)).
    unfold gets. cbn [f_path f_data success set_filename set_filepath set_fs].
    assert (Hfs5 : fs s5 = delete name (fs c)).
    { subst s5. cbn [fs log set_fs]. change (fs s4) with (fs s3). rewrite Hfs3.
      change (fs s2) with (<[name := mkInode [] true]> (fs c)).
      apply delete_insert_eq. }
    rewrite Hfs5, lookup_delete_eq.
    eexists. split.
    { do 2 f_equal. change (success s5) with (success s3). rewrite Hsucc3.
      destruct full; reflexivity. }
    cbn [fs trace inbox filepath set_filename set_filepath set_fs].
    split; [reflexivity|].
    split. { subst s5 s4. cbn [trace log set_fs set_buffer set_inbox].
             rewrite Htr3. change (trace s2) with (trace c ++ [EvSendto pkt true]).
             rewrite <- !app_assoc. reflexivity. }
    split; [reflexivity|]. split; [reflexivity|].
    apply print_error_eq; [|exact Hlene | exact Hbytes | exact Hnul].
    cbn [buffer set_filename set_filepath set_fs]. subst s5 s4.
    cbn [buffer log set_fs set_buffer set_inbox].
    rewrite (blit_front e (buffer s3)) by lia. now rewrite drop_app_length.
Qed.

Lemma error_packet_removes_download_witness :
  exists c',
    Client.download_request
      (client_download [RecvDgram ([0; 5; 0; 1] ++ bytes_of_string "File not found" ++ [0])])
    = Some (false, c')
    /\ fs c' = delete a_bin ∅
    /\ trace c' = [EvSendto (request_packet TFTP_RRQ a_bin) true; EvRemove a_bin]
    /\ inbox c' = []
    /\ filepath c' = None
    /\ print_error 0 TFTP_MAX_PACKET_SIZE c'
       = Some (ErrorLine 1 (bytes_of_string "File not found"), c').
Proof.
  apply (error_packet_removes_download a_bin []
           ([0; 5; 0; 1] ++ bytes_of_string "File not found" ++ [0]) []
           (client_download
              [RecvDgram ([0; 5; 0; 1] ++ bytes_of_string "File not found" ++ [0])])).
  - reflexivity.
  - vm_compute. lia.
  - reflexivity.
  - reflexivity.
  - constructor.
  - constructor.
  - simpl. lia.
  - simpl. lia.
  - vm_compute. lia.
  - closed_bytes.
  - reflexivity.
  - reflexivity.
  - reflexivity.
Defined.

(** X15.  A write request in a directory that cannot be written: the
    handler runs, [fopen] fails, and the server answers with ERROR 0 and the
    text "Undefined error - Error opening file for writing"; it sends no
    ACK(0), creates no file and leaves the directory as it was. *)
Theorem write_request_in_read_only_directory (d : list Z) (rest : list recv_result)
    (s : State) :
  Forall is_byte d ->
  (length d <= 515)%nat ->
  well_formed_request d = true ->
  request_opcode d = TFTP_WRQ ->
  server_idle s ->
  fs s !! request_name d = None ->
  cwd_writable s = false ->
  inbox s = RecvDgram d :: rest ->
  exists s',
    Server.prog_iteration s = Some (true, s')
    /\ trace s' = trace s ++
         [EvSendto ([0; 5; 0; 0]
                    ++ bytes_of_string "Undefined error - Error opening file for writing"
                    ++ [0]) true]
    /\ fs s' = fs s
    /\ filepath s' = None
    /\ inbox s' = rest.
Proof.
  intros Hbytes Hd Hwf Hop (Hfp & Hheap & Hsend) Hnew Hcw Hin.
  rewrite (prog_iteration_parses d rest s Hbytes Hd Hwf Hfp Hheap Hin).
  set (name := request_name d) in *.
  set (p := request_parsed (request_opcode d) name d rest s).
  assert (Hlen : length (buffer p) = 516%nat) by (apply length_request_parsed; lia).
  unfold bind at 1. rewrite file_check_eq. change (opcode p) with (request_opcode d).
  rewrite Hop.
  change (TFTP_WRQ =? TFTP_RRQ) with false. change (TFTP_WRQ =? TFTP_WRQ) with true.
  cbv iota. unfold Server.validate_upload_file.
  rewrite (bind_eq _ _ _ _ _ (access_F_OK_eq name p eq_refl)).
  change (fs p) with (fs s). rewrite Hnew.
  rewrite bool_decide_eq_false_2 by (intros [? ?]; discriminate).
  unfold ret at 1. cbn [negb].
  assert (Eh : Server.handle_request p =
               Some (tt, log (EvSendto (error_packet ERROR_UNDEFINED
                                          (Some (bytes_of_string
                                                   "Error opening file for writing"))) true)
                           (set_sendto_ok (tl (sendto_ok s))
                              (set_buffer
                                 (error_packet ERROR_UNDEFINED
                                    (Some (bytes_of_string "Error opening file for writing"))
                                  ++ drop 53 (buffer p))
                                 (set_filepath None
                                    (set_block_number 0 (set_success false p))))))).
  { rewrite handle_request_eq.
    change (opcode p) with (request_opcode d). rewrite Hop.
    change (TFTP_WRQ =? TFTP_RRQ) with false. change (TFTP_WRQ =? TFTP_WRQ) with true.
    cbv iota. unfold Server.upload_request.
    unfold bind at 1. unfold bind at 1, modify at 1. unfold bind at 1, modify at 1.
    set (s0 := set_block_number 0 _).
    assert (Eo : fopen_filename_wb s0 = Some (false, set_filepath None s0)).
    { unfold fopen_filename_wb, bind, gets, fopen_wb.
      change (filename s0) with (Some name). cbv beta iota.
      change (cwd_writable s0) with (cwd_writable s). now rewrite Hcw. }
    rewrite (bind_eq _ _ _ _ _ Eo). cbn [negb].
    assert (Hmsg : forall c, Some (bytes_of_string "Error opening file for writing") = Some c ->
                             Forall nonzero c).
    { intros c Hc. inversion Hc; subst. vm_compute.
      repeat constructor; intros H; discriminate H. }
    rewrite (send_error_packet_print_error Server.server ERROR_UNDEFINED _ (ret tt)
               (set_filepath None s0) Hlen Hmsg).
    rewrite (bind_eq _ _ _ _ _
               (send_error_packet_eq Server.server ERROR_UNDEFINED _ (set_filepath None s0)
                  Hlen Hmsg)).
    cbv zeta. change (sendto_ok (set_filepath None s0)) with (sendto_ok s).
    rewrite (sends_succeed_hd s Hsend). reflexivity. }
  rewrite (bind_eq _ _ _ _ _ Eh). unfold ret.
  eexists. split; [reflexivity|]. repeat split.
Qed.

Lemma write_request_in_read_only_directory_witness :
  exists s',
    Server.prog_iteration
      (mkState 0 None None zero_buffer 0 0 false
         [RecvDgram (request_packet TFTP_WRQ a_bin)] [] 4096 ENOSPC false true ∅ [])
    = Some (true, s')
    /\ trace s' =
         [EvSendto ([0; 5; 0; 0]
                    ++ bytes_of_string "Undefined error - Error opening file for writing"
                    ++ [0]) true]
    /\ fs s' = ∅
    /\ filepath s' = None
    /\ inbox s' = [].
Proof.
  apply (write_request_in_read_only_directory (request_packet TFTP_WRQ a_bin) []
           (mkState 0 None None zero_buffer 0 0 false
              [RecvDgram (request_packet TFTP_WRQ a_bin)] [] 4096 ENOSPC false true ∅ [])).
  - closed_bytes.
  - vm_compute. lia.
  - reflexivity.
  - reflexivity.
  - idle_server.
  - reflexivity.
  - reflexivity.
  - reflexivity.
Defined.

Lemma bytes_of_string_bytes (str : string) : Forall is_byte (bytes_of_string str).
Proof.
  unfold bytes_of_string. induction str as [|a str IH]; [constructor|].
  cbn [list_ascii_of_string map]. constructor; [|exact IH].
  unfold is_byte. pose proof (N_ascii_bounded a). lia.
Qed.

(** X16.  ERROR packets, round trip.  What [send_error_packet] sends for
    a code of 16 bits is read back by [print_error] as that code and that
    message, on the sender's own buffer and on the buffer of a peer that
    receives the packet; the peer's [get_response] returns -1 for it. *)
Theorem error_packet_round_trip (sock : TFTPSocket) (code : Z) (custom : option cstring)
    (s : State) :
  let canonical := bytes_of_string (tftp_error_message code) in
  let msg := match custom with
             | Some c => take 511 (canonical ++ bytes_of_string " - " ++ c)
             | None => canonical
             end in
  length (buffer s) = 516%nat ->
  Forall nonzero (default [] custom) ->
  Forall is_byte (default [] custom) ->
  0 <= code < 65536 ->
  exists s' pkt,
    send_error_packet (Some sock) code custom s = Some (tt, s')
    /\ trace s' = trace s ++ [EvSendto pkt (hd true (sendto_ok s))]
    /\ print_error 0 TFTP_MAX_PACKET_SIZE s' = Some (ErrorLine code msg, s')
    /\ forall (p : State) (rest : list recv_result),
         inbox p = RecvDgram pkt :: rest ->
         exists p',
           get_response p = Some (-1, p')
           /\ print_error 0 TFTP_MAX_PACKET_SIZE p' = Some (ErrorLine code msg, p').
Proof.
  intros canonical msg Hlen Hnz Hby Hcode.
  assert (Hmsg : msg = error_payload code custom) by (destruct custom; reflexivity).
  destruct (tftp_error_message_ok code) as [Hcnz Hclen]. fold canonical in Hcnz, Hclen.
  assert (Hmnz : Forall nonzero msg).
  { subst msg. destruct custom as [c|]; [|exact Hcnz].
    apply Forall_take. repeat apply Forall_app_2; try assumption.
    vm_compute. repeat constructor; intros H; discriminate H. }
  assert (Hmby : Forall is_byte msg).
  { subst msg. destruct custom as [c|]; [|apply bytes_of_string_bytes].
    apply Forall_take. repeat apply Forall_app_2; try assumption;
      apply bytes_of_string_bytes. }
  assert (Hmlen : (length msg <= 511)%nat).
  { subst msg. destruct custom as [c|]; [rewrite length_take; lia | lia]. }
  set (pkt := error_packet code custom).
  assert (Epkt : pkt = [0; TFTP_ERROR; code / 256; code mod 256] ++ msg ++ [0]).
  { unfold pkt, error_packet. rewrite <- Hmsg.
    rewrite (Z.mod_small (code / 256)); [reflexivity|].
    split; [apply Z.div_pos; lia | apply Z.div_lt_upper_bound; lia]. }
  assert (Hplen : (5 <= length pkt <= 516)%nat).
  { rewrite Epkt, !length_app. cbn [length]. lia. }
  assert (Hpby : Forall is_byte pkt).
  { rewrite Epkt. repeat apply Forall_app_2; try exact Hmby.
    - repeat constructor; unfold is_byte, TFTP_ERROR; try lia.
      + apply Z.div_pos; lia.
      + apply Z.div_lt_upper_bound; lia.
      + apply Z.mod_pos_bound; lia.
      + apply Z.mod_pos_bound; lia.
    - repeat constructor; unfold is_byte; lia. }
  assert (Hpnul : existsb (Z.eqb 0) (drop 4 pkt) = true).
  { rewrite Epkt. change (drop 4 ([0; TFTP_ERROR; code / 256; code mod 256] ++ ?r)) with r.
    rewrite existsb_app. cbn. apply orb_true_r. }
  assert (Hread : forall q, buffer q = pkt ++ drop (length pkt) (buffer q) ->
            print_error 0 TFTP_MAX_PACKET_SIZE q = Some (ErrorLine code msg, q)).
  { intros q Hq. rewrite (print_error_eq pkt q Hq Hplen Hpby Hpnul). do 3 f_equal.
    - rewrite Epkt. cbn [app byte_at nth]. rewrite (Z.div_mod code 256) at 3 by lia. reflexivity.
    - rewrite Epkt. change (drop 4 ([0; TFTP_ERROR; code / 256; code mod 256] ++ ?r)) with r.
      change (msg ++ [0]) with (msg ++ 0 :: []). now rewrite split_nul_app_nul. }
  rewrite (send_error_packet_eq sock code custom s Hlen).
  2:{ intros c ->. exact Hnz. }
  cbv zeta. fold pkt.
  eexists. exists pkt. split; [reflexivity|]. split; [reflexivity|].
  split.
  { apply Hread. cbn [buffer log set_sendto_ok set_buffer]. now rewrite drop_app_length. }
  intros p rest Hin.
  assert (Eg := get_response_dgram _ _ _ Hin). cbv zeta in Eg.
  change (Z.to_nat TFTP_MAX_PACKET_SIZE) with 516%nat in Eg.
  rewrite take_ge in Eg by lia.
  rewrite (Eg ltac:(intros _; unfold blit; rewrite take_0; cbn [app];
                    rewrite drop_app, existsb_app, Hpnul; reflexivity)).
  clear Eg.
  change (blit 0 pkt (buffer p)) with (pkt ++ drop (0 + length pkt) (buffer p)).
  cbn [Nat.add].
  assert (Hb1 : byte_at (pkt ++ drop (length pkt) (buffer p)) 1 = TFTP_ERROR)
    by (rewrite Epkt; reflexivity).
  rewrite Hb1. change (response_code TFTP_ERROR _) with (-1).
  eexists. split; [reflexivity|].
  apply Hread. cbn [buffer set_buffer]. now rewrite drop_app_length.
Qed.

Lemma error_packet_round_trip_witness :
  exists s' pkt,
    send_error_packet (Some Server.server) ERROR_FILE_EXISTS None idle = Some (tt, s')
    /\ trace s' = [EvSendto pkt true]
    /\ print_error 0 TFTP_MAX_PACKET_SIZE s'
       = Some (ErrorLine 6 (bytes_of_string "File already exists"), s').
Proof.
  destruct (error_packet_round_trip Server.server ERROR_FILE_EXISTS None idle)
    as (s' & pkt & E & Htr & Hp & _).
  - reflexivity.
  - constructor.
  - constructor.
  - vm_compute. split; [discriminate | reflexivity].
  - exists s', pkt. split; [exact E|]. split; [exact Htr | exact Hp].
Defined.

(** X17.  The limit of the packet checks.  A datagram that fills the 516
    bytes of the packet buffer and has no NUL after its opcode leaves
    [validate_mode] without a terminator to find: its [strlen] reads past the
    end of [request->buffer], and the behaviour of the server's turn is
    undefined. *)
Theorem unterminated_request_leaves_buffer (d : list Z) (rest : list recv_result)
    (s : State) :
  length d = 516%nat ->
  Forall nonzero (drop 2 d) ->
  inbox s = RecvDgram d :: rest ->
  Server.prog_iteration s = None.
Proof.
  intros Hd Hnz Hin.
  destruct (init_request_eq s) as (s0 & E0 & Hb0 & Hi0 & _).
  unfold Server.prog_iteration. rewrite (bind_eq _ _ _ _ _ E0).
  assert (E1 : recvfrom s0 = Some (516, set_buffer d (set_inbox rest s0))).
  { unfold recvfrom. rewrite Hi0, Hin.
    change (Z.to_nat TFTP_MAX_PACKET_SIZE) with 516%nat.
    rewrite take_ge by lia. cbv zeta. rewrite Hd. do 3 f_equal.
    assert (Hz : length (buffer s0) = 516%nat).
    { rewrite Hb0. unfold zero_buffer. now rewrite length_replicate. }
    rewrite blit_front by lia.
    rewrite drop_ge by lia. apply app_nil_r. }
  rewrite (bind_eq _ _ _ _ _ E1). change (516 <=? 0) with false. cbv iota.
  set (s1 := set_buffer d _).
  assert (Hlen : length (buffer s1) = 516%nat) by exact Hd.
  unfold Server.validate_request. unfold bind at 1.
  destruct (validate_request_count_cases 516 s1 Hlen) as [[_ Ec] | [Hlt _]]; [|lia].
  rewrite (bind_eq _ _ _ _ _ Ec). cbn [negb].
  pose proof (validate_mode_cases s1 Hlen) as Hm. cbv zeta in Hm.
  change (buffer s1) with d in Hm.
  rewrite (existsb_nul_nonzero _ Hnz) in Hm. cbn [andb] in Hm.
  unfold bind. rewrite Hm. reflexivity.
Qed.

Lemma unterminated_request_leaves_buffer_witness :
  Server.prog_iteration (server_empty [[0; 1] ++ replicate 514 65]) = None.
Proof.
  apply (unterminated_request_leaves_buffer ([0; 1] ++ replicate 514 65) []).
  - reflexivity.
  - change (drop 2 ([0; 1] ++ replicate 514 65)) with (replicate 514 65).
    apply Forall_replicate. intros H. discriminate H.
  - reflexivity.
Defined.

(** * The client's command line *)

Lemma strcmp_eq (a b : cstring) :
  Forall nonzero a -> Forall nonzero b -> Client.strcmp a b = 0 -> a = b.
Proof.
  intros Ha. revert b. induction Ha as [|x a Hx _ IH]; intros b Hb H.
  - destruct b as [|y b]; [reflexivity|]. inversion Hb as [|? ? Hy _]; subst.
    cbn in H. unfold nonzero in Hy. lia.
  - destruct b as [|y b]; [cbn in H; unfold nonzero in Hx; lia|].
    inversion Hb as [|? ? Hy Hb']; subst. cbn [Client.strcmp] in H.
    destruct (Z.eqb_spec x y) as [->|Hne]; [f_equal; now apply IH | lia].
Qed.

Lemma strcmp_refl (a : cstring) : Client.strcmp a a = 0.
Proof. induction a as [|x a IH]; [reflexivity|]. cbn. now rewrite Z.eqb_refl. Qed.

Lemma length_strip_slashes (path : cstring) :
  (length (Client.strip_slashes path) <= length path)%nat.
Proof.
  induction path as [|c path IH]; [reflexivity|]. cbn [Client.strip_slashes].
  destruct (Client.strip_slashes path) as [|k kept].
  - destruct (c =? Client.SLASH); cbn [length]; lia.
  - cbn [length] in *. lia.
Qed.

Lemma length_last_component (path : cstring) :
  (length (Client.last_component path) <= length path)%nat.
Proof.
  induction path as [|c path IH]; [reflexivity|]. cbn [Client.last_component].
  destruct (existsb _ path); [cbn [length]; lia|].
  destruct (c =? Client.SLASH); cbn [length]; lia.
Qed.

Lemma length_basename (path : cstring) :
  (length (Client.basename path) <= Nat.max 1 (length path))%nat.
Proof.
  unfold Client.basename. destruct path as [|c path]; [cbn; lia|].
  pose proof (length_strip_slashes (c :: path)) as Hs.
  destruct (Client.strip_slashes (c :: path)) as [|k kept] eqn:E; [cbn; lia|].
  pose proof (length_last_component (k :: kept)). lia.
Qed.

Lemma request_only_refl (s : State) : request_only s s.
Proof. repeat split. Qed.

Lemma validate_filename_eq (path : cstring) (s : State) :
  Client.validate_filename path s =
  if Z.of_nat (length path) >? MAX_FILE_NAME then Some (false, s)
  else if heap_ok s then Some (true, set_filename (Some (Client.basename path)) s)
       else Some (false, set_filename None s).
Proof.
  unfold Client.validate_filename, Client.get_filename_from_path, bind, gets, modify, ret.
  destruct (_ >? _); [reflexivity|]. destruct (heap_ok s); reflexivity.
Qed.

Lemma validate_upload_file_eq (path : cstring) (s : State) :
  Client.validate_upload_file path s =
  match fs s !! path with
  | Some ino =>
      if i_readable ino
      then Some (true, set_filepath (Some (mkFILE path (i_data ino) 0)) s)
      else Some (false, s)
  | None => Some (false, s)
  end.
Proof.
  unfold Client.validate_upload_file, Client.validate_file_access, Client.access_F_OK,
    Client.access_R_OK, Client.fopen_rb, bind, gets, modify, ret.
  cbv beta.
  destruct (fs s !! path) as [ino|] eqn:E.
  - rewrite bool_decide_eq_true_2 by eauto. cbn [negb]. cbv beta. rewrite ?E.
    destruct (i_readable ino) eqn:Er; cbn [negb]; cbv beta; rewrite ?E, ?Er; reflexivity.
  - rewrite bool_decide_eq_false_2 by (intros [? ?]; discriminate). reflexivity.
Qed.

Lemma validate_download_file_eq (name : cstring) (s : State) :
  filename s = Some name ->
  Client.validate_download_file s =
  match fs s !! name with
  | Some _ => Some (false, set_filename None s)
  | None => Some (true, s)
  end.
Proof.
  intros H. unfold Client.validate_download_file, Client.access_F_OK, bind, gets, modify, ret.
  rewrite H. cbv beta iota. destruct (fs s !! name) as [ino|] eqn:E.
  - rewrite bool_decide_eq_true_2 by eauto. reflexivity.
  - rewrite bool_decide_eq_false_2 by (intros [? ?]; discriminate). reflexivity.
Qed.

(** The outcomes of [validate_arguments]: it always returns, it touches
    only the request, and when it accepts, the request is complete. *)
Lemma validate_arguments_cases (argv : list cstring) (s : State) :
  let operation := Client.arg argv Client.OPERATION in
  let path := Client.arg argv Client.FILE_PATH in
  let name := Client.basename path in
  exists r s',
    Client.validate_arguments argv s = Some (r, s')
    /\ request_only s s'
    /\ (r = true ->
        length argv = 4%nat
        /\ (length path <= 256)%nat
        /\ heap_ok s = true
        /\ filename s' = Some name
        /\ ((Client.strcmp operation (bytes_of_string UPLOAD) = 0
             /\ opcode s' = TFTP_WRQ
             /\ exists ino, fs s !! path = Some ino /\ i_readable ino = true
                            /\ filepath s' = Some (mkFILE path (i_data ino) 0))
            \/ (Client.strcmp operation (bytes_of_string DOWNLOAD) = 0
                /\ opcode s' = TFTP_RRQ /\ fs s !! name = None /\ filepath s' = None)
            \/ (Client.strcmp operation (bytes_of_string DELETE) = 0
                /\ opcode s' = TFTP_DRQ /\ filepath s' = None)))
    /\ (r = false -> filepath s' = None \/ filepath s' = filepath s).
Proof.
  intros operation path name.
  unfold Client.validate_arguments, Client.validate_argument_count.
  destruct (Z.of_nat (length argv) =? TFTP_NUM_ARGUMENTS) eqn:Eargc; cbn [negb].
  2:{ exists false, s. split; [reflexivity|]. split; [apply request_only_refl|].
      split; [discriminate | now right]. }
  assert (Hargc : length argv = 4%nat).
  { apply Z.eqb_eq in Eargc. unfold TFTP_NUM_ARGUMENTS in Eargc. lia. }
  fold operation. fold path.
  assert (Hop : exists op,
             (Client.validate_operation operation s = Some (true, set_opcode op s)
              /\ ((Client.strcmp operation (bytes_of_string UPLOAD) = 0 /\ op = TFTP_WRQ)
                  \/ (Client.strcmp operation (bytes_of_string DOWNLOAD) = 0 /\ op = TFTP_RRQ)
                  \/ (Client.strcmp operation (bytes_of_string DELETE) = 0 /\ op = TFTP_DRQ)))
             \/ Client.validate_operation operation s = Some (false, s)).
  { unfold Client.validate_operation.
    destruct (Client.strcmp operation (bytes_of_string UPLOAD) =? 0) eqn:E1.
    { exists TFTP_WRQ. left. split; [reflexivity|]. left. apply Z.eqb_eq in E1. tauto. }
    destruct (Client.strcmp operation (bytes_of_string DOWNLOAD) =? 0) eqn:E2.
    { exists TFTP_RRQ. left. split; [reflexivity|]. right. left. apply Z.eqb_eq in E2. tauto. }
    destruct (Client.strcmp operation (bytes_of_string DELETE) =? 0) eqn:E3.
    { exists TFTP_DRQ. left. split; [reflexivity|]. right. right.
      apply Z.eqb_eq in E3. tauto. }
    exists 0. now right. }
  destruct Hop as (op & [[Eop Hop] | Eop]).
  2:{ rewrite (bind_eq _ _ _ _ _ Eop). cbn [negb].
      exists false, s. split; [reflexivity|]. split; [apply request_only_refl|].
      split; [discriminate | now right]. }
  rewrite (bind_eq _ _ _ _ _ Eop). cbn [negb].
  unfold bind at 1, modify at 1.
  set (s1 := set_filepath None (set_opcode op s)).
  unfold bind at 1. rewrite validate_filename_eq.
  destruct (Z.of_nat (length path) >? MAX_FILE_NAME) eqn:Elen.
  { cbn [negb]. exists false, s1. split; [reflexivity|]. split; [repeat split|].
    split; [discriminate | now left]. }
  assert (Hpath : (length path <= 256)%nat).
  { rewrite Z.gtb_ltb in Elen. apply Z.ltb_ge in Elen. unfold MAX_FILE_NAME in Elen. lia. }
  change (heap_ok s1) with (heap_ok s).
  destruct (heap_ok s) eqn:Eheap; cbn [negb].
  2:{ eexists false, _. split; [reflexivity|]. split; [repeat split|].
      split; [discriminate | now left]. }
  fold name. set (s2 := set_filename (Some name) s1).
  unfold bind at 1, gets at 1. change (opcode s2) with op.
  destruct Hop as [[Hcmp ->] | [[Hcmp ->] | [Hcmp ->]]].
  - change (TFTP_WRQ =? TFTP_WRQ) with true. cbv iota.
    rewrite validate_upload_file_eq. change (fs s2) with (fs s).
    destruct (fs s !! path) as [ino|] eqn:El.
    + destruct (i_readable ino) eqn:Er.
      * eexists true, _. split; [reflexivity|]. split; [repeat split|].
        split; [|discriminate]. intros _.
        split; [exact Hargc|]. split; [exact Hpath|]. split; [reflexivity|].
        split; [reflexivity|]. left. split; [exact Hcmp|]. split; [reflexivity|].
        exists ino. repeat split; assumption.
      * exists false, s2. split; [reflexivity|]. split; [repeat split|].
        split; [discriminate | now left].
    + exists false, s2. split; [reflexivity|]. split; [repeat split|].
      split; [discriminate | now left].
  - change (TFTP_RRQ =? TFTP_WRQ) with false. change (TFTP_RRQ =? TFTP_RRQ) with true.
    cbv iota. rewrite (validate_download_file_eq name s2 eq_refl).
    change (fs s2) with (fs s).
    destruct (fs s !! name) as [ino|] eqn:El.
    + eexists false, _. split; [reflexivity|]. split; [repeat split|].
      split; [discriminate | now left].
    + exists true, s2. split; [reflexivity|]. split; [repeat split|].
      split; [|discriminate]. intros _.
      split; [exact Hargc|]. split; [exact Hpath|]. split; [reflexivity|].
      split; [reflexivity|]. right. left. repeat split; assumption.
  - change (TFTP_DRQ =? TFTP_WRQ) with false. change (TFTP_DRQ =? TFTP_RRQ) with false.
    cbv iota. unfold ret.
    exists true, s2. split; [reflexivity|]. split; [repeat split|].
    split; [|discriminate]. intros _.
    split; [exact Hargc|]. split; [exact Hpath|]. split; [reflexivity|].
    split; [reflexivity|]. right. right. repeat split; assumption.
Qed.

(** ** Every client handler returns *)

Lemma cleanup_ends (s : State) :
  exists s', Client.cleanup s = Some (tt, s') /\ filepath s' = None /\ filename s' = None
             /\ trace s' = trace s /\ success s' = success s.
Proof.
  destruct (filepath s) as [f|] eqn:Hf.
  - rewrite (cleanup_eq f s Hf). eexists. split; [reflexivity|]. repeat split.
  - destruct (cleanup_no_file s Hf) as (s' & E & Htr & _ & _ & Hf' & Hn').
    exists s'. split; [exact E|]. split; [exact Hf'|]. split; [exact Hn'|].
    split; [exact Htr|].
    unfold Client.cleanup, bind, gets, modify, ret in E. rewrite Hf in E.
    destruct (filename s); inversion E; reflexivity.
Qed.

Lemma get_response_ends (s : State) :
  length (buffer s) = 516%nat ->
  forallb reads_well (inbox s) = true ->
  exists r s', get_response s = Some (r, s') /\ filepath s' = filepath s
               /\ filename s' = filename s /\ length (buffer s') = 516%nat
               /\ cwd_writable s' = cwd_writable s
               /\ disk_room s' = disk_room s
               /\ forallb reads_well (inbox s') = true
               /\ (inbox_bytes (inbox s') <= inbox_bytes (inbox s))%nat.
Proof.
  intros Hlen Hin.
  destruct (inbox s) as [|[|d] rest] eqn:Ein.
  - exists (-1), s. split; [unfold get_response, bind, recvfrom; now rewrite Ein|].
    rewrite Ein. repeat split; auto.
  - exists (-1), (set_inbox rest s).
    split; [unfold get_response, bind, recvfrom; now rewrite Ein|].
    repeat split; auto.
  - cbn [forallb] in Hin. apply andb_true_iff in Hin as [Hd Hrest].
    rewrite (get_response_dgram d rest s Ein (reads_well_message d (buffer s) Hd)).
    cbv zeta. eexists _, _. split; [reflexivity|].
    cbn [filepath filename buffer cwd_writable disk_room inbox set_buffer set_inbox].
    repeat split; auto.
    + rewrite length_blit; [exact Hlen|].
      rewrite length_take. change (Z.to_nat TFTP_MAX_PACKET_SIZE) with 516%nat. lia.
    + change (inbox_bytes (RecvDgram d :: rest))
        with (payload_bytes (RecvDgram d) + inbox_bytes rest)%nat. lia.
Qed.

Lemma send_request_ends (name : cstring) (s : State) :
  filename s = Some name ->
  (length name <= 507)%nat ->
  length (buffer s) = 516%nat ->
  exists r s', Client.send_request s = Some (r, s') /\ filepath s' = filepath s
               /\ filename s' = filename s /\ length (buffer s') = 516%nat
               /\ cwd_writable s' = cwd_writable s /\ success s' = success s
               /\ inbox s' = inbox s /\ disk_room s' = disk_room s.
Proof.
  intros Hfn Hname Hlen. rewrite (send_request_eq name s Hfn Hname Hlen). cbv zeta.
  eexists _, _. split; [reflexivity|]. repeat split.
  cbn [buffer log set_sendto_ok set_buffer]. rewrite length_app, length_drop, Hlen.
  rewrite length_request_packet. lia.
Qed.

Lemma client_delete_ends (name : cstring) (s : State) :
  filename s = Some name ->
  (length name <= 507)%nat ->
  length (buffer s) = 516%nat ->
  forallb reads_well (inbox s) = true ->
  exists r s', Client.delete_request s = Some (r, s') /\ filepath s' = None
               /\ filename s' = None.
Proof.
  intros Hfn Hname Hlen Hin. unfold Client.delete_request.
  destruct (send_request_ends name s Hfn Hname Hlen)
    as (sent & s1 & E1 & _ & _ & Hlen1 & _ & _ & Hin1 & _).
  rewrite (bind_eq _ _ _ _ _ E1).
  destruct sent; cbn [negb].
  - destruct (get_response_ends s1 Hlen1 ltac:(rewrite Hin1; exact Hin)) as (r & s2 & E2 & _).
    rewrite (bind_eq _ _ _ _ _ E2).
    destruct (cleanup_ends s2) as (s3 & E3 & Hf3 & Hn3 & _).
    destruct (r <? 0); rewrite (bind_eq _ _ _ _ _ E3); eexists _, _;
      (split; [reflexivity|]); split; assumption.
  - destruct (cleanup_ends s1) as (s3 & E3 & Hf3 & Hn3 & _).
    rewrite (bind_eq _ _ _ _ _ E3). eexists _, _. split; [reflexivity|]. split; assumption.
Qed.

Lemma client_upload_ends (name : cstring) (s : State) :
  filename s = Some name ->
  (length name <= 507)%nat ->
  length (buffer s) = 516%nat ->
  forallb reads_well (inbox s) = true ->
  is_Some (filepath s) ->
  exists r s', Client.upload_request s = Some (r, s') /\ filepath s' = None
               /\ filename s' = None.
Proof.
  intros Hfn Hname Hlen Hin Hfp. unfold Client.upload_request.
  unfold bind at 1, modify at 1. set (s0 := set_success false s).
  destruct (send_request_ends name s0 Hfn Hname Hlen)
    as (sent & s1 & E1 & Hf1 & _ & Hlen1 & _ & _ & Hin1 & _).
  rewrite (bind_eq _ _ _ _ _ E1).
  destruct sent; cbn [negb].
  - destruct (get_response_ends s1 Hlen1 ltac:(rewrite Hin1; exact Hin))
      as (r & s2 & E2 & Hf2 & _ & Hlen2 & _ & _ & Hin2 & _).
    rewrite (bind_eq _ _ _ _ _ E2).
    destruct (r <? 0).
    + destruct (cleanup_ends s2) as (s3 & E3 & Hf3 & Hn3 & _).
      rewrite (bind_eq _ _ _ _ _ E3). eexists _, _. split; [reflexivity|]. split; assumption.
    + unfold bind at 1, modify at 1. unfold bind at 1, modify at 1.
      set (s3 := set_retry 0 _).
      assert (Hr3 : polite s3).
      { split; [split; [exact Hlen2|] | exact Hin2].
        change (filepath s3) with (filepath s2). rewrite Hf2, Hf1. exact Hfp. }
      destruct (transfer_loop_send_ends s3 Hr3) as (s4 & E4 & _).
      rewrite (bind_eq _ _ _ _ _ E4).
      destruct (cleanup_ends s4) as (s5 & E5 & Hf5 & Hn5 & _).
      rewrite (bind_eq _ _ _ _ _ E5). eexists _, _. split; [reflexivity|].
      split; assumption.
  - destruct (cleanup_ends s1) as (s3 & E3 & Hf3 & Hn3 & _).
    rewrite (bind_eq _ _ _ _ _ E3). eexists _, _. split; [reflexivity|]. split; assumption.
Qed.

Lemma client_download_ends (name : cstring) (s : State) :
  filename s = Some name ->
  (length name <= 507)%nat ->
  length (buffer s) = 516%nat ->
  forallb reads_well (inbox s) = true ->
  (inbox_bytes (inbox s) <= disk_room s)%nat ->
  exists r s', Client.download_request s = Some (r, s') /\ filepath s' = None
               /\ filename s' = None.
Proof.
  intros Hfn Hname Hlen Hin Hroom. unfold Client.download_request.
  unfold bind at 1, modify at 1. set (s0 := set_success false s).
  destruct (send_request_ends name s0 Hfn Hname Hlen)
    as (sent & s1 & E1 & _ & Hfn1 & Hlen1 & _ & _ & Hin1 & Hroom1).
  rewrite (bind_eq _ _ _ _ _ E1).
  destruct sent; cbn [negb].
  2:{ destruct (cleanup_ends s1) as (s3 & E3 & Hf3 & Hn3 & _).
      rewrite (bind_eq _ _ _ _ _ E3). eexists _, _. split; [reflexivity|].
      split; assumption. }
  assert (Hfn1' : filename s1 = Some name) by (rewrite Hfn1; exact Hfn).
  destruct (cwd_writable s1) eqn:Hcw.
  - rewrite (bind_eq _ _ _ _ _ (fopen_filename_wb_eq name s1 Hfn1' Hcw)). cbn [negb].
    unfold bind at 1, modify at 1. unfold bind at 1, modify at 1.
    set (s3 := set_retry (-1) _).
    assert (Hr3 : polite s3).
    { split; [split; [exact Hlen1 | eexists; reflexivity]|].
      change (inbox s3) with (inbox s1). rewrite Hin1. exact Hin. }
    assert (Hm3 : roomy s3).
    { unfold roomy. change (inbox s3) with (inbox s1).
      change (disk_room s3) with (disk_room s1). rewrite Hin1, Hroom1. exact Hroom. }
    destruct (transfer_loop_receive_ends s3 Hr3 Hm3) as (s4 & E4 & Hr4).
    rewrite (bind_eq _ _ _ _ _ E4).
    pose proof (transfer_loop_surroundings _ _ _ process_transfer_receive_surroundings E4)
      as (_ & Hfn4 & _).
    unfold bind at 1, gets at 1. unfold bind at 1, gets at 1.
    destruct (negb (success s4) || (byte_at (buffer s4) 1 =? TFTP_ERROR)).
    + destruct (remove_filename_ends name s4 ltac:(rewrite Hfn4; exact Hfn1'))
        as (s5 & E5 & _).
      rewrite (bind_eq _ _ _ _ _ E5).
      destruct (cleanup_ends s5) as (s6 & E6 & Hf6 & Hn6 & _).
      rewrite (bind_eq _ _ _ _ _ E6). eexists _, _. split; [reflexivity|].
      split; assumption.
    + unfold bind at 1, ret at 1.
      destruct (cleanup_ends s4) as (s6 & E6 & Hf6 & Hn6 & _).
      rewrite (bind_eq _ _ _ _ _ E6). eexists _, _. split; [reflexivity|].
      split; assumption.
  - assert (Eo : fopen_filename_wb s1 = Some (false, set_filepath None s1)).
    { unfold fopen_filename_wb, bind, gets, fopen_wb. rewrite Hfn1'. cbv beta iota.
      now rewrite Hcw. }
    rewrite (bind_eq _ _ _ _ _ Eo). cbn [negb].
    assert (Hmsg : forall c, Some (bytes_of_string "Error opening file for writing") = Some c ->
                             Forall nonzero c).
    { intros c Hc. inversion Hc; subst c. closed_bytes. }
    rewrite (send_error_packet_print_error Client.client ERROR_UNDEFINED _
               (Client.cleanup >> ret false) (set_filepath None s1) Hlen1 Hmsg).
    rewrite (bind_eq _ _ _ _ _
               (send_error_packet_eq Client.client ERROR_UNDEFINED _ (set_filepath None s1)
                  Hlen1 Hmsg)).
    cbv zeta. set (s2 := log _ _).
    destruct (cleanup_ends s2) as (s3 & E3 & Hf3 & Hn3 & _).
    rewrite (bind_eq _ _ _ _ _ E3). eexists _, _. split; [reflexivity|]. split; assumption.
Qed.

Lemma client_prog_ends (name : cstring) (s : State) :
  filename s = Some name ->
  (length name <= 507)%nat ->
  length (buffer s) = 516%nat ->
  forallb reads_well (inbox s) = true ->
  (inbox_bytes (inbox s) <= disk_room s)%nat ->
  (opcode s = TFTP_WRQ -> is_Some (filepath s)) ->
  opcode s = TFTP_RRQ \/ opcode s = TFTP_WRQ \/ opcode s = TFTP_DRQ ->
  exists r s', Client.prog s = Some (r, s') /\ filepath s' = None /\ filename s' = None.
Proof.
  intros Hfn Hname Hlen Hin Hroom Hup Hop. unfold Client.prog. unfold bind, gets.
  destruct Hop as [Hop | [Hop | Hop]]; rewrite Hop.
  - change (TFTP_RRQ =? TFTP_RRQ) with true. cbv iota. now apply (client_download_ends name).
  - change (TFTP_WRQ =? TFTP_RRQ) with false. change (TFTP_WRQ =? TFTP_WRQ) with true.
    cbv iota. apply (client_upload_ends name); auto.
  - change (TFTP_DRQ =? TFTP_RRQ) with false. change (TFTP_DRQ =? TFTP_WRQ) with false.
    change (TFTP_DRQ =? TFTP_DRQ) with true. cbv iota. now apply (client_delete_ends name).
Qed.

(** X18.  The client's [main] returns, with one of its two exit codes,
    whatever its command line, its directory and the outcome of its socket
    calls, when what the server sends can be read inside the packet buffer
    and the disk has room for what it brings: every datagram to come has two
    bytes or more and, with opcode 5, a NUL after its fourth byte
    ([reads_well]), and the bytes of the datagrams to come past their
    headers fit the free room of the disk.  Without the first, the [%s] of
    [print_error] in [get_response] reads past the buffer; without the
    second, the one in [write_to_file] may.  Once the arguments have been
    accepted, every path to the exit has closed the file and released the
    name. *)
Theorem client_main_returns (argv : list cstring) (calls : Client.socket_calls) (s : State) :
  length (buffer s) = 516%nat ->
  forallb reads_well (inbox s) = true ->
  (inbox_bytes (inbox s) <= disk_room s)%nat ->
  exists code s',
    Client.main argv calls s = Some (code, s')
    /\ (code = Client.EXIT_SUCCESS \/ code = Client.EXIT_FAILURE)
    /\ (forall s1, Client.validate_arguments argv s = Some (true, s1) ->
                   filepath s' = None /\ filename s' = None).
Proof.
  intros Hlen Hin Hroom. unfold Client.main.
  destruct (validate_arguments_cases argv s) as (r & s1 & E1 & Hk1 & Hacc & _).
  cbv zeta in Hacc.
  rewrite (bind_eq _ _ _ _ _ E1).
  destruct r; cbn [negb].
  2:{ exists Client.EXIT_FAILURE, s1. split; [reflexivity|]. split; [now right|].
      intros s1' H. rewrite E1 in H. discriminate H. }
  destruct (Hacc eq_refl) as (_ & Hpath & _ & Hfn1 & Hop).
  destruct Hk1 as (Hb1 & _ & _ & _ & Hin1 & _ & Hroom1 & _).
  assert (Hlen1 : length (buffer s1) = 516%nat) by (rewrite Hb1; exact Hlen).
  rewrite <- Hin1 in Hin, Hroom. rewrite <- Hroom1 in Hroom.
  assert (Hname : (length (Client.basename (Client.arg argv Client.FILE_PATH)) <= 507)%nat).
  { pose proof (length_basename (Client.arg argv Client.FILE_PATH)). lia. }
  assert (Hready : exists r s', Client.initialize_socket calls s1 = Some (r, s')
                     /\ (r = true -> s' = s1)
                     /\ (r = false -> filepath s' = None /\ filename s' = None)).
  { unfold Client.initialize_socket.
    destruct (cleanup_ends s1) as (s2 & E2 & Hf2 & Hn2 & _).
    destruct (Client.socket_rc calls <? 0).
    { rewrite (bind_eq _ _ _ _ _ E2). exists false, s2. split; [reflexivity|].
      split; [discriminate | auto]. }
    destruct (Client.inet_pton_rc calls <=? 0).
    { rewrite (bind_eq _ _ _ _ _ E2). exists false, s2. split; [reflexivity|].
      split; [discriminate | auto]. }
    exists true, s1. split; [reflexivity|]. split; [reflexivity | discriminate]. }
  destruct Hready as (r2 & s2 & E2 & Hsame & Hclean).
  rewrite (bind_eq _ _ _ _ _ E2).
  destruct r2; cbn [negb].
  2:{ exists Client.EXIT_FAILURE, s2. split; [reflexivity|]. split; [now right|].
      intros _ _. now apply Hclean. }
  rewrite (Hsame eq_refl).
  destruct (client_prog_ends _ s1 Hfn1 Hname Hlen1 Hin Hroom) as (r3 & s3 & E3 & Hf3 & Hn3).
  { intros Hw. destruct Hop as [(_ & _ & ino & _ & _ & Hf) | [(_ & Ho & _) | (_ & Ho & _)]].
    - rewrite Hf. eauto.
    - rewrite Ho in Hw. discriminate.
    - rewrite Ho in Hw. discriminate. }
  { destruct Hop as [(_ & Ho & _) | [(_ & Ho & _) | (_ & Ho & _)]]; tauto. }
  rewrite (bind_eq _ _ _ _ _ E3).
  destruct r3; cbn [negb].
  2:{ exists Client.EXIT_FAILURE, s3. split; [reflexivity|]. split; [now right|].
      intros _ _. split; assumption. }
  destruct (cleanup_ends s3) as (s4 & E4 & Hf4 & Hn4 & _).
  rewrite (bind_eq _ _ _ _ _ E4).
  exists Client.EXIT_SUCCESS, s4. split; [reflexivity|]. split; [now left|].
  intros _ _. split; assumption.
Qed.

Lemma client_main_returns_witness :
  exists code s',
    Client.main (command_line "delete" a_bin) socket_up
      (client_start ∅ [RecvDgram [0; 4; 0; 0]]) = Some (code, s')
    /\ (code = Client.EXIT_SUCCESS \/ code = Client.EXIT_FAILURE).
Proof.
  destruct (client_main_returns (command_line "delete" a_bin) socket_up
              (client_start ∅ [RecvDgram [0; 4; 0; 0]]))
    as (code & s' & E & Hcode & _).
  - reflexivity.
  - reflexivity.
  - vm_compute. lia.
  - exists code, s'. split; [exact E | exact Hcode].
Defined.

(** ** The command line, checked and run *)

(** X19.  What an accepted command line guarantees.  When
    [validate_arguments] accepts, there were exactly four arguments, the
    operation is one of the words upload, download and delete and the opcode
    is the one of that word, the path has at most 256 bytes, and the name of
    the request is the last component of the path, whatever directories the
    path goes through.  For an upload the file at the path exists, is
    readable and is open at its first byte; for a download no file has that
    name in the working directory.  Nothing was sent, and the directory is as
    it was. *)
Theorem accepted_command_line (argv : list cstring) (s s' : State) :
  let operation := Client.arg argv Client.OPERATION in
  let path := Client.arg argv Client.FILE_PATH in
  let name := Client.basename path in
  Forall nonzero operation ->
  Client.validate_arguments argv s = Some (true, s') ->
  length argv = 4%nat
  /\ (length path <= 256)%nat
  /\ filename s' = Some name
  /\ (length name <= 256)%nat
  /\ trace s' = trace s
  /\ fs s' = fs s
  /\ ((operation = bytes_of_string UPLOAD /\ opcode s' = TFTP_WRQ
       /\ exists ino, fs s !! path = Some ino /\ i_readable ino = true
                      /\ filepath s' = Some (mkFILE path (i_data ino) 0))
      \/ (operation = bytes_of_string DOWNLOAD /\ opcode s' = TFTP_RRQ
          /\ fs s !! name = None /\ filepath s' = None)
      \/ (operation = bytes_of_string DELETE /\ opcode s' = TFTP_DRQ
          /\ filepath s' = None)).
Proof.
  intros operation path name Hop E.
  destruct (validate_arguments_cases argv s) as (r & s1 & E1 & Hk & Hacc & _).
  rewrite E in E1. injection E1 as <- <-.
  destruct (Hacc eq_refl) as (Hargc & Hpath & _ & Hfn & Hcases).
  destruct Hk as (_ & _ & _ & _ & _ & _ & _ & _ & _ & _ & Hfs & Htr).
  split; [exact Hargc|]. split; [exact Hpath|]. split; [exact Hfn|].
  split. { pose proof (length_basename (Client.arg argv Client.FILE_PATH)) as Hb.
           unfold name, path. lia. }
  split; [exact Htr|]. split; [exact Hfs|].
  destruct Hcases as [(Hs & Ho & Hf) | [(Hs & Ho & Hf) | (Hs & Ho & Hf)]].
  - left. split; [|split; assumption].
    apply strcmp_eq; [exact Hop | closed_bytes | exact Hs].
  - right. left. split; [|split; assumption].
    apply strcmp_eq; [exact Hop | closed_bytes | exact Hs].
  - right. right. split; [|split; assumption].
    apply strcmp_eq; [exact Hop | closed_bytes | exact Hs].
Qed.

Lemma accepted_command_line_witness :
  filename (set_filepath (Some (mkFILE docs_a_bin [97; 98; 99] 0))
              (set_filename (Some a_bin) (set_filepath None
                 (set_opcode TFTP_WRQ
                    (client_start {[ docs_a_bin := mkInode [97; 98; 99] true ]} [])))))
  = Some (Client.basename docs_a_bin).
Proof.
  apply (accepted_command_line (command_line "upload" docs_a_bin)
           (client_start {[ docs_a_bin := mkInode [97; 98; 99] true ]} [])).
  - closed_bytes.
  - vm_compute. reflexivity.
Defined.

Lemma initialize_socket_up (s : State) :
  Client.initialize_socket socket_up s = Some (true, s).
Proof. reflexivity. Qed.

Lemma validate_arguments_upload (path : cstring) (ino : inode) (s : State) :
  (length path <= 256)%nat ->
  heap_ok s = true ->
  fs s !! path = Some ino ->
  i_readable ino = true ->
  Client.validate_arguments (command_line "upload" path) s =
  Some (true, set_filepath (Some (mkFILE path (i_data ino) 0))
                (set_filename (Some (Client.basename path))
                   (set_filepath None (set_opcode TFTP_WRQ s)))).
Proof.
  intros Hpath Hheap Hfile Hread.
  unfold Client.validate_arguments, command_line.
  change (negb (Client.validate_argument_count _)) with false. cbv iota.
  change (Client.arg _ Client.OPERATION) with (bytes_of_string "upload").
  change (Client.arg _ Client.FILE_PATH) with path.
  assert (Eo : Client.validate_operation (bytes_of_string "upload") s
               = Some (true, set_opcode TFTP_WRQ s)) by reflexivity.
  rewrite (bind_eq _ _ _ _ _ Eo). cbn [negb].
  unfold bind at 1, modify at 1.
  set (s1 := set_filepath None _).
  assert (En : Client.validate_filename path s1
               = Some (true, set_filename (Some (Client.basename path)) s1)).
  { rewrite validate_filename_eq.
    replace (Z.of_nat (length path) >? MAX_FILE_NAME) with false
      by (symmetry; unfold MAX_FILE_NAME; lia).
    change (heap_ok s1) with (heap_ok s). now rewrite Hheap. }
  rewrite (bind_eq _ _ _ _ _ En). cbn [negb].
  unfold bind at 1, gets at 1.
  change (opcode (set_filename _ s1)) with TFTP_WRQ.
  change (TFTP_WRQ =? TFTP_WRQ) with true. cbv iota.
  rewrite validate_upload_file_eq.
  change (fs (set_filename _ s1)) with (fs s). now rewrite Hfile, Hread.
Qed.

Lemma validate_arguments_download (path : cstring) (s : State) :
  (length path <= 256)%nat ->
  heap_ok s = true ->
  Client.validate_arguments (command_line "download" path) s =
  match fs s !! Client.basename path with
  | Some _ => Some (false, set_filename None (set_filepath None (set_opcode TFTP_RRQ s)))
  | None => Some (true, set_filename (Some (Client.basename path))
                          (set_filepath None (set_opcode TFTP_RRQ s)))
  end.
Proof.
  intros Hpath Hheap.
  unfold Client.validate_arguments, command_line.
  change (negb (Client.validate_argument_count _)) with false. cbv iota.
  change (Client.arg _ Client.OPERATION) with (bytes_of_string "download").
  change (Client.arg _ Client.FILE_PATH) with path.
  assert (Eo : Client.validate_operation (bytes_of_string "download") s
               = Some (true, set_opcode TFTP_RRQ s)) by reflexivity.
  rewrite (bind_eq _ _ _ _ _ Eo). cbn [negb].
  unfold bind at 1, modify at 1.
  set (s1 := set_filepath None _).
  assert (En : Client.validate_filename path s1
               = Some (true, set_filename (Some (Client.basename path)) s1)).
  { rewrite validate_filename_eq.
    replace (Z.of_nat (length path) >? MAX_FILE_NAME) with false
      by (symmetry; unfold MAX_FILE_NAME; lia).
    change (heap_ok s1) with (heap_ok s). now rewrite Hheap. }
  rewrite (bind_eq _ _ _ _ _ En). cbn [negb].
  unfold bind at 1, gets at 1.
  change (opcode (set_filename _ s1)) with TFTP_RRQ.
  change (TFTP_RRQ =? TFTP_WRQ) with false. change (TFTP_RRQ =? TFTP_RRQ) with true.
  cbv iota.
  rewrite (validate_download_file_eq (Client.basename path)) by reflexivity.
  change (fs (set_filename _ s1)) with (fs s).
  destruct (fs s !! Client.basename path); reflexivity.
Qed.

(** X20.  An upload from the command line.  [tftp upload <path> <ip>] for a
    readable file that is not empty and has at most 65535 blocks of 512 bytes
    (the block field of a packet has 16 bits), at a path of at most 256 bytes,
    against a server on which the last component of the path is a free name,
    whose directory can be written and whose disk has room for the file, every
    [sendto] succeeding and the server's acknowledgements arriving: [main]
    exits with EXIT_SUCCESS, the request it sends names the last component of
    the path and not the path, the server receives what the client sends, and
    the server's directory ends with a file of that name whose content is the
    client's file.  The client's stream is closed and its name released. *)
Theorem command_line_upload (path : cstring) (data : list Z) (c v : State) :
  let name := Client.basename path in
  proper_name name ->
  (length path <= 256)%nat ->
  data <> [] ->
  Z.of_nat (length (file_blocks data)) <= 65535 ->
  heap_ok c = true ->
  fs c !! path = Some (mkInode data true) ->
  length (buffer c) = 516%nat ->
  sends_succeed c ->
  server_idle v ->
  cwd_writable v = true ->
  fs v !! name = None ->
  (length data <= disk_room v)%nat ->
  inbox c = arriving (ack_packet 0 :: ack_packets 1 (file_blocks data)) ->
  inbox v = arriving (request_packet TFTP_WRQ name :: data_packets 1 (file_blocks data)) ->
  exists c' v',
    Client.main (command_line "upload" path) socket_up c = Some (Client.EXIT_SUCCESS, c')
    /\ Server.prog_iteration v = Some (true, v')
    /\ arriving (delivered (trace c')) = arriving (delivered (trace c)) ++ inbox v
    /\ fs v' = <[name := mkInode data true]> (fs v)
    /\ filepath c' = None /\ filename c' = None.
Proof.
  intros name Hname Hpath Hdata Hn Hheap Hfile Hlen Hsend Hidle Hcw Hnew Hroom Hinc Hinv.
  set (blocks := file_blocks data) in *.
  assert (Hlname : (length name <= 256)%nat).
  { pose proof (length_basename path) as Hb. unfold name. lia. }
  destruct (request_packet_well_formed TFTP_WRQ name Hname ltac:(lia))
    as (Hbytes & Hwf & Hrop & Hrname).
  unfold Client.main.
  rewrite (bind_eq _ _ _ _ _
             (validate_arguments_upload path _ c Hpath Hheap Hfile eq_refl)).
  cbn [negb i_data]. fold name.
  set (c1 := set_filepath _ _).
  rewrite (bind_eq _ _ _ _ _ (initialize_socket_up c1)). cbn [negb].
  destruct (client_upload_run name path data [] c1 eq_refl ltac:(lia) eq_refl Hlen Hsend Hn
              ltac:(rewrite app_nil_r; exact Hinc))
    as (c2 & Ec & Htrc & _ & Hf2 & _).
  assert (Ep : Client.prog c1 = Some (true, c2)).
  { unfold Client.prog. unfold bind at 1, gets at 1.
    change (opcode c1) with TFTP_WRQ.
    change (TFTP_WRQ =? TFTP_RRQ) with false. change (TFTP_WRQ =? TFTP_WRQ) with true.
    cbv iota. rewrite Ec. now rewrite (bool_decide_eq_false_2 _ Hdata). }
  rewrite (bind_eq _ _ _ _ _ Ep). cbn [negb].
  destruct (cleanup_no_file c2 Hf2) as (c3 & E3 & Htr3 & _ & _ & Hf3 & Hn3).
  rewrite (bind_eq _ _ _ _ _ E3).
  change (opcode c1) with TFTP_WRQ in Htrc. change (to_uchar TFTP_WRQ) with TFTP_WRQ in Htrc.
  change (trace c1) with (trace c) in Htrc.
  assert (Hblocks : blocks <> []) by (intros E; apply file_blocks_nil in E; contradiction).
  destruct (write_request_served (request_packet TFTP_WRQ name)
              (arriving (data_packets 1 blocks)) v Hbytes
              ltac:(rewrite length_request_packet; lia) Hwf Hidle Hinv blocks []
              Hrop ltac:(rewrite Hrname; exact Hnew) Hcw (file_blocks_well_cut data) Hblocks
              ltac:(now right) Hn
              ltac:(subst blocks; rewrite length_file_blocks_concat; exact Hroom)
              ltac:(now rewrite app_nil_r))
    as (v' & Ev & _ & Hfsv & _).
  exists c3, v'.
  split; [reflexivity|]. split; [exact Ev|].
  split. { rewrite Htr3, Htrc, delivered_app, delivered_sent_events, Hinv.
           unfold arriving. now rewrite map_app. }
  split. { rewrite Hfsv, Hrname. subst blocks. now rewrite file_blocks_concat. }
  split; assumption.
Qed.

Lemma command_line_upload_witness :
  exists c' v',
    Client.main (command_line "upload" docs_a_bin) socket_up
      (client_start {[ docs_a_bin := mkInode [97; 98; 99] true ]}
         (arriving [ack_packet 0; ack_packet 1]))
    = Some (Client.EXIT_SUCCESS, c')
    /\ Server.prog_iteration
         (server_empty [request_packet TFTP_WRQ a_bin; data_packet 1 [97; 98; 99]])
       = Some (true, v')
    /\ fs v' = {[ a_bin := mkInode [97; 98; 99] true ]}.
Proof.
  destruct (command_line_upload docs_a_bin [97; 98; 99]
              (client_start {[ docs_a_bin := mkInode [97; 98; 99] true ]}
                 (arriving [ack_packet 0; ack_packet 1]))
              (server_empty [request_packet TFTP_WRQ a_bin; data_packet 1 [97; 98; 99]]))
    as (c' & v' & Ec & Ev & _ & Hfs & _).
  - split; [discriminate | split; closed_bytes].
  - vm_compute. lia.
  - discriminate.
  - vm_compute. discriminate.
  - reflexivity.
  - reflexivity.
  - reflexivity.
  - constructor.
  - idle_server.
  - reflexivity.
  - reflexivity.
  - vm_compute. lia.
  - reflexivity.
  - reflexivity.
  - exists c', v'. split; [exact Ec|]. split; [exact Ev|]. rewrite Hfs. reflexivity.
Defined.

(** X21.  The client never downloads over a file it has.  When the working
    directory has a file whose name is the last component of the path,
    [tftp download <path> <ip>] exits with EXIT_FAILURE before anything is
    sent: no datagram leaves, nothing is taken from the socket, and the
    directory, the file included, is as it was. *)
Theorem download_keeps_existing_file (path : cstring) (ino : inode)
    (calls : Client.socket_calls) (c : State) :
  (length path <= 256)%nat ->
  heap_ok c = true ->
  fs c !! Client.basename path = Some ino ->
  exists c',
    Client.main (command_line "download" path) calls c = Some (Client.EXIT_FAILURE, c')
    /\ trace c' = trace c
    /\ inbox c' = inbox c
    /\ fs c' = fs c.
Proof.
  intros Hpath Hheap Hfile. unfold Client.main.
  pose proof (validate_arguments_download path c Hpath Hheap) as E.
  rewrite Hfile in E. rewrite (bind_eq _ _ _ _ _ E). cbn [negb].
  eexists. split; [reflexivity|]. repeat split.
Qed.

Lemma download_keeps_existing_file_witness :
  exists c',
    Client.main (command_line "download" docs_a_bin) socket_up
      (client_start {[ a_bin := mkInode [97; 98; 99] true ]}
         (arriving [data_packet 1 [120]]))
    = Some (Client.EXIT_FAILURE, c')
    /\ trace c' = []
    /\ fs c' = {[ a_bin := mkInode [97; 98; 99] true ]}.
Proof.
  destruct (download_keeps_existing_file docs_a_bin (mkInode [97; 98; 99] true) socket_up
              (client_start {[ a_bin := mkInode [97; 98; 99] true ]}
                 (arriving [data_packet 1 [120]])))
    as (c' & E & Htr & _ & Hfs).
  - vm_compute. lia.
  - reflexivity.
  - reflexivity.
  - exists c'. split; [exact E|]. split; [exact Htr | exact Hfs].
Defined.
